(* ===== verification/_CoqProject ===== *)
-Q . S2P
Prelude.v
JsRuntime.v
Url.v
ObjectId.v
ProductModel.v
UserModel.v
Query.v
Program.v
Store.v
Seed.v
Jwt.v
Http.v
AuthRoutes.v
ProductRoutes.v
Server.v
Responses.v
Invariant.v
Client.v
Catalog.v
ListPages.v
AdminPages.v
AuthPages.v
ApiHelpers.v
Session.v
Examples.v
