(* ===== verification/Prelude.v ===== *)
(** * A verification development of the storefront backend and client

    The repository is an e-commerce storefront: an Express backend
    ([src/backend]) whose routers answer [/api/auth] and [/api/products]
    over a MongoDB store through Mongoose, and a React client
    ([src/dev/src]) that calls those endpoints through [axios].  This
    development translates the backend's application, handlers and
    product schema and the client's authentication, routing and product
    pages into Rocq definitions, composes them into one system (a
    browser and a store on each side of [Server.serve]), and proves what
    each part answers and what the whole keeps invariant.

    ** Files, in dependency order

    - [Prelude] (this file): libraries, the scope [shop_scope], the hint
      databases [shop] and [shop_simpl], tactics, generic lemmas on
      lists (the skip/limit window), options and strings.
    - [JsRuntime]: the JavaScript values the code manipulates ([jsval],
      [number] with NaN and infinities), truthiness, [Number(..)] and
      [String(..)], [<] and [===], [toLowerCase], [split], [trim].
    - [Url]: the browser's [URLSearchParams] serializer and the flat part
      of [qs.parse], Express's query parser; what one writes the other
      reads back ([qs_parse_url_search_params]).
    - [ObjectId]: 24-digit hexadecimal ids, printing and casting.
    - [ProductModel]: [models/Product.js]: casting, defaults and
      validators of the schema, [save()] of a new document and
      [findByIdAndUpdate] with [runValidators]; both keep a product
      valid ([save_product_wf], [apply_update_wf]).
    - [UserModel]: the user document (its file is not among the
      sources, so it follows the spec), password hashing behind the
      class [PasswordHasher].
    - [Query]: the filter a list request builds, Mongoose's cast of it
      (a [NaN] price or rating bound rejects the query with a
      CastError), Mongo's comparison of numbers, the case-insensitive
      literal search and the sort order, behind the class [QueryEngine]
      (regex and sort).
    - [Program]: handlers as programs over store calls ([prog], a free
      monad over [dbop]) with [bind], [try_catch], the notation
      [x <- p ;; k] and the predicate transformer [prog_all].
    - [Store]: the store ([gmap]s of users and products, the next id,
      the clock, whether the database answers) and [run], which
      interprets a program against it; [answers] says a program never
      lets an exception escape.
    - [Seed]: the script [insertProduct.js], whose product never passes
      the schema's validation ([insert_product_never_stores]).
    - [Jwt]: [jsonwebtoken]'s [sign] and [verify] for the one-day
      tokens, behind the class [Signer].
    - [Http]: requests, responses, [JSON.stringify], ISO dates and the
      middleware chaining of Express.
    - [AuthRoutes]: [routes/auth.js]: the [auth] middleware, [/verify],
      [/register] and [/login], and the theorems on each branch.
    - [ProductRoutes]: [routes/products.js] and the [protect] and
      [authorize] middleware, and the theorems on the list handler (its
      page is the [(page - 1) * limit] window of the sorted matches,
      [list_products_sound]), create and delete.
    - [Server]: [server.js]: one HTTP request through CORS (preflight and
      headers), the strict JSON body parser, Express's routing of the
      two mounted routers (case-insensitive, trailing slash, decoded
      parameters), [finalhandler]'s HTML 404 page and the error handler
      ([serve]); every request is answered ([serve_answers]), and every
      [POST], [PUT] or [DELETE] under [/api/products] from a signed-in
      [user] is answered [403] with the store unchanged
      ([admin_routes_forbid_users]).
    - [Responses]: the type of an answer ([response_ok]: a JSON body, a
      string [message] where there is one); every handler's returns
      have it ([route_handler_ok]) and so does every answer of [serve]
      but the preflight ([serve_typed]).
    - [Invariant]: the system's runs from an empty database ([reachable]:
      serving requests, the clock advancing, the database going down
      and up) and the invariant every reachable store keeps
      ([reachable_inv]): products valid and under their ids, unique
      emails.
    - [Client]: the browser ([localStorage]'s token, [axios]'s default
      header, the location), [api.js], the two authentication providers
      ([context/AuthContext.jsx], used by the app, and the root
      [AuthContext.jsx]) and [App.jsx]'s protected routes; login followed
      by a reload signs the user back in ([login_then_reload]); the
      root provider never signs anyone in.
    - [Catalog]: [pages/Products.jsx] and [pages/Product.jsx]: the
      client-side filter and stable sort, the cart buttons (the server
      has no cart route), the star rating and the quantity clamp; on
      the products the server sends, the filter is a plain filter of the
      stored products ([visible_products_filter]); after the mount
      effect the cards are the matching products of the list route's
      first page ([products_fetch_shows_store]); [renderStars] draws
      five stars, [floor] of them full and a half one exactly for a
      fractional rating, for every rating in [[0, 5]]
      ([render_stars_five]); and a product page draws the stored product
      of its id, or the error screen when there is none
      ([product_page_renders_stored]).
    - [ListPages]: [components/products/ProductList.jsx] and
      [pages/ProductList.jsx]: their query strings, fetches, delete and
      add handlers, and the page's render with its cards; what the
      component writes with [URLSearchParams] Express reads back as its
      non-empty filters and the page ([component_query_roundtrip]); the
      server never reads the page's sort ([page_sort_ignored]); a card's edit
      button leads to its product's edit page
      ([page_card_edit_lands]) and an administrator's click on its
      delete button removes that product from the store and the list
      ([page_card_delete]).
    - [AdminPages]: [pages/EditProduct.jsx], [pages/AdminDashboard.jsx]
      and [components/admin/ProductManagement.jsx]: fetches, forms,
      updates, deletes and renders; a failed update replaces the edit
      form by a bare error screen ([edit_failure_hides_form]); editing
      a product and saving it unchanged is
      a round trip that leaves the store as it was ([edit_roundtrip]);
      the dashboard's delete removes exactly that product from the store
      and the list it refetches no longer holds it
      ([dash_delete_removes]); opening the dashboard draws a row per
      stored product whose [Edit] leads to its edit page
      ([dash_mount_rows]); [ProductManagement]'s edit icon opens the
      product's form on its card only ([pm_edit_opens_form]), and its
      fetch shows the list route's answer to its own sort
      ([pm_sort_respected]).
    - [AuthPages]: [pages/AuthPage.jsx], [components/auth/Register.jsx]
      and [components/layout/Navbar.jsx]: the forms never show the
      server's message ([auth_forms_generic_errors], which rests on
      [Responses]) and the bar's Products link lands on the login form
      ([navbar_links_land]).
    - [ApiHelpers]: the request helpers [api.js] exports; the five cart
      helpers always reject with a [404] ([api_cart_helpers_reject]).
    - [Session]: a whole client session as a step relation
      ([session_step]: page loads, logins, registrations, logouts,
      navigation and other clients' requests) over the browser, the
      provider's state and the store; along every session from a fresh
      page, [axios]'s default header and [localStorage]'s token agree and
      a signed-in user has a token ([session_invariant], by induction on
      [rtc]).
    - [Examples]: every theorem with hypotheses applied to a concrete
      store and request, its hypotheses discharged by evaluation, and a
      run of the whole system (an administrator registers, then adds a
      product from the list page).

    ** How the parts compose

    A handler is a [prog] run against the store; [Server.serve] routes a
    request to its handler and turns the result into a response; the
    client's handlers call [Client.fetch], which is [serve] followed by
    [axios]'s reading of the status.  The pages call the server through
    [api.js] ([api_request]) or the global [axios] ([axios_request]);
    what they show of an error depends on the type of the server's
    answers, proved once in [Responses] and used by the pages.  State is
    passed explicitly: a client handler maps the browser, the
    component's React state and the store to their next values.  The
    pages that show the product list share one lemma on the list fetch
    ([Catalog.fetch_list_outcome]: either [axios] throws and the store is
    unchanged, or the answer is the list route's first page of stored
    products), which the products page and the dashboard both build on.

    ** Bounds and the clock

    Ids are integers below [16^24] ([oid_valid]); the clock is in
    milliseconds below [10^15] ([clock_ok]), which keeps the seconds of a
    token's [iat] and [exp] valid ids, so that they print as 24 hex digits
    and parse back.  [navigate] follows at most three redirects, which
    [navigate_terminates] shows is enough for every path.  Apart from
    that, nothing runs on fuel: every recursion is structural.

    ** Not modelled

    In [server.js] and [insertProduct.js], dotenv, the static
    [/uploads] mount, connecting to the database, creating its
    collections, closing it, logging and [listen] are configuration and
    I/O.  The bcrypt hash, the HMAC of tokens and the
    collation of [localeCompare] are behind interfaces whose laws are
    what the theorems use.  The client's markup is modelled as what a
    page draws from its state and which handler each button runs
    ([products_view], [navbar], [page_render], [dash_render],
    [pm_render]), not as HTML or CSS; the admin dashboard's product
    form is not modelled, since its module
    ([components/admin/ProductForm]) is not in the tree.  React's
    effects run when their dependencies change, which the handlers that
    trigger them call explicitly ([pm_set_sort]).  Asynchrony is sequential: each
    handler runs to completion before the next.  Numbers are exact
    rationals with NaN and the infinities, so the rounding of doubles
    beyond [2^53] is not modelled; strings are byte strings, so
    [encodeUrl]'s replacement of lone surrogates does not arise.  The
    middleware module of [protect] and [authorize] is not in the tree:
    it follows the spec, whose failures [Unauthorized] and [Forbidden]
    stand for the messages it does not give. *)

From Stdlib Require Export QArith Qround ZArith Ascii.
From stdpp Require Export base gmap strings list sorting pretty.

Declare Scope shop_scope.
Delimit Scope shop_scope with shop.

Create HintDb shop.
Create Rewrite HintDb shop_simpl.

(** ** Booleans and decisions

    The modelled code tests strings and numbers with [bool_decide] and
    [String.eqb]; these lemmas turn the tests into propositions. *)

Lemma string_eqb_true (s t : string) : String.eqb s t = true <-> s = t.
Proof. apply String.eqb_eq. Qed.

Lemma string_eqb_refl (s : string) : String.eqb s s = true.
Proof. by apply String.eqb_eq. Qed.

Lemma string_eqb_neq (s t : string) : s <> t -> String.eqb s t = false.
Proof. intros H. apply Bool.not_true_iff_false. by rewrite String.eqb_eq. Qed.

#[export] Hint Rewrite string_eqb_refl : shop_simpl.
#[export] Hint Resolve string_eqb_refl string_eqb_neq : shop.

(** [case_match_eq] destructs the first [match] or [if] in the goal and
    keeps the equation, the step every branch analysis of a handler
    starts with. *)
Ltac case_match_eq :=
  match goal with
  | |- context [match ?x with _ => _ end] =>
      let E := fresh "E" in destruct x eqn:E
  end.

(** [bool_to_prop] rewrites the boolean tests that the code performs into
    the propositions they decide. *)
Ltac bool_to_prop :=
  repeat match goal with
  | H : String.eqb _ _ = true |- _ => apply String.eqb_eq in H
  | H : bool_decide _ = true |- _ => apply bool_decide_eq_true_1 in H
  | H : bool_decide _ = false |- _ => apply bool_decide_eq_false_1 in H
  | H : (_ && _)%bool = true |- _ => apply andb_prop in H as [? ?]
  | H : (_ || _)%bool = false |- _ => apply Bool.orb_false_iff in H as [? ?]
  | H : negb _ = true |- _ => apply Bool.negb_true_iff in H
  | H : negb _ = false |- _ => apply Bool.negb_false_iff in H
  end.

(** ** Lists: the pagination window

    A page of results is [take limit (drop skip l)]: the window the store
    returns for [.skip(skip).limit(limit)]. *)

Definition window {A} (skip limit : nat) (l : list A) : list A :=
  take limit (drop skip l).

Lemma window_lookup {A} (skip limit i : nat) (l : list A) :
  i < limit -> window skip limit l !! i = l !! (skip + i).
Proof.
  intros Hi. unfold window. rewrite lookup_take.
  case_decide; [by rewrite lookup_drop | lia].
Qed.

Lemma window_length {A} (skip limit : nat) (l : list A) :
  length (window skip limit l) = limit `min` (length l - skip).
Proof. unfold window. by rewrite length_take, length_drop. Qed.

Lemma window_sublist {A} (skip limit : nat) (l : list A) :
  sublist (window skip limit l) l.
Proof.
  unfold window.
  transitivity (drop skip l).
  - rewrite <-(take_drop limit (drop skip l)) at 2. by apply sublist_inserts_r.
  - rewrite <-(take_drop skip l) at 2. by apply sublist_inserts_l.
Qed.

Lemma window_elem {A} (skip limit : nat) (l : list A) x :
  x ∈ window skip limit l -> x ∈ l.
Proof. intros Hx. eapply elem_of_sublist; [exact Hx | apply window_sublist]. Qed.

#[export] Hint Resolve window_elem window_sublist : shop.

(** Strong sortedness is kept by every sublist, hence by every window:
    a page of a sorted result is sorted. *)
Lemma StronglySorted_sublist {A} (R : relation A) (k l : list A) :
  sublist k l -> StronglySorted R l -> StronglySorted R k.
Proof.
  induction 1 as [|x k l Hsub IH|x k l Hsub IH]; intros Hs.
  - constructor.
  - inversion Hs as [|? ? Hl Hall]; subst. constructor; [by apply IH|].
    rewrite Forall_forall in Hall |- *. intros y Hy.
    apply Hall. by eapply elem_of_sublist.
  - inversion Hs; subst. by apply IH.
Qed.

Lemma window_sorted {A} (R : relation A) (skip limit : nat) (l : list A) :
  StronglySorted R l -> StronglySorted R (window skip limit l).
Proof. apply StronglySorted_sublist, window_sublist. Qed.

#[export] Hint Resolve window_sorted : shop.

(** ** Options *)

Lemma option_bind_Some {A B} (o : option A) (f : A -> option B) (b : B) :
  o ≫= f = Some b <-> exists a, o = Some a /\ f a = Some b.
Proof. destruct o; simpl; naive_solver. Qed.

#[export] Hint Rewrite @option_bind_Some : shop_simpl.

(** ** Sums

    [xs.map(f)] where [f] may throw: the first exception ends the map. *)
Fixpoint sum_map {E A B} (f : A -> E + B) (l : list A) : E + list B :=
  match l with
  | [] => inr []
  | x :: r =>
      match f x with
      | inl e => inl e
      | inr y => match sum_map f r with inl e => inl e | inr ys => inr (y :: ys) end
      end
  end.

Lemma sum_map_inr {E A B} (f : A -> E + B) (g : A -> B) (l : list A) :
  (forall x, x ∈ l -> f x = inr (g x)) -> sum_map f l = inr (map g l).
Proof.
  induction l as [|x r IH]; intros Hf; [done|]. cbn.
  rewrite Hf by set_solver. rewrite IH by set_solver. done.
Qed.

Lemma sum_map_elem {E A B} (f : A -> E + B) (l : list A) (ys : list B) (y : B) :
  sum_map f l = inr ys -> y ∈ ys -> exists x, x ∈ l /\ f x = inr y.
Proof.
  revert ys. induction l as [|x r IH]; intros ys Hm Hy; cbn in Hm.
  - injection Hm as <-. by apply not_elem_of_nil in Hy.
  - destruct (f x) as [e|y'] eqn:Hx; [discriminate|].
    destruct (sum_map f r) as [e|ys'] eqn:Hr; [discriminate|]. injection Hm as <-.
    apply elem_of_cons in Hy as [->|Hy]; [by exists x; split; [left|]|].
    destruct (IH ys' eq_refl Hy) as (x' & ? & ?). exists x'. split; [by right|done].
Qed.

Lemma sum_map_fmap {E A A' B} (f : A' -> E + B) (h : A -> A') (l : list A) :
  sum_map f (map h l) = sum_map (fun x => f (h x)) l.
Proof. induction l as [|x r IH]; [done|]. cbn. by rewrite IH. Qed.
