(* ===== verification/JsRuntime.v ===== *)
(** * JsRuntime: the JavaScript values and coercions the handlers rely on.

    The route handlers of [src/backend/routes] read untyped values:
    [req.query] fields are strings (or arrays when a key repeats), and
    [req.body] fields are whatever JSON the client sent.  Their guards
    are JavaScript coercions: truthiness ([!price]), [Number(x)],
    [isNaN(x)], the relational comparison [price < 0], strict equality
    with a string literal, [toLowerCase], [startsWith] and [split].
    This file gives those primitives their ECMAScript meaning on a value
    type [jsval], so that the handlers can be transcribed as written.

    Numbers are IEEE doubles in the language; here a finite number is
    its exact rational value (the literals the code receives are decimal
    strings, which a rational represents exactly), next to [NaN] and the
    two infinities.  Negative zero is identified with zero, and
    magnitudes beyond the double range are kept exact: neither case
    changes a guard of the modelled code.  Strings are byte strings and
    case mapping is ASCII case mapping. *)

From S2P Require Import Prelude.

Local Set Warnings "-register-all".

(** ** Values *)

Inductive number :=
| NaN
| PosInf
| NegInf
| Fin (q : Q).

Inductive jsval :=
| JUndefined
| JNull
| JBool (b : bool)
| JNum (n : number)
| JStr (s : string)
| JArr (xs : list jsval)
| JObj (fields : list (string * jsval)).

(** A thrown JavaScript error: the handlers dispatch on [error.name] and
    echo [error.message]. *)
Record exn := mk_exn { exn_name : string; exn_message : string }.

Definition type_error (msg : string) : exn := mk_exn "TypeError" msg.

(** A double quote, and a string between double quotes, for messages. *)
Definition dquote : string := String (Ascii.ascii_of_nat 34) EmptyString.

Definition quoted (s : string) : string := dquote +:+ s +:+ dquote.

Definition num (z : Z) : jsval := JNum (Fin (inject_Z z)).

(** ** Truthiness (ECMAScript ToBoolean) *)

Definition num_truthy (n : number) : bool :=
  match n with
  | NaN => false
  | Fin q => negb (Qeq_bool q 0)
  | PosInf | NegInf => true
  end.

Definition truthy (v : jsval) : bool :=
  match v with
  | JUndefined | JNull => false
  | JBool b => b
  | JNum n => num_truthy n
  | JStr s => negb (String.eqb s "")
  | JArr _ | JObj _ => true
  end.

Lemma truthy_str (s : string) : s <> "" -> truthy (JStr s) = true.
Proof. destruct s; [done|reflexivity]. Qed.

(** ** Characters and strings *)

Definition ascii_code (c : Ascii.ascii) : Z := Z.of_nat (Ascii.nat_of_ascii c).

Definition ascii_to_lower (c : Ascii.ascii) : Ascii.ascii :=
  let n := Ascii.nat_of_ascii c in
  if (65 <=? n)%nat && (n <=? 90)%nat then Ascii.ascii_of_nat (n + 32) else c.

(** [String.prototype.toLowerCase] *)
Definition to_lower (s : string) : string :=
  String.string_of_list_ascii (map ascii_to_lower (String.list_ascii_of_string s)).

(** [String.prototype.split] with a one-character separator. *)
Fixpoint split_chars (sep : Ascii.ascii) (cs : list Ascii.ascii) : list (list Ascii.ascii) :=
  match cs with
  | [] => [[]]
  | c :: r =>
      let parts := split_chars sep r in
      if Ascii.eqb c sep then [] :: parts
      else match parts with
           | p :: ps => (c :: p) :: ps
           | [] => [[c]]
           end
  end.

Definition js_split (sep : Ascii.ascii) (s : string) : list string :=
  map String.string_of_list_ascii (split_chars sep (String.list_ascii_of_string s)).

(** [String.prototype.startsWith] *)
Definition starts_with (prefix s : string) : bool := String.prefix prefix s.

(** White space removed by [Number(s)] (the ASCII white space). *)
Fixpoint drop_ws (cs : list Ascii.ascii) : list Ascii.ascii :=
  match cs with
  | c :: r => if Ascii.is_space c then drop_ws r else cs
  | [] => []
  end.

Definition trim_ws (cs : list Ascii.ascii) : list Ascii.ascii :=
  rev (drop_ws (rev (drop_ws cs))).

(** ** [Number(s)]: the StringToNumber grammar *)

Definition digit_value (base : Z) (c : Ascii.ascii) : option Z :=
  let n := ascii_code c in
  let v := (if (48 <=? n) && (n <=? 57) then Some (n - 48)
            else if (97 <=? n) && (n <=? 122) then Some (n - 87)
            else if (65 <=? n) && (n <=? 90) then Some (n - 55)
            else None)%Z in
  match v with
  | Some d => if (d <? base)%Z then Some d else None
  | None => None
  end.

Fixpoint span_digits (base : Z) (cs : list Ascii.ascii) : list Z * list Ascii.ascii :=
  match cs with
  | c :: r =>
      match digit_value base c with
      | Some d => let '(ds, rest) := span_digits base r in (d :: ds, rest)
      | None => ([], cs)
      end
  | [] => ([], [])
  end.

Definition digits_to_Z (base : Z) (ds : list Z) : Z :=
  fold_left (fun acc d => acc * base + d)%Z ds 0%Z.

(** [m * 10^e] as a reduced rational. *)
Definition scale10 (m e : Z) : Q :=
  if (0 <=? e)%Z then inject_Z (m * 10 ^ e) else Qred (m # Z.to_pos (10 ^ (- e))).

Definition parse_exponent (cs : list Ascii.ascii) : option Z :=
  let '(sign, r) :=
    match cs with
    | "+"%char :: r => (1%Z, r)
    | "-"%char :: r => ((-1)%Z, r)
    | _ => (1%Z, cs)
    end in
  match span_digits 10 r with
  | ([], _) => None
  | (ds, []) => Some (sign * digits_to_Z 10 ds)%Z
  | _ => None
  end.

Definition parse_unsigned_decimal (cs : list Ascii.ascii) : option Q :=
  let '(ids, r1) := span_digits 10 cs in
  let '(fds, r2) :=
    match r1 with
    | "."%char :: r => span_digits 10 r
    | _ => ([], r1)
    end in
  match ids, fds with
  | [], [] => None
  | _, _ =>
      let m := digits_to_Z 10 (ids ++ fds) in
      let f := Z.of_nat (length fds) in
      match r2 with
      | [] => Some (scale10 m (- f))
      | c :: r =>
          if (Ascii.eqb c "e" || Ascii.eqb c "E")%bool then
            e ← parse_exponent r; Some (scale10 m (e - f))
          else None
      end
  end.

Definition parse_radix (base : Z) (cs : list Ascii.ascii) : number :=
  match span_digits base cs with
  | ([], _) => NaN
  | (ds, []) => Fin (inject_Z (digits_to_Z base ds))
  | _ => NaN
  end.

Definition string_to_number (s : string) : number :=
  match trim_ws (String.list_ascii_of_string s) with
  | [] => Fin 0
  | "0"%char :: ("x" | "X")%char :: r => parse_radix 16 r
  | "0"%char :: ("o" | "O")%char :: r => parse_radix 8 r
  | "0"%char :: ("b" | "B")%char :: r => parse_radix 2 r
  | cs =>
      let '(neg, body) :=
        match cs with
        | "+"%char :: r => (false, r)
        | "-"%char :: r => (true, r)
        | _ => (false, cs)
        end in
      if bool_decide (String.string_of_list_ascii body = "Infinity")
      then (if neg then NegInf else PosInf)
      else match parse_unsigned_decimal body with
           | Some q => Fin (if neg then Qopp q else q)
           | None => NaN
           end
  end.

(** ** [String(v)] *)

(** The digits of an exact decimal: the least [k] (up to 40) such that
    [q * 10^k] is an integer. *)
Fixpoint decimal_scale (num den : Z) (k fuel : nat) : nat :=
  match fuel with
  | O => k
  | S fuel' =>
      if ((num * 10 ^ Z.of_nat k) mod den =? 0)%Z then k
      else decimal_scale num den (S k) fuel'
  end.

Definition pad_left (k : nat) (s : string) : string :=
  String.string_of_list_ascii (replicate (k - String.length s) "0"%char) +:+ s.

Definition decimal_string (q : Q) : string :=
  let q' := Qred q in
  let n := Qnum q' in
  let d := Zpos (Qden q') in
  if (d =? 1)%Z then pretty n
  else
    let k := decimal_scale n d 0 40 in
    let scaled := (Z.abs n * 10 ^ Z.of_nat k / d)%Z in
    let ip := (scaled / 10 ^ Z.of_nat k)%Z in
    let fp := (scaled mod 10 ^ Z.of_nat k)%Z in
    (if (n <? 0)%Z then "-" else "") +:+ pretty ip +:+ "." +:+ pad_left k (pretty fp).

Definition number_to_string (n : number) : string :=
  match n with
  | NaN => "NaN"
  | PosInf => "Infinity"
  | NegInf => "-Infinity"
  | Fin q => decimal_string q
  end.

Fixpoint to_js_string (v : jsval) : string :=
  match v with
  | JUndefined => "undefined"
  | JNull => "null"
  | JBool b => if b then "true" else "false"
  | JNum n => number_to_string n
  | JStr s => s
  | JArr xs =>
      String.concat ","
        ((fix elems (xs : list jsval) : list string :=
            match xs with
            | [] => []
            | x :: r =>
                match x with
                | JUndefined | JNull => ""
                | _ => to_js_string x
                end :: elems r
            end) xs)
  | JObj _ => "[object Object]"
  end.

(** ** [Number(v)], [isNaN(v)] and the comparison [x < y] *)

Definition to_number (v : jsval) : number :=
  match v with
  | JUndefined => NaN
  | JNull => Fin 0
  | JBool b => Fin (if b then 1 else 0)
  | JNum n => n
  | JStr s => string_to_number s
  | JArr _ | JObj _ => string_to_number (to_js_string v)
  end.

Definition is_nan (n : number) : bool :=
  match n with NaN => true | _ => false end.

Definition js_isNaN (v : jsval) : bool := is_nan (to_number v).

Definition num_lt (a b : number) : bool :=
  match a, b with
  | NaN, _ | _, NaN => false
  | Fin x, Fin y => negb (Qle_bool y x)
  | NegInf, Fin _ | NegInf, PosInf | Fin _, PosInf => true
  | _, _ => false
  end.

Definition num_le (a b : number) : bool :=
  match a, b with
  | NaN, _ | _, NaN => false
  | Fin x, Fin y => Qle_bool x y
  | NegInf, _ | _, PosInf => true
  | _, _ => false
  end.

Definition to_primitive (v : jsval) : jsval :=
  match v with
  | JArr _ | JObj _ => JStr (to_js_string v)
  | _ => v
  end.

(** The abstract relational comparison [x < y]: two strings compare by
    code units, anything else compares as numbers. *)
Definition js_lt (x y : jsval) : bool :=
  match to_primitive x, to_primitive y with
  | JStr a, JStr b => String.ltb a b
  | px, py => num_lt (to_number px) (to_number py)
  end.

(** Strict equality with a string literal. *)
Definition js_eq_str (v : jsval) (s : string) : bool :=
  match v with JStr t => String.eqb t s | _ => false end.

(** [a === b] on primitives; two arrays or objects are compared by
    reference, and the values here are never the same reference. *)
Definition js_strict_eq (a b : jsval) : bool :=
  match a, b with
  | JUndefined, JUndefined | JNull, JNull => true
  | JBool x, JBool y => Bool.eqb x y
  | JStr x, JStr y => String.eqb x y
  | JNum x, JNum y => num_le x y && num_le y x
  | _, _ => false
  end.

(** ** Number arithmetic ([page - 1], [* limit], [total / limit],
    [Math.ceil]) *)

Definition num_neg (a : number) : number :=
  match a with
  | NaN => NaN | PosInf => NegInf | NegInf => PosInf | Fin q => Fin (Qopp q)
  end.

Definition num_add (a b : number) : number :=
  match a, b with
  | NaN, _ | _, NaN => NaN
  | Fin x, Fin y => Fin (Qred (x + y))
  | PosInf, NegInf | NegInf, PosInf => NaN
  | PosInf, _ | _, PosInf => PosInf
  | NegInf, _ | _, NegInf => NegInf
  end.

Definition num_sub (a b : number) : number := num_add a (num_neg b).

Definition q_sign (q : Q) : comparison := (q ?= 0)%Q.

Definition inf_of_sign (c : comparison) : number :=
  match c with Gt => PosInf | Lt => NegInf | Eq => NaN end.

Definition flip_sign (c : comparison) : comparison :=
  match c with Gt => Lt | Lt => Gt | Eq => Eq end.

Definition num_mul (a b : number) : number :=
  match a, b with
  | NaN, _ | _, NaN => NaN
  | Fin x, Fin y => Fin (Qred (x * y))
  | PosInf, Fin y | Fin y, PosInf => inf_of_sign (q_sign y)
  | NegInf, Fin y | Fin y, NegInf => inf_of_sign (flip_sign (q_sign y))
  | PosInf, PosInf | NegInf, NegInf => PosInf
  | _, _ => NegInf
  end.

Definition num_div (a b : number) : number :=
  match a, b with
  | NaN, _ | _, NaN => NaN
  | Fin x, Fin y =>
      if Qeq_bool y 0 then inf_of_sign (q_sign x) else Fin (Qred (x / y))
  | Fin _, (PosInf | NegInf) => Fin 0
  | PosInf, Fin y => if Qeq_bool y 0 then PosInf else inf_of_sign (q_sign y)
  | NegInf, Fin y => if Qeq_bool y 0 then NegInf else inf_of_sign (flip_sign (q_sign y))
  | _, _ => NaN
  end.

Definition math_ceil (a : number) : number :=
  match a with Fin q => Fin (inject_Z (Qceiling q)) | _ => a end.

(** ** Property access *)

(** [obj.key] on a parsed JSON value; any value without the property
    yields [undefined]. *)
Definition get_field (v : jsval) (k : string) : jsval :=
  match v with
  | JObj fs =>
      match list_find (fun '(k', _) => k' = k) fs with
      | Some (_, (_, x)) => x
      | None => JUndefined
      end
  | _ => JUndefined
  end.

(** [v.k]: reading a property of [null] or [undefined] throws. *)
Definition read_prop (v : jsval) (k : string) : exn + jsval :=
  match v with
  | JUndefined => inl (type_error ("Cannot read properties of undefined (reading '" +:+ k +:+ "')"))
  | JNull => inl (type_error ("Cannot read properties of null (reading '" +:+ k +:+ "')"))
  | _ => inr (get_field v k)
  end.

(** [v.toLowerCase()]: only strings have the method. *)
Definition js_toLowerCase (v : jsval) : exn + string :=
  match v with
  | JStr s => inr (to_lower s)
  | JUndefined => inl (type_error "Cannot read properties of undefined (reading 'toLowerCase')")
  | JNull => inl (type_error "Cannot read properties of null (reading 'toLowerCase')")
  | _ => inl (type_error "toLowerCase is not a function")
  end.

(** The object spread [...(v && {k: x})] of the update handler: a falsy
    [v] spreads nothing. *)
Definition spread_if (v : jsval) (fs : list (string * jsval)) : list (string * jsval) :=
  if truthy v then fs else [].

(** ** Strings as lists of characters *)

Lemma list_ascii_of_string_app (s t : string) :
  String.list_ascii_of_string (s +:+ t) =
  String.list_ascii_of_string s ++ String.list_ascii_of_string t.
Proof. induction s as [|c s IH]; simpl; [done|]. by rewrite IH. Qed.

Lemma string_app_assoc (a b c : string) : a +:+ (b +:+ c) = (a +:+ b) +:+ c.
Proof.
  induction a as [|x a IH]; [done|].
  change (String x (a +:+ (b +:+ c)) = String x ((a +:+ b) +:+ c)). by rewrite IH.
Qed.

(** Splitting [a.b.c] at its dots when no part has one. *)
Lemma split_chars_app_sep (sep : Ascii.ascii) (a b : list Ascii.ascii) :
  sep ∉ a -> split_chars sep (a ++ sep :: b) = a :: split_chars sep b.
Proof.
  induction a as [|c a IH]; intros Hn; simpl.
  - by rewrite Ascii.eqb_refl.
  - rewrite IH by set_solver.
    destruct (Ascii.eqb_spec c sep); [set_solver | done].
Qed.

Lemma split_chars_no_sep (sep : Ascii.ascii) (a : list Ascii.ascii) :
  sep ∉ a -> split_chars sep a = [a].
Proof.
  induction a as [|c a IH]; intros Hn; simpl; [done|].
  rewrite IH by set_solver. destruct (Ascii.eqb_spec c sep); [set_solver | done].
Qed.

(** ** Trimming

    [trim] is idempotent: the trimmed string has white space at neither
    end. *)

Lemma drop_ws_suffix (l : list Ascii.ascii) : exists pre, l = pre ++ drop_ws l.
Proof.
  induction l as [|c l [pre IH]]; [by exists []|]. cbn [drop_ws].
  destruct (Ascii.is_space c); [exists (c :: pre); by rewrite IH at 1 | by exists []].
Qed.

(** No white space in front: what [drop_ws] leaves. *)
Definition no_lead_ws (l : list Ascii.ascii) : Prop :=
  match l with c :: _ => Ascii.is_space c = false | [] => True end.

Lemma drop_ws_lead (l : list Ascii.ascii) : no_lead_ws (drop_ws l).
Proof.
  induction l as [|c l IH]; [done|]. cbn [drop_ws].
  destruct (Ascii.is_space c) eqn:E; [done|]. exact E.
Qed.

Lemma drop_ws_id (l : list Ascii.ascii) : no_lead_ws l -> drop_ws l = l.
Proof. destruct l as [|c l]; cbn; [done|]. by intros ->. Qed.

Lemma trim_ws_idem (l : list Ascii.ascii) : trim_ws (trim_ws l) = trim_ws l.
Proof.
  unfold trim_ws. set (x := drop_ws l). set (y := drop_ws (rev x)).
  assert (Hy : no_lead_ws (rev (rev y))).
  { rewrite rev_involutive. apply drop_ws_lead. }
  assert (Hry : no_lead_ws (rev y)).
  { destruct (drop_ws_suffix (rev x)) as [pre Hpre]. fold y in Hpre.
    destruct y as [|c y'] using rev_ind; [done|]. rewrite rev_app_distr. cbn.
    pose proof (drop_ws_lead l) as Hx. fold x in Hx.
    rewrite app_assoc in Hpre. apply (f_equal (@rev _)) in Hpre.
    rewrite rev_involutive, rev_app_distr in Hpre. cbn in Hpre. rewrite Hpre in Hx. exact Hx. }
  rewrite (drop_ws_id (rev y)) by exact Hry. rewrite rev_involutive.
  rewrite (drop_ws_id y) by (rewrite <-(rev_involutive y); exact Hy). reflexivity.
Qed.
