(* ===== verification/Url.v ===== *)
(** * Url: query strings, as the client writes them and the server reads them.

    The client writes a query string in two ways: [URLSearchParams]
    (components/products/ProductList.jsx), whose serializer is the
    [application/x-www-form-urlencoded] one ([url_search_params]), and a
    template literal that pastes the values as they are
    (pages/ProductList.jsx).  Express parses [req.query] with [qs]
    ([qs_parse]): the string is cut at [&], each part at its first [=],
    both sides are decoded ([+] is a space, then [%XX] escapes; a part
    whose escapes are malformed stays as it is), an empty key is
    dropped, and a key given twice collects its values in an array.

    Strings are byte strings (the UTF-8 bytes of the JavaScript string);
    [qs]'s bracket syntax for nested keys ([a[b]=c]) is not modelled:
    the keys the client sends have no brackets.

    The theorem [qs_parse_url_search_params] is the round trip: what
    [URLSearchParams] writes, [qs] reads back, for distinct non-empty
    keys. *)

From S2P Require Import Prelude JsRuntime.

Local Set Warnings "-register-all".

(** ** Serializing: [URLSearchParams.prototype.toString] *)

Definition hex_upper (d : Z) : Ascii.ascii :=
  if (d <? 10)%Z then Ascii.ascii_of_nat (Z.to_nat (48 + d))
  else Ascii.ascii_of_nat (Z.to_nat (55 + d)).

(** ASCII alphanumerics and [*-._] are written as they are. *)
Definition form_safe (c : Ascii.ascii) : bool :=
  let n := ascii_code c in
  ((48 <=? n) && (n <=? 57))%Z || ((65 <=? n) && (n <=? 90))%Z || ((97 <=? n) && (n <=? 122))%Z ||
  bool_decide (c ∈ ["*"; "-"; "."; "_"]%char).

Definition form_encode_char (c : Ascii.ascii) : list Ascii.ascii :=
  if Ascii.eqb c " " then ["+"%char]
  else if form_safe c then [c]
  else ["%"%char; hex_upper (ascii_code c / 16)%Z; hex_upper (ascii_code c mod 16)%Z].

Definition form_encode (s : string) : string :=
  String.string_of_list_ascii (mjoin (map form_encode_char (String.list_ascii_of_string s))).

Definition form_pair (kv : string * string) : string :=
  form_encode kv.1 +:+ "=" +:+ form_encode kv.2.

Definition url_search_params (ps : list (string * string)) : string :=
  String.concat "&" (map form_pair ps).

(** ** Parsing: [qs.parse] with Express's options *)

Definition plus_to_space (c : Ascii.ascii) : Ascii.ascii :=
  if Ascii.eqb c "+" then " "%char else c.

(** [decodeURIComponent] on bytes: [None] on a malformed escape. *)
Fixpoint pct_decode (cs : list Ascii.ascii) : option (list Ascii.ascii) :=
  match cs with
  | [] => Some []
  | c :: r =>
      if Ascii.eqb c "%" then
        match r with
        | a :: b :: r' =>
            match digit_value 16 a, digit_value 16 b with
            | Some x, Some y =>
                cons (Ascii.ascii_of_nat (Z.to_nat (16 * x + y))) <$> pct_decode r'
            | _, _ => None
            end
        | _ => None
        end
      else cons c <$> pct_decode r
  end.

(** [qs]'s [decoder]: [+] to space, then [decodeURIComponent], keeping
    the string when that throws. *)
Definition qs_decode (cs : list Ascii.ascii) : string :=
  let cs' := map plus_to_space cs in
  String.string_of_list_ascii (default cs' (pct_decode cs')).

(** A string cut at the first [sep]: what precedes it, and what
    follows it if there is one ([indexOf] and two [slice]s). *)
Fixpoint break_at (sep : Ascii.ascii) (cs : list Ascii.ascii)
    : list Ascii.ascii * option (list Ascii.ascii) :=
  match cs with
  | [] => ([], None)
  | c :: r =>
      if Ascii.eqb c sep then ([], Some r)
      else let '(k, v) := break_at sep r in (c :: k, v)
  end.

(** [utils.combine]: a repeated key collects its values. *)
Definition qs_combine (x : jsval) (v : string) : jsval :=
  match x with
  | JArr xs => JArr (xs ++ [JStr v])
  | _ => JArr [x; JStr v]
  end.

Fixpoint qs_add (k v : string) (acc : list (string * jsval)) : list (string * jsval) :=
  match acc with
  | [] => [(k, JStr v)]
  | (k', x) :: r => if String.eqb k k' then (k', qs_combine x v) :: r else (k', x) :: qs_add k v r
  end.

Definition qs_part (acc : list (string * jsval)) (part : list Ascii.ascii)
    : list (string * jsval) :=
  (* a part without [=] has the empty string as its value *)
  let '(k, v) := break_at "=" part in
  let key := qs_decode k in
  let val := match v with Some v => qs_decode v | None => "" end in
  if String.eqb key "" then acc else qs_add key val acc.

Definition qs_parse (q : string) : jsval :=
  JObj (fold_left qs_part (split_chars "&" (String.list_ascii_of_string q)) []).

(** ** The escapes *)

Lemma hex_upper_cases (d : Z) :
  (0 <= d < 16)%Z ->
  digit_value 16 (hex_upper d) = Some d /\ form_safe (hex_upper d) = true.
Proof.
  intros Hd.
  assert (Hcases : exists n : nat, (n < 16)%nat /\ d = Z.of_nat n)
    by (exists (Z.to_nat d); split; lia).
  destruct Hcases as [n [Hn ->]].
  do 16 (destruct n as [|n]; [split; reflexivity|]). lia.
Qed.

Lemma ascii_code_bounds (c : Ascii.ascii) : (0 <= ascii_code c < 256)%Z.
Proof. unfold ascii_code. pose proof (Ascii.nat_ascii_bounded c). lia. Qed.

Lemma form_safe_not_special (c : Ascii.ascii) :
  form_safe c = true -> c <> "+"%char /\ c <> "%"%char /\ c <> "&"%char /\ c <> "="%char.
Proof. intros Hs. repeat split; intros ->; discriminate Hs. Qed.

(** Every character an escape writes is safe, a [+] or a [%]. *)
Lemma form_encode_char_chars (c x : Ascii.ascii) :
  x ∈ form_encode_char c -> form_safe x = true \/ x = "+"%char \/ x = "%"%char.
Proof.
  pose proof (ascii_code_bounds c) as Hb.
  unfold form_encode_char. destruct (Ascii.eqb c " "); [set_solver|].
  destruct (form_safe c) eqn:Hs; [set_solver|].
  rewrite !elem_of_cons, elem_of_nil.
  intros [-> | [-> | [-> | []]]]; [by right; right | left .. ];
    apply hex_upper_cases; split; [apply Z.div_pos | apply Z.div_lt_upper_bound |
      apply Z.mod_pos_bound | apply Z.mod_pos_bound]; lia.
Qed.

Lemma pct_decode_form_encode_char (c : Ascii.ascii) (r : list Ascii.ascii) :
  pct_decode (map plus_to_space (form_encode_char c) ++ r) = cons c <$> pct_decode r.
Proof.
  unfold form_encode_char. destruct (Ascii.eqb_spec c " ") as [->|Hsp]; [reflexivity|].
  destruct (form_safe c) eqn:Hs.
  - destruct (form_safe_not_special c Hs) as [Hp [Hpc _]]. cbn [map app pct_decode].
    unfold plus_to_space. by rewrite (proj2 (Ascii.eqb_neq _ _) Hp), (proj2 (Ascii.eqb_neq _ _) Hpc).
  - pose proof (ascii_code_bounds c) as Hb.
    destruct (hex_upper_cases (ascii_code c / 16)) as [H1 S1];
      [split; [apply Z.div_pos | apply Z.div_lt_upper_bound]; lia|].
    destruct (hex_upper_cases (ascii_code c mod 16)) as [H2 S2]; [apply Z.mod_pos_bound; lia|].
    destruct (form_safe_not_special _ S1) as [P1 _]. destruct (form_safe_not_special _ S2) as [P2 _].
    cbn [map app]. unfold plus_to_space at 2 3.
    rewrite (proj2 (Ascii.eqb_neq _ _) P1), (proj2 (Ascii.eqb_neq _ _) P2).
    cbn [plus_to_space Ascii.eqb pct_decode]. cbn. rewrite H1, H2.
    rewrite <-Z.div_mod by lia. unfold ascii_code. by rewrite Nat2Z.id, Ascii.ascii_nat_embedding.
Qed.

Lemma qs_decode_form_encode (s : string) :
  qs_decode (String.list_ascii_of_string (form_encode s)) = s.
Proof.
  unfold qs_decode, form_encode. rewrite String.list_ascii_of_string_of_list_ascii.
  assert (Hd : forall cs, pct_decode (map plus_to_space (mjoin (map form_encode_char cs))) = Some cs).
  { induction cs as [|c cs IH]; [done|].
    cbn [map]. change (mjoin (?x :: ?y)) with (x ++ mjoin y). rewrite map_app.
    rewrite pct_decode_form_encode_char, IH. reflexivity. }
  rewrite Hd. cbn. apply String.string_of_list_ascii_of_string.
Qed.

Lemma form_encode_chars (s : string) (x : Ascii.ascii) :
  x ∈ String.list_ascii_of_string (form_encode s) -> x <> "&"%char /\ x <> "="%char.
Proof.
  unfold form_encode. rewrite String.list_ascii_of_string_of_list_ascii.
  intros Hx. apply list_elem_of_join in Hx as [cs [Hx Hcs]].
  apply list_elem_of_fmap in Hcs as [c [-> _]].
  destruct (form_encode_char_chars c x Hx) as [Hs | [-> | ->]]; [|split; discriminate..].
  by destruct (form_safe_not_special x Hs) as (_ & _ & ? & ?).
Qed.

(** ** Cutting the string *)

Lemma split_chars_concat (sep : Ascii.ascii) (l : list string) :
  l <> [] -> Forall (fun s => sep ∉ String.list_ascii_of_string s) l ->
  split_chars sep (String.list_ascii_of_string (String.concat (String sep "") l)) =
    map String.list_ascii_of_string l.
Proof.
  induction l as [|x [|y r] IH]; intros Hne Hf; [done| |].
  - apply Forall_cons in Hf as [Hx _]. cbn [String.concat map]. by rewrite split_chars_no_sep.
  - apply Forall_cons in Hf as [Hx Hr].
    change (String.concat (String sep "") (x :: y :: r))
      with (x +:+ String sep "" +:+ String.concat (String sep "") (y :: r)).
    rewrite !list_ascii_of_string_app. cbn [String.list_ascii_of_string app].
    rewrite split_chars_app_sep, IH by done. reflexivity.
Qed.

Lemma break_at_app (sep : Ascii.ascii) (a b : list Ascii.ascii) :
  sep ∉ a -> break_at sep (a ++ sep :: b) = (a, Some b).
Proof.
  induction a as [|c a IH]; intros Ha; cbn [app break_at]; [by rewrite Ascii.eqb_refl|].
  rewrite IH by set_solver. destruct (Ascii.eqb_spec c sep); [set_solver | done].
Qed.

Definition qs_entry (kv : string * string) : string * jsval := (kv.1, JStr kv.2).

Lemma qs_part_form_pair (acc : list (string * jsval)) (k v : string) :
  qs_part acc (String.list_ascii_of_string (form_pair (k, v))) =
    if String.eqb k "" then acc else qs_add k v acc.
Proof.
  unfold qs_part, form_pair. rewrite !list_ascii_of_string_app. cbn [String.list_ascii_of_string app].
  rewrite break_at_app by (intros Hx; by apply form_encode_chars in Hx as [_ []]).
  by rewrite !qs_decode_form_encode.
Qed.

Lemma qs_add_fresh (k v : string) (acc : list (string * jsval)) :
  k ∉ acc.*1 -> qs_add k v acc = acc ++ [(k, JStr v)].
Proof.
  induction acc as [|[k' x] acc IH]; intros Hk; [done|]. cbn [qs_add app].
  rewrite string_eqb_neq by set_solver. rewrite IH by set_solver. reflexivity.
Qed.

Lemma fold_qs_part (ps : list (string * string)) (acc : list (string * jsval)) :
  NoDup ps.*1 -> (forall k, k ∈ ps.*1 -> k ∉ acc.*1) -> (forall k, k ∈ ps.*1 -> k <> "") ->
  fold_left qs_part (map (fun kv => String.list_ascii_of_string (form_pair kv)) ps) acc =
    acc ++ map qs_entry ps.
Proof.
  revert acc. induction ps as [|[k v] ps IH]; intros acc Hnd Hfresh Hne; cbn [map fold_left].
  - by rewrite app_nil_r.
  - apply NoDup_cons in Hnd as [Hk Hnd].
    rewrite qs_part_form_pair, string_eqb_neq by (apply Hne; set_solver).
    rewrite qs_add_fresh by (apply Hfresh; set_solver).
    rewrite IH, <-app_assoc by (done || (intros k' Hk'; rewrite fmap_app, elem_of_app; cbn;
      intros [Hin | Hin%list_elem_of_singleton]; [by apply (Hfresh k'); [set_solver|] | set_solver])
      || (intros; apply Hne; set_solver)).
    reflexivity.
Qed.

(** The round trip: for distinct non-empty keys, [qs] reads back the
    pairs [URLSearchParams] wrote, each value as a string. *)
Theorem qs_parse_url_search_params (ps : list (string * string)) :
  NoDup ps.*1 -> (forall k, k ∈ ps.*1 -> k <> "") ->
  qs_parse (url_search_params ps) = JObj (map qs_entry ps).
Proof.
  intros Hnd Hne. unfold qs_parse, url_search_params.
  destruct ps as [|p ps]; [reflexivity|].
  rewrite split_chars_concat; [| done |].
  - rewrite map_map, fold_qs_part; [done | done | set_solver | done].
  - apply Forall_forall. intros s Hs. apply list_elem_of_In, in_map_iff in Hs as [[k v] [<- _]].
    unfold form_pair. rewrite !list_ascii_of_string_app. cbn.
    rewrite elem_of_app, elem_of_cons.
    intros [Hx | [Hx | Hx]]; [by apply form_encode_chars in Hx as [[] _] | discriminate |
      by apply form_encode_chars in Hx as [[] _]].
Qed.
