(* ===== verification/ObjectId.v ===== *)
(** * ObjectId: the identifiers of stored documents.

    Every document gets a 12-byte ObjectId, read here as an integer below
    [16^24].  An id travels as its 24-digit lowercase hexadecimal string:
    in JSON responses ([_id] of a product, [user.id] of the auth
    payloads), inside the token payload, and back in [req.params.id].
    Mongoose casts a string argument of [findById] with the rule of
    [ObjectId.isValid]: exactly 24 hexadecimal digits of either case;
    any other string makes the query throw a [CastError], and
    [undefined] or [null] match no document.  The round trip
    [cast_oid_string (oid_to_hex o) = Some o] is what lets an id printed
    by one response be used in the next request. *)

From S2P Require Import Prelude JsRuntime.

Definition oid := Z.

Definition oid_digits : nat := 24.

Definition oid_bound : Z := (16 ^ Z.of_nat oid_digits)%Z.

Definition oid_valid (o : oid) : Prop := (0 <= o < oid_bound)%Z.

(** ** Printing: [ObjectId.prototype.toHexString] *)

Definition hex_char (d : Z) : Ascii.ascii :=
  if (d <? 10)%Z then Ascii.ascii_of_nat (Z.to_nat (48 + d))
  else Ascii.ascii_of_nat (Z.to_nat (87 + d)).

(** The [k] low hexadecimal digits of [n], least significant first. *)
Fixpoint hex_digits_rev (n : Z) (k : nat) : list Z :=
  match k with
  | O => []
  | S k' => (n mod 16)%Z :: hex_digits_rev (n / 16) k'
  end.

Definition oid_to_hex (o : oid) : string :=
  String.string_of_list_ascii (map hex_char (rev (hex_digits_rev o oid_digits))).

(** ** Casting: [ObjectId.isValid] and the [_id] cast of [findById] *)

Definition cast_oid_string (s : string) : option oid :=
  let cs := String.list_ascii_of_string s in
  match span_digits 16 cs with
  | (ds, []) => if (length ds =? oid_digits)%nat then Some (digits_to_Z 16 ds) else None
  | _ => None
  end.

(** The outcome of casting the argument of [findById]: an error, a
    filter that matches nothing, or an id. *)
Inductive id_cast :=
| IdCastError (e : exn)
| IdNone
| IdSome (o : oid).

Definition cast_error_oid (v : jsval) : exn :=
  mk_exn "CastError"
    ("Cast to ObjectId failed for value " +:+ quoted (to_js_string v) +:+
     " at path " +:+ quoted "_id").

Definition cast_oid (v : jsval) : id_cast :=
  match v with
  | JUndefined | JNull => IdNone
  | JStr s =>
      match cast_oid_string s with
      | Some o => IdSome o
      | None => IdCastError (cast_error_oid v)
      end
  | _ => IdCastError (cast_error_oid v)
  end.

(** ** The round trip *)

Lemma digit_value_hex_char (d : Z) :
  (0 <= d < 16)%Z -> digit_value 16 (hex_char d) = Some d.
Proof.
  intros Hd.
  assert (Hcases : exists n : nat, (n < 16)%nat /\ d = Z.of_nat n)
    by (exists (Z.to_nat d); split; lia).
  destruct Hcases as [n [Hn ->]].
  do 16 (destruct n as [|n]; [reflexivity|]). lia.
Qed.

Lemma span_digits_hex (ds : list Z) :
  Forall (fun d => 0 <= d < 16)%Z ds ->
  span_digits 16 (map hex_char ds) = (ds, []).
Proof.
  induction 1 as [|d ds Hd _ IH]; [done|].
  simpl. rewrite digit_value_hex_char by done. by rewrite IH.
Qed.

Lemma hex_digits_rev_bounded (n : Z) (k : nat) :
  Forall (fun d => 0 <= d < 16)%Z (hex_digits_rev n k).
Proof.
  revert n. induction k as [|k IH]; intros n; simpl; constructor; [|apply IH].
  apply Z.mod_pos_bound. lia.
Qed.

Lemma length_hex_digits_rev (n : Z) (k : nat) : length (hex_digits_rev n k) = k.
Proof. revert n. induction k; intros; simpl; auto. Qed.

Lemma digits_to_Z_snoc (base : Z) (ds : list Z) (d : Z) :
  digits_to_Z base (ds ++ [d]) = (digits_to_Z base ds * base + d)%Z.
Proof. unfold digits_to_Z. by rewrite fold_left_app. Qed.

Lemma digits_to_Z_hex_digits_rev (n : Z) (k : nat) :
  (0 <= n)%Z ->
  digits_to_Z 16 (rev (hex_digits_rev n k)) = (n mod 16 ^ Z.of_nat k)%Z.
Proof.
  revert n. induction k as [|k IH]; intros n Hn.
  - simpl. by rewrite Z.mod_1_r.
  - simpl hex_digits_rev. simpl rev. rewrite digits_to_Z_snoc, IH.
    + rewrite Nat2Z.inj_succ, Z.pow_succ_r by lia.
      rewrite Z.rem_mul_r by (try apply Z.pow_pos_nonneg; lia).
      lia.
    + apply Z.div_pos; lia.
Qed.

Lemma oid_hex_roundtrip (o : oid) :
  oid_valid o -> cast_oid_string (oid_to_hex o) = Some o.
Proof.
  intros [Hlo Hhi]. unfold cast_oid_string, oid_to_hex.
  rewrite String.list_ascii_of_string_of_list_ascii.
  rewrite span_digits_hex.
  - rewrite length_rev, length_hex_digits_rev, Nat.eqb_refl.
    rewrite digits_to_Z_hex_digits_rev by done. f_equal. by apply Z.mod_small.
  - apply Forall_rev, hex_digits_rev_bounded.
Qed.

(** [cast_oid_string] inverts [oid_to_hex]: the hexadecimal
    string of a valid ObjectId parses back to that id. *)
Theorem cast_oid_string_to_hex (o : oid) :
  oid_valid o -> cast_oid_string (oid_to_hex o) = Some o.
Proof. apply oid_hex_roundtrip. Qed.

(** ** The characters of a printed id *)

Definition hex_alphabet : list Ascii.ascii :=
  ["0"; "1"; "2"; "3"; "4"; "5"; "6"; "7"; "8"; "9"; "a"; "b"; "c"; "d"; "e"; "f"]%char.

Lemma hex_char_alphabet (d : Z) : (0 <= d < 16)%Z -> hex_char d ∈ hex_alphabet.
Proof.
  intros Hd.
  assert (Hcases : exists n : nat, (n < 16)%nat /\ d = Z.of_nat n)
    by (exists (Z.to_nat d); split; lia).
  destruct Hcases as [n [Hn ->]].
  do 16 (destruct n as [|n]; [apply (bool_decide_unpack _); vm_compute; exact I|]). lia.
Qed.

Lemma oid_hex_alphabet (o : oid) (c : Ascii.ascii) :
  c ∈ String.list_ascii_of_string (oid_to_hex o) -> c ∈ hex_alphabet.
Proof.
  unfold oid_to_hex. rewrite String.list_ascii_of_string_of_list_ascii.
  intros (d & -> & Hd)%list_elem_of_fmap. apply hex_char_alphabet.
  apply list_elem_of_In in Hd. rewrite <-in_rev in Hd. apply list_elem_of_In in Hd.
  eapply (Forall_forall (fun d => 0 <= d < 16)%Z); [apply hex_digits_rev_bounded | exact Hd].
Qed.

Lemma oid_hex_not_empty (o : oid) : oid_to_hex o <> "".
Proof.
  unfold oid_to_hex. intros H. apply (f_equal String.list_ascii_of_string) in H.
  rewrite String.list_ascii_of_string_of_list_ascii in H. apply (f_equal length) in H.
  by rewrite length_map, length_rev, length_hex_digits_rev in H.
Qed.

(** Printing is injective on valid ids: a hexadecimal string names one
    document. *)
Lemma oid_hex_inj (o1 o2 : oid) :
  oid_valid o1 -> oid_valid o2 -> oid_to_hex o1 = oid_to_hex o2 -> o1 = o2.
Proof.
  intros H1 H2 Heq. apply oid_hex_roundtrip in H1, H2. rewrite Heq, H2 in H1. by injection H1.
Qed.
