(* ===== verification/ProductModel.v ===== *)
(** * ProductModel: the Mongoose schema of [src/backend/models/Product.js].

    A product document has the paths of the schema: [name] (trimmed,
    required, at most 100 characters), [description] (required, at most
    1000), [category] (required, one of five values), [price] (required,
    at least 0), [rating] (0 to 5, default 0), [image] (required),
    [stock] (required, at least 0, default 0), [numReviews] (default 0),
    [createdAt] (default [Date.now]) and an optional [user] reference.

    [new Product(obj)] casts each path of [obj] with the schema type's
    caster (Mongoose's [castString] and [castNumber]), fills the
    defaults, and [save()] runs the validators and rejects with a
    [ValidationError] naming every failing path.  [findByIdAndUpdate]
    with [runValidators] casts the update (a cast failure throws a
    [CastError]) and runs the validators of the updated paths only.
    The invariant [product_wf] is what the validators guarantee of every
    stored product. *)

From S2P Require Import Prelude JsRuntime ObjectId.

(** ** The document *)

Definition categories : list string :=
  ["electronics"; "clothing"; "books"; "home"; "other"].

Record product := mk_product {
  p_id : oid;
  p_name : string;
  p_description : string;
  p_category : string;
  p_price : number;
  p_rating : number;
  p_image : string;
  p_stock : number;
  p_numReviews : number;
  p_createdAt : Z;
  p_user : option oid
}.

(** ** Schema-type casters (Mongoose's [castString] and [castNumber]) *)

Definition cast_error (ty path : string) (v : jsval) : exn :=
  mk_exn "CastError"
    ("Cast to " +:+ ty +:+ " failed for value " +:+ quoted (to_js_string v) +:+
     " at path " +:+ quoted path).

Definition cast_string (path : string) (v : jsval) : exn + option string :=
  match v with
  | JUndefined | JNull => inr None
  | JStr s => inr (Some s)
  | JNum n => inr (Some (number_to_string n))
  | JBool b => inr (Some (if b then "true" else "false"))
  | JObj _ =>
      (* [value._id && typeof value._id === 'string']: an empty [_id] is
         falsy, and a plain object's [toString] is refused. *)
      match get_field v "_id" with
      | JStr s => if String.eqb s "" then inl (cast_error "string" path v) else inr (Some s)
      | _ => inl (cast_error "string" path v)
      end
  | JArr _ => inl (cast_error "string" path v)
  end.

Definition cast_number (path : string) (v : jsval) : exn + option number :=
  match v with
  | JUndefined | JNull => inr None
  | JStr s =>
      if String.eqb s "" then inr None
      else let n := to_number v in
           if is_nan n then inl (cast_error "Number" path v) else inr (Some n)
  | JBool _ | JNum _ =>
      let n := to_number v in
      if is_nan n then inl (cast_error "Number" path v) else inr (Some n)
  | JArr _ | JObj _ => inl (cast_error "Number" path v)
  end.

(** [String.prototype.trim], the setter of [name]. *)
Definition js_trim (s : string) : string :=
  String.string_of_list_ascii (trim_ws (String.list_ascii_of_string s)).

(** The [name] path casts and then applies its [trim] setter. *)
Definition cast_name (v : jsval) : exn + option string :=
  match cast_string "name" v with
  | inr o => inr (js_trim <$> o)
  | inl e => inl e
  end.

(** ** A document before validation *)

Record draft := mk_draft {
  d_name : option string;
  d_description : option string;
  d_category : option string;
  d_price : option number;
  d_rating : option number;
  d_image : option string;
  d_stock : option number;
  d_numReviews : option number
}.

(** A path's value: its default when the input leaves it [undefined]. *)
Definition path_value {A} (v : jsval) (dflt : option A) (cast : jsval -> exn + option A)
    : exn + option A :=
  match v with
  | JUndefined => inr dflt
  | _ => cast v
  end.

(** Cast errors become validation errors of their path. *)
Definition cast_or_error {A} (path : string) (r : exn + option A)
    : option A * list (string * string) :=
  match r with
  | inr a => (a, [])
  | inl e => (None, [(path, exn_message e)])
  end.

(** [new Product(obj)]: the schema paths of [obj], cast, with the
    defaults of [rating], [stock] and [numReviews]. *)
Definition product_of_input (obj : jsval) : draft * list (string * string) :=
  let '(nm, e1) := cast_or_error "name"
        (path_value (get_field obj "name") None cast_name) in
  let '(ds, e2) := cast_or_error "description"
        (path_value (get_field obj "description") None (cast_string "description")) in
  let '(ct, e3) := cast_or_error "category"
        (path_value (get_field obj "category") None (cast_string "category")) in
  let '(pr, e4) := cast_or_error "price"
        (path_value (get_field obj "price") None (cast_number "price")) in
  let '(rt, e5) := cast_or_error "rating"
        (path_value (get_field obj "rating") (Some (Fin 0)) (cast_number "rating")) in
  let '(im, e6) := cast_or_error "image"
        (path_value (get_field obj "image") None (cast_string "image")) in
  let '(st, e7) := cast_or_error "stock"
        (path_value (get_field obj "stock") (Some (Fin 0)) (cast_number "stock")) in
  let '(nr, e8) := cast_or_error "numReviews"
        (path_value (get_field obj "numReviews") (Some (Fin 0)) (cast_number "numReviews")) in
  (mk_draft nm ds ct pr rt im st nr, e1 ++ e2 ++ e3 ++ e4 ++ e5 ++ e6 ++ e7 ++ e8).

(** ** Validators *)

Definition required_string (path msg : string) (v : option string) : list (string * string) :=
  match v with
  | Some s => if String.eqb s "" then [(path, msg)] else []
  | None => [(path, msg)]
  end.

Definition required_number (path msg : string) (v : option number) : list (string * string) :=
  match v with Some _ => [] | None => [(path, msg)] end.

Definition maxlength (path msg : string) (n : nat) (v : option string) : list (string * string) :=
  match v with
  | Some s => if (n <? String.length s)%nat then [(path, msg)] else []
  | None => []
  end.

Definition min_number (path msg : string) (lo : Q) (v : option number) : list (string * string) :=
  match v with
  | Some n => if num_lt n (Fin lo) then [(path, msg)] else []
  | None => []
  end.

Definition max_number (path msg : string) (hi : Q) (v : option number) : list (string * string) :=
  match v with
  | Some n => if num_lt (Fin hi) n then [(path, msg)] else []
  | None => []
  end.

Definition enum_category (v : option string) : list (string * string) :=
  match v with
  | Some s =>
      if bool_decide (s ∈ categories) then []
      else [("category", "`" +:+ s +:+ "` is not a valid enum value for path `category`.")]
  | None => []
  end.

(** The validators of each path, in schema order. *)
Definition name_validators (v : option string) :=
  maxlength "name" "Name cannot be more than 100 characters" 100 v.
Definition description_validators (v : option string) :=
  maxlength "description" "Description cannot be more than 1000 characters" 1000 v.
Definition price_validators (v : option number) :=
  min_number "price" "Price cannot be negative" 0 v.
Definition rating_validators (v : option number) :=
  min_number "rating" "Rating must be at least 0" 0 v ++
  max_number "rating" "Rating cannot be more than 5" 5 v.
Definition stock_validators (v : option number) :=
  min_number "stock" "Stock cannot be negative" 0 v.

Definition validate_draft (d : draft) : list (string * string) :=
  required_string "name" "Please provide a product name" (d_name d) ++
  name_validators (d_name d) ++
  required_string "description" "Please provide a product description" (d_description d) ++
  description_validators (d_description d) ++
  required_string "category" "Please provide a product category" (d_category d) ++
  enum_category (d_category d) ++
  required_number "price" "Please provide a product price" (d_price d) ++
  price_validators (d_price d) ++
  rating_validators (d_rating d) ++
  required_string "image" "Please provide a product image" (d_image d) ++
  required_number "stock" "Please provide product stock" (d_stock d) ++
  stock_validators (d_stock d).

Definition validation_message (prefix : string) (errs : list (string * string)) : string :=
  prefix +:+ String.concat ", " (map (fun '(p, m) => p +:+ ": " +:+ m) errs).

Definition validation_error (prefix : string) (errs : list (string * string)) : exn :=
  mk_exn "ValidationError" (validation_message prefix errs).

(** [save()] of a new document: validation, then the stored document
    with its fresh id and creation time. *)
Definition save_product (obj : jsval) (id : oid) (now : Z) : exn + product :=
  let '(d, cast_errs) := product_of_input obj in
  match cast_errs ++ validate_draft d with
  | [] =>
      match d_name d, d_description d, d_category d, d_price d, d_rating d,
            d_image d, d_stock d, d_numReviews d with
      | Some nm, Some ds, Some ct, Some pr, Some rt, Some im, Some st, Some nr =>
          inr (mk_product id nm ds ct pr rt im st nr now None)
      | _, _, _, _, _, _, _, _ => inl (validation_error "Product validation failed: " [])
      end
  | errs => inl (validation_error "Product validation failed: " errs)
  end.

(** ** Updates with [runValidators: true]

    An update is a list of [(path, value)] pairs.  Each value is cast
    (a failure throws a [CastError] at once), then the validators of
    the updated paths run. *)
Inductive field_update :=
| SetName (s : string)
| SetDescription (s : string)
| SetCategory (s : string)
| SetPrice (n : number)
| SetStock (n : number)
| SetImage (s : string).

Definition cast_update_field (f : string * jsval) : exn + list field_update :=
  let '(path, v) := f in
  let str c := match cast_string path v with
               | inl e => inl e
               | inr (Some s) => inr [c s]
               | inr None => inr []
               end in
  let nb c := match cast_number path v with
              | inl e => inl e
              | inr (Some n) => inr [c n]
              | inr None => inr []
              end in
  if String.eqb path "name" then str (fun s => SetName (js_trim s))
  else if String.eqb path "description" then str SetDescription
  else if String.eqb path "category" then str SetCategory
  else if String.eqb path "price" then nb SetPrice
  else if String.eqb path "stock" then nb SetStock
  else if String.eqb path "image" then str SetImage
  else inr [].

Fixpoint cast_update (fs : list (string * jsval)) : exn + list field_update :=
  match fs with
  | [] => inr []
  | f :: r =>
      match cast_update_field f with
      | inl e => inl e
      | inr u =>
          match cast_update r with
          | inl e => inl e
          | inr us => inr (u ++ us)
          end
      end
  end.

Definition update_validators (u : field_update) : list (string * string) :=
  match u with
  | SetName s => required_string "name" "Please provide a product name" (Some s) ++
                 name_validators (Some s)
  | SetDescription s =>
      required_string "description" "Please provide a product description" (Some s) ++
      description_validators (Some s)
  | SetCategory s =>
      required_string "category" "Please provide a product category" (Some s) ++
      enum_category (Some s)
  | SetPrice n => price_validators (Some n)
  | SetStock n => stock_validators (Some n)
  | SetImage s => required_string "image" "Please provide a product image" (Some s)
  end.

Definition apply_field_update (p : product) (u : field_update) : product :=
  let 'mk_product id nm ds ct pr rt im st nr ca ow := p in
  match u with
  | SetName s => mk_product id s ds ct pr rt im st nr ca ow
  | SetDescription s => mk_product id nm s ct pr rt im st nr ca ow
  | SetCategory s => mk_product id nm ds s pr rt im st nr ca ow
  | SetPrice n => mk_product id nm ds ct n rt im st nr ca ow
  | SetStock n => mk_product id nm ds ct pr rt im n nr ca ow
  | SetImage s => mk_product id nm ds ct pr rt s st nr ca ow
  end.

Definition apply_update (p : product) (us : list field_update) : product :=
  fold_left apply_field_update us p.

(** ** The invariant every stored product satisfies *)

Definition product_wf (p : product) : Prop :=
  p_name p <> "" /\ (String.length (p_name p) <= 100)%nat /\
  p_description p <> "" /\ (String.length (p_description p) <= 1000)%nat /\
  p_category p ∈ categories /\
  num_le (Fin 0) (p_price p) = true /\
  num_le (Fin 0) (p_rating p) = true /\ num_le (p_rating p) (Fin 5) = true /\
  p_image p <> "" /\
  num_le (Fin 0) (p_stock p) = true /\
  is_nan (p_numReviews p) = false /\
  js_trim (p_name p) = p_name p.

Definition opt_not_nan (o : option number) : Prop :=
  match o with Some n => is_nan n = false | None => True end.

(** What casting guarantees of an update: numbers are not NaN, the
    name is trimmed. *)
Definition field_ok (u : field_update) : Prop :=
  match u with
  | SetPrice n | SetStock n => is_nan n = false
  | SetName s => js_trim s = s
  | _ => True
  end.

(** ** Validators that pass *)

Lemma num_le_of_not_lt (a b : number) :
  is_nan a = false -> is_nan b = false -> num_lt a b = false -> num_le b a = true.
Proof.
  destruct a as [| | |x], b as [| | |y]; cbn; try done.
  intros _ _ H. by apply Bool.negb_false_iff in H.
Qed.

Lemma required_string_nil (p m : string) (v : option string) :
  required_string p m v = [] -> exists s, v = Some s /\ s <> "".
Proof.
  destruct v as [s|]; cbn; [|done]. destruct (String.eqb_spec s ""); [done|]. by eexists.
Qed.

Lemma required_number_nil (p m : string) (v : option number) :
  required_number p m v = [] -> exists n, v = Some n.
Proof. destruct v; cbn; [by eexists | done]. Qed.

Lemma maxlength_nil (p m : string) (n : nat) (s : string) :
  maxlength p m n (Some s) = [] -> (String.length s <= n)%nat.
Proof. unfold maxlength. destruct (Nat.ltb_spec n (String.length s)); [discriminate | lia]. Qed.

Lemma min_number_nil (p m : string) (lo : Q) (n : number) :
  is_nan n = false -> min_number p m lo (Some n) = [] -> num_le (Fin lo) n = true.
Proof.
  unfold min_number. intros Hn. destruct (num_lt n (Fin lo)) eqn:E; [done|]. intros _.
  by apply num_le_of_not_lt.
Qed.

Lemma max_number_nil (p m : string) (hi : Q) (n : number) :
  is_nan n = false -> max_number p m hi (Some n) = [] -> num_le n (Fin hi) = true.
Proof.
  unfold max_number. intros Hn. destruct (num_lt (Fin hi) n) eqn:E; [done|]. intros _.
  by apply num_le_of_not_lt.
Qed.

Lemma enum_category_nil (s : string) : enum_category (Some s) = [] -> s ∈ categories.
Proof. cbn. by case_bool_decide. Qed.

(** ** Casting never yields NaN *)

Lemma cast_number_not_nan (path : string) (v : jsval) (n : number) :
  cast_number path v = inr (Some n) -> is_nan n = false.
Proof.
  unfold cast_number. destruct v; try discriminate;
    try (destruct (String.eqb _ _); [discriminate|]); cbv zeta;
    (destruct (is_nan (to_number _)) eqn:E; intros H; [discriminate|]); by injection H as <-.
Qed.

Lemma cast_or_error_number (path : string) (v : jsval) (dflt : option number) :
  opt_not_nan dflt ->
  opt_not_nan (cast_or_error path (path_value v dflt (cast_number path))).1.
Proof.
  intros Hd. unfold path_value. destruct v; try exact Hd;
    destruct (cast_number path _) as [e|[m|]] eqn:E; cbn; auto; eapply cast_number_not_nan; eauto.
Qed.

Lemma product_of_input_numbers (obj : jsval) :
  opt_not_nan (d_price (product_of_input obj).1) /\
  opt_not_nan (d_rating (product_of_input obj).1) /\
  opt_not_nan (d_stock (product_of_input obj).1) /\
  opt_not_nan (d_numReviews (product_of_input obj).1).
Proof.
  unfold product_of_input.
  pose proof (cast_or_error_number "price" (get_field obj "price") None I) as Hp.
  pose proof (cast_or_error_number "rating" (get_field obj "rating") (Some (Fin 0)) eq_refl) as Hr.
  pose proof (cast_or_error_number "stock" (get_field obj "stock") (Some (Fin 0)) eq_refl) as Hs.
  pose proof (cast_or_error_number "numReviews" (get_field obj "numReviews") (Some (Fin 0)) eq_refl)
    as Hn.
  repeat match goal with
         | |- context [cast_or_error ?p ?r] => destruct (cast_or_error p r) eqn:?
         end.
  simplify_eq/=. repeat split; assumption.
Qed.

Lemma js_trim_idem (s : string) : js_trim (js_trim s) = js_trim s.
Proof.
  unfold js_trim. by rewrite String.list_ascii_of_string_of_list_ascii, trim_ws_idem.
Qed.

Lemma cast_or_error_name (v : jsval) (x : string) :
  (cast_or_error "name" (path_value v None cast_name)).1 = Some x -> js_trim x = x.
Proof.
  unfold path_value, cast_name. destruct v; try discriminate;
    destruct (cast_string "name" _) as [e|[y|]]; cbn; try discriminate;
    intros [= <-]; apply js_trim_idem.
Qed.

Lemma product_of_input_name (obj : jsval) (x : string) :
  d_name (product_of_input obj).1 = Some x -> js_trim x = x.
Proof.
  pose proof (cast_or_error_name (get_field obj "name") x) as Hn. unfold product_of_input.
  repeat match goal with
         | |- context [cast_or_error ?p ?r] => destruct (cast_or_error p r) eqn:?
         end.
  simplify_eq/=. exact Hn.
Qed.

Ltac split_nil_apps :=
  repeat match goal with H : _ ++ _ = [] |- _ => apply app_eq_nil in H as [? ?] end.

(** ** [save()] stores only well-formed documents *)

Lemma save_product_wf (obj : jsval) (id : oid) (now : Z) (p : product) :
  save_product obj id now = inr p ->
  product_wf p /\ p_id p = id /\ p_createdAt p = now /\ p_user p = None.
Proof.
  unfold save_product. pose proof (product_of_input_numbers obj) as Hn.
  pose proof (product_of_input_name obj) as Hnm.
  destruct (product_of_input obj) as [[nm ds ct pr rt im st nr] errs]; cbn in Hn |- *.
  destruct Hn as (Hpr & Hrt & Hst & Hnr).
  destruct (errs ++ _) eqn:E; [|discriminate]. unfold validate_draft in E.
  cbn [d_name d_description d_category d_price d_rating d_image d_stock d_numReviews] in E.
  split_nil_apps.
  repeat match goal with
         | H : required_string _ _ _ = [] |- _ => apply required_string_nil in H as (? & -> & ?)
         | H : required_number _ _ _ = [] |- _ => apply required_number_nil in H as (? & ->)
         end.
  destruct rt as [r|], nr as [n|]; [|discriminate..]. intros [= <-]. cbn [opt_not_nan] in *.
  unfold name_validators, description_validators, price_validators, rating_validators,
    stock_validators in *. split_nil_apps. unfold product_wf.
  cbn [p_name p_description p_category p_price p_rating p_image p_stock p_numReviews p_id
       p_createdAt p_user].
  split_and!; first [ reflexivity | assumption | eapply maxlength_nil; eassumption
                    | by apply enum_category_nil | eapply min_number_nil; eassumption
                    | eapply max_number_nil; eassumption | by apply Hnm ].
Qed.

(** ** Updates keep documents well formed *)

Lemma cast_update_ok (fs : list (string * jsval)) (us : list field_update) :
  cast_update fs = inr us -> Forall field_ok us.
Proof.
  revert us. induction fs as [|[path v] fs IH]; intros us; cbn [cast_update]; [by intros [= <-]|].
  destruct (cast_update_field (path, v)) as [e|u] eqn:Ef; [by intros [=]|].
  destruct (cast_update fs) as [e|us'] eqn:Er; [by intros [=]|]. intros [= <-].
  apply Forall_app. split; [|by apply IH].
  unfold cast_update_field in Ef.
  repeat match type of Ef with context [if ?b then _ else _] => destruct b end;
    repeat match type of Ef with
           | context [cast_string ?p ?x] => destruct (cast_string p x) as [?|[?|]]
           | context [cast_number ?p ?x] => destruct (cast_number p x) as [?|[?|]] eqn:?
           end; simplify_eq; repeat constructor; cbn [field_ok];
    eauto using cast_number_not_nan, js_trim_idem.
Qed.

Lemma apply_field_update_wf (p : product) (u : field_update) :
  product_wf p -> field_ok u -> update_validators u = [] ->
  product_wf (apply_field_update p u) /\ p_id (apply_field_update p u) = p_id p /\
  p_createdAt (apply_field_update p u) = p_createdAt p.
Proof.
  destruct p as [id nm ds ct pr rt im st nr ca ow].
  intros (? & ? & ? & ? & ? & ? & ? & ? & ? & ? & ? & ?) Hu Hv.
  destruct u; cbn [update_validators field_ok] in *;
    unfold name_validators, description_validators, price_validators, stock_validators in *;
    split_nil_apps;
    repeat match goal with
           | H : required_string _ _ _ = [] |- _ => apply required_string_nil in H as (? & [= <-] & ?)
           end;
    unfold product_wf; cbn;
    split_and!; first [ reflexivity | assumption | eapply maxlength_nil; eassumption
                      | by apply enum_category_nil | eapply min_number_nil; eassumption ].
Qed.

Lemma apply_update_wf (p : product) (us : list field_update) :
  product_wf p -> Forall field_ok us -> concat (map update_validators us) = [] ->
  product_wf (apply_update p us) /\ p_id (apply_update p us) = p_id p /\
  p_createdAt (apply_update p us) = p_createdAt p.
Proof.
  unfold apply_update. revert p. induction us as [|u us IH]; intros p Hp Hok Hv; [done|].
  apply Forall_cons in Hok as [Hu Hok]. cbn in Hv |- *. split_nil_apps.
  destruct (apply_field_update_wf p u) as (Hwf & Hid & Hca); [done..|].
  destruct (IH _ Hwf Hok) as (? & -> & ->); [done|]. by rewrite Hid, Hca.
Qed.

(** ** Updates that change nothing

    An update that sets each field to the value it already has leaves a
    document as it was, and passes the validators when the document is
    well formed. *)

Definition update_agrees (p : product) (u : field_update) : Prop :=
  match u with
  | SetName s => s = p_name p
  | SetDescription s => s = p_description p
  | SetCategory s => s = p_category p
  | SetPrice n => n = p_price p
  | SetStock n => n = p_stock p
  | SetImage s => s = p_image p
  end.

Lemma apply_update_agrees (p : product) (us : list field_update) :
  Forall (update_agrees p) us -> apply_update p us = p.
Proof.
  unfold apply_update. induction 1 as [|u us Hu _ IH]; [done|]. cbn [fold_left].
  enough (apply_field_update p u = p) as -> by exact IH.
  destruct p, u; cbn in Hu |- *; by subst.
Qed.

Lemma required_string_ok (p m s : string) : s <> "" -> required_string p m (Some s) = [].
Proof. intros Hs. cbn. by rewrite string_eqb_neq. Qed.

Lemma maxlength_ok (p m : string) (n : nat) (s : string) :
  (String.length s <= n)%nat -> maxlength p m n (Some s) = [].
Proof. unfold maxlength. destruct (Nat.ltb_spec n (String.length s)); [lia | done]. Qed.

Lemma min_number_ok (p m : string) (n : number) :
  num_le (Fin 0) n = true -> min_number p m 0 (Some n) = [].
Proof. unfold min_number. destruct n as [| | |q]; cbn; try done. by intros ->. Qed.

Lemma enum_category_ok (s : string) : s ∈ categories -> enum_category (Some s) = [].
Proof. intros Hs. cbn. by rewrite bool_decide_true. Qed.

Lemma category_not_empty (c : string) : c ∈ categories -> c <> "".
Proof. intros Hc ->. revert Hc. apply (bool_decide_unpack _). by vm_compute. Qed.

Lemma update_agrees_valid (p : product) (u : field_update) :
  product_wf p -> update_agrees p u -> update_validators u = [].
Proof.
  intros (Hn & Hnl & Hd & Hdl & Hc & Hp & _ & _ & Hi & Hs & _) Hu.
  pose proof (category_not_empty _ Hc).
  destruct u; cbn [update_agrees] in Hu; subst; cbn [update_validators];
    unfold name_validators, description_validators, price_validators, stock_validators;
    rewrite ?required_string_ok, ?maxlength_ok, ?enum_category_ok, ?min_number_ok by done;
    reflexivity.
Qed.

Lemma update_agrees_validators (p : product) (us : list field_update) :
  product_wf p -> Forall (update_agrees p) us -> concat (map update_validators us) = [].
Proof.
  intros Hwf. induction 1 as [|u us Hu _ IH]; [done|]. cbn.
  by rewrite (update_agrees_valid p u Hwf Hu), IH.
Qed.

(** Casting a list of fields each of which casts to agreeing updates. *)
Lemma cast_update_agrees (p : product) (fs : list (string * jsval)) :
  Forall (fun f => exists us, cast_update_field f = inr us /\ Forall (update_agrees p) us) fs ->
  exists us, cast_update fs = inr us /\ Forall (update_agrees p) us.
Proof.
  induction 1 as [|f fs (u & Hf & Hu) _ (us & Hfs & Hus)]; [by exists []|].
  exists (u ++ us). cbn. rewrite Hf, Hfs. split; [done|]. by apply Forall_app.
Qed.
