(* ===== verification/UserModel.v ===== *)
(** * UserModel: the [User] model required by [src/backend/routes/auth.js].

    The file [models/User.js] is not part of the sources; this model
    follows the specification (section 3, "User"): a user has a
    store-generated id, an email (unique, case-sensitive as stored), a
    password that a pre-save hook replaces by its one-way hash, a role
    [user] or [admin] (default [user]) and a creation time.  The routes
    rely on three of its behaviours: [new User({...}).save()] (cast,
    validation, hashing, the unique index on [email]),
    [user.comparePassword(candidate)] (bcrypt's [compare], which throws
    on a non-string candidate), and the projection [select('-password')].

    The hash function is an interface, [PasswordHasher]: the routes'
    theorems hold for every instance, and [prefix_hasher] is one for
    concrete runs.  Injectivity is the idealised collision resistance a
    password check relies on. *)

From S2P Require Import Prelude JsRuntime ObjectId ProductModel.

Inductive role := RoleUser | RoleAdmin.

#[export] Instance role_eq_dec : EqDecision role.
Proof. solve_decision. Defined.

Definition role_to_string (r : role) : string :=
  match r with RoleUser => "user" | RoleAdmin => "admin" end.

Record user := mk_user {
  u_id : oid;
  u_email : string;
  u_password : string;
  u_role : role;
  u_createdAt : Z
}.

Class PasswordHasher := {
  pw_hash : string -> string;
  pw_hash_inj : Inj eq eq pw_hash
}.

(** ** [new User({email, password, role}).save()]

    Casting and validation of the two required string paths; the role is
    always one of the two enumeration values when the routes build it.
    On success the document carries the hash of the password. *)
Definition user_validation (email password : jsval) : exn + (string * string) :=
  let cast_errs_email := match cast_string "email" email with
                         | inl e => [("email", exn_message e)] | inr _ => [] end in
  let cast_errs_pw := match cast_string "password" password with
                      | inl e => [("password", exn_message e)] | inr _ => [] end in
  let em := match cast_string "email" email with inr (Some s) => Some s | _ => None end in
  let pw := match cast_string "password" password with inr (Some s) => Some s | _ => None end in
  let errs := cast_errs_email ++ cast_errs_pw ++
              required_string "email" "Path `email` is required." em ++
              required_string "password" "Path `password` is required." pw in
  match errs, em, pw with
  | [], Some e, Some p => inr (e, p)
  | _, _, _ => inl (validation_error "User validation failed: " errs)
  end.

Definition save_user `{PasswordHasher} (email password : jsval) (r : role) (id : oid)
    (now : Z) : exn + user :=
  match user_validation email password with
  | inl e => inl e
  | inr (e, p) => inr (mk_user id e (pw_hash p) r now)
  end.

(** [user.comparePassword(candidate)]: [bcrypt.compare(candidate,
    this.password)]. *)
Definition compare_password `{PasswordHasher} (u : user) (candidate : jsval) : exn + bool :=
  match candidate with
  | JStr c => inr (bool_decide (pw_hash c = u_password u))
  | _ => inl (mk_exn "Error" ("Illegal arguments: " +:+ to_js_string candidate +:+ ", string"))
  end.

(** The duplicate-key error of the unique index on [email]. *)
Definition duplicate_email_error (email : string) : exn :=
  mk_exn "MongoServerError"
    ("E11000 duplicate key error collection: users index: email_1 dup key: { email: "
     +:+ quoted email +:+ " }").

Lemma save_user_ok `{PasswordHasher} (e p : string) (r : role) (id now : Z) :
  e <> "" -> p <> "" ->
  save_user (JStr e) (JStr p) r id now = inr (mk_user id e (pw_hash p) r now).
Proof.
  intros He Hp. unfold save_user, user_validation. cbn [cast_string].
  unfold required_string. rewrite !string_eqb_neq by done. reflexivity.
Qed.

(** a user document with a non-empty email and password saves,
    with the password stored as its hash and the role given. *)
Theorem save_user_strings `{PasswordHasher} (e p : string) (r : role) (id now : Z) :
  e <> "" -> p <> "" ->
  save_user (JStr e) (JStr p) r id now = inr (mk_user id e (pw_hash p) r now).
Proof. apply save_user_ok. Qed.

(** A concrete hasher for concrete runs. *)
Definition prefix_hash (p : string) : string := "$2a$10$" +:+ p.

#[export] Program Instance prefix_hasher : PasswordHasher := {| pw_hash := prefix_hash |}.
