(* ===== verification/Query.v ===== *)
(** * Query: the product filter, the sort order, and what the store does
    with them.

    [GET /api/products] builds a MongoDB filter object ([query]) and a
    sort object ([sortOptions]) and hands them to
    [Product.find(query).sort(sortOptions).skip(..).limit(..)] and
    [Product.countDocuments(query)].  The two objects are data here,
    [product_query] and [sort_spec], shaped as the handler builds them.

    The store is an external collaborator; what the handler's theorems
    need of it is stated as the interface [QueryEngine]:
    - [engine_regex p s] is MongoDB's case-insensitive [$regex] test of
      pattern [p] on [s] ([None] when the pattern does not compile), and
      on a pattern without metacharacters it is case-insensitive
      substring search;
    - [engine_sort spec l] returns a permutation of [l] ordered by the
      sort key, in any order among equal keys (MongoDB does not promise
      one).
    [merge_sort_engine] implements the interface.

    The matching of a document follows MongoDB's comparison rules for
    numbers: an operand [NaN] matches only a [NaN] field under [$gte],
    and a [NaN] field satisfies no bound but [NaN]; the infinities
    compare as usual. *)

From S2P Require Import Prelude JsRuntime ObjectId ProductModel.

(** ** The filter and sort objects *)

(** [query.price = {}] filled with [$gte] and/or [$lte]. *)
Record price_range := mk_range {
  pr_gte : option number;
  pr_lte : option number
}.

Record product_query := mk_query {
  q_category : option string;       (* query.category *)
  q_price : option price_range;     (* query.price *)
  q_rating : option number;         (* query.rating = { $gte } *)
  q_search : option jsval           (* query.$or of the two $regex *)
}.

Definition empty_query : product_query := mk_query None None None None.

(** [sortOptions]: one key and its direction, [1] or [-1]. *)
Definition sort_spec := (string * Z)%type.

(** ** Comparing numbers as MongoDB does *)

(** The total order of numbers in a sort: NaN first, then -Infinity,
    the finite values, and +Infinity. *)
Definition num_rank (a : number) : Z :=
  match a with NaN => 0 | NegInf => 1 | Fin _ => 2 | PosInf => 3 end%Z.

Definition num_cmp (a b : number) : comparison :=
  match a, b with
  | Fin x, Fin y => (x ?= y)%Q
  | _, _ => Z.compare (num_rank a) (num_rank b)
  end.

(** [field >= bound] and [field <= bound] in a filter. *)
Definition mongo_gte (field bound : number) : bool :=
  if is_nan field || is_nan bound then is_nan field && is_nan bound
  else negb (bool_decide (num_cmp field bound = Lt)).

Definition mongo_lte (field bound : number) : bool :=
  if is_nan field || is_nan bound then is_nan field && is_nan bound
  else negb (bool_decide (num_cmp field bound = Gt)).

Definition range_matches (r : price_range) (n : number) : bool :=
  match pr_gte r, pr_lte r with
  | None, None => false
  | g, l =>
      match g with Some b => mongo_gte n b | None => true end &&
      match l with Some b => mongo_lte n b | None => true end
  end.

(** ** Case-insensitive search *)

Definition regex_metachars : list Ascii.ascii :=
  ["\"; "^"; "$"; "."; "|"; "?"; "*"; "+"; "("; ")"; "["; "]"; "{"; "}"]%char.

Definition literal_pattern (p : string) : bool :=
  forallb (fun c => negb (bool_decide (c ∈ regex_metachars))) (String.list_ascii_of_string p).

Fixpoint contains_chars (p s : list Ascii.ascii) : bool :=
  match s with
  | [] => bool_decide (p = [])
  | _ :: s' => bool_decide (p `prefix_of` s) || contains_chars p s'
  end.

Definition ci_contains (p s : string) : bool :=
  contains_chars (String.list_ascii_of_string (to_lower p))
                 (String.list_ascii_of_string (to_lower s)).

(** ** Sort keys *)

Definition sort_field (key : string) (p : product) : number + Z :=
  if String.eqb key "price" then inl (p_price p)
  else if String.eqb key "rating" then inl (p_rating p)
  else inr (p_createdAt p).

Definition field_cmp (a b : number + Z) : comparison :=
  match a, b with
  | inl x, inl y => num_cmp x y
  | inr x, inr y => Z.compare x y
  | inl _, inr _ => Lt
  | inr _, inl _ => Gt
  end.

(** The comparison of two documents under a sort object. *)
Definition sort_cmp (s : sort_spec) (a b : product) : comparison :=
  let c := field_cmp (sort_field s.1 a) (sort_field s.1 b) in
  if (s.2 <? 0)%Z then CompOpp c else c.

Definition sort_le (s : sort_spec) (a b : product) : Prop := sort_cmp s a b <> Gt.

#[export] Instance sort_le_dec (s : sort_spec) : RelDecision (sort_le s).
Proof. intros a b. unfold sort_le. apply _. Defined.

(** ** The store's query engine *)

Class QueryEngine := {
  engine_regex : string -> string -> option bool;
  engine_regex_literal : forall p s,
    literal_pattern p = true -> engine_regex p s = Some (ci_contains p s);
  engine_sort : sort_spec -> list product -> list product;
  engine_sort_perm : forall s l, engine_sort s l ≡ₚ l;
  engine_sort_sorted : forall s l, StronglySorted (sort_le s) (engine_sort s l)
}.

(** [name] or [description] matches the [$regex] (with [$options: 'i']).
    A search value that is not a string cannot be cast to a pattern. *)
Definition search_matches `{QueryEngine} (search : jsval) (p : product) : exn + bool :=
  match search with
  | JStr pat =>
      match engine_regex pat (p_name p), engine_regex pat (p_description p) with
      | Some a, Some b => inr (a || b)
      | _, _ => inl (mk_exn "MongoServerError" "Regular expression is invalid")
      end
  | _ => inl (cast_error "string" "$regex" search)
  end.

Definition product_matches `{QueryEngine} (q : product_query) (p : product) : exn + bool :=
  let base :=
    match q_category q with Some c => String.eqb (p_category p) c | None => true end &&
    match q_price q with Some r => range_matches r (p_price p) | None => true end &&
    match q_rating q with Some b => mongo_gte (p_rating p) b | None => true end in
  match q_search q with
  | Some s =>
      match search_matches s p with
      | inl e => inl e
      | inr b => inr (base && b)
      end
  | None => inr base
  end.

(** Before a query runs, Mongoose casts each condition to its path's
    schema type, in the order of the filter's keys: [castNumber] refuses
    [NaN] (so [Number('abc')] as a price or rating bound rejects the
    query with a CastError, whatever the collection holds), and a
    [$regex] operand must be a string. *)
Definition cast_bound (path : string) (b : option number) : option exn :=
  match b with
  | Some n => if is_nan n then Some (cast_error "Number" path (JNum n)) else None
  | None => None
  end.

Definition cast_query (q : product_query) : option exn :=
  match q_price q with
  | Some r => match cast_bound "price" (pr_gte r) with
              | Some e => Some e
              | None => cast_bound "price" (pr_lte r)
              end
  | None => None
  end
  ∪ cast_bound "rating" (q_rating q)
  ∪ match q_search q with
    | Some (JStr _) | None => None
    | Some v => Some (cast_error "string" "$regex" v)
    end.

(** The documents that match, in the collection's order. *)
Fixpoint filter_list `{QueryEngine} (q : product_query) (l : list product)
    : exn + list product :=
  match l with
  | [] => inr []
  | p :: r =>
      match product_matches q p, filter_list q r with
      | inl e, _ | _, inl e => inl e
      | inr true, inr r' => inr (p :: r')
      | inr false, inr r' => inr r'
      end
  end.

Definition filter_products `{QueryEngine} (q : product_query) (l : list product)
    : exn + list product :=
  match cast_query q with
  | Some e => inl e
  | None => filter_list q l
  end.

Lemma filter_products_spec `{QueryEngine} (q : product_query) (l m : list product) :
  filter_products q l = inr m ->
  forall p, p ∈ m <-> p ∈ l /\ product_matches q p = inr true.
Proof.
  unfold filter_products. destruct (cast_query q); [discriminate|].
  revert m. induction l as [|x l IH]; intros m Hf p; cbn [filter_list] in Hf.
  - injection Hf as <-. split; [intros Hp; by apply not_elem_of_nil in Hp|].
    intros [Hp _]. by apply not_elem_of_nil in Hp.
  - destruct (product_matches q x) as [e|b] eqn:Hx; [discriminate|].
    destruct (filter_list q l) as [e'|r]; [by destruct b|].
    pose proof (IH r eq_refl p) as IHp.
    destruct b; injection Hf as <-; rewrite ?elem_of_cons, IHp; split.
    + intros [->|[? ?]]; auto.
    + intros [[->|?] ?]; auto.
    + intros [? ?]; auto.
    + intros [[->|?] ?]; [congruence | auto].
Qed.

(** [skip] and [limit] as the server accepts them: integral values, a
    negative [limit] meaning its absolute value and [0] meaning none. *)
Definition to_count (n : number) : option Z :=
  match n with
  | Fin q => if Qeq_bool (inject_Z (Qfloor q)) q then Some (Qfloor q) else None
  | _ => None
  end.

Definition bad_value (what : string) : exn :=
  mk_exn "MongoServerError" (what +:+ " must be an integer").

Definition apply_skip_limit {A} (skip limit : number) (l : list A) : exn + list A :=
  match to_count skip, to_count limit with
  | Some s, Some n =>
      if (s <? 0)%Z then inl (mk_exn "MongoServerError" "skip value must be non-negative")
      else let rest := drop (Z.to_nat s) l in
           inr (if (n =? 0)%Z then rest else take (Z.to_nat (Z.abs n)) rest)
  | None, _ => inl (bad_value "skip")
  | _, None => inl (bad_value "limit")
  end.

Lemma apply_skip_limit_sublist {A} (sk n : number) (l r : list A) :
  apply_skip_limit sk n l = inr r -> sublist r l.
Proof.
  unfold apply_skip_limit.
  destruct (to_count sk) as [a|], (to_count n) as [b|]; try discriminate.
  destruct (a <? 0)%Z; [discriminate|]. intros Hr. injection Hr as <-.
  destruct (b =? 0)%Z.
  - rewrite <-(take_drop (Z.to_nat a) l) at 2. by apply sublist_inserts_l.
  - apply window_sublist.
Qed.

(** ** The interface implemented with stdpp's merge sort *)

Lemma num_cmp_antisym (a b : number) : num_cmp b a = CompOpp (num_cmp a b).
Proof.
  destruct a, b; simpl; try reflexivity; symmetry; apply Qcompare_antisym.
Qed.

Lemma num_cmp_trans_le (a b c : number) :
  num_cmp a b <> Gt -> num_cmp b c <> Gt -> num_cmp a c <> Gt.
Proof.
  destruct a, b, c; cbn [num_cmp num_rank Z.compare Pos.compare Pos.compare_cont]; try congruence.
  rewrite <-!Qle_alt. apply Qle_trans.
Qed.

Lemma field_cmp_antisym (a b : number + Z) : field_cmp b a = CompOpp (field_cmp a b).
Proof.
  destruct a, b; simpl; auto using num_cmp_antisym, Z.compare_antisym.
Qed.

Lemma field_cmp_trans_le (a b c : number + Z) :
  field_cmp a b <> Gt -> field_cmp b c <> Gt -> field_cmp a c <> Gt.
Proof.
  destruct a, b, c; cbn [field_cmp]; try congruence; eauto using num_cmp_trans_le.
  rewrite !Z.compare_le_iff. lia.
Qed.

Lemma sort_cmp_antisym (s : sort_spec) (a b : product) :
  sort_cmp s b a = CompOpp (sort_cmp s a b).
Proof.
  unfold sort_cmp. rewrite field_cmp_antisym.
  destruct (_ <? 0)%Z; [by rewrite !CompOpp_involutive | done].
Qed.

#[export] Instance sort_le_total (s : sort_spec) : Total (sort_le s).
Proof.
  intros a b. unfold sort_le. rewrite (sort_cmp_antisym s a b).
  destruct (sort_cmp s a b); simpl; auto; discriminate.
Qed.

#[export] Instance sort_le_trans (s : sort_spec) : Transitive (sort_le s).
Proof.
  intros a b c. unfold sort_le, sort_cmp.
  destruct (_ <? 0)%Z.
  - rewrite <-!field_cmp_antisym. intros Hab Hbc.
    eapply field_cmp_trans_le; [exact Hbc | exact Hab].
  - apply field_cmp_trans_le.
Qed.

#[export] Program Instance merge_sort_engine : QueryEngine := {|
  engine_regex p s := if literal_pattern p then Some (ci_contains p s) else None;
  engine_sort s l := merge_sort (sort_le s) l
|}.
Next Obligation. intros p s Hp. simpl. by rewrite Hp. Qed.
Next Obligation. intros s l. apply merge_sort_Permutation. Qed.
Next Obligation.
  intros s l. apply Sorted_StronglySorted; [apply _|].
  apply Sorted_merge_sort, _.
Qed.
