(* ===== verification/Program.v ===== *)
(** * Program: route handlers as programs over store operations.

    Every handler of [src/backend/routes] is an [async] function whose
    only suspension points are the awaited calls to the document store
    (and the clock read by [jwt.sign], [jwt.verify] and [Date.now]).  A
    handler is modelled as a [prog]: a tree whose nodes are those calls
    ([Call op k], with [k] the rest of the handler, which receives the
    call's outcome) and whose leaves are a returned value or a thrown
    error.  Keeping the calls explicit is what lets [Store] run a
    handler against a store, and lets interleavings of two handlers be
    written as a schedule of their calls (spec section 5: every store
    call is a suspension point, and nothing orders concurrent requests).

    [bind] is [await]-sequencing, [try_catch] is a [try { } catch (e) { }]
    block around a program, and the notation [x <- p ;; k] of
    [shop_scope] writes handlers in the order of the source. *)

From S2P Require Import Prelude JsRuntime ObjectId ProductModel UserModel Query.

(** ** The calls a handler can await *)

Inductive dbop :=
| OpNow                                          (* Date.now() *)
| OpUserFindById (id : jsval)                    (* User.findById(id) *)
| OpUserFindOne (email : jsval)                  (* User.findOne({ email }) *)
| OpUserSave (email password : jsval) (r : role) (* new User({...}).save() *)
| OpComparePassword (u : user) (candidate : jsval) (* user.comparePassword(..) *)
| OpProductFindById (id : jsval)                 (* Product.findById(id) *)
| OpProductFind (q : product_query) (s : sort_spec) (skip : number) (limit : jsval)
| OpProductCount (q : product_query)             (* Product.countDocuments(q) *)
| OpProductSave (obj : jsval)                    (* new Product(obj).save() *)
| OpProductUpdate (id : jsval) (upd : list (string * jsval))
                                                 (* findByIdAndUpdate(id, upd, {new, runValidators}) *)
| OpProductDelete (id : jsval).                  (* findByIdAndDelete(id) *)

Definition answer (op : dbop) : Type :=
  match op with
  | OpNow => Z
  | OpUserFindById _ | OpUserFindOne _ => option user
  | OpUserSave _ _ _ => user
  | OpComparePassword _ _ => bool
  | OpProductFindById _ | OpProductUpdate _ _ | OpProductDelete _ => option product
  | OpProductFind _ _ _ _ => list product
  | OpProductCount _ => nat
  | OpProductSave _ => product
  end.

(** ** Programs *)

Inductive prog (A : Type) : Type :=
| Ret (a : A)
| Throw (e : exn)
| Call (op : dbop) (k : exn + answer op -> prog A).

Arguments Ret {A} a.
Arguments Throw {A} e.
Arguments Call {A} op k.

Fixpoint bind {A B} (p : prog A) (f : A -> prog B) : prog B :=
  match p with
  | Ret a => f a
  | Throw e => Throw e
  | Call op k => Call op (fun r => bind (k r) f)
  end.

(** [try { p } catch (e) { h(e) }] *)
Fixpoint try_catch {A} (p : prog A) (h : exn -> prog A) : prog A :=
  match p with
  | Ret a => Ret a
  | Throw e => h e
  | Call op k => Call op (fun r => try_catch (k r) h)
  end.

(** [await op]: the call's value, or its error thrown at the await. *)
Definition call (op : dbop) : prog (answer op) :=
  Call op (fun r => match r with inl e => Throw e | inr a => Ret a end).

(** A synchronous step that may throw ([toLowerCase] on a non-string). *)
Definition lift {A} (r : exn + A) : prog A :=
  match r with inl e => Throw e | inr a => Ret a end.

Notation "x <- p ;; k" := (bind p (fun x => k))
  (at level 100, p at next level, right associativity) : shop_scope.

Open Scope shop_scope.

(** [prog_all P p]: every value [p] can return satisfies [P], whatever
    the store answers to its calls. *)
Fixpoint prog_all {A} (P : A -> Prop) (p : prog A) : Prop :=
  match p with
  | Ret a => P a
  | Throw _ => True
  | Call op k => forall r, prog_all P (k r)
  end.

(** ** Monad laws, used to normalise handler compositions *)

Lemma bind_ret_l {A B} (a : A) (f : A -> prog B) : bind (Ret a) f = f a.
Proof. reflexivity. Qed.

Lemma bind_throw {A B} (e : exn) (f : A -> prog B) : bind (Throw e) f = Throw e.
Proof. reflexivity. Qed.

Lemma try_catch_ret {A} (a : A) (h : exn -> prog A) : try_catch (Ret a) h = Ret a.
Proof. reflexivity. Qed.

Lemma try_catch_throw {A} (e : exn) (h : exn -> prog A) : try_catch (Throw e) h = h e.
Proof. reflexivity. Qed.

#[export] Hint Rewrite @bind_ret_l @bind_throw @try_catch_ret @try_catch_throw : shop_simpl.

Lemma prog_all_bind {A B} (P : B -> Prop) (p : prog A) (f : A -> prog B) :
  (forall a, prog_all P (f a)) -> prog_all P (bind p f).
Proof. intros Hf. induction p; simpl; auto. Qed.

Lemma prog_all_bind_inv {A B} (Q : A -> Prop) (P : B -> Prop) (p : prog A) (f : A -> prog B) :
  prog_all Q p -> (forall a, Q a -> prog_all P (f a)) -> prog_all P (bind p f).
Proof. intros Hp Hf. induction p; simpl in *; auto. Qed.

Lemma prog_all_try_catch {A} (P : A -> Prop) (p : prog A) (h : exn -> prog A) :
  prog_all P p -> (forall e, prog_all P (h e)) -> prog_all P (try_catch p h).
Proof. intros Hp Hh. induction p; simpl in *; auto. Qed.

Lemma prog_all_lift {A} (P : A -> Prop) (r : exn + A) :
  (forall a, r = inr a -> P a) -> prog_all P (lift r).
Proof. destruct r; simpl; auto. Qed.

(** Walks a handler's program down to its returns. *)
Ltac prog_all_walk :=
  repeat first
    [ apply prog_all_try_catch
    | apply prog_all_bind
    | progress cbn [prog_all]
    | intro
    | case_match ].
