(* ===== verification/Store.v ===== *)
(** * Store: the document store the handlers await.

    The store is an external collaborator (MongoDB behind Mongoose).  Its
    state is the two collections as finite maps from ObjectId to
    document, the next ObjectId, the clock, and whether the connection
    is up.  [run_op] gives each awaited call of [Program.dbop] its
    outcome: a value, or the error the call rejects with (a [CastError]
    for a malformed id or filter value, a [ValidationError] from the
    schema validators, the duplicate-key error of the unique [email]
    index, a server error for a bad [skip]/[limit]/[$regex], or a
    timeout while the connection is down).  [run] executes a whole
    handler sequentially; each call is atomic, which is MongoDB's
    per-document atomicity (spec section 5).

    The filter [{ email }] of [User.findOne] is cast as Mongoose casts a
    filter on a [String] path: a plain value is compared for equality
    after casting to a string, an array becomes [$in], and an object of
    query operators ([$eq], [$ne], [$gt], [$gte], [$lt], [$lte], [$in],
    [$nin], [$exists]) is applied as such, since [sanitizeFilter] is not
    enabled.  The first matching user is the one with the least id. *)

From S2P Require Import Prelude JsRuntime ObjectId ProductModel UserModel Query.
From S2P Require Import Program.

Record store := mk_store {
  st_users : gmap oid user;
  st_products : gmap oid product;
  st_next : oid;
  st_clock : Z;
  st_up : bool
}.

Definition disconnected : exn :=
  mk_exn "MongooseError" "Operation buffering timed out after 10000ms".

(** ** The email filter of [User.findOne({ email })] *)

Definition email_cast (v : jsval) : exn + option string := cast_string "email" v.

Definition cmp_op (op : string) (a e : string) : bool :=
  if String.eqb op "$eq" then String.eqb e a
  else if String.eqb op "$ne" then negb (String.eqb e a)
  else if String.eqb op "$gt" then String.ltb a e
  else if String.eqb op "$gte" then negb (String.ltb e a)
  else if String.eqb op "$lt" then String.ltb e a
  else negb (String.ltb a e).

Definition email_in (arg : jsval) (e : string) : exn + bool :=
  match arg with
  | JArr xs =>
      foldr (fun x acc =>
               match acc, email_cast x with
               | inl err, _ | _, inl err => inl err
               | inr b, inr (Some a) => inr (b || String.eqb e a)
               | inr b, inr None => inr b
               end) (inr false) xs
  | _ => inl (mk_exn "MongoServerError" "$in needs an array")
  end.

(** One operator of an operator object, applied to a stored email. *)
Definition email_operator (op : string) (arg : jsval) (e : string) : exn + bool :=
  if bool_decide (op ∈ ["$eq"; "$ne"; "$gt"; "$gte"; "$lt"; "$lte"]) then
    match email_cast arg with
    | inl err => inl err
    | inr (Some a) => inr (cmp_op op a e)
    | inr None => inr (String.eqb op "$ne")
    end
  else if String.eqb op "$in" then email_in arg e
  else if String.eqb op "$nin" then
    match email_in arg e with inl err => inl err | inr b => inr (negb b) end
  else if String.eqb op "$exists" then inr (truthy arg)
  else inl (mk_exn "MongoServerError" ("unknown operator: " +:+ op)).

Definition is_operator (k : string) : bool :=
  match String.get 0 k with Some c => Ascii.eqb c "$" | None => false end.

Definition email_filter (f : jsval) (e : string) : exn + bool :=
  match f with
  | JArr _ => email_in f e
  | JObj fs =>
      if forallb (fun '(k, _) => is_operator k) fs && negb (bool_decide (fs = []))
      then foldr (fun '(k, v) acc =>
                    match acc, email_operator k v e with
                    | inl err, _ | _, inl err => inl err
                    | inr b, inr b' => inr (b && b')
                    end) (inr true) fs
      else match email_cast f with
           | inl err => inl err
           | inr (Some a) => inr (String.eqb e a)
           | inr None => inr false
           end
  | _ =>
      match email_cast f with
      | inl err => inl err
      | inr (Some a) => inr (String.eqb e a)
      | inr None => inr false
      end
  end.

(** The users in id order, the natural order of ObjectIds. *)
Definition user_id_le (u v : user) : Prop := (u_id u <= u_id v)%Z.

#[export] Instance user_id_le_dec : RelDecision user_id_le.
Proof. intros u v. unfold user_id_le. apply _. Defined.

Definition users_by_id (s : store) : list user :=
  merge_sort user_id_le (map snd (map_to_list (st_users s))).

Fixpoint first_match (f : jsval) (us : list user) : exn + option user :=
  match us with
  | [] => inr None
  | u :: r =>
      match email_filter f (u_email u) with
      | inl err => inl err
      | inr true => inr (Some u)
      | inr false => first_match f r
      end
  end.

Definition email_taken (s : store) (e : string) : bool :=
  existsb (fun u => String.eqb (u_email u) e) (map snd (map_to_list (st_users s))).

(** ** One call *)

Section Run.
Context `{PasswordHasher} `{QueryEngine}.

Definition lookup_id {A} (m : gmap oid A) (id : jsval) : exn + option A :=
  match cast_oid id with
  | IdCastError e => inl e
  | IdNone => inr None
  | IdSome o => inr (m !! o)
  end.

(** [Query.prototype.limit] casts a string argument to a number. *)
Definition cast_limit (v : jsval) : exn + number :=
  match v with
  | JStr _ => match cast_number "limit" v with
              | inr (Some n) => inr n
              | inr None => inr (Fin 0)
              | inl _ => inl (cast_error "Number" "limit" v)
              end
  | JNum n => inr n
  | _ => inl (cast_error "Number" "limit" v)
  end.

Definition run_op (op : dbop) (s : store) : (exn + answer op) * store :=
  match op as o return (exn + answer o) * store with
  | OpNow => (inr (st_clock s), s)
  | OpComparePassword u c => (compare_password u c, s)
  | op' =>
      if negb (st_up s) then (inl disconnected, s) else
      match op' as o return (exn + answer o) * store with
      | OpUserFindById id => (lookup_id (st_users s) id, s)
      | OpUserFindOne f => (first_match f (users_by_id s), s)
      | OpUserSave em pw r =>
          match save_user em pw r (st_next s) (st_clock s) with
          | inl e => (inl e, s)
          | inr u =>
              if email_taken s (u_email u) then (inl (duplicate_email_error (u_email u)), s)
              else (inr u, mk_store (<[u_id u := u]> (st_users s)) (st_products s)
                                    (st_next s + 1)%Z (st_clock s) (st_up s))
          end
      | OpProductFindById id => (lookup_id (st_products s) id, s)
      | OpProductFind q so sk lim =>
          match cast_limit lim with
          | inl e => (inl e, s)
          | inr n =>
              match filter_products q (map snd (map_to_list (st_products s))) with
              | inl e => (inl e, s)
              | inr l => (apply_skip_limit sk n (engine_sort so l), s)
              end
          end
      | OpProductCount q =>
          match filter_products q (map snd (map_to_list (st_products s))) with
          | inl e => (inl e, s)
          | inr l => (inr (length l), s)
          end
      | OpProductSave obj =>
          match save_product obj (st_next s) (st_clock s) with
          | inl e => (inl e, s)
          | inr p => (inr p, mk_store (st_users s) (<[p_id p := p]> (st_products s))
                                      (st_next s + 1)%Z (st_clock s) (st_up s))
          end
      | OpProductUpdate id upd =>
          match cast_oid id with
          | IdCastError e => (inl e, s)
          | c =>
              match cast_update upd with
              | inl e => (inl e, s)
              | inr us =>
                  match concat (map update_validators us) with
                  | _ :: _ as errs => (inl (validation_error "Validation failed: " errs), s)
                  | [] =>
                      match c with
                      | IdSome o =>
                          match st_products s !! o with
                          | Some p =>
                              let p' := apply_update p us in
                              (inr (Some p'), mk_store (st_users s) (<[o := p']> (st_products s))
                                                        (st_next s) (st_clock s) (st_up s))
                          | None => (inr None, s)
                          end
                      | _ => (inr None, s)
                      end
                  end
              end
          end
      | OpProductDelete id =>
          match cast_oid id with
          | IdCastError e => (inl e, s)
          | IdSome o =>
              match st_products s !! o with
              | Some p => (inr (Some p), mk_store (st_users s) (delete o (st_products s))
                                                  (st_next s) (st_clock s) (st_up s))
              | None => (inr None, s)
              end
          | IdNone => (inr None, s)
          end
      | OpNow => (inr (st_clock s), s)
      | OpComparePassword u c => (compare_password u c, s)
      end
  end.

(** A handler run to completion against a store. *)
Fixpoint run {A} (p : prog A) (s : store) : (exn + A) * store :=
  match p with
  | Ret a => (inr a, s)
  | Throw e => (inl e, s)
  | Call op k => let '(r, s') := run_op op s in run (k r) s'
  end.

Lemma run_bind {A B} (p : prog A) (f : A -> prog B) (s : store) :
  run (bind p f) s =
  match run p s with
  | (inr a, s') => run (f a) s'
  | (inl e, s') => (inl e, s')
  end.
Proof.
  revert s. induction p as [a|e|op k IH]; intros s; simpl; auto.
  destruct (run_op op s) as [r s']. apply IH.
Qed.

Lemma run_try_catch {A} (p : prog A) (h : exn -> prog A) (s : store) :
  run (try_catch p h) s =
  match run p s with
  | (inr a, s') => (inr a, s')
  | (inl e, s') => run (h e) s'
  end.
Proof.
  revert s. induction p as [a|e|op k IH]; intros s; simpl; auto.
  destruct (run_op op s) as [r s']. apply IH.
Qed.

Lemma run_call (op : dbop) (s : store) :
  run (call op) s = run_op op s.
Proof. simpl. by destruct (run_op op s) as [[e|a] s']. Qed.

Lemma run_prog_all {A} (P : A -> Prop) (p : prog A) (s s' : store) (a : A) :
  prog_all P p -> run p s = (inr a, s') -> P a.
Proof.
  revert s. induction p as [a'|e|op k IH]; intros s Hp Hrun; simpl in *.
  - by injection Hrun as <- _.
  - discriminate.
  - destruct (run_op op s) as [r s1]. eapply IH; eauto.
Qed.

(** ** Programs that always answer

    [answers p]: from every store, [p] ends in a value, never in an
    error that nothing caught.  A [try { } catch] whose handler answers
    answers, whatever its body does. *)

Definition answers {A} (p : prog A) : Prop := forall s, exists a s', run p s = (inr a, s').

Lemma answers_ret {A} (a : A) : answers (Ret a).
Proof. intros s. by exists a, s. Qed.

Lemma answers_try_catch {A} (p : prog A) (h : exn -> prog A) :
  (forall e, answers (h e)) -> answers (try_catch p h).
Proof.
  intros Hh s. rewrite run_try_catch. destruct (run p s) as [[e|a] s']; [apply Hh|by exists a, s'].
Qed.

Lemma answers_bind {A B} (p : prog A) (f : A -> prog B) :
  answers p -> (forall a, answers (f a)) -> answers (bind p f).
Proof.
  intros Hp Hf s. rewrite run_bind. destruct (Hp s) as [a [s' ->]]. apply Hf.
Qed.

(** ** Lookups the handlers' theorems rely on *)

Lemma email_filter_str (e x : string) : email_filter (JStr e) x = inr (String.eqb x e).
Proof. reflexivity. Qed.

Lemma first_match_str (e : string) (us : list user) :
  first_match (JStr e) us = inr (head (filter (fun u => u_email u = e) us)).
Proof.
  induction us as [|u us IH]; [done|]. cbn [first_match]. rewrite email_filter_str.
  rewrite filter_cons. destruct (String.eqb_spec (u_email u) e); simpl.
  - by rewrite decide_True.
  - rewrite decide_False by done. apply IH.
Qed.

Lemma elem_of_users_by_id (s : store) (u : user) :
  u ∈ users_by_id s <-> exists k, st_users s !! k = Some u.
Proof.
  unfold users_by_id. rewrite (merge_sort_Permutation _ _).
  rewrite list_elem_of_fmap. split.
  - intros [[k v] [-> Hin]]. apply elem_of_map_to_list in Hin. by exists k.
  - intros [k Hk]. exists (k, u). split; [done|]. by apply elem_of_map_to_list.
Qed.

(** [User.findOne({ email })] with a string email answers the first
    user (in id order) with that email, and [None] when there is none. *)
Lemma find_one_str_none (s : store) (e : string) :
  (forall k u, st_users s !! k = Some u -> u_email u <> e) ->
  first_match (JStr e) (users_by_id s) = inr None.
Proof.
  intros Hn. rewrite first_match_str.
  destruct (filter _ _) as [|u r] eqn:Hf; [done|]. exfalso.
  assert (Hu : u ∈ filter (fun u => u_email u = e) (users_by_id s)) by (rewrite Hf; left).
  apply list_elem_of_filter in Hu as [He Hu]. apply elem_of_users_by_id in Hu as [k Hk].
  by apply (Hn k u).
Qed.

Lemma find_one_str_some (s : store) (e : string) (u : user) :
  first_match (JStr e) (users_by_id s) = inr (Some u) ->
  u_email u = e /\ exists k, st_users s !! k = Some u.
Proof.
  rewrite first_match_str. intros Hf. injection Hf as Hf.
  destruct (filter _ _) as [|v r] eqn:E; simplify_eq/=.
  assert (Hu : u ∈ filter (fun u => u_email u = e) (users_by_id s)) by (rewrite E; left).
  apply list_elem_of_filter in Hu as [He Hu]. split; [done|]. by apply elem_of_users_by_id.
Qed.

Lemma find_one_unique (s : store) (e : string) (u : user) :
  st_users s !! u_id u = Some u -> u_email u = e ->
  (forall id v, st_users s !! id = Some v -> u_email v = e -> v = u) ->
  first_match (JStr e) (users_by_id s) = inr (Some u).
Proof.
  intros Hu He Huniq. rewrite first_match_str.
  destruct (filter _ _) as [|v r] eqn:Hf.
  - exfalso. assert (Hin : u ∈ filter (fun u => u_email u = e) (users_by_id s)).
    { apply list_elem_of_filter. split; [done|]. apply elem_of_users_by_id. by eexists. }
    rewrite Hf in Hin. by apply not_elem_of_nil in Hin.
  - assert (Hv : v ∈ filter (fun u => u_email u = e) (users_by_id s)) by (rewrite Hf; left).
    apply list_elem_of_filter in Hv as [Hve Hv]. apply elem_of_users_by_id in Hv as [id Hid].
    cbn. by rewrite (Huniq id v Hid Hve).
Qed.

(** ** The outcome of each call on an available store *)

Lemma run_op_now (s : store) : run_op OpNow s = (inr (st_clock s), s).
Proof. reflexivity. Qed.

Lemma run_op_compare (s : store) (u : user) (c : jsval) :
  run_op (OpComparePassword u c) s = (compare_password u c, s).
Proof. reflexivity. Qed.

Lemma run_op_user_find_by_id (s : store) (id : jsval) :
  st_up s = true -> run_op (OpUserFindById id) s = (lookup_id (st_users s) id, s).
Proof. intros Hup. unfold run_op. by rewrite Hup. Qed.

Lemma run_op_user_find_one (s : store) (f : jsval) :
  st_up s = true -> run_op (OpUserFindOne f) s = (first_match f (users_by_id s), s).
Proof. intros Hup. unfold run_op. by rewrite Hup. Qed.

Lemma run_op_user_save (s : store) (em pw : jsval) (r : role) :
  st_up s = true ->
  run_op (OpUserSave em pw r) s =
    match save_user em pw r (st_next s) (st_clock s) with
    | inl e => (inl e, s)
    | inr u =>
        if email_taken s (u_email u) then (inl (duplicate_email_error (u_email u)), s)
        else (inr u, mk_store (<[u_id u := u]> (st_users s)) (st_products s)
                              (st_next s + 1)%Z (st_clock s) (st_up s))
    end.
Proof. intros Hup. unfold run_op. by rewrite Hup. Qed.

Lemma run_op_product_find (s : store) q so sk lim :
  st_up s = true ->
  run_op (OpProductFind q so sk lim) s =
    (match cast_limit lim with
     | inl e => inl e
     | inr n =>
         match filter_products q (map snd (map_to_list (st_products s))) with
         | inl e => inl e
         | inr l => apply_skip_limit sk n (engine_sort so l)
         end
     end, s).
Proof.
  intros Hup. unfold run_op. rewrite Hup. cbn [negb].
  destruct (cast_limit lim); [done|]. by destruct (filter_products _ _).
Qed.

Lemma run_op_product_count (s : store) q :
  st_up s = true ->
  run_op (OpProductCount q) s =
    (match filter_products q (map snd (map_to_list (st_products s))) with
     | inl e => inl e
     | inr l => inr (length l)
     end, s).
Proof.
  intros Hup. unfold run_op. rewrite Hup. cbn [negb]. by destruct (filter_products _ _).
Qed.

Lemma run_op_product_delete (s : store) (id : jsval) :
  st_up s = true ->
  run_op (OpProductDelete id) s =
    match cast_oid id with
    | IdCastError e => (inl e, s)
    | IdSome o =>
        match st_products s !! o with
        | Some p => (inr (Some p), mk_store (st_users s) (delete o (st_products s))
                                            (st_next s) (st_clock s) (st_up s))
        | None => (inr None, s)
        end
    | IdNone => (inr None, s)
    end.
Proof. intros Hup. unfold run_op. by rewrite Hup. Qed.

Lemma run_op_product_save (s : store) (obj : jsval) :
  st_up s = true ->
  run_op (OpProductSave obj) s =
    match save_product obj (st_next s) (st_clock s) with
    | inl e => (inl e, s)
    | inr p => (inr p, mk_store (st_users s) (<[p_id p := p]> (st_products s))
                                (st_next s + 1)%Z (st_clock s) (st_up s))
    end.
Proof. intros Hup. unfold run_op. by rewrite Hup. Qed.

Lemma run_op_user_find_by_id_down (s : store) (id : jsval) :
  st_up s = false -> run_op (OpUserFindById id) s = (inl disconnected, s).
Proof. intros Hup. unfold run_op. by rewrite Hup. Qed.

Lemma lookup_id_hex {A} (m : gmap oid A) (o : oid) :
  oid_valid o -> lookup_id m (JStr (oid_to_hex o)) = inr (m !! o).
Proof. intros Hv. unfold lookup_id, cast_oid. by rewrite oid_hex_roundtrip. Qed.

Lemma email_taken_false (s : store) (e : string) :
  (forall k u, st_users s !! k = Some u -> u_email u <> e) -> email_taken s e = false.
Proof.
  intros Hn. unfold email_taken. apply Bool.not_true_iff_false. rewrite existsb_exists.
  intros [u [Hin He]]. apply String.eqb_eq in He. apply in_map_iff in Hin as [[k v] [<- Hin]].
  apply (Hn k v); [|done]. apply elem_of_map_to_list, list_elem_of_In, Hin.
Qed.

End Run.

#[export] Hint Resolve answers_ret answers_try_catch answers_bind : shop.
#[export] Hint Rewrite @run_bind @run_try_catch @run_call @run_op_now @run_op_compare
  : shop_simpl.
