(* ===== verification/Seed.v ===== *)
(** * Seed: the script [insertProduct.js].

    The script connects, saves one product built from an object literal
    ([insert_product_data]) with [new Product(..).save()], logs the
    outcome and closes the connection ([insert_product]; connecting,
    logging and closing are I/O and leave the store alone).  The
    literal has [images], an array, where the schema has the required
    string [image]: the save always fails validation, so the script
    never inserts anything ([insert_product_never_stores]). *)

From S2P Require Import Prelude JsRuntime ObjectId ProductModel UserModel Query Program Store.

Open Scope shop_scope.
Local Set Warnings "-register-all".

(** [productData] (lines 9-21): the two ObjectIds as their hexadecimal
    strings and the two [new Date()] as the time [now] in milliseconds. *)
Definition insert_product_data (now : Z) : jsval :=
  JObj [("_id", JStr "67f610d5bab7e0a5ad8f2310");
        ("name", JStr "Sample Product");
        ("description", JStr "This is a sample product description");
        ("price", JNum (Fin (9999 # 100)));
        ("category", JStr "electronics");
        ("images", JArr [JStr "https://example.com/image.jpg"]);
        ("stock", num 50);
        ("rating", JNum (Fin (9 # 2)));
        ("user", JStr "67f610d5bab7e0a5ad8f2310");
        ("createdAt", num now);
        ("updatedAt", num now)].

(** [insertProduct] (lines 24-34): the error of [save()] is caught and
    logged. *)
Definition insert_product (now : Z) : prog unit :=
  try_catch
    (_ <- call (OpProductSave (insert_product_data now)) ;; Ret tt)
    (fun _ => Ret tt).

Lemma save_insert_product_data (now : Z) (id : oid) (t : Z) :
  save_product (insert_product_data now) id t =
    inl (validation_error "Product validation failed: " [("image", "Please provide a product image")]).
Proof. reflexivity. Qed.

Section SeedSpec.
Context `{PasswordHasher} `{QueryEngine} `{Signer}.

(** C38: [insertProduct.js] never inserts its product: the literal has
    no [image], which the schema requires, so [save()] rejects with a
    [ValidationError] that the script catches and logs; with the
    database down the save fails as well.  Either way the store is left
    as it was. *)
Theorem insert_product_never_stores (now : Z) (s : store) :
  run (insert_product now) s = (inr tt, s).
Proof.
  unfold insert_product. rewrite run_try_catch, run_bind, run_call.
  destruct (st_up s) eqn:Hup.
  - rewrite run_op_product_save, save_insert_product_data by done. reflexivity.
  - unfold run_op. rewrite Hup. reflexivity.
Qed.

End SeedSpec.
