(* ===== verification/Jwt.v ===== *)
(** * Jwt: the token library ([jsonwebtoken]) the auth routes call.

    [jwt.sign({ id: user._id }, secret, { expiresIn: '1d' })] issues a
    token carrying the user id, the issue time [iat] and the expiry
    [exp = iat + 86400] (seconds, [iat] being [Math.floor(Date.now() /
    1000)]).  [jwt.verify(token, secret)] decodes it and throws a
    [JsonWebTokenError] when the token is malformed, the secret is
    missing or the signature does not match, and a [TokenExpiredError]
    when the clock has reached [exp]; otherwise it returns the claims.

    The library is external.  Its token is modelled structurally as
    [header.payload.signature]: the payload is the three claims as
    fixed-width hexadecimal fields (standing for the base64url JSON of
    the real token), and the signature is an HMAC of
    [header.payload] under the secret, supplied by the interface
    [Signer] (any keyed function whose output, like base64url, has no
    [.] and no space).  The
    properties the routes need are the round trip
    [jwt_verify (jwt_sign ..)] before expiry and the expiry boundary. *)

From S2P Require Import Prelude JsRuntime ObjectId.

Class Signer := {
  hmac : string -> string -> string;
  hmac_no_dot : forall k d, "."%char ∉ String.list_ascii_of_string (hmac k d);
  hmac_no_space : forall k d, " "%char ∉ String.list_ascii_of_string (hmac k d)
}.

Record claims := mk_claims { c_id : oid; c_iat : Z; c_exp : Z }.

(** [expiresIn: '1d'] *)
Definition one_day_s : Z := 86400.

Definition jwt_header : string := "eyJhbGciOiJIUzI1NiIsInR5cCI6IkpXVCJ9".

Definition encode_claims (c : claims) : string :=
  oid_to_hex (c_id c) +:+ oid_to_hex (c_iat c) +:+ oid_to_hex (c_exp c).

Definition field_at (k : nat) (cs : list Ascii.ascii) : option Z :=
  cast_oid_string (String.string_of_list_ascii (take 24 (drop (24 * k) cs))).

Definition decode_claims (p : string) : option claims :=
  let cs := String.list_ascii_of_string p in
  if (length cs =? 72)%nat then
    id ← field_at 0 cs; iat ← field_at 1 cs; exp ← field_at 2 cs;
    Some (mk_claims id iat exp)
  else None.

Definition jwt_error (msg : string) : exn := mk_exn "JsonWebTokenError" msg.

Definition seconds (now_ms : Z) : Z := (now_ms / 1000)%Z.

Section Jwt.
Context `{Signer}.

Definition jwt_sign (id : oid) (secret : option string) (now_ms : Z) : exn + string :=
  match secret with
  | None => inl (mk_exn "Error" "secretOrPrivateKey must have a value")
  | Some k =>
      let iat := seconds now_ms in
      let body := jwt_header +:+ "." +:+ encode_claims (mk_claims id iat (iat + one_day_s)) in
      inr (body +:+ "." +:+ hmac k body)
  end.

Definition jwt_verify (token : string) (secret : option string) (now_ms : Z) : exn + claims :=
  match js_split "." token with
  | [h; p; sg] =>
      match secret with
      | None => inl (jwt_error "secret or public key must be provided")
      | Some k =>
          if negb (String.eqb (hmac k (h +:+ "." +:+ p)) sg)
          then inl (jwt_error "invalid signature")
          else match decode_claims p with
               | None => inl (jwt_error "invalid token")
               | Some c =>
                   if (c_exp c <=? seconds now_ms)%Z
                   then inl (mk_exn "TokenExpiredError" "jwt expired")
                   else inr c
               end
      end
  | _ => inl (jwt_error "jwt malformed")
  end.

(** ** Decoding what was encoded *)

Lemma length_oid_to_hex_chars (o : oid) :
  length (String.list_ascii_of_string (oid_to_hex o)) = 24%nat.
Proof.
  unfold oid_to_hex. rewrite String.list_ascii_of_string_of_list_ascii.
  by rewrite length_map, length_rev, length_hex_digits_rev.
Qed.

Lemma field_at_app (k : nat) (a rest : list Ascii.ascii) (cs : list Ascii.ascii) :
  length a = 24%nat -> drop (24 * k) cs = a ++ rest ->
  field_at k cs = cast_oid_string (String.string_of_list_ascii a).
Proof.
  intros Ha Hd. unfold field_at. rewrite Hd. by rewrite take_app_length'.
Qed.

Lemma decode_three (a b c : string) (ia ib ic : oid) :
  length (String.list_ascii_of_string a) = 24%nat ->
  length (String.list_ascii_of_string b) = 24%nat ->
  length (String.list_ascii_of_string c) = 24%nat ->
  cast_oid_string a = Some ia -> cast_oid_string b = Some ib -> cast_oid_string c = Some ic ->
  decode_claims (a +:+ b +:+ c) = Some (mk_claims ia ib ic).
Proof.
  intros La Lb Lc Ca Cb Cc. unfold decode_claims.
  rewrite !list_ascii_of_string_app, !length_app, La, Lb, Lc. cbn [Nat.eqb].
  rewrite (field_at_app 0 (String.list_ascii_of_string a) (String.list_ascii_of_string b ++ String.list_ascii_of_string c))
    by (done || by rewrite Nat.mul_0_r, drop_0).
  rewrite (field_at_app 1 (String.list_ascii_of_string b) (String.list_ascii_of_string c)) by
    (done || by rewrite Nat.mul_1_r, drop_app_length' by (rewrite La; reflexivity)).
  rewrite (field_at_app 2 (String.list_ascii_of_string c) []) by
    (done || rewrite ?app_nil_r; replace (24 * 2)%nat with (length (String.list_ascii_of_string a ++
       String.list_ascii_of_string b)) by (rewrite length_app; lia);
     by rewrite app_assoc, drop_app_length).
  rewrite !String.string_of_list_ascii_of_string, Ca, Cb, Cc. reflexivity.
Qed.

Lemma decode_encode_claims (c : claims) :
  oid_valid (c_id c) -> oid_valid (c_iat c) -> oid_valid (c_exp c) ->
  decode_claims (encode_claims c) = Some c.
Proof.
  intros Hi Ha He. destruct c as [i a e]. unfold encode_claims.
  apply decode_three; auto using length_oid_to_hex_chars, oid_hex_roundtrip.
Qed.

(** Every character of a printed id is a lowercase hexadecimal digit. *)
Lemma hex_chars_code (o : oid) (c : Ascii.ascii) :
  c ∈ String.list_ascii_of_string (oid_to_hex o) ->
  (48 <= Ascii.nat_of_ascii c <= 57 \/ 97 <= Ascii.nat_of_ascii c <= 102)%nat.
Proof.
  unfold oid_to_hex. rewrite String.list_ascii_of_string_of_list_ascii.
  intros Hin. apply list_elem_of_fmap in Hin as [d [-> Hin]].
  rewrite list_elem_of_In, <-in_rev, <-list_elem_of_In in Hin.
  pose proof (hex_digits_rev_bounded o oid_digits) as Hb.
  rewrite Forall_forall in Hb. specialize (Hb d Hin).
  unfold hex_char. destruct (Z.ltb_spec d 10);
    rewrite Ascii.nat_ascii_embedding by lia; lia.
Qed.

Lemma hex_chars_no_dot (o : oid) :
  "."%char ∉ String.list_ascii_of_string (oid_to_hex o).
Proof. intros Hin. apply hex_chars_code in Hin. vm_compute in Hin. lia. Qed.

Lemma hex_chars_no_space (o : oid) :
  " "%char ∉ String.list_ascii_of_string (oid_to_hex o).
Proof. intros Hin. apply hex_chars_code in Hin. vm_compute in Hin. lia. Qed.

Lemma header_no_dot : "."%char ∉ String.list_ascii_of_string jwt_header.
Proof. unfold jwt_header. cbn. intros Hin. repeat (apply elem_of_cons in Hin as [Hin|Hin]; [discriminate|]). by apply not_elem_of_nil in Hin. Qed.

Lemma header_no_space : " "%char ∉ String.list_ascii_of_string jwt_header.
Proof. unfold jwt_header. cbn. intros Hin. repeat (apply elem_of_cons in Hin as [Hin|Hin]; [discriminate|]). by apply not_elem_of_nil in Hin. Qed.

Lemma claims_no_space (c : claims) :
  " "%char ∉ String.list_ascii_of_string (encode_claims c).
Proof.
  unfold encode_claims. rewrite !list_ascii_of_string_app.
  rewrite !elem_of_app. pose proof hex_chars_no_space. naive_solver.
Qed.

Lemma claims_no_dot (c : claims) :
  "."%char ∉ String.list_ascii_of_string (encode_claims c).
Proof.
  unfold encode_claims. rewrite !list_ascii_of_string_app.
  rewrite !elem_of_app. pose proof hex_chars_no_dot. naive_solver.
Qed.

Lemma js_split_token (h p sg : string) :
  "."%char ∉ String.list_ascii_of_string h ->
  "."%char ∉ String.list_ascii_of_string p ->
  "."%char ∉ String.list_ascii_of_string sg ->
  js_split "." (h +:+ "." +:+ p +:+ "." +:+ sg) = [h; p; sg].
Proof.
  intros Hh Hp Hs. unfold js_split. rewrite !list_ascii_of_string_app. simpl.
  rewrite split_chars_app_sep by done. rewrite split_chars_app_sep by done.
  rewrite split_chars_no_sep by done. simpl.
  by rewrite !String.string_of_list_ascii_of_string.
Qed.

(** Clock values of the next thirty millennia: every time fits the
    fixed-width claim fields. *)
Definition clock_ok (now_ms : Z) : Prop := (0 <= now_ms < 10 ^ 15)%Z.

Lemma seconds_claims_valid (now_ms : Z) :
  clock_ok now_ms ->
  oid_valid (seconds now_ms) /\ oid_valid (seconds now_ms + one_day_s)%Z.
Proof.
  intros [H0 H1]. unfold oid_valid, oid_bound, seconds, one_day_s, oid_digits.
  assert (0 <= now_ms / 1000 <= 10 ^ 12)%Z by (split; [apply Z.div_pos | apply Z.div_le_upper_bound]; lia).
  change (16 ^ Z.of_nat 24)%Z with 79228162514264337593543950336%Z. lia.
Qed.

(** A token issued at [now] by [jwt_sign] is accepted by [jwt_verify]
    under the same secret exactly until [iat + 86400] seconds, and
    rejected as expired from then on. *)
Lemma verify_signed_token (k : string) (id : oid) (now now' : Z) (tok : string) :
  oid_valid id -> clock_ok now ->
  jwt_sign id (Some k) now = inr tok ->
  jwt_verify tok (Some k) now' =
    if (seconds now + one_day_s <=? seconds now')%Z
    then inl (mk_exn "TokenExpiredError" "jwt expired")
    else inr (mk_claims id (seconds now) (seconds now + one_day_s)).
Proof.
  intros Hid Hclk Hs. injection Hs as <-.
  destruct (seconds_claims_valid now Hclk) as [Ha He].
  unfold jwt_verify.
  rewrite <-!string_app_assoc.
  rewrite js_split_token by (apply header_no_dot || apply claims_no_dot || apply hmac_no_dot).
  rewrite String.eqb_refl. cbn [negb].
  rewrite decode_encode_claims by done. cbn [c_exp]. done.
Qed.

(** a token issued by [jwt_sign] verifies under the same secret to
    the claims it carries until one day after its issue, and is refused
    as expired from then on. *)
Theorem jwt_verify_sign (k : string) (id : oid) (now now' : Z) (tok : string) :
  oid_valid id -> clock_ok now ->
  jwt_sign id (Some k) now = inr tok ->
  jwt_verify tok (Some k) now' =
    if (seconds now + one_day_s <=? seconds now')%Z
    then inl (mk_exn "TokenExpiredError" "jwt expired")
    else inr (mk_claims id (seconds now) (seconds now + one_day_s)).
Proof. apply verify_signed_token. Qed.

(** An issued token has no space, so [split(' ')[1]] of
    ["Bearer " + token] gives the token back. *)
Lemma jwt_sign_no_space (id : oid) (k : string) (now : Z) (tok : string) :
  jwt_sign id (Some k) now = inr tok -> " "%char ∉ String.list_ascii_of_string tok.
Proof.
  intros Hs. injection Hs as <-. rewrite !list_ascii_of_string_app. cbn [String.list_ascii_of_string].
  pose proof header_no_space. pose proof (claims_no_space (mk_claims id (seconds now) (seconds now + one_day_s))).
  pose proof (hmac_no_space k (jwt_header +:+ "." +:+ encode_claims (mk_claims id (seconds now) (seconds now + one_day_s)))).
  rewrite !elem_of_app, !list_elem_of_singleton.
  intros Hin. repeat match goal with D : _ \/ _ |- _ => destruct D end;
    solve [discriminate | contradiction].
Qed.

Lemma jwt_sign_not_empty (id : oid) (k : string) (now : Z) (tok : string) :
  jwt_sign id (Some k) now = inr tok -> tok <> "".
Proof. intros Hs. injection Hs as <-. unfold jwt_header. discriminate. Qed.

End Jwt.

(** A concrete signer for concrete runs: the hexadecimal of a checksum
    of key and data. *)
Definition checksum_hmac (k d : string) : string :=
  oid_to_hex (Z.of_nat (String.length k * 257 + String.length d)).

#[export] Program Instance checksum_signer : Signer := {| hmac := checksum_hmac |}.
Next Obligation. intros k d. apply hex_chars_no_dot. Qed.
Next Obligation. intros k d. apply hex_chars_no_space. Qed.
