(* ===== verification/Http.v ===== *)
(** * Http: requests, responses and the Express plumbing of the routes.

    A request carries what the handlers read: the [Authorization]
    header, [req.query], [req.body], [req.params.id] and the [req.user]
    that the auth middleware attaches.  A response is a status, a JSON
    body and the headers the handler sets.  [res.status(s).json(b)] is
    [send_json s b]: the body goes through [JSON.stringify], which drops
    [undefined] properties and writes non-finite numbers as [null]
    ([json_norm]).  Documents are serialised as Mongoose's [toJSON]
    does ([product_json], [user_json]), the creation time as an ISO
    date.  A middleware either answers or calls [next()] with the
    (possibly extended) request; [with_mw] chains it before a handler,
    as [router.post(path, mw, handler)] does. *)

From S2P Require Import Prelude JsRuntime ObjectId ProductModel UserModel Query.
From S2P Require Import Program.

Local Set Warnings "-register-all".

Record request := mk_req {
  req_headers : list (string * string);
  req_query : jsval;
  req_body : jsval;
  req_params_id : jsval;
  req_user : option user
}.

Record response := mk_res {
  res_status : Z;
  res_body : jsval;
  res_headers : list (string * string)
}.

(** [req.header(name)]: header names compare case-insensitively. *)
Definition req_header (r : request) (name : string) : jsval :=
  match list_find (fun '(k, _) => to_lower k = to_lower name) (req_headers r) with
  | Some (_, (_, v)) => JStr v
  | None => JUndefined
  end.

Definition with_user (r : request) (u : user) : request :=
  mk_req (req_headers r) (req_query r) (req_body r) (req_params_id r) (Some u).

(** ** [JSON.stringify] *)

Fixpoint json_norm (v : jsval) : jsval :=
  match v with
  | JNum (Fin q) => JNum (Fin q)
  | JNum _ => JNull
  | JUndefined => JUndefined
  | JArr xs =>
      JArr ((fix go (xs : list jsval) : list jsval :=
               match xs with
               | [] => []
               | x :: r => (match json_norm x with JUndefined => JNull | y => y end) :: go r
               end) xs)
  | JObj fs =>
      JObj ((fix go (fs : list (string * jsval)) : list (string * jsval) :=
               match fs with
               | [] => []
               | (k, x) :: r =>
                   match json_norm x with
                   | JUndefined => go r
                   | y => (k, y) :: go r
                   end
               end) fs)
  | _ => v
  end.

(** [res.status(status).json(body)] *)
Definition send_json (status : Z) (body : jsval) : response :=
  mk_res status (json_norm body) [].

(** The error envelope [{ success: false, message }]. *)
Definition fail_json (status : Z) (msg : string) : response :=
  send_json status (JObj [("success", JBool false); ("message", JStr msg)]).

Definition ok_json (status : Z) (fields : list (string * jsval)) : response :=
  send_json status (JObj (("success", JBool true) :: fields)).

(** ** [Date.prototype.toISOString] *)

Definition civil_from_days (z : Z) : Z * Z * Z :=
  let z := (z + 719468)%Z in
  let era := (z / 146097)%Z in
  let doe := (z - era * 146097)%Z in
  let yoe := ((doe - doe / 1460 + doe / 36524 - doe / 146096) / 365)%Z in
  let doy := (doe - (365 * yoe + yoe / 4 - yoe / 100))%Z in
  let mp := ((5 * doy + 2) / 153)%Z in
  let d := (doy - (153 * mp + 2) / 5 + 1)%Z in
  let m := if (mp <? 10)%Z then (mp + 3)%Z else (mp - 9)%Z in
  let y := (yoe + era * 400 + (if (m <=? 2)%Z then 1 else 0))%Z in
  (y, m, d).

Definition iso_date (ms : Z) : string :=
  let days := (ms / 86400000)%Z in
  let t := (ms mod 86400000)%Z in
  let '(y, m, d) := civil_from_days days in
  pad_left 4 (pretty y) +:+ "-" +:+ pad_left 2 (pretty m) +:+ "-" +:+ pad_left 2 (pretty d) +:+
  "T" +:+ pad_left 2 (pretty (t / 3600000)%Z) +:+ ":" +:+
  pad_left 2 (pretty ((t / 60000) mod 60)%Z) +:+ ":" +:+
  pad_left 2 (pretty ((t / 1000) mod 60)%Z) +:+ "." +:+
  pad_left 3 (pretty (t mod 1000)%Z) +:+ "Z".

(** ** Documents as JSON (Mongoose [toJSON]) *)

Definition product_json (p : product) : jsval :=
  JObj [("_id", JStr (oid_to_hex (p_id p)));
        ("name", JStr (p_name p));
        ("description", JStr (p_description p));
        ("category", JStr (p_category p));
        ("price", JNum (p_price p));
        ("rating", JNum (p_rating p));
        ("image", JStr (p_image p));
        ("stock", JNum (p_stock p));
        ("numReviews", JNum (p_numReviews p));
        ("createdAt", JStr (iso_date (p_createdAt p)));
        ("__v", num 0)].

(** A user loaded with [select('-password')]. *)
Definition user_json (u : user) : jsval :=
  JObj [("_id", JStr (oid_to_hex (u_id u)));
        ("email", JStr (u_email u));
        ("role", JStr (role_to_string (u_role u)));
        ("createdAt", JStr (iso_date (u_createdAt u)));
        ("__v", num 0)].

(** [JSON.stringify] of an object none of whose values it drops. *)
Lemma json_norm_obj (fs : list (string * jsval)) :
  Forall (fun kv => json_norm kv.2 <> JUndefined) fs ->
  json_norm (JObj fs) = JObj (map (fun kv => (kv.1, json_norm kv.2)) fs).
Proof.
  induction 1 as [|[k x] fs Hx _ IH]; [done|]. cbn in IH |- *. injection IH as IH.
  rewrite IH. cbn in Hx. by destruct (json_norm x).
Qed.

Lemma json_norm_num_defined (n : number) : json_norm (JNum n) <> JUndefined.
Proof. by destruct n. Qed.

(** The JSON of a stored product, as [JSON.stringify] writes it. *)
Lemma product_json_norm (p : product) :
  json_norm (product_json p) =
    JObj [("_id", JStr (oid_to_hex (p_id p))); ("name", JStr (p_name p));
          ("description", JStr (p_description p)); ("category", JStr (p_category p));
          ("price", json_norm (JNum (p_price p))); ("rating", json_norm (JNum (p_rating p)));
          ("image", JStr (p_image p)); ("stock", json_norm (JNum (p_stock p)));
          ("numReviews", json_norm (JNum (p_numReviews p)));
          ("createdAt", JStr (iso_date (p_createdAt p))); ("__v", num 0)].
Proof.
  unfold product_json. rewrite json_norm_obj; [reflexivity|].
  repeat constructor; cbn; try discriminate; apply json_norm_num_defined.
Qed.

Lemma product_json_get (p : product) :
  let v := json_norm (product_json p) in
  get_field v "name" = JStr (p_name p) /\ get_field v "description" = JStr (p_description p) /\
  get_field v "category" = JStr (p_category p) /\
  get_field v "price" = json_norm (JNum (p_price p)) /\
  get_field v "stock" = json_norm (JNum (p_stock p)) /\ get_field v "image" = JStr (p_image p).
Proof. cbv zeta. rewrite product_json_norm. split_and!; reflexivity. Qed.

Lemma json_norm_num_idem (n : number) : json_norm (json_norm (JNum n)) = json_norm (JNum n).
Proof. by destruct n. Qed.

Lemma json_norm_product_idem (p : product) :
  json_norm (json_norm (product_json p)) = json_norm (product_json p).
Proof.
  rewrite product_json_norm, json_norm_obj; [cbn [map fst snd]; by rewrite !json_norm_num_idem|].
  repeat constructor; cbn [snd]; try (by destruct (p_price p)); try (by destruct (p_rating p));
    try (by destruct (p_stock p)); try (by destruct (p_numReviews p)); discriminate.
Qed.

(** ** Middleware *)

Inductive mw_result :=
| Next (r : request)
| Respond (res : response).

Definition handler := request -> prog response.
Definition middleware := request -> prog mw_result.

Definition with_mw (m : middleware) (h : handler) : handler :=
  fun r => bind (m r) (fun x => match x with Next r' => h r' | Respond res => Ret res end).
