(* ===== verification/AuthRoutes.v ===== *)
(** * AuthRoutes: [src/backend/routes/auth.js].

    The router mounted at [/api/auth]: the [auth] middleware (lines
    9-59), [GET /verify] (61-82), [POST /register] (84-135) and
    [POST /login] (137-188).  Each handler is transcribed as a [prog]:
    its guards are the code's conditions and early returns, its awaits
    are [call]s, and its [try { } catch] is [try_catch].  The JWT
    secret ([process.env.JWT_SECRET]) is a parameter [secret] of the
    section; an unset variable is [None].

    The theorems state what each handler answers on every branch, as a
    run of the handler against a store: the middleware's four kinds of
    rejection and its acceptance of a token that [register] or [login]
    issued; the administrator role granted exactly to [ADMIN_EMAIL];
    the single answer [login] gives to an unknown email and to a wrong
    password. *)

From S2P Require Import Prelude JsRuntime ObjectId ProductModel UserModel Query.
From S2P Require Import Program Store Jwt Http.

Open Scope shop_scope.

Definition ADMIN_EMAIL : string := "shubhankarrai007@gmail.com".

Section AuthRoutes.
Context `{PasswordHasher} `{QueryEngine} `{Signer}.
Variable secret : option string.

(** ** The [auth] middleware (lines 9-59) *)

Definition bearer_token (authHeader : jsval) : jsval :=
  match authHeader with
  | JStr h =>
      match js_split " " h with
      | _ :: t :: _ => JStr t
      | _ => JUndefined
      end
  | _ => JUndefined
  end.

Definition auth_error_response (e : exn) : response :=
  if String.eqb (exn_name e) "JsonWebTokenError" then fail_json 401 "Invalid token"
  else if String.eqb (exn_name e) "TokenExpiredError" then fail_json 401 "Token expired"
  else fail_json 500 "Server error".

Definition verify_token (token : jsval) : prog claims :=
  now <- call OpNow ;;
  match token with
  | JStr t => lift (jwt_verify t secret now)
  | _ => Throw (jwt_error "jwt must be a string")
  end.

Definition auth (req : request) : prog mw_result :=
  try_catch
    (let authHeader := req_header req "Authorization" in
     if negb (truthy authHeader) || negb (match authHeader with
                                           | JStr h => starts_with "Bearer " h
                                           | _ => false end)
     then Ret (Respond (fail_json 401 "No token, authorization denied"))
     else
       let token := bearer_token authHeader in
       if negb (truthy token)
       then Ret (Respond (fail_json 401 "No token, authorization denied"))
       else
         decoded <- verify_token token ;;
         user <- call (OpUserFindById (JStr (oid_to_hex (c_id decoded)))) ;;
         match user with
         | None => Ret (Respond (fail_json 401 "User not found"))
         | Some u => Ret (Next (with_user req u))
         end)
    (fun e => Ret (Respond (auth_error_response e))).

(** ** [GET /verify] (lines 61-82) *)

Definition verify_route (req : request) : prog response :=
  try_catch
    (match req_user req with
     | None => Throw (type_error "Cannot read properties of undefined (reading 'id')")
     | Some me =>
         user <- call (OpUserFindById (JStr (oid_to_hex (u_id me)))) ;;
         match user with
         | None => Ret (fail_json 401 "User not found")
         | Some u => Ret (ok_json 200 [("data", user_json u)])
         end
     end)
    (fun _ => Ret (fail_json 500 "Server error")).

(** ** [POST /register] (lines 84-135) *)

Definition user_summary (u : user) : jsval :=
  JObj [("id", JStr (oid_to_hex (u_id u)));
        ("email", JStr (u_email u));
        ("role", JStr (role_to_string (u_role u)))].

Definition auth_payload (token : string) (u : user) : jsval :=
  JObj [("token", JStr token); ("user", user_summary u)].

Definition register_role (email : jsval) : role :=
  if js_eq_str email ADMIN_EMAIL then RoleAdmin else RoleUser.

Definition sign_token (u : user) : prog string :=
  now <- call OpNow ;;
  lift (jwt_sign (u_id u) secret now).

Definition register (req : request) : prog response :=
  try_catch
    (let email := get_field (req_body req) "email" in
     let password := get_field (req_body req) "password" in
     if negb (truthy email) || negb (truthy password)
     then Ret (fail_json 400 "Please provide email and password")
     else
       existing <- call (OpUserFindOne email) ;;
       match existing with
       | Some _ => Ret (fail_json 400 "User already exists")
       | None =>
           u <- call (OpUserSave email password (register_role email)) ;;
           token <- sign_token u ;;
           Ret (ok_json 201 [("data", auth_payload token u)])
       end)
    (fun _ => Ret (fail_json 500 "Server error")).

(** ** [POST /login] (lines 137-188) *)

Definition login (req : request) : prog response :=
  try_catch
    (let email := get_field (req_body req) "email" in
     let password := get_field (req_body req) "password" in
     if negb (truthy email) || negb (truthy password)
     then Ret (fail_json 400 "Please provide email and password")
     else
       found <- call (OpUserFindOne email) ;;
       match found with
       | None => Ret (fail_json 400 "Invalid credentials")
       | Some u =>
           isMatch <- call (OpComparePassword u password) ;;
           if negb isMatch then Ret (fail_json 400 "Invalid credentials")
           else
             token <- sign_token u ;;
             let r := ok_json 200 [("data", auth_payload token u)] in
             Ret (mk_res (res_status r) (res_body r) [("Authorization", "Bearer " +:+ token)])
       end)
    (fun _ => Ret (fail_json 500 "Server error")).

End AuthRoutes.

(** ** What the routes answer *)

(** The role a registration assigns. *)
Definition role_for (e : string) : role :=
  if bool_decide (e = ADMIN_EMAIL) then RoleAdmin else RoleUser.

Section AuthSpec.
Context `{PasswordHasher} `{QueryEngine} `{Signer}.

(** The header guards on ["Bearer " + token]. *)
Lemma bearer_header_guards (tok : string) :
  tok <> "" -> " "%char ∉ String.list_ascii_of_string tok ->
  truthy (JStr ("Bearer " +:+ tok)) = true /\
  starts_with "Bearer " ("Bearer " +:+ tok) = true /\
  bearer_token (JStr ("Bearer " +:+ tok)) = JStr tok /\
  truthy (JStr tok) = true.
Proof.
  intros Hne Hsp. split; [reflexivity|]. split.
  { unfold starts_with. change ("Bearer " +:+ tok) with
      (String "B" (String "e" (String "a" (String "r" (String "e" (String "r" (String " " tok))))))).
    destruct tok; reflexivity. }
  split.
  - unfold bearer_token, js_split. rewrite list_ascii_of_string_app.
    change (String.list_ascii_of_string "Bearer ") with
      (["B"; "e"; "a"; "r"; "e"; "r"] ++ [" "])%char.
    rewrite <-app_assoc. change ([" "%char] ++ ?x) with (" "%char :: x).
    rewrite split_chars_app_sep by (intros Hin; repeat (apply elem_of_cons in Hin as [Hin|Hin]; [discriminate|]); by apply not_elem_of_nil in Hin).
    rewrite split_chars_no_sep by done. cbn [map].
    by rewrite String.string_of_list_ascii_of_string.
  - simpl. destruct tok; [done|reflexivity].
Qed.

Ltac run_auth_guards Hh tok :=
  unfold auth; rewrite ?run_try_catch; rewrite Hh;
  let G := fresh "G" in
  destruct (bearer_header_guards tok) as [-> [-> [-> ->]]];
  [eauto using jwt_sign_not_empty | eauto using jwt_sign_no_space |];
  cbn [negb orb];
  unfold verify_token; rewrite ?run_bind, ?run_call, run_op_now; cbn [run].

Lemma auth_run_accepts (k : string) (u : user) (t : Z) (tok : string)
    (req : request) (s : store) :
  oid_valid (u_id u) -> clock_ok t ->
  jwt_sign (u_id u) (Some k) t = inr tok ->
  req_header req "Authorization" = JStr ("Bearer " +:+ tok) ->
  (seconds (st_clock s) < seconds t + one_day_s)%Z ->
  st_up s = true -> st_users s !! u_id u = Some u ->
  run (auth (Some k) req) s = (inr (Next (with_user req u)), s).
Proof.
  intros Hv Hc Hs Hh Ht Hup Hu.
  run_auth_guards Hh tok.
  rewrite (verify_signed_token k (u_id u) t (st_clock s) tok Hv Hc Hs).
  destruct (Z.leb_spec (seconds t + one_day_s) (seconds (st_clock s))); [lia|].
  cbn [lift run c_id]. rewrite run_bind, run_call, run_op_user_find_by_id by done.
  rewrite lookup_id_hex, Hu by done. reflexivity.
Qed.
(** C1: A request carrying a token issued for a user that still exists,
    before the token's expiry, passes [auth] with that user attached. *)
Theorem auth_accepts_issued_token (k : string) (u : user) (t : Z) (tok : string)
    (req : request) (s : store) :
  oid_valid (u_id u) -> clock_ok t ->
  jwt_sign (u_id u) (Some k) t = inr tok ->
  req_header req "Authorization" = JStr ("Bearer " +:+ tok) ->
  (seconds (st_clock s) < seconds t + one_day_s)%Z ->
  st_up s = true -> st_users s !! u_id u = Some u ->
  run (auth (Some k) req) s = (inr (Next (with_user req u)), s).
Proof. apply auth_run_accepts. Qed.

Lemma auth_run_expired (k : string) (id : oid) (t : Z) (tok : string)
    (req : request) (s : store) :
  oid_valid id -> clock_ok t ->
  jwt_sign id (Some k) t = inr tok ->
  req_header req "Authorization" = JStr ("Bearer " +:+ tok) ->
  (seconds t + one_day_s <= seconds (st_clock s))%Z ->
  run (auth (Some k) req) s = (inr (Respond (fail_json 401 "Token expired")), s).
Proof.
  intros Hv Hc Hs Hh Ht.
  run_auth_guards Hh tok.
  rewrite (verify_signed_token k id t (st_clock s) tok Hv Hc Hs).
  destruct (Z.leb_spec (seconds t + one_day_s) (seconds (st_clock s))); [|lia].
  reflexivity.
Qed.

(** C2: An expired token is rejected with [401 Token expired], whatever the
    store holds, before any store call. *)
Theorem auth_rejects_expired_token (k : string) (id : oid) (t : Z) (tok : string)
    (req : request) (s : store) :
  oid_valid id -> clock_ok t ->
  jwt_sign id (Some k) t = inr tok ->
  req_header req "Authorization" = JStr ("Bearer " +:+ tok) ->
  (seconds t + one_day_s <= seconds (st_clock s))%Z ->
  run (auth (Some k) req) s = (inr (Respond (fail_json 401 "Token expired")), s).
Proof. apply auth_run_expired. Qed.

(** C36: A valid token whose user no longer exists is rejected with
    [401 User not found]: deleting a user is the only revocation. *)
Theorem auth_rejects_deleted_user (k : string) (id : oid) (t : Z) (tok : string)
    (req : request) (s : store) :
  oid_valid id -> clock_ok t ->
  jwt_sign id (Some k) t = inr tok ->
  req_header req "Authorization" = JStr ("Bearer " +:+ tok) ->
  (seconds (st_clock s) < seconds t + one_day_s)%Z ->
  st_up s = true -> st_users s !! id = None ->
  run (auth (Some k) req) s = (inr (Respond (fail_json 401 "User not found")), s).
Proof.
  intros Hv Hc Hs Hh Ht Hup Hu.
  run_auth_guards Hh tok.
  rewrite (verify_signed_token k id t (st_clock s) tok Hv Hc Hs).
  destruct (Z.leb_spec (seconds t + one_day_s) (seconds (st_clock s))); [lia|].
  cbn [lift run c_id]. rewrite run_bind, run_call, run_op_user_find_by_id by done.
  rewrite lookup_id_hex, Hu by done. reflexivity.
Qed.

(** A store failure while loading the user is a [500 Server error],
    not an authentication failure. *)
Theorem auth_store_down (k : string) (id : oid) (t : Z) (tok : string)
    (req : request) (s : store) :
  oid_valid id -> clock_ok t ->
  jwt_sign id (Some k) t = inr tok ->
  req_header req "Authorization" = JStr ("Bearer " +:+ tok) ->
  (seconds (st_clock s) < seconds t + one_day_s)%Z ->
  st_up s = false ->
  run (auth (Some k) req) s = (inr (Respond (fail_json 500 "Server error")), s).
Proof.
  intros Hv Hc Hs Hh Ht Hup.
  run_auth_guards Hh tok.
  rewrite (verify_signed_token k id t (st_clock s) tok Hv Hc Hs).
  destruct (Z.leb_spec (seconds t + one_day_s) (seconds (st_clock s))); [lia|].
  cbn [lift run c_id]. rewrite run_bind, run_call, run_op_user_find_by_id_down by done.
  reflexivity.
Qed.

(** Without an [Authorization] header starting with ["Bearer "], [auth]
    answers [401 No token, authorization denied] and touches nothing. *)
Theorem auth_rejects_missing_bearer (secret : option string) (req : request) (s : store) :
  (forall h, req_header req "Authorization" = JStr h -> starts_with "Bearer " h = false) ->
  run (auth secret req) s =
    (inr (Respond (fail_json 401 "No token, authorization denied")), s).
Proof.
  intros Hh. unfold auth. rewrite run_try_catch.
  destruct (req_header req "Authorization") eqn:E;
    try (destruct (truthy _); reflexivity).
  rewrite (Hh s0 eq_refl). by destruct (truthy _).
Qed.

Lemma register_role_str (e : string) : register_role (JStr e) = role_for e.
Proof.
  unfold register_role, role_for, js_eq_str.
  destruct (String.eqb_spec e ADMIN_EMAIL); by case_bool_decide.
Qed.

(** C3: A registration with a fresh email succeeds with [201]: the new user
    is stored under a fresh id with the hash of the password, and its
    role is [admin] exactly when the email is [ADMIN_EMAIL]. *)
Theorem register_creates_user (k e p : string) (req : request) (s : store) :
  get_field (req_body req) "email" = JStr e ->
  get_field (req_body req) "password" = JStr p ->
  e <> "" -> p <> "" -> st_up s = true ->
  (forall id u, st_users s !! id = Some u -> u_email u <> e) ->
  let u := mk_user (st_next s) e (pw_hash p) (role_for e) (st_clock s) in
  exists tok,
    jwt_sign (st_next s) (Some k) (st_clock s) = inr tok /\
    run (register (Some k) req) s =
      (inr (ok_json 201 [("data", auth_payload tok u)]),
       mk_store (<[st_next s := u]> (st_users s)) (st_products s)
                (st_next s + 1)%Z (st_clock s) (st_up s)).
Proof.
  intros He Hp Hne Hpne Hup Hfresh u. eexists. split; [reflexivity|].
  unfold register. rewrite run_try_catch, He, Hp, !truthy_str by done. cbn [negb orb].
  rewrite run_bind, run_call, run_op_user_find_one, find_one_str_none by done.
  rewrite run_bind, run_call, run_op_user_save, register_role_str, save_user_ok by done.
  rewrite email_taken_false by done. reflexivity.
Qed.

(** C35: A registration with an email already stored answers [400 User
    already exists] and stores nothing. *)
Theorem register_rejects_duplicate (secret : option string) (e p : string) (v : user)
    (req : request) (s : store) :
  get_field (req_body req) "email" = JStr e ->
  get_field (req_body req) "password" = JStr p ->
  e <> "" -> p <> "" -> st_up s = true ->
  (exists id, st_users s !! id = Some v) -> u_email v = e ->
  run (register secret req) s = (inr (fail_json 400 "User already exists"), s).
Proof.
  intros He Hp Hne Hpne Hup [id Hv] Hev.
  unfold register. rewrite run_try_catch, He, Hp, !truthy_str by done. cbn [negb orb].
  rewrite run_bind, run_call, run_op_user_find_one by done.
  rewrite first_match_str. destruct (filter _ _) as [|w r] eqn:Hf; [|reflexivity].
  exfalso. assert (Hin : v ∈ filter (fun u => u_email u = e) (users_by_id s)).
  { apply list_elem_of_filter. split; [done|]. apply elem_of_users_by_id. by exists id. }
  rewrite Hf in Hin. by apply not_elem_of_nil in Hin.
Qed.

(** C4: [login] gives one answer, [400 Invalid credentials] with the store
    unchanged, both to an email that no user has and to a password that
    does not match the user found: a caller cannot tell the two apart. *)
Theorem login_invalid_credentials (secret : option string) (e p : string)
    (req : request) (s : store) :
  get_field (req_body req) "email" = JStr e ->
  get_field (req_body req) "password" = JStr p ->
  e <> "" -> p <> "" -> st_up s = true ->
  (forall id u, st_users s !! id = Some u -> u_email u = e -> pw_hash p <> u_password u) ->
  run (login secret req) s = (inr (fail_json 400 "Invalid credentials"), s).
Proof.
  intros He Hp Hne Hpne Hup Hbad.
  unfold login. rewrite run_try_catch, He, Hp, !truthy_str by done. cbn [negb orb].
  rewrite run_bind, run_call, run_op_user_find_one by done.
  destruct (first_match (JStr e) (users_by_id s)) as [err|[u|]] eqn:Hf.
  - by rewrite first_match_str in Hf.
  - apply find_one_str_some in Hf as [Hue [id Hid]].
    cbn [run]. rewrite run_bind, run_call, run_op_compare. cbn [compare_password].
    rewrite bool_decide_eq_false_2 by (eapply Hbad; eauto). reflexivity.
  - reflexivity.
Qed.

Lemma login_run_ok (k e p : string) (u : user) (req : request) (s : store) :
  get_field (req_body req) "email" = JStr e ->
  get_field (req_body req) "password" = JStr p ->
  e <> "" -> p <> "" -> st_up s = true ->
  st_users s !! u_id u = Some u -> u_email u = e -> u_password u = pw_hash p ->
  (forall id v, st_users s !! id = Some v -> u_email v = e -> v = u) ->
  exists tok,
    jwt_sign (u_id u) (Some k) (st_clock s) = inr tok /\
    run (login (Some k) req) s =
      (inr (mk_res 200 (res_body (ok_json 200 [("data", auth_payload tok u)]))
                   [("Authorization", "Bearer " +:+ tok)]), s).
Proof.
  intros He Hp Hne Hpne Hup Hu Hue Hpw Huniq. eexists. split; [reflexivity|].
  unfold login. rewrite run_try_catch, He, Hp, !truthy_str by done. cbn [negb orb].
  rewrite run_bind, run_call, run_op_user_find_one, (find_one_unique s e u) by done. cbn [run].
  rewrite run_bind, run_call, run_op_compare. cbn [compare_password].
  rewrite bool_decide_eq_true_2 by done. cbn [negb run].
  unfold sign_token. rewrite run_bind, run_bind, run_call, run_op_now. reflexivity.
Qed.

(** C26: [login] with the password of the user holding the email
    answers [200] with a token signed for that user, its id, email and
    role, and the token again in the [Authorization] header. *)
Theorem login_issues_token (k e p : string) (u : user) (req : request) (s : store) :
  get_field (req_body req) "email" = JStr e ->
  get_field (req_body req) "password" = JStr p ->
  e <> "" -> p <> "" -> st_up s = true ->
  st_users s !! u_id u = Some u -> u_email u = e -> u_password u = pw_hash p ->
  (forall id v, st_users s !! id = Some v -> u_email v = e -> v = u) ->
  exists tok,
    jwt_sign (u_id u) (Some k) (st_clock s) = inr tok /\
    run (login (Some k) req) s =
      (inr (mk_res 200 (res_body (ok_json 200 [("data", auth_payload tok u)]))
                   [("Authorization", "Bearer " +:+ tok)]), s).
Proof. apply login_run_ok. Qed.

(** [GET /verify] behind [auth], for the user [auth] attached. *)
Lemma verify_route_ok (u : user) (req : request) (s : store) :
  oid_valid (u_id u) -> st_up s = true -> st_users s !! u_id u = Some u ->
  run (verify_route (with_user req u)) s = (inr (ok_json 200 [("data", user_json u)]), s).
Proof.
  intros Hv Hup Hu. unfold verify_route. rewrite run_try_catch. cbn [req_user with_user].
  rewrite run_bind, run_call, run_op_user_find_by_id, lookup_id_hex, Hu by done. reflexivity.
Qed.

(** No answer of [login] or of [/verify] carries a top-level [token] or
    [user]: both travel inside [data]. *)
Lemma login_answers_nested (secret : option string) (req : request) :
  prog_all (fun r => get_field (res_body r) "token" = JUndefined) (login secret req).
Proof. unfold login, sign_token, lift. prog_all_walk; reflexivity. Qed.

Lemma verify_answers_nested (secret : option string) (req : request) :
  prog_all (fun r => get_field (res_body r) "user" = JUndefined)
    (with_mw (auth secret) verify_route req).
Proof.
  unfold with_mw.
  apply (prog_all_bind_inv (fun x => match x with
                                     | Respond r => get_field (res_body r) "user" = JUndefined
                                     | Next _ => True end)).
  - unfold auth, verify_token, lift, auth_error_response. prog_all_walk; done.
  - intros [r|res] Hr; [|exact Hr]. unfold verify_route. prog_all_walk; reflexivity.
Qed.

End AuthSpec.
