(* ===== verification/ProductRoutes.v ===== *)
(** * ProductRoutes: [src/backend/routes/products.js].

    The router mounted at [/api/products]: [GET /:id] (lines 6-26),
    [GET /] with its query builder, sort table and pagination (28-108),
    and the admin-only [POST /] (110-162), [PUT /:id] (164-224) and
    [DELETE /:id] (226-248).  The admin routes run behind [protect] and
    [authorize('admin')], imported from [middleware/auth], a file that is
    not among the sources: [protect] is the contract of the spec's
    section 4.2, which is the contract [AuthRoutes.auth] implements, and
    [authorize] the role gate of section 4.3.

    [build_query] and [sort_options] are the pure parts of the list
    handler (the filter object and the [switch] on [sort]);
    [list_products] is the whole handler with its two store calls. *)

From S2P Require Import Prelude JsRuntime ObjectId ProductModel UserModel Query.
From S2P Require Import Program Store Jwt Http AuthRoutes.

Open Scope shop_scope.

Section ProductRoutes.
Context `{PasswordHasher} `{QueryEngine} `{Signer}.
Variable secret : option string.

(** ** [middleware/auth]: [protect] and [authorize] (from the spec) *)

Definition protect (req : request) : prog mw_result := auth secret req.

(** The role gate of section 4.3 of the spec (its module is not under
    [src/]): a user whose role is not in the list fails with [Forbidden]
    ([403], envelope [success: false]), a request without an attached
    user with [Unauthorized] ([401], section 4.2).  The spec names the
    failures but gives no message text; the messages below are those
    names, and no theorem depends on them. *)
Definition authorize (roles : list role) (req : request) : prog mw_result :=
  match req_user req with
  | Some u =>
      if bool_decide (u_role u ∈ roles) then Ret (Next req)
      else Ret (Respond (fail_json 403 "Forbidden"))
  | None => Ret (Respond (fail_json 401 "Unauthorized"))
  end.

Definition admin_only (h : handler) : handler :=
  with_mw protect (with_mw (authorize [RoleAdmin]) h).

(** ** [GET /:id] *)

Definition get_product (req : request) : prog response :=
  try_catch
    (product <- call (OpProductFindById (req_params_id req)) ;;
     match product with
     | None => Ret (fail_json 404 "Product not found")
     | Some p => Ret (ok_json 200 [("data", product_json p)])
     end)
    (fun _ => Ret (fail_json 500 "Server error")).

(** ** [GET /]: the filter object *)

Definition build_query (q : jsval) : exn + product_query :=
  let category := get_field q "category" in
  let minPrice := get_field q "minPrice" in
  let maxPrice := get_field q "maxPrice" in
  let minRating := get_field q "minRating" in
  let search := get_field q "search" in
  let cat := if truthy category
             then match js_toLowerCase category with
                  | inl e => inl e
                  | inr c => inr (Some c)
                  end
             else inr None in
  match cat with
  | inl e => inl e
  | inr c =>
      let price :=
        if truthy minPrice || truthy maxPrice
        then Some (mk_range (if truthy minPrice then Some (to_number minPrice) else None)
                            (if truthy maxPrice then Some (to_number maxPrice) else None))
        else None in
      let rating := if truthy minRating then Some (to_number minRating) else None in
      let srch := if truthy search then Some search else None in
      inr (mk_query c price rating srch)
  end.

(** The [switch (sort)], with its [default] and the absent case. *)
Definition sort_options (sort : jsval) : sort_spec :=
  if truthy sort then
    if js_eq_str sort "price-asc" then ("price", 1%Z)
    else if js_eq_str sort "price-desc" then ("price", (-1)%Z)
    else if js_eq_str sort "newest" then ("createdAt", (-1)%Z)
    else if js_eq_str sort "oldest" then ("createdAt", 1%Z)
    else if js_eq_str sort "rating-desc" then ("rating", (-1)%Z)
    else if js_eq_str sort "rating-asc" then ("rating", 1%Z)
    else ("createdAt", (-1)%Z)
  else ("createdAt", (-1)%Z).

(** [page = 1] and [limit = 10] are destructuring defaults: they apply
    only when the parameter is absent. *)
Definition default_param (v : jsval) (d : Z) : jsval :=
  match v with JUndefined => num d | _ => v end.

Definition skip_of (page limit : jsval) : number :=
  num_mul (num_sub (to_number page) (Fin 1)) (to_number limit).

Definition list_response (page limit : jsval) (products : list product) (total : nat)
    : response :=
  ok_json 200
    [("count", num (Z.of_nat (length products)));
     ("total", num (Z.of_nat total));
     ("totalPages", JNum (math_ceil (num_div (Fin (inject_Z (Z.of_nat total))) (to_number limit))));
     ("currentPage", page);
     ("data", JArr (map product_json products))].

Definition list_products (req : request) : prog response :=
  try_catch
    (let page := default_param (get_field (req_query req) "page") 1 in
     let limit := default_param (get_field (req_query req) "limit") 10 in
     query <- lift (build_query (req_query req)) ;;
     let sortOptions := sort_options (get_field (req_query req) "sort") in
     products <- call (OpProductFind query sortOptions (skip_of page limit) limit) ;;
     total <- call (OpProductCount query) ;;
     Ret (list_response page limit products total))
    (fun _ => Ret (fail_json 500 "Server error")).

(** ** [POST /] *)

Definition negative (v : jsval) : bool := js_lt v (num 0).

Definition create_product (req : request) : prog response :=
  try_catch
    (let b := req_body req in
     let name := get_field b "name" in
     let description := get_field b "description" in
     let price := get_field b "price" in
     let category := get_field b "category" in
     let image := get_field b "image" in
     let stock := get_field b "stock" in
     if negb (truthy name && truthy description && truthy price && truthy category &&
              truthy image && truthy stock)
     then Ret (fail_json 400 "Please provide all required fields")
     else
       lower <- lift (js_toLowerCase category) ;;
       if negb (bool_decide (lower ∈ categories))
       then Ret (fail_json 400 "Invalid category")
       else if js_isNaN price || js_isNaN stock || negative price || negative stock
       then Ret (fail_json 400 "Price and stock must be positive numbers")
       else
         p <- call (OpProductSave (JObj [("name", name); ("description", description);
                                         ("price", JNum (to_number price));
                                         ("category", JStr lower); ("image", image);
                                         ("stock", JNum (to_number stock));
                                         ("rating", num 0); ("numReviews", num 0)])) ;;
         Ret (ok_json 201 [("data", product_json p)]))
    (fun e => Ret (send_json 500 (JObj [("success", JBool false);
                                        ("message", JStr "Error creating product");
                                        ("error", JStr (exn_message e))]))).

(** ** [PUT /:id] *)

Definition update_data (name description price stock image : jsval) (lower : option string)
    : list (string * jsval) :=
  spread_if name [("name", name)] ++
  spread_if description [("description", description)] ++
  match lower with Some c => [("category", JStr c)] | None => [] end ++
  spread_if price [("price", JNum (to_number price))] ++
  spread_if stock [("stock", JNum (to_number stock))] ++
  spread_if image [("image", image)].

Definition update_product (req : request) : prog response :=
  try_catch
    (let b := req_body req in
     let name := get_field b "name" in
     let description := get_field b "description" in
     let category := get_field b "category" in
     let price := get_field b "price" in
     let stock := get_field b "stock" in
     let image := get_field b "image" in
     lower <- (if truthy category
               then c <- lift (js_toLowerCase category) ;; Ret (Some c)
               else Ret None) ;;
     if match lower with
        | Some c => negb (bool_decide (c ∈ categories))
        | None => false
        end
     then Ret (fail_json 400 "Invalid category")
     else if truthy price && (js_isNaN price || negative price)
     then Ret (fail_json 400 "Price must be a positive number")
     else if truthy stock && (js_isNaN stock || negative stock)
     then Ret (fail_json 400 "Stock must be a positive number")
     else
       product <- call (OpProductUpdate (req_params_id req)
                          (update_data name description price stock image lower)) ;;
       match product with
       | None => Ret (fail_json 404 "Product not found")
       | Some p => Ret (ok_json 200 [("data", product_json p)])
       end)
    (fun _ => Ret (fail_json 500 "Server error")).

(** ** [DELETE /:id] *)

Definition delete_product (req : request) : prog response :=
  try_catch
    (product <- call (OpProductDelete (req_params_id req)) ;;
     match product with
     | None => Ret (fail_json 404 "Product not found")
     | Some _ => Ret (ok_json 200 [("data", JObj [])])
     end)
    (fun _ => Ret (fail_json 500 "Server error")).

End ProductRoutes.

(** ** What the product routes answer

    Theorems about the handlers of [ProductRoutes], each a statement
    about a run of the handler against a store:
    - the list handler's page is the window that starts at
      [(page - 1) * limit] and holds [limit] products of the stored
      products matching the filter it built, sorted by the sort key,
      and [total] counts all the matches ([list_products_sound]); the
      spec's examples of a category and price filter, of [price-asc],
      and of the second page of five among twelve are its instances;
    - the [switch] on [sort] falls back to newest-first;
    - [POST] rejects a numeric zero price by its truthiness check;
    - [DELETE] removes once and answers [404] the second time.
    That the application sends every write to [authorize('admin')] is
    a theorem of [Server] ([admin_routes_forbid_users]). *)
Section ProductSpec.
Context `{PasswordHasher} `{QueryEngine} `{Signer}.

Definition store_products (s : store) : list product := map snd (map_to_list (st_products s)).

Lemma elem_of_store_products (s : store) (p : product) :
  p ∈ store_products s <-> exists k, st_products s !! k = Some p.
Proof.
  unfold store_products. rewrite list_elem_of_fmap. split.
  - intros [[k v] [-> Hin]]. apply elem_of_map_to_list in Hin. by exists k.
  - intros [k Hk]. exists (k, p). split; [done|]. by apply elem_of_map_to_list.
Qed.

Lemma fail_json_status (c : Z) (m : string) : res_status (fail_json c m) = c.
Proof. reflexivity. Qed.

(** What a [200] of the list handler is made of: the limit cast by
    [find], the matching products, and the slice [skip]/[limit] of them
    in the order of the sort object; [total] counts every match. *)
Lemma list_products_run (req : request) (s s' : store) (res : response) (q : product_query) :
  build_query (req_query req) = inr q ->
  run (list_products req) s = (inr res, s') -> res_status res = 200%Z ->
  s' = s /\
  exists n m l,
    cast_limit (default_param (get_field (req_query req) "limit") 10) = inr n /\
    filter_products q (store_products s) = inr m /\
    apply_skip_limit (skip_of (default_param (get_field (req_query req) "page") 1)
                              (default_param (get_field (req_query req) "limit") 10)) n
                     (engine_sort (sort_options (get_field (req_query req) "sort")) m) = inr l /\
    res = list_response (default_param (get_field (req_query req) "page") 1)
                        (default_param (get_field (req_query req) "limit") 10) l (length m).
Proof.
  intros Hq Hrun Hst. unfold list_products in Hrun.
  rewrite run_try_catch, run_bind, Hq in Hrun. cbn [lift run] in Hrun.
  rewrite run_bind, run_call in Hrun.
  destruct (st_up s) eqn:Hup.
  2:{ unfold run_op in Hrun. rewrite Hup in Hrun. cbn in Hrun.
      injection Hrun as <- <-. discriminate. }
  rewrite run_op_product_find in Hrun by done.
  fold (store_products s) in Hrun.
  destruct (cast_limit _) as [e|n] eqn:Hn; [injection Hrun as <- <-; discriminate|].
  destruct (filter_products q (store_products s)) as [e|m] eqn:Hm;
    [injection Hrun as <- <-; discriminate|].
  destruct (apply_skip_limit _ _ _) as [e|l] eqn:Hl; [injection Hrun as <- <-; discriminate|].
  cbn [run] in Hrun. rewrite run_bind, run_call, run_op_product_count in Hrun by done.
  fold (store_products s) in Hrun. rewrite Hm in Hrun. cbn [run] in Hrun.
  injection Hrun as <- <-. split; [done|]. by exists n, m, l.
Qed.

Lemma list_products_page (req : request) (s s' : store) (res : response)
    (q : product_query) :
  build_query (req_query req) = inr q ->
  run (list_products req) s = (inr res, s') -> res_status res = 200%Z ->
  s' = s /\
  exists l m,
    res = list_response (default_param (get_field (req_query req) "page") 1)
                        (default_param (get_field (req_query req) "limit") 10) l (length m) /\
    (forall p, p ∈ m <-> p ∈ store_products s /\ product_matches q p = inr true) /\
    sublist l (engine_sort (sort_options (get_field (req_query req) "sort")) m) /\
    StronglySorted (sort_le (sort_options (get_field (req_query req) "sort"))) l.
Proof.
  intros Hq Hrun Hst.
  destruct (list_products_run req s s' res q Hq Hrun Hst) as (-> & n & m & l & _ & Hm & Hl & ->).
  split; [done|]. exists l, m. pose proof (apply_skip_limit_sublist _ _ _ _ Hl) as Hsub.
  split_and!; [done | | done |].
  - intros p. by rewrite (filter_products_spec q _ m Hm).
  - eapply StronglySorted_sublist; [exact Hsub|]. apply engine_sort_sorted.
Qed.

(** A page [pg >= 1] of [lim >= 1] products: [find] skips the first
    [(pg - 1) * lim] and takes [lim]. *)
Lemma skip_limit_page {A} (pg lim : Z) (l : list A) :
  (1 <= pg)%Z -> (1 <= lim)%Z ->
  apply_skip_limit (num_mul (num_sub (Fin (inject_Z pg)) (Fin 1)) (Fin (inject_Z lim)))
                   (Fin (inject_Z lim)) l =
    inr (window (Z.to_nat ((pg - 1) * lim)) (Z.to_nat lim) l).
Proof.
  intros Hpg Hlim. cbn [num_sub num_neg num_add num_mul]. unfold apply_skip_limit, to_count.
  assert (E : (Qred (Qred (inject_Z pg + - (1)) * inject_Z lim) == inject_Z ((pg - 1) * lim))%Q).
  { rewrite !Qred_correct, inject_Z_mult. replace (pg - 1)%Z with (pg + - 1)%Z by lia.
    rewrite inject_Z_plus. reflexivity. }
  rewrite (Qfloor_comp _ _ E), !Qfloor_Z.
  rewrite (proj2 (Qeq_bool_iff _ _) (Qeq_sym _ _ E)), Qeq_bool_refl.
  replace ((pg - 1) * lim <? 0)%Z with false by (symmetry; apply Z.ltb_ge; nia).
  replace (lim =? 0)%Z with false by (symmetry; apply Z.eqb_neq; lia).
  by rewrite Z.abs_eq by lia.
Qed.

(** C5: The list handler, run to a [200] on page [pg] of [lim] products
    ([pg], [lim] at least 1): the store is unchanged, [total] counts every
    stored product that matches the filter, and the page is exactly the
    window of the sorted matches that skips the first [(pg - 1) * lim]
    and keeps the next [lim], ordered by the sort object. *)
Theorem list_products_sound (req : request) (s s' : store) (res : response)
    (q : product_query) (pg lim : Z) :
  build_query (req_query req) = inr q ->
  to_number (default_param (get_field (req_query req) "page") 1) = Fin (inject_Z pg) ->
  to_number (default_param (get_field (req_query req) "limit") 10) = Fin (inject_Z lim) ->
  cast_limit (default_param (get_field (req_query req) "limit") 10) = inr (Fin (inject_Z lim)) ->
  (1 <= pg)%Z -> (1 <= lim)%Z ->
  run (list_products req) s = (inr res, s') -> res_status res = 200%Z ->
  s' = s /\
  exists m,
    (forall p, p ∈ m <-> p ∈ store_products s /\ product_matches q p = inr true) /\
    res = list_response (default_param (get_field (req_query req) "page") 1)
                        (default_param (get_field (req_query req) "limit") 10)
                        (window (Z.to_nat ((pg - 1) * lim)) (Z.to_nat lim)
                                (engine_sort (sort_options (get_field (req_query req) "sort")) m))
                        (length m) /\
    StronglySorted (sort_le (sort_options (get_field (req_query req) "sort")))
                   (window (Z.to_nat ((pg - 1) * lim)) (Z.to_nat lim)
                           (engine_sort (sort_options (get_field (req_query req) "sort")) m)).
Proof.
  intros Hq Hpg Hlim Hcast Hpg1 Hlim1 Hrun Hst.
  destruct (list_products_run req s s' res q Hq Hrun Hst) as (-> & n & m & l & Hn & Hm & Hl & ->).
  rewrite Hcast in Hn. injection Hn as <-. unfold skip_of in Hl. rewrite Hpg, Hlim in Hl.
  rewrite skip_limit_page in Hl by done. injection Hl as <-.
  split; [done|]. exists m. split_and!; [| done | apply window_sorted, engine_sort_sorted].
  intros p. by rewrite (filter_products_spec q _ m Hm).
Qed.

(** A field in [[a, b]] under both bounds of a price range. *)
Lemma mongo_range_fin (n : number) (a b : Q) :
  mongo_gte n (Fin a) && mongo_lte n (Fin b) = true ->
  exists x, n = Fin x /\ (a <= x)%Q /\ (x <= b)%Q.
Proof.
  unfold mongo_gte, mongo_lte. destruct n as [| | |x]; cbn [is_nan orb andb negb]; try discriminate.
  intros Hab. apply andb_prop in Hab as [Ha Hb]. exists x. split; [done|].
  apply Bool.negb_true_iff, bool_decide_eq_false_1 in Ha, Hb. cbn [num_cmp] in Ha, Hb.
  split; apply Qle_alt; [rewrite <-Qcompare_antisym; destruct (x ?= a)%Q; simpl; congruence | done].
Qed.

(** The spec's example [category=electronics&minPrice=10&maxPrice=50]:
    every product of the page is an electronics product priced within
    [[10, 50]]. *)
Theorem list_category_price_filter (req : request) (s s' : store) (res : response) :
  get_field (req_query req) "category" = JStr "electronics" ->
  get_field (req_query req) "minPrice" = JStr "10" ->
  get_field (req_query req) "maxPrice" = JStr "50" ->
  get_field (req_query req) "minRating" = JUndefined ->
  get_field (req_query req) "search" = JUndefined ->
  run (list_products req) s = (inr res, s') -> res_status res = 200%Z ->
  exists l total,
    res = list_response (default_param (get_field (req_query req) "page") 1)
                        (default_param (get_field (req_query req) "limit") 10) l total /\
    forall p, p ∈ l -> p_category p = "electronics" /\
      exists x, p_price p = Fin x /\ (10 <= x)%Q /\ (x <= 50)%Q.
Proof.
  intros Hc Hmin Hmax Hr Hs Hrun Hst.
  assert (Hq : build_query (req_query req) =
    inr (mk_query (Some "electronics") (Some (mk_range (Some (Fin 10)) (Some (Fin 50)))) None None)).
  { unfold build_query. rewrite Hc, Hmin, Hmax, Hr, Hs. vm_compute. reflexivity. }
  destruct (list_products_page req s s' res _ Hq Hrun Hst)
    as [_ [l [m [Hres [Hm [Hsub _]]]]]].
  exists l, (length m). split; [done|]. intros p Hp.
  assert (Hpm : p ∈ m).
  { rewrite <-(engine_sort_perm (sort_options (get_field (req_query req) "sort")) m).
    by eapply elem_of_sublist. }
  apply Hm in Hpm as [_ Hmatch]. unfold product_matches in Hmatch. cbn in Hmatch.
  injection Hmatch as Hmatch. apply andb_prop in Hmatch as [Hmatch _].
  apply andb_prop in Hmatch as [Hcat Hpr]. apply String.eqb_eq in Hcat.
  split; [done|]. apply mongo_range_fin. exact Hpr.
Qed.

(** [sort=price-asc]: the page is ordered by non-decreasing price. *)
Theorem list_price_asc_sorted (req : request) (s s' : store) (res : response) (q : product_query) :
  build_query (req_query req) = inr q ->
  get_field (req_query req) "sort" = JStr "price-asc" ->
  run (list_products req) s = (inr res, s') -> res_status res = 200%Z ->
  exists l total,
    res = list_response (default_param (get_field (req_query req) "page") 1)
                        (default_param (get_field (req_query req) "limit") 10) l total /\
    StronglySorted (fun a b => num_cmp (p_price a) (p_price b) <> Gt) l.
Proof.
  intros Hq Hsort Hrun Hst.
  destruct (list_products_page req s s' res q Hq Hrun Hst) as [_ [l [m [Hres [_ [_ Hsorted]]]]]].
  exists l, (length m). split; [done|]. rewrite Hsort in Hsorted. exact Hsorted.
Qed.

(** The [switch] on [sort]: anything but the six keys, absent or not,
    sorts newest first. *)
Theorem sort_options_default (v : jsval) :
  (forall k, v = JStr k ->
     k ∉ ["price-asc"; "price-desc"; "newest"; "oldest"; "rating-desc"; "rating-asc"]) ->
  sort_options v = ("createdAt", (-1)%Z).
Proof.
  intros Hk. unfold sort_options. destruct (truthy v); [|done].
  destruct v as [| | | |k| |]; try reflexivity.
  specialize (Hk k eq_refl). unfold js_eq_str.
  repeat (rewrite string_eqb_neq by (intros ->; apply Hk; set_solver)). reflexivity.
Qed.

Lemma filter_products_empty (l : list product) : filter_products empty_query l = inr l.
Proof.
  unfold filter_products. replace (cast_query empty_query) with (@None exn) by reflexivity.
  induction l as [|p l IH]; [done|]. cbn. by rewrite IH.
Qed.

(** The spec's example [page=2&limit=5] over twelve products: the page
    is the sixth to tenth product in the sort order, [total] is 12 and
    [totalPages] is 3. *)
Theorem list_second_page (req : request) (s : store) :
  st_up s = true ->
  get_field (req_query req) "page" = JStr "2" ->
  get_field (req_query req) "limit" = JStr "5" ->
  build_query (req_query req) = inr empty_query ->
  get_field (req_query req) "sort" = JUndefined ->
  length (store_products s) = 12%nat ->
  let page := take 5 (drop 5 (engine_sort ("createdAt", (-1)%Z) (store_products s))) in
  run (list_products req) s = (inr (list_response (JStr "2") (JStr "5") page 12), s) /\
  length page = 5%nat /\
  math_ceil (num_div (Fin (inject_Z 12)) (to_number (JStr "5"))) = Fin (inject_Z 3).
Proof.
  intros Hup Hp Hl Hq Hs Hlen page. split; [|split].
  - unfold list_products. rewrite run_try_catch, run_bind, Hq, Hp, Hl, Hs.
    cbn [lift run default_param]. rewrite run_bind, run_call, run_op_product_find by done.
    fold (store_products s). rewrite filter_products_empty.
    change (cast_limit (JStr "5")) with (@inr exn number (Fin 5)).
    change (sort_options JUndefined) with ("createdAt", (-1)%Z).
    change (skip_of (JStr "2") (JStr "5")) with (Fin 5).
    assert (Hw : forall l : list product,
      apply_skip_limit (Fin 5) (Fin 5) l = inr (take 5 (drop 5 l))) by reflexivity.
    cbn [run]. rewrite Hw. cbn [run]. rewrite run_bind, run_call, run_op_product_count by done.
    fold (store_products s). rewrite filter_products_empty. cbn [run].
    by rewrite Hlen.
  - unfold page. rewrite length_take, length_drop, (engine_sort_perm _ _), Hlen. reflexivity.
  - reflexivity.
Qed.

(** C37: [POST /] with a numeric price [0]: the truthiness check [!price]
    rejects it as a missing field, before any store call. *)
Theorem create_rejects_numeric_zero_price (secret : option string) (req : request) (s : store) :
  get_field (req_body req) "price" = num 0 ->
  run (create_product req) s = (inr (fail_json 400 "Please provide all required fields"), s).
Proof.
  intros Hp. unfold create_product. rewrite run_try_catch, Hp.
  change (truthy (num 0)) with false. rewrite andb_false_r. reflexivity.
Qed.

(** The same price sent as the string ["0"], which is what the admin
    forms send, passes every check and is stored with price [0]. *)
Theorem create_accepts_string_zero_price (req : request) (s : store) :
  st_up s = true ->
  req_body req = JObj [("name", JStr "Pen"); ("description", JStr "Blue pen");
                       ("price", JStr "0"); ("category", JStr "Books");
                       ("image", JStr "pen.png"); ("stock", JStr "3")] ->
  let p := mk_product (st_next s) "Pen" "Blue pen" "books" (Fin 0) (Fin 0) "pen.png"
                      (Fin 3) (Fin 0) (st_clock s) None in
  run (create_product req) s =
    (inr (ok_json 201 [("data", product_json p)]),
     mk_store (st_users s) (<[st_next s := p]> (st_products s)) (st_next s + 1)%Z
              (st_clock s) (st_up s)).
Proof.
  intros Hup Hb p. unfold create_product. rewrite run_try_catch, Hb.
  set (body := JObj _).
  assert (G1 : negb (truthy (get_field body "name") && truthy (get_field body "description") &&
     truthy (get_field body "price") && truthy (get_field body "category") &&
     truthy (get_field body "image") && truthy (get_field body "stock")) = false)
    by (vm_compute; reflexivity).
  assert (G2 : js_toLowerCase (get_field body "category") = inr "books") by (vm_compute; reflexivity).
  assert (G3 : negb (bool_decide ("books" ∈ categories)) = false) by (vm_compute; reflexivity).
  assert (G4 : js_isNaN (get_field body "price") || js_isNaN (get_field body "stock") ||
     negative (get_field body "price") || negative (get_field body "stock") = false)
    by (vm_compute; reflexivity).
  rewrite G1, run_bind, G2. cbn [lift run]. rewrite G3, G4.
  rewrite run_bind, run_call, run_op_product_save by done.
  match goal with |- context [save_product ?obj _ _] =>
    assert (Hsave : save_product obj (st_next s) (st_clock s) = inr p) by (vm_compute; reflexivity)
  end.
  rewrite Hsave. reflexivity.
Qed.

Lemma delete_product_found (o : oid) (p : product) (req : request) (s : store) :
  st_up s = true -> oid_valid o ->
  req_params_id req = JStr (oid_to_hex o) -> st_products s !! o = Some p ->
  run (delete_product req) s =
    (inr (ok_json 200 [("data", JObj [])]),
     mk_store (st_users s) (delete o (st_products s)) (st_next s) (st_clock s) (st_up s)).
Proof.
  intros Hup Hv Hid Hp. unfold delete_product. rewrite run_try_catch, run_bind, run_call.
  rewrite run_op_product_delete, Hid by done. unfold cast_oid.
  by rewrite oid_hex_roundtrip, Hp by done.
Qed.

(** Deleting an existing product answers [200] and removes it; the same
    request again answers [404 Product not found]. *)
Theorem delete_product_twice (o : oid) (p : product) (req : request) (s : store) :
  st_up s = true -> oid_valid o ->
  req_params_id req = JStr (oid_to_hex o) -> st_products s !! o = Some p ->
  let s1 := mk_store (st_users s) (delete o (st_products s)) (st_next s) (st_clock s) (st_up s) in
  run (delete_product req) s = (inr (ok_json 200 [("data", JObj [])]), s1) /\
  run (delete_product req) s1 = (inr (fail_json 404 "Product not found"), s1).
Proof.
  intros Hup Hv Hid Hp s1. split; [by apply (delete_product_found o p)|].
  unfold delete_product. rewrite run_try_catch, run_bind, run_call, run_op_product_delete, Hid by done.
  unfold cast_oid. rewrite oid_hex_roundtrip by done.
  cbn [st_products s1]. rewrite lookup_delete_eq. reflexivity.
Qed.

End ProductSpec.
