(* ===== verification/Server.v ===== *)
(** * Server: [src/backend/server.js], the Express application.

    The application runs, for every request: [cors(corsOptions)], which
    answers a preflight [OPTIONS] itself (lines 11-19); [express.json()],
    strict by default, whose refusal of a body (malformed text, or a
    JSON value that is neither an object nor an array) goes to the
    error handler (line 22); the two routers mounted at [/api/auth] and
    [/api/products] (lines 45-46), whose route tables are
    [match_route]; Express's final [404] when no route matches, the
    HTML page of [finalhandler]; and the error handler of lines 49-52,
    which answers every error with
    [500 { message: 'Something went wrong!' }].

    Every write the [/api/products] router accepts runs behind
    [protect] and [authorize('admin')], so a signed-in [user] gets [403]
    with the store unchanged ([admin_routes_forbid_users]).

    Express matches paths case-insensitively and ignores a trailing
    slash; a route parameter is decoded with [decodeURIComponent], whose
    failure is an error for the error handler.  The query string is
    parsed with [qs] ([Url.qs_parse]).  A handler whose promise rejects
    leaves the request without an answer ([serve] returns [None]): Express
    4 does not catch rejections of async handlers.

    The static [/uploads] directory (line 24) and the connection (lines
    26-43) are I/O and not modelled: a request for a file falls through
    to the [404]. *)

From S2P Require Import Prelude JsRuntime Url ObjectId ProductModel UserModel.
From S2P Require Import Query Program Store Jwt Http AuthRoutes ProductRoutes.

Open Scope shop_scope.
Local Set Warnings "-register-all".

Inductive method := GET | POST | PUT | DELETE | OPTIONS.

#[export] Instance method_eq_dec : EqDecision method.
Proof. solve_decision. Defined.

Definition method_name (m : method) : string :=
  match m with
  | GET => "GET" | POST => "POST" | PUT => "PUT" | DELETE => "DELETE" | OPTIONS => "OPTIONS"
  end.

(** What reaches [express.json()]: no JSON body ([req.body] stays [{}]),
    a JSON text and the value it denotes, or text that does not parse. *)
Inductive body := NoBody | JsonBody (v : jsval) | MalformedBody.

(** [express.json()] is strict by default: it accepts only a text whose
    first character is [{] or [[], and refuses a bare string, number,
    boolean or [null] with the same [400 SyntaxError] as malformed text,
    which [next(err)] hands to the error handler. *)
Definition body_parses (b : body) : bool :=
  match b with
  | NoBody | JsonBody (JObj _) | JsonBody (JArr _) => true
  | JsonBody _ | MalformedBody => false
  end.

Record http_request := mk_http {
  h_method : method;
  h_url : string;
  h_headers : list (string * string);
  h_body : body
}.

(** ** URLs and routes *)

(** The path and the query string of a request URL. *)
Definition split_url (url : string) : string * string :=
  let '(p, q) := break_at "?" (String.list_ascii_of_string url) in
  (String.string_of_list_ascii p, String.string_of_list_ascii (default [] q)).

(** The segments after the leading [/], without a trailing empty one. *)
Definition path_segments (path : string) : list string :=
  let segs := match js_split "/" path with _ :: r => r | [] => [] end in
  match last segs with
  | Some "" => removelast segs
  | _ => segs
  end.

Definition seg_is (s lit : string) : bool := String.eqb (to_lower s) lit.

(** [decodeURIComponent] of a route parameter. *)
Definition decode_param (s : string) : option string :=
  String.string_of_list_ascii <$> pct_decode (String.list_ascii_of_string s).

Inductive route :=
| RVerify | RRegister | RLogin
| RList | RCreate | RGet (id : string) | RUpdate (id : string) | RDelete (id : string).

(** The route tables of the two routers, under their mount points. *)
Definition match_route (m : method) (segs : list string) : option route :=
  match segs with
  | [a; b; c] =>
      if seg_is a "api" && seg_is b "auth" then
        match m with
        | GET => if seg_is c "verify" then Some RVerify else None
        | POST => if seg_is c "register" then Some RRegister
                  else if seg_is c "login" then Some RLogin else None
        | _ => None
        end
      else if seg_is a "api" && seg_is b "products" then
        match m with
        | GET => Some (RGet c)
        | PUT => Some (RUpdate c)
        | DELETE => Some (RDelete c)
        | _ => None
        end
      else None
  | [a; b] =>
      if seg_is a "api" && seg_is b "products" then
        match m with GET => Some RList | POST => Some RCreate | _ => None end
      else None
  | _ => None
  end.

(** The routes behind [auth] ([protect]). *)
Definition route_protected (r : route) : bool :=
  match r with RVerify | RCreate | RUpdate _ | RDelete _ => true | _ => false end.

Definition route_param (r : route) : option string :=
  match r with RGet id | RUpdate id | RDelete id => Some id | _ => None end.

Section Server.
Context `{PasswordHasher} `{QueryEngine} `{Signer}.
Variable secret : option string.

Definition route_handler (r : route) : handler :=
  match r with
  | RVerify => with_mw (auth secret) verify_route
  | RRegister => register secret
  | RLogin => login secret
  | RList => list_products
  | RCreate => admin_only secret create_product
  | RGet _ => get_product
  | RUpdate _ => admin_only secret update_product
  | RDelete _ => admin_only secret delete_product
  end.

(** ** Answers of the application itself *)

Definition cors_headers : list (string * string) :=
  [("Access-Control-Allow-Origin", "http://localhost:5173");
   ("Access-Control-Allow-Credentials", "true");
   ("Access-Control-Expose-Headers", "Authorization")].

Definition preflight_response : response :=
  mk_res 204 JUndefined
    (cors_headers ++ [("Access-Control-Allow-Methods", "GET,POST,PUT,DELETE,OPTIONS");
                      ("Access-Control-Allow-Headers", "Content-Type,Authorization")]).

(** The error handler of lines 49-52. *)
Definition error_response : response :=
  mk_res 500 (json_norm (JObj [("message", JStr "Something went wrong!")])) cors_headers.

(** ** Express's final handler when no route matched

    [finalhandler] answers [404] with the message
    [Cannot <METHOD> <encodeUrl(pathname)>], escaped for HTML and put in
    its error page.  [encodeUrl] keeps the characters of a URL and a [%]
    that starts an escape, and percent-encodes every other byte (a [%]
    becomes [%25]); the message then holds no newline and no two
    consecutive spaces, so the page's [<br>] and [&nbsp;] substitutions
    never apply. *)
Definition url_char_ok (c : Ascii.ascii) : bool :=
  let n := ascii_code c in
  ((n =? 33) || ((38 <=? n) && (n <=? 59)) || (n =? 61) || ((63 <=? n) && (n <=? 91)) ||
   (n =? 93) || (n =? 95) || ((97 <=? n) && (n <=? 122)) || (n =? 126))%Z.

Definition pct_byte (c : Ascii.ascii) : list Ascii.ascii :=
  ["%"%char; hex_upper (ascii_code c / 16)%Z; hex_upper (ascii_code c mod 16)%Z].

Fixpoint encode_url_chars (cs : list Ascii.ascii) : list Ascii.ascii :=
  match cs with
  | [] => []
  | c :: r =>
      let keep := if Ascii.eqb c "%" then
                    match r with
                    | a :: b :: _ =>
                        match digit_value 16 a, digit_value 16 b with
                        | Some _, Some _ => true
                        | _, _ => false
                        end
                    | _ => false
                    end
                  else url_char_ok c in
      (if keep then [c] else pct_byte c) ++ encode_url_chars r
  end.

Definition encode_url (s : string) : string :=
  String.string_of_list_ascii (encode_url_chars (String.list_ascii_of_string s)).

(** [escape-html]: ampersand, angle brackets, double and single quotes
    as entities. *)
Definition escape_html_char (c : Ascii.ascii) : list Ascii.ascii :=
  String.list_ascii_of_string
    (if Ascii.eqb c "&" then "&amp;" else if Ascii.eqb c "<" then "&lt;"
     else if Ascii.eqb c ">" then "&gt;" else if Ascii.eqb c "034"%char then "&quot;"
     else if Ascii.eqb c "'" then "&#39;" else String c EmptyString).

Definition escape_html (s : string) : string :=
  String.string_of_list_ascii (mjoin (map escape_html_char (String.list_ascii_of_string s))).

Definition lf : string := String "010"%char EmptyString.

(** [createHtmlDocument]. *)
Definition error_page (body : string) : string :=
  "<!DOCTYPE html>" +:+ lf +:+ "<html lang=" +:+ quoted "en" +:+ ">" +:+ lf +:+
  "<head>" +:+ lf +:+ "<meta charset=" +:+ quoted "utf-8" +:+ ">" +:+ lf +:+
  "<title>Error</title>" +:+ lf +:+ "</head>" +:+ lf +:+ "<body>" +:+ lf +:+
  "<pre>" +:+ body +:+ "</pre>" +:+ lf +:+ "</body>" +:+ lf +:+ "</html>" +:+ lf.

Definition not_found_headers : list (string * string) :=
  cors_headers ++ [("Content-Security-Policy", "default-src 'none'");
                   ("X-Content-Type-Options", "nosniff");
                   ("Content-Type", "text/html; charset=utf-8")].

Definition not_found (m : method) (path : string) : response :=
  mk_res 404
    (JStr (error_page (escape_html ("Cannot " +:+ method_name m +:+ " " +:+ encode_url path))))
    not_found_headers.

Definition with_cors (r : response) : response :=
  mk_res (res_status r) (res_body r) (cors_headers ++ res_headers r).

(** ** One request *)

(** The [req] a matched route's handler sees: headers, [req.query],
    [req.body] ([{}] without a JSON body) and the decoded [req.params.id];
    [None] when the parameter does not decode. *)
Definition route_request (h : http_request) (r : route) : option request :=
  let bv := match h_body h with JsonBody v => v | _ => JObj [] end in
  let q := (split_url (h_url h)).2 in
  match route_param r with
  | Some p => (fun d => mk_req (h_headers h) (qs_parse q) bv (JStr d) None) <$> decode_param p
  | None => Some (mk_req (h_headers h) (qs_parse q) bv JUndefined None)
  end.

Definition serve (h : http_request) (s : store) : option response * store :=
  match h_method h with
  | OPTIONS => (Some preflight_response, s)
  | m =>
      if negb (body_parses (h_body h)) then (Some error_response, s) else
      let path := (split_url (h_url h)).1 in
      match match_route m (path_segments path) with
      | None => (Some (not_found m path), s)
      | Some r =>
          match route_request h r with
          | None => (Some error_response, s)
          | Some req =>
              match run (route_handler r req) s with
              | (inr res, s') => (Some (with_cors res), s')
              | (inl _, s') => (None, s')
              end
          end
      end
  end.

End Server.

(** ** Every request is answered *)

Section ServerSpec.
Context `{PasswordHasher} `{QueryEngine} `{Signer}.

Lemma with_mw_answers (m : middleware) (h : handler) (req : request) :
  (forall r, answers (m r)) -> (forall r, answers (h r)) -> answers (with_mw m h req).
Proof. intros Hm Hh. apply answers_bind; [done|]. intros [r|res]; auto with shop. Qed.

Lemma auth_answers (secret : option string) (req : request) : answers (auth secret req).
Proof. apply answers_try_catch. auto with shop. Qed.

Lemma admin_only_answers (secret : option string) (h : handler) (req : request) :
  (forall r, answers (h r)) -> answers (admin_only secret h req).
Proof.
  intros Hh. apply with_mw_answers; [apply auth_answers|]. intros r.
  apply with_mw_answers; [|done]. intros r'. unfold authorize.
  destruct (req_user r') as [u|]; [case_bool_decide|]; auto with shop.
Qed.

Lemma route_handler_answers (secret : option string) (r : route) (req : request) :
  answers (route_handler secret r req).
Proof.
  destruct r; cbn [route_handler];
    try apply admin_only_answers; try apply with_mw_answers; try apply auth_answers; intros;
    unfold verify_route, register, login, list_products, get_product, create_product,
      update_product, delete_product;
    apply answers_try_catch; auto with shop.
Qed.

(** A request that matched route [r] is answered by [r]'s handler. *)
Lemma serve_dispatch (secret : option string) (h : http_request) (r : route) (req : request)
    (s : store) :
  h_method h <> OPTIONS -> body_parses (h_body h) = true ->
  match_route (h_method h) (path_segments (split_url (h_url h)).1) = Some r ->
  route_request h r = Some req ->
  serve secret h s =
    match run (route_handler secret r req) s with
    | (inr res, s') => (Some (with_cors res), s')
    | (inl _, s') => (None, s')
    end.
Proof.
  intros Hm Hb Hr Hq. unfold serve.
  destruct (h_method h); [| | | | done]; rewrite Hb; cbn [negb]; by rewrite Hr, Hq.
Qed.

(** C8: Every request gets an answer: no handler lets an error escape its
    [try { } catch], so no promise is left rejected. *)
Theorem serve_answers (secret : option string) (h : http_request) (s : store) :
  exists res s', serve secret h s = (Some res, s').
Proof.
  unfold serve. destruct (h_method h); try (by eexists _, _);
    destruct (negb (body_parses (h_body h))); try (by eexists _, _);
    destruct (match_route _ _) as [r|]; try (by eexists _, _);
    destruct (route_request h r) as [req|]; try (by eexists _, _);
    destruct (route_handler_answers secret r req s) as [res [s' ->]]; by eexists _, _.
Qed.

(** C25: An expired token is refused by every protected endpoint with [401
    Token expired], whatever the request carries besides, and nothing is
    written. *)
Theorem expired_token_rejected (k : string) (id : oid) (t : Z) (tok : string)
    (h : http_request) (r : route) (req : request) (s : store) :
  oid_valid id -> clock_ok t -> jwt_sign id (Some k) t = inr tok ->
  (seconds t + one_day_s <= seconds (st_clock s))%Z ->
  h_method h <> OPTIONS -> body_parses (h_body h) = true ->
  match_route (h_method h) (path_segments (split_url (h_url h)).1) = Some r ->
  route_protected r = true -> route_request h r = Some req ->
  req_header req "Authorization" = JStr ("Bearer " +:+ tok) ->
  serve (Some k) h s = (Some (with_cors (fail_json 401 "Token expired")), s).
Proof.
  intros Hv Hc Hs Ht Hm Hb Hr Hp Hq Hh. rewrite (serve_dispatch _ _ r req) by done.
  destruct r; try discriminate; cbn [route_handler]; unfold admin_only, with_mw, protect;
    rewrite run_bind, (auth_run_expired k id t tok) by done; reflexivity.
Qed.

(** Every write under [/api/products] that the table routes goes
    through [protect] and [authorize('admin')]. *)
Lemma products_write_gated (secret : option string) (m : method) (rest : list string) (r : route) :
  m ∈ [POST; PUT; DELETE] -> match_route m ("api" :: "products" :: rest) = Some r ->
  exists h, route_handler secret r = admin_only secret h.
Proof.
  rewrite !elem_of_cons, elem_of_nil.
  intros Hm Hr. destruct rest as [|c [|? ?]];
    destruct Hm as [->|[->|[->|[]]]]; cbn in Hr; try discriminate;
    injection Hr as <-; eexists; reflexivity.
Qed.

(** C6: A signed-in user whose role is [user] who sends any write the
    product router routes ([POST], [PUT] or [DELETE] under
    [/api/products]) gets a [403] envelope with [success: false], never
    a [401], and the store is untouched: the route table puts every
    such route behind [protect] and [authorize('admin')]. *)
Theorem admin_routes_forbid_users (k : string) (u : user) (t : Z) (tok : string)
    (h : http_request) (rest : list string) (r : route) (req : request) (s : store) :
  oid_valid (u_id u) -> clock_ok t -> jwt_sign (u_id u) (Some k) t = inr tok ->
  (seconds (st_clock s) < seconds t + one_day_s)%Z ->
  st_up s = true -> st_users s !! u_id u = Some u -> u_role u = RoleUser ->
  h_method h ∈ [POST; PUT; DELETE] -> body_parses (h_body h) = true ->
  path_segments (split_url (h_url h)).1 = "api" :: "products" :: rest ->
  match_route (h_method h) ("api" :: "products" :: rest) = Some r ->
  route_request h r = Some req ->
  req_header req "Authorization" = JStr ("Bearer " +:+ tok) ->
  exists res, serve (Some k) h s = (Some (with_cors res), s) /\
              res_status res = 403%Z /\ get_field (res_body res) "success" = JBool false.
Proof.
  intros Hv Hc Hs Ht Hup Hu Hrole Hm Hb Hp Hr Hq Hh.
  destruct (products_write_gated (Some k) _ rest r Hm Hr) as [hd Hhd].
  assert (Ho : h_method h <> OPTIONS).
  { intros Ho. rewrite Ho, !elem_of_cons, elem_of_nil in Hm. naive_solver. }
  rewrite (serve_dispatch _ _ r req) by (rewrite ?Hp; done).
  rewrite Hhd. unfold admin_only, with_mw, protect.
  rewrite run_bind, (auth_run_accepts k u t tok req s) by done. cbn [run].
  unfold authorize. cbn [req_user with_user]. rewrite Hrole. cbn.
  eexists. split_and!; reflexivity.
Qed.

(** ** Routes with an id parameter *)

(** A route parameter that Express passes through unchanged: printed
    ObjectIds are. *)
Definition id_safe (id : string) : Prop :=
  id <> "" /\ forall c, c ∈ String.list_ascii_of_string id -> c ∈ hex_alphabet.

Lemma oid_hex_safe (o : oid) : id_safe (oid_to_hex o).
Proof. split; [apply oid_hex_not_empty | apply oid_hex_alphabet]. Qed.

Lemma id_safe_not (id : string) (c : Ascii.ascii) :
  id_safe id -> c ∉ hex_alphabet -> c ∉ String.list_ascii_of_string id.
Proof. intros [_ Hid] Hc Hin. exact (Hc (Hid c Hin)). Qed.

(** ** The 404 page of a plain path *)

(** The bytes that neither [encodeUrl] nor [escape-html] change. *)
Definition plain_char (c : Ascii.ascii) : bool :=
  url_char_ok c && negb (Ascii.eqb c "&") && negb (Ascii.eqb c "'").

Definition html_plain (c : Ascii.ascii) : bool :=
  negb (Ascii.eqb c "&" || Ascii.eqb c "<" || Ascii.eqb c ">" || Ascii.eqb c "034"%char ||
        Ascii.eqb c "'").

Lemma plain_char_html (c : Ascii.ascii) : plain_char c = true -> html_plain c = true.
Proof.
  intros Hc. destruct (html_plain c) eqn:E; [done|]. unfold html_plain in E.
  apply negb_false_iff in E. rewrite !orb_true_iff in E.
  destruct_or! E; apply Ascii.eqb_eq in E; subst c; vm_compute in Hc; discriminate.
Qed.

Lemma encode_url_plain (s : string) :
  Forall (fun c => plain_char c = true) (String.list_ascii_of_string s) -> encode_url s = s.
Proof.
  unfold encode_url. intros Hs. rewrite <- (String.string_of_list_ascii_of_string s) at 2. f_equal.
  induction Hs as [|c cs Hc _ IH]; [done|]. cbn [encode_url_chars]. rewrite IH.
  unfold plain_char in Hc. apply andb_prop in Hc as [Hc _]. apply andb_prop in Hc as [Hu _].
  destruct (Ascii.eqb c "%") eqn:E; [apply Ascii.eqb_eq in E; subst c; discriminate|].
  by rewrite Hu.
Qed.

Lemma escape_html_plain (s : string) :
  Forall (fun c => html_plain c = true) (String.list_ascii_of_string s) -> escape_html s = s.
Proof.
  unfold escape_html. intros Hs. rewrite <- (String.string_of_list_ascii_of_string s) at 2. f_equal.
  induction Hs as [|c cs Hc _ IH]; [done|].
  change (escape_html_char c ++ mjoin (map escape_html_char cs) = c :: cs). rewrite IH.
  unfold html_plain in Hc. unfold escape_html_char.
  destruct (Ascii.eqb c "&"), (Ascii.eqb c "<"), (Ascii.eqb c ">"), (Ascii.eqb c "034"%char),
    (Ascii.eqb c "'"); try discriminate Hc; reflexivity.
Qed.

Lemma id_safe_plain (id : string) :
  id_safe id -> Forall (fun c => plain_char c = true) (String.list_ascii_of_string id).
Proof.
  intros [_ Hid]. apply Forall_forall. intros c Hc%Hid.
  unfold hex_alphabet in Hc. rewrite list_elem_of_In in Hc. cbn in Hc.
  destruct_or! Hc; try contradiction; by subst c.
Qed.

(** The 404 of a path made of plain bytes carries [Cannot <METHOD> <path>]
    as it is. *)
Lemma not_found_plain (m : method) (path : string) :
  Forall (fun c => plain_char c = true) (String.list_ascii_of_string path) ->
  not_found m path =
    mk_res 404 (JStr (error_page ("Cannot " +:+ method_name m +:+ " " +:+ path))) not_found_headers.
Proof.
  intros Hp. unfold not_found. rewrite encode_url_plain by done. rewrite escape_html_plain; [done|].
  rewrite !list_ascii_of_string_app, !Forall_app.
  split_and!; [.. | eapply Forall_impl; [exact Hp | apply plain_char_html]];
    destruct m; vm_compute; repeat constructor.
Qed.

Lemma break_at_none (sep : Ascii.ascii) (l : list Ascii.ascii) :
  sep ∉ l -> break_at sep l = (l, None).
Proof.
  induction l as [|c l IH]; intros Hl; [done|]. cbn [break_at].
  rewrite IH by set_solver. destruct (Ascii.eqb_spec c sep); [set_solver | done].
Qed.

Lemma pct_decode_plain (l : list Ascii.ascii) : "%"%char ∉ l -> pct_decode l = Some l.
Proof.
  induction l as [|c l IH]; intros Hl; [done|]. cbn [pct_decode].
  destruct (Ascii.eqb_spec c "%"); [set_solver|]. rewrite IH by set_solver. done.
Qed.

Lemma product_id_path (hs : list (string * string)) (m : method) (id : string) (d : body) :
  id_safe id ->
  path_segments (split_url (h_url (mk_http m ("/api" +:+ "/products/" +:+ id) hs d))).1
    = ["api"; "products"; id] /\
  (split_url (h_url (mk_http m ("/api" +:+ "/products/" +:+ id) hs d))).2 = "".
Proof.
  intros Hs. pose proof (id_safe_not id "?" Hs ltac:(vm_compute; set_solver)) as Hq.
  pose proof (id_safe_not id "/" Hs ltac:(vm_compute; set_solver)) as Hsl.
  destruct Hs as [Hne _]. unfold split_url. cbn [h_url]. rewrite !list_ascii_of_string_app. simpl.
  rewrite break_at_none by exact Hq. cbn. rewrite String.string_of_list_ascii_of_string.
  split; [|done]. unfold path_segments, js_split. simpl.
  rewrite split_chars_no_sep by exact Hsl. cbn [map last].
  rewrite String.string_of_list_ascii_of_string. by destruct id.
Qed.

Lemma serve_product_id (secret : option string) (hs : list (string * string)) (m : method)
    (id : string) (d : body) (r : route) (s : store) :
  id_safe id -> m <> OPTIONS -> body_parses d = true ->
  match_route m ["api"; "products"; id] = Some r -> route_param r = Some id ->
  serve secret (mk_http m ("/api" +:+ "/products/" +:+ id) hs d) s =
    match run (route_handler secret r
                 (mk_req hs (JObj []) (match d with JsonBody v => v | _ => JObj [] end)
                         (JStr id) None)) s with
    | (inr res, s') => (Some (with_cors res), s')
    | (inl _, s') => (None, s')
    end.
Proof.
  intros Hs Hm Hd Hr Hp. destruct (product_id_path hs m id d Hs) as [Hpath Hq].
  apply serve_dispatch; [done | done | by rewrite Hpath |].
  unfold route_request. cbn [h_body h_headers]. rewrite Hq, Hp. unfold decode_param.
  rewrite pct_decode_plain by (apply (id_safe_not id); [done | vm_compute; set_solver]).
  cbn. by rewrite String.string_of_list_ascii_of_string.
Qed.

End ServerSpec.
