(* ===== verification/Responses.v ===== *)
(** * Responses: the type of what the server sends.

    The client code reads every answer the same way: [axios] parses the
    body as JSON, and the pages show [error.response.data.message] when
    a request fails.  This file states the type of a response body that
    makes this reading safe and proves that [serve] (Server.v) never
    sends anything else:
    - [is_json]: the body is a value [JSON.stringify] can produce: no
      [undefined] anywhere, every number finite;
    - [envelope_ok]: its [message], where present, is a string.
    The only exception is the CORS preflight, which has no body.  The
    proof walks every handler of the routes ([prog_all]) down to its
    returns; the bodies all come from [res.status(..).json({...})] with
    literal keys, so a check on the keys ([message_fields]) suffices. *)

From S2P Require Import Prelude JsRuntime ObjectId ProductModel UserModel Query.
From S2P Require Import Program Store Jwt Http AuthRoutes ProductRoutes Server.

Open Scope shop_scope.
Local Set Warnings "-register-all".

Fixpoint is_json (v : jsval) : bool :=
  match v with
  | JUndefined => false
  | JNum (Fin _) => true
  | JNum _ => false
  | JArr xs =>
      (fix go (xs : list jsval) : bool :=
         match xs with [] => true | x :: r => is_json x && go r end) xs
  | JObj fs =>
      (fix go (fs : list (string * jsval)) : bool :=
         match fs with [] => true | (_, x) :: r => is_json x && go r end) fs
  | _ => true
  end.

Definition envelope_ok (v : jsval) : bool :=
  match get_field v "message" with JUndefined | JStr _ => true | _ => false end.

(** The type of an answer: a JSON body in the envelope. *)
Definition response_ok (r : response) : Prop :=
  is_json (res_body r) = true /\ envelope_ok (res_body r) = true.

(** The [message] entries of an object literal: each is a string, or
    [undefined] and dropped by [JSON.stringify]. *)
Fixpoint message_fields (fs : list (string * jsval)) : bool :=
  match fs with
  | [] => true
  | (k, x) :: r =>
      if String.eqb k "message"
      then match x with JStr _ => true | JUndefined => message_fields r | _ => false end
      else message_fields r
  end.

(** ** [JSON.stringify] produces JSON *)

Lemma is_json_norm (v : jsval) : json_norm v = JUndefined \/ is_json (json_norm v) = true.
Proof.
  revert v. fix IH 1. intros [| | |[| | |q]| |xs|fs]; cbn [json_norm is_json]; auto.
  - right. revert xs. fix IHl 1. intros [|x xs]; [done|].
    cbn. apply andb_true_intro. split; [|apply IHl].
    destruct (IH x) as [Hx|Hx]; [by rewrite Hx|]. by destruct (json_norm x).
  - right. revert fs. fix IHl 1. intros [|[k x] fs]; [done|].
    cbn. destruct (IH x) as [Hx|Hx]; [rewrite Hx; apply IHl|].
    destruct (json_norm x); try done; cbn in Hx |- *; try rewrite Hx; apply IHl.
Qed.

Lemma is_json_norm_obj (fs : list (string * jsval)) : is_json (json_norm (JObj fs)) = true.
Proof. by destruct (is_json_norm (JObj fs)). Qed.

Lemma get_field_cons_other (k k' : string) (x : jsval) (fs : list (string * jsval)) :
  k <> k' -> get_field (JObj ((k, x) :: fs)) k' = get_field (JObj fs) k'.
Proof.
  intros Hk. unfold get_field. cbn. rewrite decide_False by done.
  by destruct (list_find _ fs) as [[? []]|].
Qed.

Lemma envelope_json_norm (fs : list (string * jsval)) :
  message_fields fs = true -> envelope_ok (json_norm (JObj fs)) = true.
Proof.
  induction fs as [|[k x] fs IH]; [done|]. cbn [message_fields].
  destruct (String.eqb_spec k "message") as [->|Hne]; intros Hm.
  - destruct x; try done; exact (IH Hm).
  - unfold envelope_ok in *. cbn [json_norm].
    specialize (IH Hm). cbn [json_norm] in IH.
    destruct (json_norm x); try done; by rewrite get_field_cons_other.
Qed.

Lemma send_json_ok (c : Z) (fs : list (string * jsval)) :
  message_fields fs = true -> response_ok (send_json c (JObj fs)).
Proof. split; [apply is_json_norm_obj | by apply envelope_json_norm]. Qed.

Lemma response_ok_body (r r' : response) :
  res_body r = res_body r' -> response_ok r' -> response_ok r.
Proof. unfold response_ok. by intros ->. Qed.

Lemma fail_json_ok (c : Z) (m : string) : response_ok (fail_json c m).
Proof. by apply send_json_ok. Qed.

Lemma ok_json_ok (c : Z) (fs : list (string * jsval)) :
  message_fields fs = true -> response_ok (ok_json c fs).
Proof. intros Hm. by apply send_json_ok. Qed.

Lemma auth_error_response_ok (e : exn) : response_ok (auth_error_response e).
Proof. unfold auth_error_response. repeat case_match; apply fail_json_ok. Qed.

(** ** Every handler answers in the envelope *)

(** What a middleware may answer itself. *)
Definition mw_ok (x : mw_result) : Prop :=
  match x with Respond res => response_ok res | Next _ => True end.

(** A return of a handler: the keys of its object literals are
    literal, so [message_fields] computes. *)
Ltac typing_leaf :=
  cbn [mw_ok];
  first [ exact I
        | apply fail_json_ok
        | apply auth_error_response_ok
        | apply ok_json_ok; reflexivity
        | apply send_json_ok; reflexivity
        | eapply response_ok_body; [reflexivity | apply ok_json_ok; reflexivity] ].

Section Typing.
Context `{PasswordHasher} `{QueryEngine} `{Signer}.

Lemma with_mw_ok (m : middleware) (h : handler) (req : request) :
  (forall r, prog_all mw_ok (m r)) -> (forall r, prog_all response_ok (h r)) ->
  prog_all response_ok (with_mw m h req).
Proof. intros Hm Hh. eapply prog_all_bind_inv; [apply Hm|]. intros [r|res]; cbn; auto. Qed.

Lemma auth_ok (secret : option string) (req : request) : prog_all mw_ok (auth secret req).
Proof. unfold auth. prog_all_walk; typing_leaf. Qed.

Lemma admin_only_ok (secret : option string) (h : handler) (req : request) :
  (forall r, prog_all response_ok (h r)) -> prog_all response_ok (admin_only secret h req).
Proof.
  intros Hh. apply with_mw_ok; [apply auth_ok|]. intros r. apply with_mw_ok; [|done].
  intros r'. unfold authorize. repeat case_match; typing_leaf.
Qed.

Lemma route_handler_ok (secret : option string) (r : route) (req : request) :
  prog_all response_ok (route_handler secret r req).
Proof.
  destruct r; cbn [route_handler];
    try apply admin_only_ok; try apply with_mw_ok; try apply auth_ok; intros;
    unfold verify_route, register, login, list_products, list_response, get_product,
      create_product, update_product, delete_product;
    prog_all_walk; typing_leaf.
Qed.

(** The answers [serve] builds itself. *)
Lemma error_response_ok : response_ok error_response.
Proof. split; [apply is_json_norm_obj | reflexivity]. Qed.

Lemma not_found_ok (m : method) (path : string) : response_ok (not_found m path).
Proof. by split. Qed.

Lemma handler_answer_ok (secret : option string) (r : route) (req : request)
    (s s' : store) (res : response) :
  run (route_handler secret r req) s = (inr res, s') -> response_ok (with_cors res).
Proof. intros Hrun. eapply run_prog_all in Hrun; [exact Hrun | apply route_handler_ok]. Qed.

(** The [message] a client reads from any answer is a string, when
    there is one. *)
Lemma serve_envelope (secret : option string) (h : http_request) (s s' : store) (res : response) :
  serve secret h s = (Some res, s') -> envelope_ok (res_body res) = true.
Proof.
  unfold serve. intros Hs. repeat case_match; simplify_eq; try done;
    try apply error_response_ok; eapply handler_answer_ok; eassumption.
Qed.

(** C10: Every answer of the server but the preflight is typed: its body
    is JSON ([JSON.stringify] never leaves [undefined] or a
    non-finite number in it) and its [message], where present, is a
    string.  The preflight of an [OPTIONS] request has no body. *)
Theorem serve_typed (secret : option string) (h : http_request) (s s' : store) (res : response) :
  serve secret h s = (Some res, s') ->
  (h_method h = OPTIONS /\ res = preflight_response) \/ (h_method h <> OPTIONS /\ response_ok res).
Proof.
  unfold serve. intros Hs. destruct (h_method h) eqn:Hm; [..|by left; simplify_eq];
    (right; split; [done|]); repeat case_match; simplify_eq;
    first [apply error_response_ok | apply not_found_ok | eapply handler_answer_ok; eassumption].
Qed.

End Typing.
