(* ===== verification/Invariant.v ===== *)
(** * Invariant: what every store the application can reach satisfies.

    The system is the store and the requests the application answers:
    [reachable] is its step relation, from the empty store, by serving a
    request ([serve]), by the clock advancing, and by the database going
    down or coming back.  [store_inv] is what the schema and the handlers
    promise of the collections: every product is stored under its own
    id, passes the schema's validators ([product_wf]) and has an id below
    the next fresh one; every user is stored under its id; no two users
    share an email (the unique index).  Each store call preserves it
    ([run_op_inv]), hence every handler and every request, and by rule
    induction every reachable store satisfies it ([reachable_inv]). *)

From S2P Require Import Prelude JsRuntime Url ObjectId ProductModel UserModel.
From S2P Require Import Query Program Store Jwt Http AuthRoutes ProductRoutes Server.

Open Scope shop_scope.
Local Set Warnings "-register-all".

Record store_inv (s : store) : Prop := {
  inv_products : map_Forall (fun k p => p_id p = k /\ product_wf p /\ (k < st_next s)%Z)
                            (st_products s);
  inv_users : map_Forall (fun k u => u_id u = k /\ (k < st_next s)%Z) (st_users s);
  inv_emails : forall k1 k2 u1 u2, st_users s !! k1 = Some u1 -> st_users s !! k2 = Some u2 ->
               u_email u1 = u_email u2 -> k1 = k2
}.

Definition empty_store (clock : Z) : store := mk_store ∅ ∅ 1%Z clock true.

Definition tick (s : store) (d : Z) : store :=
  mk_store (st_users s) (st_products s) (st_next s) (st_clock s + d) (st_up s).

Definition set_up (s : store) (up : bool) : store :=
  mk_store (st_users s) (st_products s) (st_next s) (st_clock s) up.

Section Reach.
Context `{PasswordHasher} `{QueryEngine} `{Signer}.
Variable secret : option string.

Inductive reachable : store -> Prop :=
| reach_init (clock : Z) : reachable (empty_store clock)
| reach_serve (h : http_request) (s : store) : reachable s -> reachable (serve secret h s).2
| reach_tick (s : store) (d : Z) : reachable s -> (0 <= d)%Z -> reachable (tick s d)
| reach_up (s : store) (up : bool) : reachable s -> reachable (set_up s up).

End Reach.

Section InvSpec.
Context `{PasswordHasher} `{QueryEngine} `{Signer}.

Lemma save_user_id (em pw : jsval) (r : role) (id now : Z) (u : user) :
  save_user em pw r id now = inr u -> u_id u = id.
Proof.
  unfold save_user. destruct (user_validation em pw) as [e|[x y]]; [discriminate|]. by intros [= <-].
Qed.

Lemma email_taken_free (s : store) (e : string) :
  email_taken s e = false -> forall k v, st_users s !! k = Some v -> u_email v <> e.
Proof.
  unfold email_taken. intros Hf k v Hk He. apply Bool.not_true_iff_false in Hf. apply Hf.
  apply existsb_exists. exists v. split; [|by apply String.eqb_eq].
  apply in_map_iff. exists (k, v). split; [done|]. by apply list_elem_of_In, elem_of_map_to_list.
Qed.

(** The invariant survives any step that keeps both collections and
    does not lower the next id. *)
Lemma inv_same_maps (s s' : store) :
  st_users s' = st_users s -> st_products s' = st_products s -> (st_next s <= st_next s')%Z ->
  store_inv s -> store_inv s'.
Proof.
  intros Hu Hp Hn [Hps Hus Hes]. split; rewrite ?Hu, ?Hp.
  - eapply map_Forall_impl; [exact Hps|]. intros k p (? & ? & ?). split_and!; auto; lia.
  - eapply map_Forall_impl; [exact Hus|]. intros k u (? & ?). split; [done|lia].
  - exact Hes.
Qed.

(** Storing a product under [k], well formed and with id [k] below the
    next id. *)
Lemma inv_put_product (s : store) (k next : Z) (p : product) (up : bool) :
  store_inv s -> product_wf p -> p_id p = k -> (k < next)%Z -> (st_next s <= next)%Z ->
  store_inv (mk_store (st_users s) (<[k := p]> (st_products s)) next (st_clock s) up).
Proof.
  intros [Hps Hus Hes] Hwf Hid Hk Hn. split; cbn.
  - apply map_Forall_insert_2; [split_and!; done|].
    eapply map_Forall_impl; [exact Hps|]. intros j q (? & ? & ?). split_and!; auto; lia.
  - eapply map_Forall_impl; [exact Hus|]. intros j u (? & ?). split; [done|lia].
  - exact Hes.
Qed.

Lemma run_op_inv (op : dbop) (s : store) : store_inv s -> store_inv (run_op op s).2.
Proof.
  intros Hi. destruct op; cbn [run_op];
    try (destruct (st_up s); cbn [negb]; [|exact Hi]);
    try (solve [repeat case_match; exact Hi]).
  - (* User.save *)
    destruct (save_user _ _ _ _ _) as [e|u] eqn:Hs; [exact Hi|].
    destruct (email_taken s (u_email u)) eqn:Ht; [exact Hi|]. cbn.
    apply save_user_id in Hs. destruct Hi as [Hps Hus Hes]. split; cbn.
    + eapply map_Forall_impl; [exact Hps|]. intros j q (? & ? & ?). split_and!; auto; lia.
    + apply map_Forall_insert_2; [split; [done|lia]|].
      eapply map_Forall_impl; [exact Hus|]. intros j v (? & ?). split; [done|lia].
    + pose proof (email_taken_free s _ Ht) as Hfree.
      intros k1 k2 u1 u2 L1 L2 He.
      apply lookup_insert_Some in L1 as [[<- <-] | [N1 L1]];
        apply lookup_insert_Some in L2 as [[<- <-] | [N2 L2]]; try done.
      * exfalso. by apply (Hfree k2 u2).
      * exfalso. by apply (Hfree k1 u1).
      * by apply (Hes k1 k2 u1 u2).
  - (* Product.save *)
    destruct (save_product _ _ _) as [e|p] eqn:Hs; [exact Hi|]. cbn.
    apply save_product_wf in Hs as (Hwf & Hid & _). rewrite Hid.
    apply inv_put_product; auto; lia.
  - (* findByIdAndUpdate *)
    destruct (cast_oid id) as [e| |o]; [exact Hi | solve [repeat case_match; exact Hi] |].
    destruct (cast_update upd) as [e|us] eqn:Hc; [exact Hi|].
    destruct (concat (map update_validators us)) eqn:Hv; [|exact Hi].
    destruct (st_products s !! o) as [p|] eqn:Hp; [|exact Hi]. cbn.
    destruct (inv_products s Hi o p Hp) as (Hid & Hwf & Hlt).
    destruct (apply_update_wf p us Hwf (cast_update_ok _ _ Hc) Hv) as (Hwf' & Hid' & _).
    apply inv_put_product; auto; [congruence | lia].
  - (* findByIdAndDelete *)
    destruct (cast_oid id) as [e| |o]; [exact Hi| exact Hi |].
    destruct (st_products s !! o) as [p|]; [|exact Hi]. cbn.
    destruct Hi as [Hps Hus Hes]. split; cbn; [|done|done].
    by apply map_Forall_delete.
Qed.

Lemma run_inv {A} (p : prog A) (s : store) : store_inv s -> store_inv (run p s).2.
Proof.
  revert s. induction p as [a|e|op k IH]; intros s Hi; [done|done|]. cbn.
  pose proof (run_op_inv op s Hi) as Hi'. destruct (run_op op s) as [r s']. by apply IH.
Qed.

Lemma serve_inv (secret : option string) (h : http_request) (s : store) :
  store_inv s -> store_inv (serve secret h s).2.
Proof.
  intros Hi. unfold serve.
  destruct (h_method h); try done; destruct (negb (body_parses (h_body h))); try done;
    destruct (match_route _ _) as [r|]; try done; destruct (route_request h r) as [req|]; try done;
    pose proof (run_inv (route_handler secret r req) s Hi) as Hr;
    destruct (run _ s) as [[e|res] s']; exact Hr.
Qed.

Lemma reachable_store_inv (secret : option string) (s : store) :
  reachable secret s -> store_inv s.
Proof.
  induction 1 as [clock | h s _ IH | s d _ IH Hd | s up _ IH].
  - split; cbn; [apply map_Forall_empty | apply map_Forall_empty |].
    intros k1 k2 u1 u2 L1. by rewrite lookup_empty in L1.
  - by apply serve_inv.
  - by apply (inv_same_maps s).
  - by apply (inv_same_maps s).
Qed.

(** C7: Every store the application reaches satisfies the invariant: every
    product is stored under its id, passes the schema's validators and
    has an id below the next one; every user is stored under its id; no
    two users share an email. *)
Theorem reachable_inv (secret : option string) (s : store) :
  reachable secret s -> store_inv s.
Proof. apply reachable_store_inv. Qed.

End InvSpec.
