(* ===== verification/Client.v ===== *)
(** * Client: authentication in the browser ([src/dev/src]).

    The browser's state is what survives between the client's calls:
    [localStorage]'s ["token"], the [Authorization] default of the global
    [axios] instance, and the current location ([browser]).  Every
    request goes to [Server.serve] with the store, and [axios] turns its
    answer into [response.data] for a 2xx status and into a rejection
    carrying [error.response] otherwise ([ax_result]).

    - [api.js]: the [api] instance, whose request interceptor adds
      [Bearer <token>] from [localStorage] ([api_headers], [api_request]).
    - [context/AuthContext.jsx], the provider [App.jsx] uses: the
      verification on mount ([ctx_verify]), [login], [register] and
      [logout], through the global [axios] and its default header.
    - [AuthContext.jsx] at the root of [src], a second provider over the
      [api] instance ([legacy_verify], [legacy_login], [legacy_register],
      [legacy_logout]).  No file imports it, and it imports [api] as a
      default export, which [api.js] does not have; it is modelled as
      calling the [api] instance its code names.
    - [App.jsx] imports two modules that are not in the tree
      ([components/auth/Login], [pages/AdminProductManagement]); the
      route table is modelled with the pages it names.
    - [App.jsx]: [ProtectedRoute] and the route table ([app_element]),
      with [<Navigate>] followed until a page renders ([navigate]).

    The React state of a provider is a record; a handler is a function
    from the browser, the provider's state and the store to their next
    values and what the handler returns or throws. *)

From S2P Require Import Prelude JsRuntime Url ObjectId ProductModel UserModel.
From S2P Require Import Query Program Store Jwt Http AuthRoutes ProductRoutes Server.

Open Scope shop_scope.
Local Set Warnings "-register-all".

Record browser := mk_browser {
  b_token : option string;       (* localStorage.getItem('token') *)
  b_axios_auth : option string;  (* axios.defaults.headers.common['Authorization'] *)
  b_location : string            (* the router's location *)
}.

(** [localStorage.removeItem('token')] and [delete axios.defaults...]. *)
Definition forget_token (b : browser) : browser := mk_browser None None (b_location b).

Definition go_to (loc : string) (b : browser) : browser :=
  mk_browser (b_token b) (b_axios_auth b) loc.

(** ** axios *)

Inductive ax_result :=
| AxOk (data : jsval)
| AxHttpError (status : Z) (data : jsval)
| AxNoResponse.

Definition axios_result (r : option response) : ax_result :=
  match r with
  | Some res =>
      if (200 <=? res_status res)%Z && (res_status res <? 300)%Z then AxOk (res_body res)
      else AxHttpError (res_status res) (res_body res)
  | None => AxNoResponse
  end.

(** [error.response?.data?.message] *)
Definition err_message (r : ax_result) : jsval :=
  match r with AxHttpError _ d => get_field d "message" | _ => JUndefined end.

(** [v || 'default'] *)
Definition or_else (v : jsval) (d : string) : jsval := if truthy v then v else JStr d.

(** [{ ...obj, key: v }] *)
Definition obj_with (obj : jsval) (k : string) (v : jsval) : jsval :=
  let fs := match obj with JObj fs => fs | _ => [] end in
  JObj (filter (fun kv => kv.1 <> k) fs ++ [(k, v)]).

(** ** [api.js] *)

Definition api_headers (b : browser) : list (string * string) :=
  ("Content-Type", "application/json") ::
  match b_token b with
  | Some t => if truthy (JStr t) then [("Authorization", "Bearer " +:+ t)] else []
  | None => []
  end.

(** [api.get(path)], [api.post(path, data)], ...: [baseURL] is
    [http://localhost:5000/api]. *)
Definition api_request (b : browser) (m : method) (path : string) (data : body)
    : http_request :=
  mk_http m ("/api" +:+ path) (api_headers b) data.

(** The global [axios], with its default [Authorization] header. *)
Definition axios_request (b : browser) (m : method) (url : string) (data : body)
    : http_request :=
  mk_http m url
    ((match data with JsonBody _ => [("Content-Type", "application/json")] | _ => [] end) ++
     match b_axios_auth b with Some a => [("Authorization", a)] | None => [] end)
    data.

Definition credentials (email password : string) : body :=
  JsonBody (JObj [("email", JStr email); ("password", JStr password)]).

Section Client.
Context `{PasswordHasher} `{QueryEngine} `{Signer}.
Variable secret : option string.

Definition fetch (h : http_request) (s : store) : ax_result * store :=
  let '(r, s') := serve secret h s in (axios_result r, s').

(** ** [context/AuthContext.jsx] *)

Record auth_state := mk_auth { a_user : jsval; a_loading : bool }.

Definition auth_init : auth_state := mk_auth JNull true.

(** [verifyToken] of the mount effect (lines 12-35). *)
Definition ctx_verify (b : browser) (a : auth_state) (s : store)
    : browser * auth_state * store :=
  match b_token b with
  | Some t =>
      if truthy (JStr t) then
        let b1 := mk_browser (b_token b) (Some ("Bearer " +:+ t)) (b_location b) in
        let '(r, s1) := fetch (axios_request b1 GET "/api/auth/verify" NoBody) s in
        match r with
        | AxOk data =>
            if truthy (get_field data "success")
            then (b1, mk_auth (get_field data "data") false, s1)
            else (forget_token b1, mk_auth (a_user a) false, s1)
        | _ => (forget_token b1, mk_auth (a_user a) false, s1)
        end
      else (b, mk_auth (a_user a) false, s)
  | None => (b, mk_auth (a_user a) false, s)
  end.

(** [login] and [register] (lines 37-73): the same code but for the
    path and the fallback message.  What the call returns is [inr]
    the user, what it throws [inl] the message. *)
Definition ctx_credentials (path fallback : string) (email password : string)
    (b : browser) (a : auth_state) (s : store) : (jsval + jsval) * browser * auth_state * store :=
  let '(r, s1) := fetch (axios_request b POST path (credentials email password)) s in
  match r with
  | AxOk data =>
      if truthy (get_field data "success") then
        match get_field data "data" with
        | JUndefined | JNull => (inl (JStr fallback), b, a, s1)
        | d =>
            let tok := to_js_string (get_field d "token") in
            let user := get_field d "user" in
            (inr user, mk_browser (Some tok) (Some ("Bearer " +:+ tok)) (b_location b),
             mk_auth user (a_loading a), s1)
        end
      else (inl (JStr fallback), b, a, s1)
  | r => (inl (or_else (err_message r) fallback), b, a, s1)
  end.

Definition ctx_login := ctx_credentials "/api/auth/login" "Login failed".
Definition ctx_register := ctx_credentials "/api/auth/register" "Registration failed".

(** [logout] (lines 75-80). *)
Definition ctx_logout (b : browser) (a : auth_state) : browser * auth_state :=
  (go_to "/login" (forget_token b), mk_auth JNull (a_loading a)).

(** ** [AuthContext.jsx] at the root of [src] *)

Record legacy_state := mk_legacy {
  l_user : jsval; l_token : jsval; l_loading : bool; l_error : jsval
}.

(** [useState(localStorage.getItem('token') || null)] *)
Definition legacy_init (b : browser) : legacy_state :=
  mk_legacy JNull (match b_token b with
                   | Some t => if truthy (JStr t) then JStr t else JNull
                   | None => JNull
                   end) true JNull.

Definition with_admin_flag (user : jsval) (email : jsval) : jsval :=
  obj_with user "isAdmin" (JBool (js_eq_str email ADMIN_EMAIL)).

(** The [catch] of [verifyToken] (lines 39-51). *)
Definition legacy_verify_failed (r : ax_result) (b : browser) (l : legacy_state)
    : browser * legacy_state :=
  match r with
  | AxHttpError 401 _ =>
      (mk_browser None (b_axios_auth b)
         (if String.eqb (b_location b) "/login" then b_location b else "/login"),
       mk_legacy JNull JNull false (JStr "Your session has expired. Please log in again."))
  | _ => (b, mk_legacy (l_user l) (l_token l) false
                       (or_else (err_message r) "Token verification failed"))
  end.

(** [verifyToken] (lines 20-55). *)
Definition legacy_verify (b : browser) (l : legacy_state) (s : store)
    : browser * legacy_state * store :=
  if negb (truthy (l_token l)) then
    (b, mk_legacy (l_user l) (l_token l) false (l_error l), s)
  else
    let '(r, s1) := fetch (api_request b GET "/auth/verify" NoBody) s in
    match r with
    | AxOk data =>
        let user := get_field data "user" in
        if truthy data && truthy user then
          (b, mk_legacy (with_admin_flag user (get_field user "email")) (l_token l) false JNull, s1)
        else let '(b', l') := legacy_verify_failed AxNoResponse b l in (b', l', s1)
    | r => let '(b', l') := legacy_verify_failed r b l in (b', l', s1)
    end.

(** [login] (lines 57-92) and [register] (lines 94-119): after a
    success the page goes to [/admin/products], [/products] or [/]. *)
Definition legacy_credentials (path fallback : string) (admin_flag : bool)
    (email password : string) (b : browser) (l : legacy_state) (s : store)
    : (jsval + bool) * browser * legacy_state * store :=
  let fail (msg : jsval) :=
    (inl msg, b, mk_legacy (l_user l) (l_token l) (l_loading l) msg, s) in
  let '(r, s1) := fetch (api_request b POST path (credentials email password)) s in
  match r with
  | AxOk data =>
      if negb (truthy data) || negb (truthy (get_field data "token"))
      then let '(res, b', l', _) := fail (JStr fallback) in (res, b', l', s1)
      else
        let token := get_field data "token" in
        let user := if admin_flag then with_admin_flag (get_field data "user") (JStr email)
                    else get_field data "user" in
        let loc := if admin_flag
                   then if js_eq_str (JStr email) ADMIN_EMAIL then "/admin/products" else "/products"
                   else "/" in
        (inr true, mk_browser (Some (to_js_string token)) (b_axios_auth b) loc,
         mk_legacy user token (l_loading l) JNull, s1)
  | r => let '(res, b', l', _) := fail (or_else (err_message r) fallback) in (res, b', l', s1)
  end.

Definition legacy_login := legacy_credentials "/auth/login" "Login failed" true.
Definition legacy_register := legacy_credentials "/auth/register" "Registration failed" false.

(** [logout] (lines 121-127). *)
Definition legacy_logout (b : browser) (l : legacy_state) : browser * legacy_state :=
  (mk_browser None (b_axios_auth b) "/login", mk_legacy JNull JNull (l_loading l) JNull).

End Client.

(** ** [App.jsx]: the routes *)

Inductive page :=
| LoginPage | RegisterPage | ProductListPage | AdminDashboardPage | AdminProductsPage
| EditProductPage (id : string) | BlankPage.

Inductive element := Render (p : page) | Redirect (to : string).

(** [ProtectedRoute] (lines 12-21). *)
Definition protected_route (user : jsval) (requireAdmin : bool) (p : page) : element :=
  if negb (truthy user) then Redirect "/login"
  else if requireAdmin && negb (js_eq_str (get_field user "role") "admin") then Redirect "/"
  else Render p.

(** The [<Routes>] of [AppContent] (lines 32-75); React Router matches
    case-insensitively and ignores a trailing slash; no match renders
    nothing. *)
Definition app_element (path : string) (user : jsval) : element :=
  match path_segments path with
  | [] => Redirect "/login"
  | [a] =>
      if seg_is a "login" then Render LoginPage
      else if seg_is a "register" then Render RegisterPage
      else if seg_is a "products" then protected_route user false ProductListPage
      else Render BlankPage
  | [a; b] =>
      if seg_is a "admin" && seg_is b "dashboard" then protected_route user true AdminDashboardPage
      else if seg_is a "admin" && seg_is b "products" then protected_route user true AdminProductsPage
      else Render BlankPage
  | [a; b; c] =>
      if seg_is a "admin" && seg_is b "products" && seg_is c "new"
      then protected_route user true AdminProductsPage
      else Render BlankPage
  | [a; b; id; d] =>
      if seg_is a "admin" && seg_is b "products" && seg_is d "edit"
      then protected_route user true (EditProductPage id)
      else Render BlankPage
  | _ => Render BlankPage
  end.

(** [<Navigate>] followed at most [fuel] times; the page and where it
    rendered. *)
Fixpoint navigate (fuel : nat) (path : string) (user : jsval) : option (string * page) :=
  match fuel with
  | O => None
  | S n =>
      match app_element path user with
      | Render p => Some (path, p)
      | Redirect to => navigate n to user
      end
  end.

(** ** What the client gets from the server *)

Section ClientSpec.
Context `{PasswordHasher} `{QueryEngine} `{Signer}.

Lemma serve_login (secret : option string) (hs : list (string * string))
    (fs : list (string * jsval)) (s : store) :
  serve secret (mk_http POST "/api/auth/login" hs (JsonBody (JObj fs))) s =
    match run (login secret (mk_req hs (JObj []) (JObj fs) JUndefined None)) s with
    | (inr res, s') => (Some (with_cors res), s')
    | (inl _, s') => (None, s')
    end.
Proof. by rewrite (serve_dispatch _ _ RLogin (mk_req hs (JObj []) (JObj fs) JUndefined None)). Qed.

Lemma serve_verify (secret : option string) (hs : list (string * string)) (s : store) :
  serve secret (mk_http GET "/api/auth/verify" hs NoBody) s =
    match run (with_mw (auth secret) verify_route (mk_req hs (JObj []) (JObj []) JUndefined None)) s with
    | (inr res, s') => (Some (with_cors res), s')
    | (inl _, s') => (None, s')
    end.
Proof. by rewrite (serve_dispatch _ _ RVerify (mk_req hs (JObj []) (JObj []) JUndefined None)). Qed.

(** C9: Logging in through [context/AuthContext.jsx] and reloading the page
    within a day: the login stores the token the server signed for the
    user in [localStorage] and as the [axios] default, and the
    verification on the next mount loads that user from [/verify]. *)
Theorem login_then_reload (k e p : string) (u : user) (b : browser) (a : auth_state)
    (s : store) (later : Z) :
  st_up s = true -> st_users s !! u_id u = Some u -> u_email u = e ->
  u_password u = pw_hash p -> e <> "" -> p <> "" ->
  (forall id v, st_users s !! id = Some v -> u_email v = e -> v = u) ->
  oid_valid (u_id u) -> clock_ok (st_clock s) ->
  (seconds later < seconds (st_clock s) + one_day_s)%Z ->
  exists tok,
    let b1 := mk_browser (Some tok) (Some ("Bearer " +:+ tok)) (b_location b) in
    let s1 := mk_store (st_users s) (st_products s) (st_next s) later (st_up s) in
    ctx_login (Some k) e p b a s = (inr (user_summary u), b1, mk_auth (user_summary u) (a_loading a), s) /\
    ctx_verify (Some k) b1 auth_init s1 = (b1, mk_auth (user_json u) false, s1).
Proof.
  intros Hup Hu He Hpw Hne Hpne Huniq Hv Hc Ht.
  set (hs := [("Content-Type", "application/json")] ++
             match b_axios_auth b with Some a => [("Authorization", a)] | None => [] end).
  destruct (login_run_ok k e p u (mk_req hs (JObj [])
    (JObj [("email", JStr e); ("password", JStr p)]) JUndefined None) s)
    as [tok [Hs Hrun]]; try done.
  exists tok. split.
  - unfold ctx_login, ctx_credentials, fetch, axios_request, credentials.
    rewrite serve_login. fold hs. rewrite Hrun. reflexivity.
  - unfold ctx_verify. cbn [b_token]. rewrite truthy_str by (eapply jwt_sign_not_empty; eauto).
    unfold fetch, axios_request. cbn [b_axios_auth app]. rewrite serve_verify.
    unfold with_mw. rewrite run_bind, (auth_run_accepts k u (st_clock s) tok); try done.
    cbn [run]. rewrite verify_route_ok by done. reflexivity.
Qed.

Lemma serve_api (secret : option string) (b : browser) (m : method) (path : string) (d : body)
    (s : store) :
  serve secret (api_request b m path d) s = serve secret (mk_http m ("/api" +:+ path) (api_headers b) d) s.
Proof. reflexivity. Qed.

(** C31: The provider at the root of [src] reads [res.data.token], which the
    server never sends (the token is in [res.data.data]): whatever the
    store holds, its [login] throws, and stores no token and no user. *)
Theorem legacy_login_never_signs_in (secret : option string) (e p : string) (b : browser)
    (l : legacy_state) (s : store) :
  exists msg s',
    legacy_login secret e p b l s = (inl msg, b, mk_legacy (l_user l) (l_token l) (l_loading l) msg, s').
Proof.
  unfold legacy_login, legacy_credentials, fetch, credentials. rewrite serve_api.
  change ("/api" +:+ "/auth/login") with "/api/auth/login". rewrite serve_login.
  destruct (run (login secret _) s) as [[err|res] s'] eqn:Hrun; cbn [axios_result].
  - by eexists _, _.
  - pose proof (run_prog_all _ _ _ _ _ (login_answers_nested secret _) Hrun) as Hn.
    destruct (_ && _); cbn [res_body with_cors]; [rewrite Hn, orb_true_r|]; by eexists _, _.
Qed.

End ClientSpec.

(** ** Where [App.jsx] lands *)

Lemma protected_route_redirects (user : jsval) (adm : bool) (p : page) (to : string) :
  protected_route user adm p = Redirect to -> to = "/login" \/ to = "/".
Proof.
  unfold protected_route. destruct (truthy user), adm, (js_eq_str _ _); cbn;
    intros [=]; auto.
Qed.

Lemma app_element_redirects (path : string) (user : jsval) (to : string) :
  app_element path user = Redirect to -> to = "/login" \/ to = "/".
Proof.
  unfold app_element.
  destruct (path_segments path) as [|a [|b [|c [|d [|x r]]]]];
    [intros [=]; auto | ..];
    repeat match goal with
           | |- context [if ?t then _ else _] => destruct t
           end;
    try discriminate; apply protected_route_redirects.
Qed.

(** C33: Every location renders a page after at most two redirects: a
    [ProtectedRoute] sends to [/login] or [/], and [/] to [/login],
    which renders. *)
Theorem navigate_terminates (path : string) (user : jsval) :
  exists loc p, navigate 3 path user = Some (loc, p).
Proof.
  cbn [navigate]. destruct (app_element path user) as [p|to] eqn:E; [by eexists _, _|].
  destruct (app_element_redirects _ _ _ E) as [-> | ->]; by eexists _, _.
Qed.

(** C32: A signed-in user whose role is not [admin] who opens an admin page
    is sent to [/], which sends to the login page: the client shows the
    login form to a user who is signed in. *)
Theorem non_admin_lands_on_login (user : jsval) (path : string) :
  truthy user = true -> js_eq_str (get_field user "role") "admin" = false ->
  path ∈ ["/admin/dashboard"; "/admin/products"; "/admin/products/new"] ->
  navigate 3 path user = Some ("/login", LoginPage).
Proof.
  intros Hu Hr Hp. repeat (apply elem_of_cons in Hp as [-> | Hp]);
    [..| by apply not_elem_of_nil in Hp];
    cbn [navigate]; unfold app_element at 1; cbn -[protected_route];
    unfold protected_route; rewrite Hu, Hr; reflexivity.
Qed.
