(* ===== verification/Catalog.v ===== *)
(** * Catalog: the product pages of the client ([src/dev/src/pages]).

    - [pages/Products.jsx]: the list fetched on mount with the cart
      ([products_mount], [products_fetch], [products_fetch_cart]),
      filtered and sorted in the browser ([visible_products],
      [sorted_products], [products_view]) under the search box and the
      selects, and the cart button ([products_add_to_cart]), which posts
      to [/cart/add].
    - [pages/Product.jsx]: one product loaded by its id ([product_mount],
      [product_fetch]), its stars ([render_stars]), the quantity input
      clamped to the stock ([clamp_quantity]) and its own cart button
      ([product_add_to_cart]).
    - What each page draws: [products_render] (the spinner or the
      controls, the banner and one card per sorted product) and
      [product_render] (spinner, error, not found, or the product with
      its stars and cart button); [renderStars] draws five stars for
      every rating in [[0, 5]], [floor] of them full and a half star
      exactly when the rating has a fraction ([render_stars_five]); a
      product page of a reachable store draws the stored product with
      its five stars ([product_page_renders_stored]).

    A page's React state is a record; a handler maps the browser, the
    page's state and the store to their next values, calling the server
    through [Client.fetch].  [Array.prototype.sort] is a stable sort
    ([merge_sort] of stdpp) under the comparator's [<= 0]; the string
    order of [localeCompare] is a parameter ([Collator]), the only part
    of the pages left abstract.  [fetch_list_outcome] says what a
    [GET /products] through the [api] instance gives any page: an
    [axios] error with the store unchanged, or the first page of the
    list route over stored products; this file and [AdminPages] build on
    it. *)

From S2P Require Import Prelude JsRuntime Url ObjectId ProductModel UserModel.
From S2P Require Import Query Program Store Jwt Http AuthRoutes ProductRoutes Server Invariant.
From S2P Require Import Client.

Open Scope shop_scope.
Local Set Warnings "-register-all".

(** ** JavaScript numbers the pages use *)

(** [parseInt(s)] without a radix: leading white space and a sign, then
    base 16 after a [0x] or [0X] prefix and base 10 otherwise, as far as
    the digits go; [NaN] when there is no digit. *)
Definition parse_int (s : string) : number :=
  let cs := drop_ws (String.list_ascii_of_string s) in
  let '(neg, r) := match cs with
                   | c :: r => if Ascii.eqb c "-" then (true, r)
                               else if Ascii.eqb c "+" then (false, r) else (false, cs)
                   | [] => (false, cs)
                   end in
  let '(base, r') := match r with
                     | z :: x :: r' =>
                         if Ascii.eqb z "0" && (Ascii.eqb x "x" || Ascii.eqb x "X")
                         then (16%Z, r') else (10%Z, r)
                     | _ => (10%Z, r)
                     end in
  match span_digits base r' with
  | ([], _) => NaN
  | (ds, _) => let n := digits_to_Z base ds in Fin (inject_Z (if neg then - n else n)%Z)
  end.

(** [Math.max(a, b)] and [Math.min(a, b)]: NaN if either is. *)
Definition js_max (a b : number) : number :=
  if is_nan a || is_nan b then NaN else if num_lt a b then b else a.

Definition js_min (a b : number) : number :=
  if is_nan a || is_nan b then NaN else if num_lt b a then b else a.

(** [Math.floor] *)
Definition math_floor (a : number) : number :=
  match a with Fin q => Fin (inject_Z (Qfloor q)) | _ => a end.

(** [a % 1 !== 0]: the number is not an integer (NaN and infinities
    give NaN, which is not [0]). *)
Definition has_fraction (a : number) : bool :=
  match a with Fin q => negb (Qeq_bool q (inject_Z (Qfloor q))) | _ => true end.

(** [a - b] as [Array.prototype.sort] reads a comparator: the first
    element goes after the second when the result is [> 0]. *)
Definition cmp_after (c : number) : bool := num_lt (Fin 0) c.

(** [s.includes(sub)] *)
Definition js_includes (s sub : string) : bool :=
  contains_chars (String.list_ascii_of_string sub) (String.list_ascii_of_string s).

(** [v || 0] *)
Definition or_zero (v : jsval) : jsval := if truthy v then v else num 0.

(** ** [pages/Product.jsx] *)

Inductive star := FullStar | HalfStar | EmptyStar.

#[export] Instance star_eq_dec : EqDecision star.
Proof. solve_decision. Defined.

(** [renderStars(rating)] (lines 78-97).  Its first loop runs
    [Math.floor(rating)] times, forever for [Infinity]. *)
Definition render_stars (rating : number) : option (list star) :=
  match rating with
  | PosInf => None
  | _ =>
      let full := match math_floor rating with Fin q => Z.to_nat (Qfloor q) | _ => O end in
      let stars := replicate full FullStar ++ (if has_fraction rating then [HalfStar] else []) in
      Some (stars ++ replicate (Z.to_nat (5 - Z.of_nat (length stars))) EmptyStar)
  end.

(** The quantity input's [onChange] (line 153):
    [Math.min(Math.max(1, parseInt(value)), product.stock)]. *)
Definition clamp_quantity (value : string) (stock : number) : number :=
  js_min (js_max (Fin 1) (parse_int value)) stock.

(** ** [localeCompare] *)

Class Collator := {
  locale_compare : string -> string -> Z;
  locale_compare_refl s : locale_compare s s = 0%Z
}.

Section Pages.
Context `{PasswordHasher} `{QueryEngine} `{Signer} `{Collator}.
Variable secret : option string.

Record product_page := mk_product_page {
  pg_product : jsval; pg_loading : bool; pg_error : jsval; pg_cart : list jsval; pg_quantity : number
}.

(** [handleAddToCart] (lines 52-72). *)
Definition product_add_to_cart (user id : jsval) (b : browser) (pg : product_page) (s : store)
    : browser * product_page * store :=
  if negb (truthy user) then (go_to "/login" b, pg, s)
  else
    let '(r, s1) := fetch secret (api_request b POST "/cart/add"
                        (JsonBody (JObj [("productId", id); ("quantity", JNum (pg_quantity pg))]))) s in
    let set_error e := mk_product_page (pg_product pg) (pg_loading pg) e (pg_cart pg) (pg_quantity pg) in
    match r with
    | AxOk data =>
        if truthy (get_field data "success")
        then (b, mk_product_page (pg_product pg) (pg_loading pg) (pg_error pg)
                   (pg_cart pg ++ [JObj [("product", id); ("quantity", JNum (pg_quantity pg))]])
                   (pg_quantity pg), s1)
        else (b, set_error (or_else (get_field data "message") "Failed to add to cart"), s1)
    | _ => (b, set_error (JStr "Failed to add to cart"), s1)
    end.

(** ** [pages/Products.jsx] *)

Record products_page := mk_products_page {
  pp_products : list jsval; pp_loading : bool; pp_error : jsval; pp_cart : list jsval;
  pp_search : string; pp_category : string; pp_sortBy : string; pp_sortOrder : string
}.

Definition pp_set_error (st : products_page) (e : jsval) : products_page :=
  mk_products_page (pp_products st) (pp_loading st) e (pp_cart st)
                   (pp_search st) (pp_category st) (pp_sortBy st) (pp_sortOrder st).

(** [handleAddToCart] (lines 54-71). *)
Definition products_add_to_cart (user id : jsval) (b : browser) (st : products_page) (s : store)
    : browser * products_page * store :=
  if negb (truthy user) then (go_to "/login" b, st, s)
  else
    let '(r, s1) := fetch secret (api_request b POST "/cart/add"
                                    (JsonBody (JObj [("productId", id)]))) s in
    match r with
    | AxOk data =>
        if truthy (get_field data "success")
        then (b, mk_products_page (pp_products st) (pp_loading st) (pp_error st)
                   (pp_cart st ++ [JObj [("product", id)]])
                   (pp_search st) (pp_category st) (pp_sortBy st) (pp_sortOrder st), s1)
        else (b, pp_set_error st (or_else (get_field data "message") "Failed to add to cart"), s1)
    | _ => (b, pp_set_error st (JStr "Failed to add to cart"), s1)
    end.

(** [isInCart] (lines 73-75). *)
Definition in_cart (cart : list jsval) (id : jsval) : bool :=
  existsb (fun item => js_strict_eq (get_field item "product") id) cart.

(** One product's test in [filteredProducts] (lines 77-82); the
    [toLowerCase] calls throw on a product without a name or, when the
    name does not match, without a description. *)
Definition product_visible (search category : string) (p : jsval) : exn + bool :=
  let term := to_lower search in
  match js_toLowerCase (get_field p "name") with
  | inl e => inl e
  | inr nm =>
      let by_desc := match js_toLowerCase (get_field p "description") with
                     | inl e => inl e
                     | inr ds => inr (js_includes ds term)
                     end in
      let matches_search := if js_includes nm term then inr true else by_desc in
      match matches_search with
      | inl e => inl e
      | inr ms => inr (ms && (String.eqb category "all" ||
                              js_eq_str (get_field p "category") category))
      end
  end.

Fixpoint visible_products (search category : string) (ps : list jsval) : exn + list jsval :=
  match ps with
  | [] => inr []
  | p :: r =>
      match product_visible search category p with
      | inl e => inl e
      | inr keep =>
          match visible_products search category r with
          | inl e => inl e
          | inr r' => inr (if keep then p :: r' else r')
          end
      end
  end.

(** The comparator of [sortedProducts] (lines 84-93). *)
Definition product_cmp (sortBy sortOrder : string) (a b : jsval) : number :=
  let asc := String.eqb sortOrder "asc" in
  if String.eqb sortBy "name" then
    let na := to_js_string (get_field a "name") in
    let nb := to_js_string (get_field b "name") in
    Fin (inject_Z (if asc then locale_compare na nb else locale_compare nb na))
  else if String.eqb sortBy "price" then
    let pa := to_number (get_field a "price") in
    let pb := to_number (get_field b "price") in
    if asc then num_sub pa pb else num_sub pb pa
  else if String.eqb sortBy "rating" then
    let ra := to_number (or_zero (get_field a "rating")) in
    let rb := to_number (or_zero (get_field b "rating")) in
    if asc then num_sub ra rb else num_sub rb ra
  else Fin 0.

(** [a] may stay before [b]: the comparator is not [> 0]. *)
Definition sort_keeps (sortBy sortOrder : string) (a b : jsval) : Prop :=
  cmp_after (product_cmp sortBy sortOrder a b) = false.

#[export] Instance sort_keeps_dec (sortBy sortOrder : string) :
  RelDecision (sort_keeps sortBy sortOrder).
Proof. intros a b. unfold sort_keeps. apply _. Defined.

Definition sorted_products (sortBy sortOrder : string) (ps : list jsval) : list jsval :=
  merge_sort (sort_keeps sortBy sortOrder) ps.

(** ** The fetch effects and the controls *)

(** [response.data.data || []] stored as the list the render maps
    over.  The list route always sends an array ([list_response]); any
    other truthy value would make the render's [.filter] throw, which
    the list state cannot hold, and is read as no product. *)
Definition array_items (v : jsval) : list jsval :=
  match (if truthy v then v else JArr []) with JArr l => l | _ => [] end.

(** The [useState] calls of [Products.jsx] (lines 10-17). *)
Definition products_init : products_page :=
  mk_products_page [] true JNull [] "" "all" "name" "asc".

(** [fetchProducts] of [Products.jsx] (lines 26-41). *)
Definition products_fetch (b : browser) (st : products_page) (s : store)
    : products_page * store :=
  let '(r, s1) := fetch secret (api_request b GET "/products" NoBody) s in
  let done_with ps e := mk_products_page ps false e (pp_cart st)
                          (pp_search st) (pp_category st) (pp_sortBy st) (pp_sortOrder st) in
  match r with
  | AxOk data =>
      if truthy (get_field data "success")
      then (done_with (array_items (get_field data "data")) (pp_error st), s1)
      else (done_with (pp_products st) (or_else (get_field data "message") "Failed to fetch products"), s1)
  | _ => (done_with (pp_products st) (JStr "Failed to fetch products"), s1)
  end.

(** [fetchCart] of [Products.jsx] (lines 43-52): a failure is only
    logged. *)
Definition products_fetch_cart (b : browser) (st : products_page) (s : store)
    : products_page * store :=
  let '(r, s1) := fetch secret (api_request b GET "/cart" NoBody) s in
  match r with
  | AxOk data =>
      if truthy (get_field data "success")
      then (mk_products_page (pp_products st) (pp_loading st) (pp_error st)
              (array_items (get_field data "data"))
              (pp_search st) (pp_category st) (pp_sortBy st) (pp_sortOrder st), s1)
      else (st, s1)
  | _ => (st, s1)
  end.

(** The effect on [[user]] (lines 19-24); the two requests are
    started together, and run here one after the other. *)
Definition products_mount (user : jsval) (b : browser) (st : products_page) (s : store)
    : products_page * store :=
  let '(st1, s1) := products_fetch b st s in
  if truthy user then products_fetch_cart b st1 s1 else (st1, s1).

(** The search box, the two selects and the order button (lines 121-145). *)
Definition products_set_search (v : string) (st : products_page) : products_page :=
  mk_products_page (pp_products st) (pp_loading st) (pp_error st) (pp_cart st)
                   v (pp_category st) (pp_sortBy st) (pp_sortOrder st).

Definition products_set_category (v : string) (st : products_page) : products_page :=
  mk_products_page (pp_products st) (pp_loading st) (pp_error st) (pp_cart st)
                   (pp_search st) v (pp_sortBy st) (pp_sortOrder st).

Definition products_set_sortBy (v : string) (st : products_page) : products_page :=
  mk_products_page (pp_products st) (pp_loading st) (pp_error st) (pp_cart st)
                   (pp_search st) (pp_category st) v (pp_sortOrder st).

Definition products_toggle_order (st : products_page) : products_page :=
  mk_products_page (pp_products st) (pp_loading st) (pp_error st) (pp_cart st)
                   (pp_search st) (pp_category st) (pp_sortBy st)
                   (if String.eqb (pp_sortOrder st) "asc" then "desc" else "asc").

(** The cards the render draws (lines 77-93, 160): [sortedProducts] of
    [filteredProducts]. *)
Definition products_view (st : products_page) : exn + list jsval :=
  match visible_products (pp_search st) (pp_category st) (pp_products st) with
  | inl e => inl e
  | inr ps => inr (sorted_products (pp_sortBy st) (pp_sortOrder st) ps)
  end.

(** A card of [Products.jsx] (lines 160-188): its image, name and
    description, [product.rating || 'No ratings yet'], the price drawn
    after a [$], and the cart button, disabled and relabelled once
    [isInCart(product._id)]. *)
Record products_card := mk_products_card {
  pcd_key : jsval; pcd_image : jsval; pcd_alt : jsval; pcd_name : jsval; pcd_description : jsval;
  pcd_rating : jsval; pcd_price : jsval; pcd_cart_label : string; pcd_cart_disabled : bool
}.

Definition products_card_of (cart : list jsval) (product : jsval) : exn + products_card :=
  match read_prop product "_id" with
  | inl e => inl e
  | inr id =>
      let added := in_cart cart id in
      inr (mk_products_card id (get_field product "image") (get_field product "name")
             (get_field product "name") (get_field product "description")
             (or_else (get_field product "rating") "No ratings yet") (get_field product "price")
             (if added then "Added to Cart" else "Add to Cart") added)
  end.

(** The spinner (lines 95-105) or the page (107-193): the controls'
    values, whether the order button's arrow points up, the error
    banner (153-157) and the cards.  [filteredProducts] and
    [sortedProducts] are computed before the [loading] test, so a
    product the filter throws on breaks the spinner too. *)
Inductive products_screen :=
| PsSpinner
| PsPage (search category sortBy : string) (arrow_up : bool) (banner : option jsval)
         (cards : list products_card).

Definition products_render (st : products_page) : exn + products_screen :=
  match products_view st with
  | inl e => inl e
  | inr ps =>
      if pp_loading st then inr PsSpinner
      else
        match sum_map (products_card_of (pp_cart st)) ps with
        | inl e => inl e
        | inr cs =>
            inr (PsPage (pp_search st) (pp_category st) (pp_sortBy st)
                        (String.eqb (pp_sortOrder st) "asc")
                        (if truthy (pp_error st) then Some (pp_error st) else None) cs)
        end
  end.

(** The [useState] calls of [Product.jsx] (lines 11-15). *)
Definition product_init : product_page := mk_product_page JNull true JNull [] (Fin 1).

(** [fetchProduct] of [Product.jsx] (lines 24-39). *)
Definition product_fetch (id : string) (b : browser) (pg : product_page) (s : store)
    : product_page * store :=
  let '(r, s1) := fetch secret (api_request b GET ("/products/" +:+ id) NoBody) s in
  let done_with p e := mk_product_page p false e (pg_cart pg) (pg_quantity pg) in
  match r with
  | AxOk data =>
      if truthy (get_field data "success")
      then (done_with (get_field data "data") (pg_error pg), s1)
      else (done_with (pg_product pg) (or_else (get_field data "message") "Failed to fetch product"), s1)
  | _ => (done_with (pg_product pg) (JStr "Failed to fetch product"), s1)
  end.

(** [fetchCart] of [Product.jsx] (lines 41-50). *)
Definition product_fetch_cart (b : browser) (pg : product_page) (s : store)
    : product_page * store :=
  let '(r, s1) := fetch secret (api_request b GET "/cart" NoBody) s in
  match r with
  | AxOk data =>
      if truthy (get_field data "success")
      then (mk_product_page (pg_product pg) (pg_loading pg) (pg_error pg)
              (array_items (get_field data "data")) (pg_quantity pg), s1)
      else (pg, s1)
  | _ => (pg, s1)
  end.

(** The effect on [[id, user]] (lines 17-22). *)
Definition product_mount (user : jsval) (id : string) (b : browser) (pg : product_page) (s : store)
    : product_page * store :=
  let '(pg1, s1) := product_fetch id b pg s in
  if truthy user then product_fetch_cart b pg1 s1 else (pg1, s1).

(** What [Product.jsx] draws (lines 99-176) for the route's [id]: the
    spinner, the error, [Product not found] when [product] is falsy, or
    the product: image, name, the stars of [product.rating || 0], the
    [product.rating || 'No ratings yet'] label, price, description, the
    quantity input bounded by the stock, and the cart button, disabled
    and relabelled once [isInCart()] (lines 74-76).  [None]: the star
    loop never ends. *)
Inductive product_screen :=
| PrSpinner
| PrError (e : jsval)
| PrNotFound
| PrPage (image alt name : jsval) (stars : list star) (rating_label price description : jsval)
         (quantity : number) (stock : jsval) (cart_label : string) (cart_disabled : bool).

Definition product_render (id : string) (pg : product_page) : option product_screen :=
  if pg_loading pg then Some PrSpinner
  else if truthy (pg_error pg) then Some (PrError (pg_error pg))
  else if negb (truthy (pg_product pg)) then Some PrNotFound
  else
    let p := pg_product pg in
    let added := in_cart (pg_cart pg) (JStr id) in
    match render_stars (to_number (or_zero (get_field p "rating"))) with
    | None => None
    | Some stars =>
        Some (PrPage (get_field p "image") (get_field p "name") (get_field p "name") stars
                     (or_else (get_field p "rating") "No ratings yet") (get_field p "price")
                     (get_field p "description") (pg_quantity pg) (get_field p "stock")
                     (if added then "Added to Cart" else "Add to Cart") added)
    end.

(** The quantity input (line 153). *)
Definition product_set_quantity (v : string) (pg : product_page) : product_page :=
  mk_product_page (pg_product pg) (pg_loading pg) (pg_error pg) (pg_cart pg)
    (clamp_quantity v (to_number (get_field (pg_product pg) "stock"))).

End Pages.

(** ** What the pages get *)

Section PagesSpec.
Context `{PasswordHasher} `{QueryEngine} `{Signer} `{Collator}.

(** The server has no [/api/cart] route: Express answers [404]. *)
Lemma serve_cart_add (secret : option string) (hs : list (string * string))
    (fs : list (string * jsval)) (s : store) :
  serve secret (mk_http POST "/api/cart/add" hs (JsonBody (JObj fs))) s =
    (Some (not_found POST "/api/cart/add"), s).
Proof. reflexivity. Qed.

(** C28: No cart button adds anything: the server has no cart route, so for
    a signed-in user both [Products.jsx] and [Product.jsx] end with
    [Failed to add to cart], their cart unchanged and the store untouched. *)
Theorem cart_add_always_fails (secret : option string) (user id : jsval) (b : browser)
    (st : products_page) (pg : product_page) (s : store) :
  truthy user = true ->
  products_add_to_cart secret user id b st s = (b, pp_set_error st (JStr "Failed to add to cart"), s) /\
  product_add_to_cart secret user id b pg s =
    (b, mk_product_page (pg_product pg) (pg_loading pg) (JStr "Failed to add to cart")
                        (pg_cart pg) (pg_quantity pg), s).
Proof.
  intros Hu. unfold products_add_to_cart, product_add_to_cart, fetch.
  rewrite Hu, !serve_api. cbn [negb].
  change ("/api" +:+ "/cart/add") with "/api/cart/add". rewrite !serve_cart_add. done.
Qed.

Lemma floor_bounds (q : Q) :
  (0 <= q <= 5)%Q -> (0 <= Qfloor q <= 5)%Z /\ (Qfloor q = 5%Z -> has_fraction (Fin q) = false).
Proof.
  intros [Hlo Hhi]. pose proof (Qfloor_le q) as Hle.
  pose proof (Qfloor_resp_le _ _ Hlo) as F0. pose proof (Qfloor_resp_le _ _ Hhi) as F5.
  change (Qfloor 0) with 0%Z in F0. change (Qfloor 5) with 5%Z in F5.
  split; [lia|]. intros Hf. cbn [has_fraction]. rewrite Hf.
  assert (Hq : (q == inject_Z 5)%Q).
  { apply Qle_antisym; [exact Hhi|]. rewrite <-Hf. exact Hle. }
  apply Qeq_bool_iff in Hq. by rewrite Hq.
Qed.

Lemma filter_full_replicate (n : nat) (x : star) :
  filter (fun y => y = FullStar) (replicate n x) = if decide (x = FullStar) then replicate n x else [].
Proof.
  induction n as [|n IH]; cbn [replicate]; [by case_decide|]. rewrite filter_cons, IH. by case_decide.
Qed.

Lemma stars_shape (n m : nat) (h : bool) :
  let l := (replicate n FullStar ++ (if h then [HalfStar] else [])) ++ replicate m EmptyStar in
  length (filter (fun x => x = FullStar) l) = n /\ (HalfStar ∈ l <-> h = true).
Proof.
  cbn zeta. rewrite !filter_app, !filter_full_replicate. split.
  - rewrite decide_True, decide_False by done.
    destruct h; cbn [filter list_filter]; rewrite ?decide_False by done;
      rewrite !length_app, length_replicate; cbn; lia.
  - rewrite !elem_of_app, !elem_of_replicate.
    destruct h; cbn; rewrite ?elem_of_cons, ?elem_of_nil; naive_solver.
Qed.

(** The full stars and the half star of a rating in [[0, 5]] fit in the
    five places. *)
Lemma stars_fit (q : Q) :
  (0 <= q <= 5)%Q ->
  (Z.to_nat (Qfloor q) + (if has_fraction (Fin q) then 1 else 0) <= 5)%nat.
Proof.
  intros Hq. destruct (floor_bounds q Hq) as [Hf H5].
  destruct (has_fraction (Fin q)) eqn:Hh; [|lia].
  assert (Qfloor q <> 5%Z) by (intros E; specialize (H5 E); congruence). lia.
Qed.

(** C27: [renderStars] (Product.jsx lines 78-97) on any rating in
    [[0, 5]] draws exactly five stars: [Math.floor(rating)] full ones,
    then a half one exactly when the rating is not an integer, then
    empty ones. *)
Theorem render_stars_five (q : Q) :
  (0 <= q <= 5)%Q ->
  exists l, render_stars (Fin q) = Some l /\ length l = 5%nat /\
    length (filter (fun x => x = FullStar) l) = Z.to_nat (Qfloor q) /\
    (HalfStar ∈ l <-> has_fraction (Fin q) = true).
Proof.
  intros Hq. pose proof (stars_fit q Hq) as Hb.
  cbn [render_stars math_floor]. rewrite Qfloor_Z. eexists. split; [reflexivity|].
  destruct (stars_shape (Z.to_nat (Qfloor q))
              (Z.to_nat (5 - Z.of_nat (length (replicate (Z.to_nat (Qfloor q)) FullStar ++
                 (if has_fraction (Fin q) then [HalfStar] else [])))))
              (has_fraction (Fin q))) as [Hc Hm].
  split; [|done]. clear Hc Hm. revert Hb. rewrite !length_app, !length_replicate.
  destruct (has_fraction (Fin q)); cbn [length]; lia.
Qed.

Lemma render_stars_length (q : Q) :
  (0 <= q <= 5)%Q -> exists l, render_stars (Fin q) = Some l /\ length l = 5%nat.
Proof.
  intros Hq. pose proof (stars_fit q Hq) as Hb.
  cbn [render_stars math_floor]. rewrite Qfloor_Z. eexists. split; [reflexivity|].
  revert Hb. rewrite !length_app, !length_replicate. destruct (has_fraction (Fin q)); cbn [length]; lia.
Qed.

(** The rating of a stored product is a finite number in [[0, 5]]: its
    JSON is itself and its stars are five. *)
Lemma stored_rating_stars (secret : option string) (s : store) (k : oid) (p : product) :
  reachable secret s -> st_products s !! k = Some p ->
  exists l, render_stars (to_number (or_zero (JNum (p_rating p)))) = Some l /\ length l = 5%nat /\
            json_norm (JNum (p_rating p)) = JNum (p_rating p).
Proof.
  intros Hr Hk. destruct (inv_products s (reachable_store_inv secret s Hr) k p Hk)
    as (_ & (_ & _ & _ & _ & _ & _ & Hlo & Hhi & _) & _).
  destruct (p_rating p) as [| | |q]; try discriminate. cbn in Hlo, Hhi.
  apply Qle_bool_iff in Hlo, Hhi. unfold or_zero. cbn [truthy].
  destruct (num_truthy (Fin q)); cbn [to_number].
  - destruct (render_stars_length q) as (l & ? & ?); [done|]. by exists l.
  - destruct (render_stars_length (inject_Z 0)) as (l & ? & ?); [split; discriminate|]. by exists l.
Qed.

Lemma Qle_bool_inject_Z (a b : Z) : Qle_bool (inject_Z a) (inject_Z b) = (a <=? b)%Z.
Proof. unfold Qle_bool. cbn. by rewrite !Z.mul_1_r. Qed.

(** C34: [Product.jsx]'s quantity box: an integer typed in is raised to 1
    and cut to the stock; an emptied box makes the quantity NaN, which
    the cart request then sends as [null]. *)
Theorem clamp_quantity_spec (v : string) (n st : Z) :
  (1 <= st)%Z ->
  (parse_int v = Fin (inject_Z n) ->
   clamp_quantity v (Fin (inject_Z st)) = Fin (inject_Z (Z.min (Z.max 1 n) st)) /\
   (1 <= Z.min (Z.max 1 n) st <= st)%Z) /\
  clamp_quantity "" (Fin (inject_Z st)) = NaN.
Proof.
  intros Hst. split; [|reflexivity]. intros Hp.
  unfold clamp_quantity, js_max, js_min. rewrite Hp. change (Fin 1) with (Fin (inject_Z 1)).
  repeat (cbn [is_nan orb negb num_lt]; rewrite ?Qle_bool_inject_Z;
          match goal with |- context [(?a <=? ?b)%Z] => destruct (Z.leb_spec a b) end).
  all: split; [f_equal; f_equal|]; lia.
Qed.

(** ** The filter of [Products.jsx] against its reference *)

(** What the search box and the category menu select, on the stored
    products: the term in the name or the description, ignoring case,
    and the category unless [all] is chosen. *)
Definition search_matches (search category : string) (p : product) : bool :=
  (js_includes (to_lower (p_name p)) (to_lower search) ||
   js_includes (to_lower (p_description p)) (to_lower search)) &&
  (String.eqb category "all" || String.eqb (p_category p) category).

Lemma product_visible_json (search category : string) (p : product) :
  product_visible search category (json_norm (product_json p)) =
    inr (search_matches search category p).
Proof.
  destruct (product_json_get p) as (Hn & Hd & Hc & _). unfold product_visible.
  rewrite Hn, Hd, Hc. unfold search_matches. cbn [js_toLowerCase js_eq_str].
  by destruct (js_includes (to_lower (p_name p)) _).
Qed.

Lemma visible_products_json (search category : string) (ps : list product) :
  visible_products search category (map (fun p => json_norm (product_json p)) ps) =
    inr (map (fun p => json_norm (product_json p)) (List.filter (search_matches search category) ps)).
Proof.
  induction ps as [|p ps IH]; [done|]. cbn [map visible_products List.filter].
  rewrite product_visible_json, IH. by destruct (search_matches _ _ p).
Qed.

(** C11: On the products the server sends, the filter of [Products.jsx]
    (whose [toLowerCase] calls could throw on other data) never throws
    and is the plain filter [search_matches]: the page shows exactly
    the stored products that match, in the order received. *)

Theorem visible_products_filter (search category : string) (ps : list product) :
  visible_products search category (map (fun p => json_norm (product_json p)) ps) =
    inr (map (fun p => json_norm (product_json p)) (List.filter (search_matches search category) ps)).
Proof. apply visible_products_json. Qed.

(** ** What [Products.jsx] shows after [fetchProducts] *)

Lemma json_norm_defined (v : jsval) : v <> JUndefined -> json_norm v <> JUndefined.
Proof. by destruct v as [| | |[]| | | ]. Qed.

Lemma default_param_defined (v : jsval) (d : Z) : default_param v d <> JUndefined.
Proof. by destruct v. Qed.

Lemma json_norm_products (l : list product) :
  json_norm (JArr (map product_json l)) = JArr (map (fun p => json_norm (product_json p)) l).
Proof.
  induction l as [|p l IH]; [done|]. cbn -[product_json] in IH |- *. injection IH as IH.
  rewrite IH, product_json_norm. reflexivity.
Qed.

(** The two fields of a page of the list route the client reads. *)
Lemma list_response_fields (pg lim : jsval) (l : list product) (tot : nat) :
  pg <> JUndefined ->
  get_field (res_body (list_response pg lim l tot)) "success" = JBool true /\
  get_field (res_body (list_response pg lim l tot)) "data" =
    JArr (map (fun p => json_norm (product_json p)) l).
Proof.
  intros Hpg. unfold list_response, ok_json, send_json. cbn [res_body].
  rewrite json_norm_obj; [split; [reflexivity | cbn -[json_norm]; apply json_norm_products]|].
  repeat constructor; cbn [snd]; apply json_norm_defined; try discriminate; exact Hpg.
Qed.

(** What the list route answers: a page of products or its [500]. *)
Lemma list_products_shape (req : request) :
  prog_all (fun r => r = fail_json 500 "Server error" \/
                     exists pg lim l tot, r = list_response pg lim l tot) (list_products req).
Proof. unfold list_products. prog_all_walk; first [by left | right; by eexists _, _, _, _]. Qed.

Lemma serve_list_all (secret : option string) (b : browser) (s : store) :
  serve secret (api_request b GET "/products" NoBody) s =
    match run (list_products (mk_req (api_headers b) (JObj []) (JObj []) JUndefined None)) s with
    | (inr res, s') => (Some (with_cors res), s')
    | (inl _, s') => (None, s')
    end.
Proof.
  rewrite serve_api. by rewrite (serve_dispatch _ _ RList (mk_req (api_headers b) (JObj []) (JObj []) JUndefined None)).
Qed.

Lemma axios_list_response (pg lim : jsval) (l : list product) (tot : nat) :
  axios_result (Some (with_cors (list_response pg lim l tot))) = AxOk (res_body (list_response pg lim l tot)).
Proof. reflexivity. Qed.

(** The list handler only reads the store. *)
Lemma list_products_store (req : request) (s : store) : (run (list_products req) s).2 = s.
Proof.
  unfold list_products. rewrite run_try_catch, run_bind.
  destruct (build_query _); cbn [lift run]; [done|].
  rewrite run_bind, run_call. unfold run_op. destruct (st_up s); cbn [negb]; [|done].
  repeat case_match; simplify_eq/=; try done;
    rewrite ?run_bind, ?run_call in *; unfold run_op in *; cbn in *; repeat case_match; simplify_eq/=; done.
Qed.

(** [api.get('/products')] composed with the list route: the request
    fails, or it answers [200] with the first page of stored products for
    the query [{}]; either way the store is untouched. *)
Lemma fetch_list_outcome (secret : option string) (b : browser) (s : store) :
  (exists r, fetch secret (api_request b GET "/products" NoBody) s = (r, s) /\
             forall d, r <> AxOk d) \/
  (exists l tot,
     run (list_products (mk_req (api_headers b) (JObj []) (JObj []) JUndefined None)) s =
       (inr (list_response (num 1) (num 10) l tot), s) /\
     (forall p, p ∈ l -> p ∈ store_products s) /\
     fetch secret (api_request b GET "/products" NoBody) s =
       (AxOk (res_body (list_response (num 1) (num 10) l tot)), s)).
Proof.
  unfold fetch. rewrite serve_list_all.
  set (req0 := mk_req (api_headers b) (JObj []) (JObj []) JUndefined None).
  pose proof (list_products_store req0 s) as Hst.
  destruct (run (list_products req0) s) as [[e|res] s'] eqn:Hrun; cbn in Hst; subst s';
    [by left; eexists|].
  destruct (run_prog_all _ _ _ _ _ (list_products_shape req0) Hrun) as [->|(pg & lim & l & tot & ->)];
    [by left; eexists|].
  destruct (list_products_page req0 s s _ (mk_query None None None None) eq_refl Hrun eq_refl)
    as [_ (l' & m & Hres & Hm & Hsub & _)].
  right. exists l', (length m). rewrite Hres. split_and!; [reflexivity | | reflexivity].
  intros p Hp. assert (Hp' : p ∈ m).
  { rewrite <-(engine_sort_perm (sort_options (get_field (req_query req0) "sort")) m).
    by eapply elem_of_sublist. }
  by apply Hm in Hp' as [? _].
Qed.

(** C16: [fetchProducts] of [Products.jsx] composed with the list route:
    either the request fails and the page keeps its list and shows
    [Failed to fetch products], or the store is untouched and the page
    holds the JSON of stored products, and its cards are exactly the
    ones among them that match the search and the category, in the
    order of the page's sort.  Either way the spinner stops. *)
Theorem products_fetch_shows_store (secret : option string) (b : browser) (st : products_page)
    (s : store) :
  let '(st', s') := products_fetch secret b st s in
  pp_loading st' = false /\
  ((pp_products st' = pp_products st /\ pp_error st' = JStr "Failed to fetch products") \/
   (s' = s /\ exists l tot,
      run (list_products (mk_req (api_headers b) (JObj []) (JObj []) JUndefined None)) s =
        (inr (list_response (num 1) (num 10) l tot), s) /\
      (forall p, p ∈ l -> p ∈ store_products s) /\
      pp_products st' = map (fun p => json_norm (product_json p)) l /\
      products_view st' =
        inr (sorted_products (pp_sortBy st) (pp_sortOrder st)
               (map (fun p => json_norm (product_json p))
                    (List.filter (search_matches (pp_search st) (pp_category st)) l))))).
Proof.
  unfold products_fetch.
  destruct (fetch_list_outcome secret b s) as [(r & -> & Hr) | (l & tot & Hrun & Hmem & ->)].
  { destruct r as [d| |]; [by destruct (Hr d) | |]; by split; [|left]. }
  destruct (list_response_fields (num 1) (num 10) l tot ltac:(discriminate)) as [-> ->].
  split; [reflexivity|]. right. split; [reflexivity|]. exists l, tot.
  split_and!; [exact Hrun | exact Hmem | reflexivity |].
  unfold products_view. cbn [pp_search pp_category pp_products pp_sortBy pp_sortOrder].
  cbn [array_items truthy]. by rewrite visible_products_json.
Qed.

(** ** What [Product.jsx] loads *)

Lemma run_op_product_find_by_id (s : store) (o : oid) :
  oid_valid o -> st_up s = true ->
  run_op (OpProductFindById (JStr (oid_to_hex o))) s = (inr (st_products s !! o), s).
Proof. intros Hv Hup. unfold run_op. rewrite Hup. cbn -[lookup_id oid_to_hex]. by rewrite lookup_id_hex. Qed.

Lemma get_product_found (o : oid) (p : product) (req : request) (s : store) :
  oid_valid o -> req_params_id req = JStr (oid_to_hex o) -> st_up s = true ->
  st_products s !! o = Some p ->
  run (get_product req) s = (inr (ok_json 200 [("data", product_json p)]), s).
Proof.
  intros Hv Hid Hup Hp. unfold get_product. rewrite run_try_catch, run_bind, run_call, Hid.
  rewrite run_op_product_find_by_id, Hp by done. reflexivity.
Qed.

Lemma ok_json_data (x : jsval) :
  (exists fs, json_norm x = JObj fs) ->
  get_field (res_body (ok_json 200 [("data", x)])) "success" = JBool true /\
  get_field (res_body (ok_json 200 [("data", x)])) "data" = json_norm x.
Proof. intros [fs Hx]. cbn. rewrite Hx. split; reflexivity. Qed.

Lemma axios_ok_json (fs : list (string * jsval)) :
  axios_result (Some (with_cors (ok_json 200 fs))) = AxOk (res_body (ok_json 200 fs)).
Proof. reflexivity. Qed.

Lemma get_product_missing (o : oid) (req : request) (s : store) :
  oid_valid o -> req_params_id req = JStr (oid_to_hex o) -> st_up s = true ->
  st_products s !! o = None ->
  run (get_product req) s = (inr (fail_json 404 "Product not found"), s).
Proof.
  intros Hv Hid Hup Hp. unfold get_product. rewrite run_try_catch, run_bind, run_call, Hid.
  rewrite run_op_product_find_by_id, Hp by done. reflexivity.
Qed.

(** [fetchProduct] of [Product.jsx] on the id of a product: the page
    holds the stored product's JSON, or, when no product has that id,
    keeps its product and shows [Failed to fetch product] (the server's
    [Product not found] comes as a [404], which [axios] throws, so the
    branch that would show the server's message is never taken).  The
    store is untouched and the spinner stops. *)
Theorem product_fetch_stored (secret : option string) (b : browser) (pg : product_page) (o : oid)
    (s : store) :
  oid_valid o -> st_up s = true ->
  product_fetch secret (oid_to_hex o) b pg s =
    (mk_product_page
       (match st_products s !! o with Some p => json_norm (product_json p) | None => pg_product pg end)
       false
       (match st_products s !! o with Some _ => pg_error pg | None => JStr "Failed to fetch product" end)
       (pg_cart pg) (pg_quantity pg), s).
Proof.
  intros Hv Hup. unfold product_fetch, fetch, api_request.
  rewrite (serve_product_id _ _ GET _ NoBody (RGet (oid_to_hex o))) by
    (apply oid_hex_safe || done || reflexivity).
  cbn [route_handler]. destruct (st_products s !! o) as [p|] eqn:Hp.
  - rewrite (get_product_found o p) by done. lazy beta iota zeta. rewrite axios_ok_json.
    destruct (ok_json_data (product_json p)) as [-> ->]; [by rewrite product_json_norm; eexists|].
    reflexivity.
  - rewrite (get_product_missing o) by done. reflexivity.
Qed.

Lemma product_json_rating (q : product) :
  get_field (json_norm (product_json q)) "rating" = json_norm (JNum (p_rating q)).
Proof. by rewrite product_json_norm. Qed.

(** C40: [Product.jsx] on a product id of a reachable store, after
    [fetchProduct]: the store is unchanged, and the page draws the stored
    product, its image, name, price, description and stock, exactly five
    stars for its rating and the cart button as [isInCart()] says; or,
    when no product has that id, the error screen [Failed to fetch
    product]. *)
Theorem product_page_renders_stored (secret : option string) (b : browser) (pg : product_page)
    (o : oid) (s : store) :
  reachable secret s -> oid_valid o -> st_up s = true -> truthy (pg_error pg) = false ->
  let '(pg', s') := product_fetch secret (oid_to_hex o) b pg s in
  s' = s /\
  match st_products s !! o with
  | Some p =>
      let added := in_cart (pg_cart pg) (JStr (oid_to_hex o)) in
      exists stars, length stars = 5%nat /\
        product_render (oid_to_hex o) pg' =
          Some (PrPage (JStr (p_image p)) (JStr (p_name p)) (JStr (p_name p)) stars
                       (or_else (JNum (p_rating p)) "No ratings yet") (json_norm (JNum (p_price p)))
                       (JStr (p_description p)) (pg_quantity pg) (json_norm (JNum (p_stock p)))
                       (if added then "Added to Cart" else "Add to Cart") added)
  | None => product_render (oid_to_hex o) pg' = Some (PrError (JStr "Failed to fetch product"))
  end.
Proof.
  intros Hr Hv Hup Herr. rewrite (product_fetch_stored secret b pg o s Hv Hup). split; [done|].
  destruct (st_products s !! o) as [p|] eqn:Hp; [|reflexivity].
  destruct (stored_rating_stars secret s o p Hr Hp) as (l & Hl & Hlen & Hn).
  exists l. split; [done|]. unfold product_render. cbn [pg_loading pg_error pg_product pg_cart pg_quantity].
  rewrite Herr. replace (truthy (json_norm (product_json p))) with true by (by rewrite product_json_norm).
  destruct (product_json_get p) as (Hnm & Hds & _ & Hpr & Hst & Him).
  rewrite Hnm, Hds, Hpr, Hst, Him, product_json_rating, Hn, Hl. reflexivity.
Qed.

End PagesSpec.
