(* ===== verification/ListPages.v ===== *)
(** * ListPages: the two product list pages of the client.

    - [components/products/ProductList.jsx]: a filter object whose truthy
      entries become the query string through [URLSearchParams]
      ([query_params], [component_url]); changing a filter returns to page
      1 ([set_filter]); the list is fetched with the global [axios]
      ([component_fetch]) and each card reads [product.images[0]]
      ([card_image]); Express reads the query string back as exactly the
      non-empty filters, in order, then the page and the limit
      ([component_query_roundtrip]).
    - [pages/ProductList.jsx], the page [App.jsx] routes [/products] to:
      the query string is a template literal that pastes the search box,
      the category and the [sortBy]/[sortOrder] pair as they are
      ([page_url]); the list, the delete button and the add form go
      through the [api] instance ([page_fetch], [page_delete],
      [page_add]); the fetch effect reruns when one of its dependencies
      changed ([page_effect]), after the category select, a page
      button or the search box once its debounce fired
      ([page_set_category], [page_set_current], [page_search_settled]).
      The render ([page_render]) is the spinner, the error or the list:
      its heading and admin links, the add form, one card per product
      with the edit and delete buttons for an administrator
      ([page_card_of]), and the page buttons; [page_click] runs a card's
      button.  The edit button of a card drawn from the server's products
      leads to that product's edit page ([page_card_edit_lands]); the
      delete button, clicked by an administrator and composed with the
      server, deletes exactly that product from the store and its cards
      from the list ([page_card_delete]). *)

From S2P Require Import Prelude JsRuntime Url ObjectId ProductModel UserModel.
From S2P Require Import Query Program Store Jwt Http AuthRoutes ProductRoutes Server Invariant.
From S2P Require Import Client Catalog.
From Stdlib Require Import Qcanon.

Open Scope shop_scope.
Local Set Warnings "-register-all -clear-no-such-hyp".

(** ** [components/products/ProductList.jsx] *)

Record filters := mk_filters {
  f_category : string; f_minPrice : string; f_maxPrice : string; f_minRating : string;
  f_search : string; f_sort : string; f_page : Z; f_limit : Z
}.

(** [useState({...})] (lines 9-18) *)
Definition filters_init : filters := mk_filters "" "" "" "" "" "" 1 10.

(** [Object.entries(filters)], in the order of the literal. *)
Definition filter_entries (f : filters) : list (string * jsval) :=
  [("category", JStr (f_category f)); ("minPrice", JStr (f_minPrice f));
   ("maxPrice", JStr (f_maxPrice f)); ("minRating", JStr (f_minRating f));
   ("search", JStr (f_search f)); ("sort", JStr (f_sort f));
   ("page", num (f_page f)); ("limit", num (f_limit f))].

(** [if (value) queryParams.append(key, value)] (lines 25-28). *)
Definition query_params (f : filters) : list (string * string) :=
  map (fun kv => (kv.1, to_js_string kv.2)) (List.filter (fun kv => truthy kv.2) (filter_entries f)).

Definition component_url (f : filters) : string :=
  "http://localhost:5000/api/products?" +:+ url_search_params (query_params f).

(** [handleFilterChange] (lines 44-51): the named filter takes the
    input's value and the page goes back to 1. *)
Definition set_filter (name value : string) (f : filters) : filters :=
  let pick k old := if String.eqb name k then value else old in
  mk_filters (pick "category" (f_category f)) (pick "minPrice" (f_minPrice f))
             (pick "maxPrice" (f_maxPrice f)) (pick "minRating" (f_minRating f))
             (pick "search" (f_search f)) (pick "sort" (f_sort f)) 1 (f_limit f).

(** [handlePageChange] (lines 53-55). *)
Definition set_page (page : Z) (f : filters) : filters :=
  mk_filters (f_category f) (f_minPrice f) (f_maxPrice f) (f_minRating f)
             (f_search f) (f_sort f) page (f_limit f).

Record list_state := mk_list_state {
  ls_products : jsval; ls_loading : bool; ls_error : string; ls_filters : filters;
  ls_totalPages : jsval
}.

(** The [src] of a card's image (line 142): [product.images[0]], or the
    placeholder when that is falsy; reading [[0]] of [undefined] throws. *)
Definition card_image (p : jsval) : exn + jsval :=
  let placeholder := "https://via.placeholder.com/300" in
  match get_field p "images" with
  | JUndefined => inl (type_error "Cannot read properties of undefined (reading '0')")
  | JNull => inl (type_error "Cannot read properties of null (reading '0')")
  | JArr (x :: _) => inr (or_else x placeholder)
  | JStr (String c _) => inr (JStr (String c EmptyString))
  | JObj fs => inr (or_else (get_field (JObj fs) "0") placeholder)
  | _ => inr (JStr placeholder)
  end.

(** Rendering the grid (lines 139-161) throws at the first card that
    throws. *)
Fixpoint render_cards (ps : list jsval) : exn + list jsval :=
  match ps with
  | [] => inr []
  | p :: r =>
      match card_image p with
      | inl e => inl e
      | inr img => match render_cards r with inl e => inl e | inr imgs => inr (img :: imgs) end
      end
  end.

Section ListPages.
Context `{PasswordHasher} `{QueryEngine} `{Signer}.
Variable secret : option string.

(** [fetchProducts] (lines 22-39), with the global [axios]. *)
Definition component_fetch (b : browser) (st : list_state) (s : store) : list_state * store :=
  let f := ls_filters st in
  let '(r, s1) := fetch secret (axios_request b GET
                                  ("/api/products?" +:+ url_search_params (query_params f))
                                  NoBody) s in
  match r with
  | AxOk data => (mk_list_state (get_field data "data") false "" f (get_field data "totalPages"), s1)
  | _ => (mk_list_state (ls_products st) false "Failed to fetch products" f (ls_totalPages st), s1)
  end.

(** ** [pages/ProductList.jsx] *)

Record page_state := mk_page_state {
  pg_list : jsval; pg_busy : bool; pg_err : string;
  pg_debounced : string; pg_category : string; pg_sortBy : string; pg_sortOrder : string;
  pg_page : Z; pg_total : jsval; pg_showAdd : bool; pg_new : list (string * string)
}.

Definition new_product_init : list (string * string) :=
  [("name", ""); ("description", ""); ("price", ""); ("category", ""); ("image", "");
   ("stock", "")].

(** The request path of [fetchProducts] (lines 41-43). *)
Definition page_url (st : page_state) : string :=
  "/products?page=" +:+ to_js_string (num (pg_page st)) +:+ "&limit=12&search=" +:+
  pg_debounced st +:+ "&category=" +:+ pg_category st +:+ "&sortBy=" +:+ pg_sortBy st +:+
  "&sortOrder=" +:+ pg_sortOrder st.

Definition page_with (st : page_state) (list : jsval) (busy : bool) (err : string)
    (total : jsval) : page_state :=
  mk_page_state list busy err (pg_debounced st) (pg_category st) (pg_sortBy st)
                (pg_sortOrder st) (pg_page st) total (pg_showAdd st) (pg_new st).

(** [fetchProducts] (lines 38-61). *)
Definition page_fetch (b : browser) (st : page_state) (s : store) : page_state * store :=
  let '(r, s1) := fetch secret (api_request b GET (page_url st) NoBody) s in
  match r with
  | AxOk data =>
      if truthy (get_field data "success")
      then (page_with st (let d := get_field data "data" in if truthy d then d else JArr [])
                      false (pg_err st)
                      (if truthy (get_field data "totalPages") then get_field data "totalPages"
                       else num 1), s1)
      else (page_with st (JArr []) false (to_js_string (or_else (get_field data "message")
                                                   "Failed to fetch products")) (pg_total st), s1)
  | _ => (page_with st (JArr []) false "Failed to fetch products" (pg_total st), s1)
  end.

(** The sort select's [onChange] (lines 170-174): [value.split('-')]. *)
Definition page_set_sort (value : string) (st : page_state) : page_state :=
  let parts := js_split "-" value in
  let by_ := match parts with x :: _ => x | [] => "" end in
  let order := match parts with _ :: y :: _ => y | _ => "undefined" end in
  mk_page_state (pg_list st) (pg_busy st) (pg_err st) (pg_debounced st) (pg_category st)
                by_ order (pg_page st) (pg_total st) (pg_showAdd st) (pg_new st).

(** [handleDelete] (lines 67-82), after the user confirmed: [products.filter]
    throws when the list is not an array, inside the [try]. *)
Definition page_delete (id : string) (b : browser) (st : page_state) (s : store)
    : page_state * store :=
  let '(r, s1) := fetch secret (api_request b DELETE ("/products/" +:+ id) NoBody) s in
  match r with
  | AxOk data =>
      if truthy (get_field data "success")
      then match pg_list st with
           | JArr ps =>
               (page_with st (JArr (List.filter (fun p => negb (js_strict_eq (get_field p "_id")
                                                                    (JStr id))) ps))
                          (pg_busy st) (pg_err st) (pg_total st), s1)
           | _ => (page_with st (pg_list st) (pg_busy st) "Failed to delete product"
                             (pg_total st), s1)
           end
      else (page_with st (pg_list st) (pg_busy st)
                      (to_js_string (or_else (get_field data "message") "Failed to delete product"))
                      (pg_total st), s1)
  | _ => (page_with st (pg_list st) (pg_busy st) "Failed to delete product" (pg_total st), s1)
  end.

Definition form_body (fields : list (string * string)) : jsval :=
  JObj (map (fun kv => (kv.1, JStr kv.2)) fields).

(** [handleAddProduct] (lines 88-111): on success the form closes and
    empties and the list is fetched again. *)
Definition page_add (b : browser) (st : page_state) (s : store) : page_state * store :=
  let '(r, s1) := fetch secret (api_request b POST "/products" (JsonBody (form_body (pg_new st)))) s in
  match r with
  | AxOk data =>
      if truthy (get_field data "success")
      then
        let st1 := mk_page_state (pg_list st) true (pg_err st) (pg_debounced st) (pg_category st)
                                 (pg_sortBy st) (pg_sortOrder st) (pg_page st) (pg_total st)
                                 false new_product_init in
        page_fetch b st1 s1
      else (page_with st (pg_list st) false (pg_err st) (pg_total st), s1)
  | _ => (page_with st (pg_list st) false "Failed to add product" (pg_total st), s1)
  end.

(** [handleEdit] (lines 84-86). *)
Definition page_edit (productId : string) (b : browser) : browser :=
  go_to ("/admin/products/" +:+ productId +:+ "/edit") b.

(** [{...prev, [name]: value}] on the form's fields: a key already
    there keeps its place. *)
Fixpoint assoc_set (k v : string) (l : list (string * string)) : list (string * string) :=
  match l with
  | [] => [(k, v)]
  | (k', v') :: r => if String.eqb k' k then (k, v) :: r else (k', v') :: assoc_set k v r
  end.

(** [handleNewProductChange] (lines 113-119). *)
Definition page_new_change (name value : string) (st : page_state) : page_state :=
  mk_page_state (pg_list st) (pg_busy st) (pg_err st) (pg_debounced st) (pg_category st)
                (pg_sortBy st) (pg_sortOrder st) (pg_page st) (pg_total st) (pg_showAdd st)
                (assoc_set name value (pg_new st)).

(** The values the fetch effect depends on (line 65). *)
Definition page_deps (st : page_state) : Z * string * string * string * string :=
  (pg_page st, pg_debounced st, pg_category st, pg_sortBy st, pg_sortOrder st).

(** The effect of lines 63-65, after a handler turned [old] into [st]:
    React runs it again only when one of its dependencies changed. *)
Definition page_effect (old : page_state) (b : browser) (st : page_state) (s : store)
    : page_state * store :=
  if bool_decide (page_deps old = page_deps st) then (st, s) else page_fetch b st s.

(** The category select (line 158) and the page buttons (line 355),
    each followed by the effect. *)
Definition page_set_category (value : string) (b : browser) (st : page_state) (s : store)
    : page_state * store :=
  page_effect st b (mk_page_state (pg_list st) (pg_busy st) (pg_err st) (pg_debounced st) value
                                  (pg_sortBy st) (pg_sortOrder st) (pg_page st) (pg_total st)
                                  (pg_showAdd st) (pg_new st)) s.

Definition page_set_current (page : Z) (b : browser) (st : page_state) (s : store)
    : page_state * store :=
  page_effect st b (mk_page_state (pg_list st) (pg_busy st) (pg_err st) (pg_debounced st)
                                  (pg_category st) (pg_sortBy st) (pg_sortOrder st) page
                                  (pg_total st) (pg_showAdd st) (pg_new st)) s.

(** The search box (line 153) and the debounce effect (lines 30-36):
    a keystroke sets [searchTerm] and restarts the 500 ms timer, so a
    keystroke followed by another within 500 ms only changes what the
    box shows; once the user stops typing, the timer sets
    [debouncedSearchTerm] to the box's value and the fetch effect runs
    if it changed. *)
Definition page_search_settled (value : string) (b : browser) (st : page_state) (s : store)
    : page_state * store :=
  page_effect st b (mk_page_state (pg_list st) (pg_busy st) (pg_err st) value (pg_category st)
                                  (pg_sortBy st) (pg_sortOrder st) (pg_page st) (pg_total st)
                                  (pg_showAdd st) (pg_new st)) s.

(** The buttons [1..totalPages] drawn when [totalPages > 1] (lines
    349-352): [Array.from({ length: totalPages })] takes the integer
    part of the length. *)
Definition page_buttons (total : jsval) : list Z :=
  if js_lt (num 1) total then
    match to_number total with
    | Fin q => map Z.of_nat (seq 1 (Z.to_nat (Qfloor q)))
    | _ => []
    end
  else [].

(** The add button (line 193) and the form's cancel button (line 284). *)
Definition page_show_add (v : bool) (st : page_state) : page_state :=
  mk_page_state (pg_list st) (pg_busy st) (pg_err st) (pg_debounced st) (pg_category st)
                (pg_sortBy st) (pg_sortOrder st) (pg_page st) (pg_total st) v (pg_new st).

(** ** The render (lines 121-372) *)

(** The buttons of a card (lines 305-316): [handleEdit(product._id)] and
    [handleDelete(product._id)]. *)
Inductive page_action :=
| PaEdit (id : jsval)
| PaDelete (id : jsval).

(** What a card shows (lines 301-341), in the order of the markup; the
    price is drawn after a literal [$]. *)
Record page_card := mk_page_card {
  pc_key : jsval; pc_image : jsval; pc_alt : jsval; pc_actions : list page_action;
  pc_name : jsval; pc_description : jsval; pc_price : jsval; pc_stock : jsval;
  pc_category : jsval; pc_rating : jsval
}.

(** A card: [key={product._id}] is read first, so a [null] item throws
    there. *)
Definition page_card_of (admin : bool) (product : jsval) : exn + page_card :=
  match read_prop product "_id" with
  | inl e => inl e
  | inr id =>
      inr (mk_page_card id (get_field product "image") (get_field product "name")
             (if admin then [PaEdit id; PaDelete id] else [])
             (get_field product "name") (get_field product "description")
             (get_field product "price") (get_field product "stock")
             (get_field product "category") (get_field product "rating"))
  end.

(** The three shapes of the page: the spinner (lines 121-127), the
    error (129-138) and the list (140-372), whose heading, admin links,
    add form, cards and page buttons (each with whether it is the
    current page) are drawn from the state. *)
Inductive page_view :=
| PvSpinner
| PvError (msg : string)
| PvPage (title : string) (admin_links : bool) (form : option (list (string * string)))
         (cards : list page_card) (buttons : list (Z * bool)).

Definition page_render (user : jsval) (st : page_state) : exn + page_view :=
  if pg_busy st then inr PvSpinner
  else if truthy (JStr (pg_err st)) then inr (PvError (pg_err st))
  else
    let admin := js_eq_str (get_field user "role") "admin" in
    (* [Array.isArray(products) && products.map(...)] *)
    let cards := match pg_list st with JArr ps => sum_map (page_card_of admin) ps | _ => inr [] end in
    match cards with
    | inl e => inl e
    | inr cs =>
        inr (PvPage (if admin then "Manage Products" else "Our Products") admin
                    (if pg_showAdd st then Some (pg_new st) else None) cs
                    (map (fun p => (p, Z.eqb (pg_page st) p)) (page_buttons (pg_total st))))
    end.

(** A click on a card's button; the delete runs once the user confirmed. *)
Definition page_click (a : page_action) (b : browser) (st : page_state) (s : store)
    : browser * page_state * store :=
  match a with
  | PaEdit id => (page_edit (to_js_string id) b, st, s)
  | PaDelete id => let '(st', s') := page_delete (to_js_string id) b st s in (b, st', s')
  end.

End ListPages.

(** * Properties of the list pages *)

Section ListSpec.

(** ** The query string of [pages/ProductList.jsx] *)

Lemma pretty_N_go_no_char (c : Ascii.ascii) (x : N) (s : string) :
  (forall d, pretty_N_char d <> c) -> c ∉ String.list_ascii_of_string s ->
  c ∉ String.list_ascii_of_string (pretty_N_go x s).
Proof.
  intros Hd. revert s. induction (N.lt_wf_0 x) as [x _ IH]; intros s Hs.
  destruct (decide (x = 0)%N) as [->|Hx]; [by rewrite pretty_N_go_0|].
  rewrite pretty_N_go_step by lia. apply IH; [apply N.div_lt; lia|].
  cbn. rewrite elem_of_cons. intros [Hc | Hc]; [exact (Hd _ (eq_sym Hc)) | exact (Hs Hc)].
Qed.

Lemma qred_inject_Z (z : Z) : Qred (inject_Z z) = inject_Z z.
Proof. apply Qred_identity. cbn. apply Z.gcd_1_r. Qed.

(** [String(n)] of an integer is its digits, after a minus sign when
    negative. *)
Lemma int_string_no_char (c : Ascii.ascii) (z : Z) :
  (forall d, pretty_N_char d <> c) -> c <> "-"%char ->
  c ∉ String.list_ascii_of_string (to_js_string (num z)).
Proof.
  intros Hd Hm. cbn [to_js_string num number_to_string]. unfold decimal_string.
  rewrite qred_inject_Z. cbn [inject_Z Qnum Qden Z.eqb Pos.eqb].
  unfold pretty at 1, pretty_Z. destruct z as [|p|p].
  - cbn. rewrite list_elem_of_singleton. intros ->. exact (Hd 0%N eq_refl).
  - cbv [pretty pretty_positive pretty_N]. case_decide; [done|].
    apply pretty_N_go_no_char; [exact Hd | cbn; set_solver].
  - rewrite list_ascii_of_string_app. cbn [String.list_ascii_of_string app].
    rewrite elem_of_cons. intros [Hc | Hc]; [exact (Hm Hc)|]. revert Hc.
    cbv [pretty pretty_positive pretty_N]. case_decide; [done|].
    apply pretty_N_go_no_char; [exact Hd | cbn; set_solver].
Qed.

Lemma amp_not_digit (d : N) : pretty_N_char d <> "&"%char.
Proof. unfold pretty_N_char. by repeat case_match. Qed.

Lemma split_url_api (path q : string) :
  "?"%char ∉ String.list_ascii_of_string path ->
  (split_url ("/api" +:+ path +:+ String "?" q)).2 = q.
Proof.
  intros Hp. unfold split_url. rewrite !list_ascii_of_string_app. simpl.
  rewrite break_at_app by exact Hp. cbn. apply String.string_of_list_ascii_of_string.
Qed.

Lemma get_field_absent (fs : list (string * jsval)) (k : string) :
  k ∉ fs.*1 -> get_field (JObj fs) k = JUndefined.
Proof.
  intros Hk. cbn. destruct (list_find _ fs) as [[i [k' x]]|] eqn:Hf; [|done].
  apply list_find_Some in Hf as (Hi & Heq & _). subst k'. exfalso. apply Hk.
  apply list_elem_of_fmap. exists (k, x). split; [done|]. by eapply list_elem_of_lookup_2.
Qed.

Lemma qs_add_keys (k v : string) (acc : list (string * jsval)) :
  (qs_add k v acc).*1 ⊆ k :: acc.*1.
Proof.
  induction acc as [|[k' x] acc IH]; cbn [qs_add]; [set_solver|].
  destruct (String.eqb k k'); cbn; set_solver.
Qed.

Lemma split_url_products (q : string) : (split_url ("/api" +:+ "/products" +:+ String "?" q)).2 = q.
Proof.
  unfold split_url. rewrite list_ascii_of_string_app. simpl.
  apply String.string_of_list_ascii_of_string.
Qed.

(** The query string of [page_url], written as the [key=value] parts its
    [&]s separate. *)
Lemma page_query (b : browser) (m : method) (d : body) (st : page_state) :
  (split_url (h_url (api_request b m (page_url st) d))).2 =
  ("page" +:+ String "=" (to_js_string (num (pg_page st)))) +:+ String "&" (
  ("limit" +:+ String "=" "12") +:+ String "&" (
  ("search" +:+ String "=" (pg_debounced st)) +:+ String "&" (
  ("category" +:+ String "=" (pg_category st)) +:+ String "&" (
  ("sortBy" +:+ String "=" (pg_sortBy st)) +:+ String "&" (
  "sortOrder" +:+ String "=" (pg_sortOrder st)))))).
Proof. unfold api_request, page_url. cbn [h_url]. exact (split_url_products _). Qed.

Lemma split_chars_part (sep : Ascii.ascii) (a rest : string) :
  sep ∉ String.list_ascii_of_string a ->
  split_chars sep (String.list_ascii_of_string (a +:+ String sep rest)) =
    String.list_ascii_of_string a :: split_chars sep (String.list_ascii_of_string rest).
Proof. intros Ha. rewrite list_ascii_of_string_app. by apply split_chars_app_sep. Qed.

Definition qs_key (part : list Ascii.ascii) : string := qs_decode (break_at "=" part).1.

Lemma qs_key_pair (k v : string) :
  "="%char ∉ String.list_ascii_of_string k ->
  qs_key (String.list_ascii_of_string (k +:+ String "=" v)) = qs_decode (String.list_ascii_of_string k).
Proof.
  intros Hk. unfold qs_key. rewrite list_ascii_of_string_app. cbn [String.list_ascii_of_string].
  by rewrite break_at_app.
Qed.

Lemma fold_qs_part_keys (parts : list (list Ascii.ascii)) (acc : list (string * jsval)) :
  (fold_left qs_part parts acc).*1 ⊆ acc.*1 ++ map qs_key parts.
Proof.
  revert acc. induction parts as [|a parts IH]; intros acc; cbn [fold_left map]; [set_solver|].
  etrans; [apply IH|]. unfold qs_part, qs_key. destruct (break_at "=" a) as [k v]. cbn [fst].
  destruct (String.eqb _ _); [set_solver|]. pose proof (qs_add_keys (qs_decode k)
    (match v with Some v => qs_decode v | None => "" end) acc). set_solver.
Qed.

Lemma app_no_char (c : Ascii.ascii) (a b : string) :
  c ∉ String.list_ascii_of_string a -> c ∉ String.list_ascii_of_string b ->
  c ∉ String.list_ascii_of_string (a +:+ b).
Proof. rewrite list_ascii_of_string_app. set_solver. Qed.

Ltac no_char := repeat first [apply app_no_char | assumption | (cbn; set_solver)].

(** C24: [pages/ProductList.jsx] asks for a sort order the server never
    reads: its query string has [sortBy] and [sortOrder] but no [sort],
    so whatever the select shows, the list comes back newest first (as
    long as the search box and the selects hold no [&]). *)
Theorem page_sort_ignored (b : browser) (st : page_state) (r : route) (req : request) :
  "&"%char ∉ String.list_ascii_of_string (pg_debounced st) ->
  "&"%char ∉ String.list_ascii_of_string (pg_category st) ->
  "&"%char ∉ String.list_ascii_of_string (pg_sortBy st) ->
  "&"%char ∉ String.list_ascii_of_string (pg_sortOrder st) ->
  route_request (api_request b GET (page_url st) NoBody) r = Some req ->
  get_field (req_query req) "sort" = JUndefined /\
  sort_options (get_field (req_query req) "sort") = ("createdAt", (-1)%Z).
Proof.
  intros HS HC HB HO Hr.
  assert (Hq : req_query req = qs_parse (split_url (h_url (api_request b GET (page_url st) NoBody))).2).
  { unfold route_request in Hr. destruct (route_param r); [|by injection Hr as <-].
    destruct (decode_param s); cbn in Hr; by simplify_eq. }
  assert (HN := int_string_no_char "&" (pg_page st) amp_not_digit ltac:(done)).
  enough (Hs : get_field (req_query req) "sort" = JUndefined) by (rewrite Hs; done).
  rewrite Hq, page_query. unfold qs_parse. apply get_field_absent. intros Hin.
  apply fold_qs_part_keys in Hin. revert Hin.
  rewrite !split_chars_part, split_chars_no_sep by no_char. cbn [map app].
  rewrite !qs_key_pair by (cbn; set_solver). cbn. set_solver.
Qed.
(** ** [components/products/ProductList.jsx] *)

Lemma filter_fst_sublist {A B} (p : A * B -> bool) (l : list (A * B)) :
  (List.filter p l).*1 `sublist_of` l.*1.
Proof.
  induction l as [|x l IH]; cbn [List.filter]; [done|].
  destruct (p x); cbn; [by apply sublist_skip | by apply sublist_cons].
Qed.

Lemma query_params_keys (f : filters) :
  (query_params f).*1 `sublist_of`
    ["category"; "minPrice"; "maxPrice"; "minRating"; "search"; "sort"; "page"; "limit"].
Proof.
  unfold query_params. rewrite <-list_fmap_compose. apply (filter_fst_sublist _ (filter_entries f)).
Qed.

Lemma num_truthy_pos (z : Z) : (0 < z)%Z -> truthy (num z) = true.
Proof.
  intros Hz. cbn. destruct (Qeq_bool (inject_Z z) 0) eqn:E; [|done].
  apply Qeq_bool_iff in E. unfold Qeq in E. cbn in E. lia.
Qed.

(** C29: The filters reach the server as they were set: [qs] reads back
    from the [URLSearchParams] string exactly the filters the user
    filled in (the six text filters that are not empty, in the order of
    the state object), then the page and the limit (when positive), each
    as the string [String(value)]; an empty filter is not sent. *)
Theorem component_query_roundtrip (f : filters) :
  (0 < f_page f)%Z -> (0 < f_limit f)%Z ->
  qs_parse (url_search_params (query_params f)) =
    JObj (map (fun kv => (kv.1, JStr kv.2))
              (List.filter (fun kv => negb (String.eqb kv.2 ""))
                 [("category", f_category f); ("minPrice", f_minPrice f);
                  ("maxPrice", f_maxPrice f); ("minRating", f_minRating f);
                  ("search", f_search f); ("sort", f_sort f)] ++
               [("page", to_js_string (num (f_page f))); ("limit", to_js_string (num (f_limit f)))])).
Proof.
  intros Hp Hl. pose proof (query_params_keys f) as Hs. rewrite qs_parse_url_search_params.
  - unfold query_params, filter_entries. cbn [List.filter snd].
    rewrite (num_truthy_pos _ Hp), (num_truthy_pos _ Hl). cbn [truthy].
    destruct (String.eqb (f_category f) ""), (String.eqb (f_minPrice f) ""),
      (String.eqb (f_maxPrice f) ""), (String.eqb (f_minRating f) ""),
      (String.eqb (f_search f) ""), (String.eqb (f_sort f) ""); reflexivity.
  - eapply sublist_NoDup; [|exact Hs]. repeat constructor; set_solver.
  - intros k Hk. apply (elem_of_sublist _ _ _ Hk) in Hs. intros ->. set_solver.
Qed.

Lemma json_norm_obj_keys (fs : list (string * jsval)) :
  exists gs, json_norm (JObj fs) = JObj gs /\ gs.*1 ⊆ fs.*1.
Proof.
  induction fs as [|[k x] fs [gs [Hgs Hsub]]]; [by exists []|]. cbn in Hgs |- *.
  injection Hgs as Hgs. rewrite Hgs.
  destruct (json_norm x); eexists; (split; [reflexivity|]); cbn; set_solver.
Qed.

(** C30: The grid cannot render a product the server sends: the JSON of a
    stored product has [image], not [images], and [product.images[0]]
    reads a property of [undefined]. *)
Theorem cards_throw_on_products (ps : list product) :
  ps <> [] ->
  render_cards (map (fun p => json_norm (product_json p)) ps) =
    inl (type_error "Cannot read properties of undefined (reading '0')").
Proof.
  destruct ps as [|p ps]; [done|]. intros _. cbn [map render_cards].
  destruct (json_norm_obj_keys
    (match product_json p with JObj fs => fs | _ => [] end)) as [gs [Hgs Hsub]].
  change (json_norm (JObj (match product_json p with JObj fs => fs | _ => [] end)))
    with (json_norm (product_json p)) in Hgs.
  unfold card_image. rewrite Hgs, get_field_absent; [done|].
  intros Hin. apply Hsub in Hin. cbn in Hin. set_solver.
Qed.

End ListSpec.

(** * The render of [pages/ProductList.jsx] and its buttons *)

Section PageRenderSpec.
Context `{PasswordHasher} `{QueryEngine} `{Signer}.

Lemma product_json_id (q : product) :
  get_field (json_norm (product_json q)) "_id" = JStr (oid_to_hex (p_id q)).
Proof. by rewrite product_json_norm. Qed.

(** Every card of a rendered list of products is the card of one of
    them: its key is the product's id, and it has the edit and delete
    buttons exactly when the user is an administrator. *)
Lemma page_render_card (user : jsval) (st : page_state) (l : list product) (title : string)
    (adm : bool) (form : option (list (string * string))) (cards : list page_card)
    (buttons : list (Z * bool)) (c : page_card) :
  pg_list st = JArr (map (fun q => json_norm (product_json q)) l) ->
  page_render user st = inr (PvPage title adm form cards buttons) -> c ∈ cards ->
  exists q, q ∈ l /\ pc_key c = JStr (oid_to_hex (p_id q)) /\
            adm = js_eq_str (get_field user "role") "admin" /\
            pc_actions c = if adm then [PaEdit (pc_key c); PaDelete (pc_key c)] else [].
Proof.
  intros Hl Hr Hc. unfold page_render in Hr.
  destruct (pg_busy st); [discriminate|]. destruct (truthy _); [discriminate|].
  rewrite Hl in Hr. destruct (sum_map _ _) as [e|cs] eqn:Hm; [discriminate|].
  injection Hr as _ <- _ <- _.
  destruct (sum_map_elem _ _ _ _ Hm Hc) as (x & (q & -> & Hq)%list_elem_of_fmap & Hx).
  unfold page_card_of in Hx. rewrite product_json_norm in Hx. cbn in Hx. injection Hx as <-.
  exists q. split_and!; [done | reflexivity | reflexivity | reflexivity].
Qed.

Lemma actions_delete_id (adm : bool) (k id : jsval) :
  PaDelete id ∈ (if adm then [PaEdit k; PaDelete k] else []) -> id = k.
Proof. destruct adm; rewrite ?elem_of_cons, ?elem_of_nil; naive_solver. Qed.

Lemma actions_edit_id (adm : bool) (k id : jsval) :
  PaEdit id ∈ (if adm then [PaEdit k; PaDelete k] else []) -> adm = true /\ id = k.
Proof. destruct adm; rewrite ?elem_of_cons, ?elem_of_nil; naive_solver. Qed.

(** [products.filter(p => p._id !== productId)] on products' JSON. *)
Lemma filter_product_ids (l : list product) (o : oid) :
  (forall q, q ∈ l -> oid_valid (p_id q)) -> oid_valid o ->
  List.filter (fun p => negb (js_strict_eq (get_field p "_id") (JStr (oid_to_hex o))))
              (map (fun q => json_norm (product_json q)) l) =
  map (fun q => json_norm (product_json q)) (List.filter (fun q => bool_decide (p_id q <> o)) l).
Proof.
  induction l as [|q l IH]; intros Hv Ho; [done|]. cbn [map List.filter].
  rewrite product_json_id, IH by (done || (intros; apply Hv; by right)). cbn [js_strict_eq].
  case_bool_decide as Hne.
  - rewrite string_eqb_neq; [done|]. intros Heq. apply Hne, oid_hex_inj; [apply Hv; left | done | done].
  - by rewrite Hne, string_eqb_refl.
Qed.

Lemma edit_path_segments (id : string) :
  id_safe id -> path_segments ("/admin/products/" +:+ id +:+ "/edit") = ["admin"; "products"; id; "edit"].
Proof.
  intros Hs. pose proof (id_safe_not id "/" Hs ltac:(vm_compute; set_solver)) as Hsl.
  unfold path_segments, js_split. rewrite !list_ascii_of_string_app.
  cbn [String.list_ascii_of_string app]. cbn [split_chars Ascii.eqb Bool.eqb].
  rewrite (split_chars_app_sep "/" (String.list_ascii_of_string id)) by exact Hsl. cbn. rewrite String.string_of_list_ascii_of_string.
  reflexivity.
Qed.

Lemma js_eq_str_field_truthy (v : jsval) (k s : string) :
  js_eq_str (get_field v k) s = true -> truthy v = true.
Proof. by destruct v. Qed.

(** An administrator who goes to [/admin/products/<id>/edit] gets the
    edit page of [id]. *)
Lemma edit_path_lands (user : jsval) (id : string) :
  id_safe id -> js_eq_str (get_field user "role") "admin" = true ->
  navigate 3 ("/admin/products/" +:+ id +:+ "/edit") user =
    Some ("/admin/products/" +:+ id +:+ "/edit", EditProductPage id).
Proof.
  intros Hid Hadm. cbn [navigate]. unfold app_element.
  rewrite edit_path_segments by done. cbn [seg_is to_lower ascii_to_lower].
  unfold protected_route. by rewrite (js_eq_str_field_truthy user "role" "admin"), Hadm.
Qed.

(** C20: On the product list page, the edit button of any card drawn from
    the products the server sent belongs to an administrator and leads
    to the edit page of that card's product: the router renders
    [EditProduct] with the product's id as its parameter, and neither
    the page's state nor the store changes. *)
Theorem page_card_edit_lands (secret : option string) (user : jsval) (b : browser)
    (st : page_state) (s : store) (l : list product) (title : string) (adm : bool)
    (form : option (list (string * string))) (cards : list page_card) (buttons : list (Z * bool))
    (c : page_card) (id : jsval) :
  pg_list st = JArr (map (fun q => json_norm (product_json q)) l) ->
  page_render user st = inr (PvPage title adm form cards buttons) ->
  c ∈ cards -> PaEdit id ∈ pc_actions c ->
  exists q, q ∈ l /\ id = JStr (oid_to_hex (p_id q)) /\
    let '(b', st', s') := page_click secret (PaEdit id) b st s in
    st' = st /\ s' = s /\
    b_location b' = "/admin/products/" +:+ oid_to_hex (p_id q) +:+ "/edit" /\
    navigate 3 (b_location b') user = Some (b_location b', EditProductPage (oid_to_hex (p_id q))).
Proof.
  intros Hl Hr Hc Ha.
  destruct (page_render_card user st l title adm form cards buttons c Hl Hr Hc)
    as (q & Hq & Hk & Hadm & Hact).
  rewrite Hact in Ha. apply actions_edit_id in Ha as [-> ->]. rewrite Hk.
  exists q. split_and!; [done | done |]. cbn [page_click page_edit go_to b_location to_js_string].
  split_and!; [done | done | done |]. apply edit_path_lands; [apply oid_hex_safe | done].
Qed.

(** ** Server-side steps of an administrator's requests *)

Lemma api_auth_header (b : browser) (tok : string) (q bv id : jsval) :
  b_token b = Some tok -> tok <> "" ->
  req_header (mk_req (api_headers b) q bv id None) "Authorization" = JStr ("Bearer " +:+ tok).
Proof. intros Hb Ht. unfold api_headers. rewrite Hb, truthy_str by done. reflexivity. Qed.

Lemma admin_only_run (k : string) (u : user) (t : Z) (tok : string) (h : handler)
    (req : request) (s : store) :
  oid_valid (u_id u) -> clock_ok t -> jwt_sign (u_id u) (Some k) t = inr tok ->
  req_header req "Authorization" = JStr ("Bearer " +:+ tok) ->
  (seconds (st_clock s) < seconds t + one_day_s)%Z ->
  st_up s = true -> st_users s !! u_id u = Some u -> u_role u = RoleAdmin ->
  run (admin_only (Some k) h req) s = run (h (with_user req u)) s.
Proof.
  intros Hv Hc Hs Hh Ht Hup Hu Hr. unfold admin_only, with_mw, protect.
  rewrite run_bind, (auth_run_accepts k u t tok) by done. cbn [run].
  rewrite run_bind. cbn [authorize req_user with_user]. rewrite Hr, bool_decide_true by set_solver.
  reflexivity.
Qed.

(** An administrator's [api.delete(`/products/${id}`)] of a stored
    product: [200] with an empty [data], and the product is gone. *)
Lemma admin_delete_fetch (k : string) (u : user) (t : Z) (tok : string) (b : browser)
    (o : oid) (p : product) (s : store) :
  oid_valid o -> st_products s !! o = Some p -> st_up s = true ->
  st_users s !! u_id u = Some u -> u_role u = RoleAdmin -> oid_valid (u_id u) -> clock_ok t ->
  jwt_sign (u_id u) (Some k) t = inr tok -> (seconds (st_clock s) < seconds t + one_day_s)%Z ->
  b_token b = Some tok ->
  fetch (Some k) (api_request b DELETE ("/products/" +:+ oid_to_hex o) NoBody) s =
    (AxOk (res_body (ok_json 200 [("data", JObj [])])),
     mk_store (st_users s) (delete o (st_products s)) (st_next s) (st_clock s) (st_up s)).
Proof.
  intros Hv Hp Hup Hu Hrole Huv Hc Hs Ht Hb.
  unfold fetch, api_request.
  rewrite (serve_product_id _ _ DELETE _ NoBody (RDelete (oid_to_hex o))) by
    (apply oid_hex_safe || done || reflexivity).
  cbn [route_handler].
  rewrite (admin_only_run k u t tok) by
    (done || (apply api_auth_header; [done | by eapply jwt_sign_not_empty])).
  by rewrite (delete_product_found o p).
Qed.

(** C19: On the product list page, the delete button of any card drawn
    from stored products, clicked by a signed-in administrator, deletes
    that card's product from the store and drops exactly the cards of
    that product from the list; the browser and the rest of the page's
    state are unchanged. *)
Theorem page_card_delete (k : string) (u : user) (t : Z) (tok : string) (user : jsval)
    (b : browser) (st : page_state) (s : store) (l : list product) (title : string) (adm : bool)
    (form : option (list (string * string))) (cards : list page_card) (buttons : list (Z * bool))
    (c : page_card) (id : jsval) :
  st_up s = true -> st_users s !! u_id u = Some u -> u_role u = RoleAdmin -> oid_valid (u_id u) ->
  clock_ok t -> jwt_sign (u_id u) (Some k) t = inr tok ->
  (seconds (st_clock s) < seconds t + one_day_s)%Z -> b_token b = Some tok ->
  (forall q, q ∈ l -> st_products s !! p_id q = Some q /\ oid_valid (p_id q)) ->
  pg_list st = JArr (map (fun q => json_norm (product_json q)) l) ->
  page_render user st = inr (PvPage title adm form cards buttons) ->
  c ∈ cards -> PaDelete id ∈ pc_actions c ->
  exists q, q ∈ l /\ pc_key c = JStr (oid_to_hex (p_id q)) /\
    page_click (Some k) (PaDelete id) b st s =
      (b, page_with st (JArr (map (fun q' => json_norm (product_json q'))
                                  (List.filter (fun q' => bool_decide (p_id q' <> p_id q)) l)))
                    (pg_busy st) (pg_err st) (pg_total st),
       mk_store (st_users s) (delete (p_id q) (st_products s)) (st_next s) (st_clock s) (st_up s)).
Proof.
  intros Hup Hu Hrole Huv Hc Hs Ht Hb Hstored Hl Hr Hcard Ha.
  destruct (page_render_card user st l title adm form cards buttons c Hl Hr Hcard)
    as (q & Hq & Hk & _ & Hact).
  rewrite Hact in Ha. apply actions_delete_id in Ha as ->. rewrite Hk.
  destruct (Hstored q Hq) as [Hp Hv].
  exists q. split_and!; [done | done |]. unfold page_click, page_delete. cbn [to_js_string].
  rewrite (admin_delete_fetch k u t tok b (p_id q) q s) by done. lazy beta iota zeta.
  destruct (ok_json_data (JObj [])) as [-> _]; [by eexists|]. cbn [truthy].
  rewrite Hl, filter_product_ids; [reflexivity | | done]. intros q' Hq'. apply Hstored, Hq'.
Qed.

End PageRenderSpec.
