(* ===== verification/AdminPages.v ===== *)
(** * AdminPages: the administrator's pages of the client.

    - [pages/EditProduct.jsx]: loads one product into a form after a role
      check ([edit_mount], [edit_fetch]), edits its fields
      ([edit_change]) and sends the whole object back with [PUT]
      ([edit_submit]); the render is the spinner, the error screen or
      the form ([edit_render]), and [Cancel] goes back
      ([edit_cancel]).
    - [pages/AdminDashboard.jsx]: the product table fetched on mount and
      refetched after a delete ([dash_mount], [dash_fetch],
      [dash_delete]), the add form's toggle and the [onSuccess] it hands
      to [ProductForm] ([dash_toggle], [dash_form_success]), and the
      render with its rows ([dash_render], [dash_row_of]) and buttons
      ([dash_click]).  Its [ProductForm] import names a module that is
      not in the tree.
    - [components/admin/ProductManagement.jsx]: a table with a sort
      select whose value goes to the server as [sort] ([pm_fetch],
      [pm_set_sort]), inline editing ([pm_edit], [pm_change],
      [pm_update], [pm_cancel]), delete ([pm_delete]) and the render,
      where the card being edited is a form ([pm_render], [pm_card_of],
      [pm_click]).  No file imports it, and
      it imports [api] as a default export [api.js] does not have; it is
      modelled as calling the [api] instance its code names.

    Every handler maps the browser, the page's React state and the
    store to their next values through [Client.fetch]; a request's JSON
    body is what [JSON.stringify] keeps of the object ([json_body]).

    The theorems: a failed update on the edit page throws the form away
    for a bare error screen, and the form's own error banner is never
    drawn ([edit_failure_hides_form]); an administrator who opens the edit page of a stored
    product and saves it unchanged gets the product's JSON, an answer
    [200], a store equal to the one before and the way back to
    [/admin/products] ([edit_roundtrip]; every field the update casts
    agrees with the stored product, [cast_update_agrees]);
    [ProductManagement]'s fetch ends loading with the store unchanged,
    and either keeps its list under an error or shows the [data] of the
    list route's answer to a request whose [sort] is its own sort key
    ([pm_sort_respected]); the dashboard's delete, composed with the
    server, removes exactly the product named from a reachable store and
    the table it refetches holds only other stored products
    ([dash_delete_removes]); opening the dashboard shows a row per
    stored product of the list's first page, whose [Edit] leads to its
    edit page ([dash_mount_rows]); [ProductManagement]'s edit icon opens
    the prefilled form on exactly that product's card
    ([pm_edit_opens_form]). *)

From S2P Require Import Prelude JsRuntime Url ObjectId ProductModel UserModel.
From S2P Require Import Query Program Store Jwt Http AuthRoutes ProductRoutes Server Invariant.
From S2P Require Import Client Catalog ListPages.

Open Scope shop_scope.
Local Set Warnings "-register-all -clear-no-such-hyp".

(** [axios] sends [JSON.stringify(data)]; the server parses it back. *)
Definition json_body (v : jsval) : body := JsonBody (json_norm v).

(** [role !== 'admin'] on a user object. *)
Definition not_admin (user : jsval) : bool :=
  negb (truthy user) || negb (js_eq_str (get_field user "role") "admin").

Section AdminPages.
Context `{PasswordHasher} `{QueryEngine} `{Signer}.
Variable secret : option string.

(** ** [pages/EditProduct.jsx] *)

Record edit_page := mk_edit_page { ed_loading : bool; ed_error : string; ed_product : jsval }.

(** The initial state (lines 10-19): the form's six empty fields. *)
Definition edit_init : edit_page := mk_edit_page true "" (form_body new_product_init).

(** [fetchProduct] (lines 29-44). *)
Definition edit_fetch (id : string) (b : browser) (st : edit_page) (s : store)
    : edit_page * store :=
  let '(r, s1) := fetch secret (api_request b GET ("/products/" +:+ id) NoBody) s in
  match r with
  | AxOk data =>
      if truthy (get_field data "success")
      then (mk_edit_page false (ed_error st) (get_field data "data"), s1)
      else (mk_edit_page false "Failed to fetch product" (ed_product st), s1)
  | _ => (mk_edit_page false "Failed to fetch product" (ed_product st), s1)
  end.

(** The mount effect (lines 21-27): anyone but an admin is sent to
    [/login] before any request. *)
Definition edit_mount (user : jsval) (id : string) (b : browser) (st : edit_page) (s : store)
    : browser * edit_page * store :=
  if not_admin user then (go_to "/login" b, st, s)
  else let '(st1, s1) := edit_fetch id b st s in (b, st1, s1).

(** [handleChange] (lines 46-52). *)
Definition edit_change (name value : string) (st : edit_page) : edit_page :=
  mk_edit_page (ed_loading st) (ed_error st) (obj_with (ed_product st) name (JStr value)).

(** [handleSubmit] (lines 54-70): the whole product object is sent. *)
Definition edit_submit (id : string) (b : browser) (st : edit_page) (s : store)
    : browser * edit_page * store :=
  let '(r, s1) := fetch secret (api_request b PUT ("/products/" +:+ id)
                                  (json_body (ed_product st))) s in
  match r with
  | AxOk data =>
      if truthy (get_field data "success")
      then (go_to "/admin/products" b, mk_edit_page false (ed_error st) (ed_product st), s1)
      else (b, mk_edit_page false "Failed to update product" (ed_product st), s1)
  | _ => (b, mk_edit_page false "Failed to update product" (ed_product st), s1)
  end.

(** The render (lines 72-205): the spinner (72-78), the error screen
    (80-89), or the form: the banner of lines 98-102, the six fields
    read from [product] (a [null] product throws at the first), and the
    submit button's label and [disabled] (194-197). *)
Inductive edit_view :=
| EvSpinner
| EvError (msg : string)
| EvForm (banner : option string) (fields : list (string * jsval)) (submit_label : string)
         (submit_disabled : bool).

Definition edit_field (product : jsval) (k : string) : exn + (string * jsval) :=
  match read_prop product k with inl e => inl e | inr v => inr (k, v) end.

Definition edit_render (st : edit_page) : exn + edit_view :=
  if ed_loading st then inr EvSpinner
  else if truthy (JStr (ed_error st)) then inr (EvError (ed_error st))
  else
    match sum_map (edit_field (ed_product st))
                  ["name"; "description"; "price"; "stock"; "category"; "image"] with
    | inl e => inl e
    | inr fs =>
        inr (EvForm (if truthy (JStr (ed_error st)) then Some (ed_error st) else None) fs
                    (if ed_loading st then "Updating..." else "Update Product") (ed_loading st))
    end.

(** The form's [Cancel] (line 187). *)
Definition edit_cancel (b : browser) : browser := go_to "/admin/products" b.

(** ** [pages/AdminDashboard.jsx] *)

Record dashboard := mk_dashboard {
  db_products : jsval; db_loading : bool; db_error : jsval; db_showAdd : bool
}.

Definition dashboard_init : dashboard := mk_dashboard (JArr []) true JNull true.

(** [fetchProducts] (lines 17-32). *)
Definition dash_fetch (b : browser) (st : dashboard) (s : store) : dashboard * store :=
  let '(r, s1) := fetch secret (api_request b GET "/products" NoBody) s in
  match r with
  | AxOk data =>
      if truthy (get_field data "success")
      then (mk_dashboard (let d := get_field data "data" in if truthy d then d else JArr [])
                         false (db_error st) (db_showAdd st), s1)
      else (mk_dashboard (db_products st) false
              (or_else (get_field data "message") "Failed to fetch products") (db_showAdd st), s1)
  | _ => (mk_dashboard (db_products st) false (JStr "Failed to fetch products") (db_showAdd st), s1)
  end.

(** [handleDelete] (lines 34-48), after the user confirmed. *)
Definition dash_delete (id : string) (b : browser) (st : dashboard) (s : store)
    : dashboard * store :=
  let '(r, s1) := fetch secret (api_request b DELETE ("/products/" +:+ id) NoBody) s in
  match r with
  | AxOk data =>
      if truthy (get_field data "success") then dash_fetch b st s1
      else (mk_dashboard (db_products st) (db_loading st)
              (or_else (get_field data "message") "Failed to delete product") (db_showAdd st), s1)
  | _ => (mk_dashboard (db_products st) (db_loading st) (JStr "Failed to delete product")
                       (db_showAdd st), s1)
  end.

(** The add form's toggle (line 71). *)
Definition dash_toggle (st : dashboard) : dashboard :=
  mk_dashboard (db_products st) (db_loading st) (db_error st) (negb (db_showAdd st)).

(** The mount effect (lines 13-15). *)
Definition dash_mount (b : browser) (s : store) : dashboard * store := dash_fetch b dashboard_init s.

(** [products.map] on a value that is not an array: [undefined] and
    [null] have no properties, other values have no [map] method. *)
Definition map_not_array (v : jsval) : exn :=
  match v with
  | JUndefined => type_error "Cannot read properties of undefined (reading 'map')"
  | JNull => type_error "Cannot read properties of null (reading 'map')"
  | _ => type_error "products.map is not a function"
  end.

(** The buttons of the dashboard: [View Products] (line 65), the form's
    toggle (line 71) and close button (line 90), and each row's [Edit]
    and [Delete] (lines 123 and 129). *)
Inductive dash_action :=
| DaViewProducts
| DaToggleForm
| DaCloseForm
| DaEdit (id : jsval)
| DaDelete (id : jsval).

(** A row of the table (lines 116-135). *)
Record dash_row := mk_dash_row {
  dr_key : jsval; dr_name : jsval; dr_category : jsval; dr_price : jsval; dr_stock : jsval;
  dr_actions : list dash_action
}.

Definition dash_row_of (product : jsval) : exn + dash_row :=
  match read_prop product "_id" with
  | inl e => inl e
  | inr id =>
      inr (mk_dash_row id (get_field product "name") (get_field product "category")
                       (get_field product "price") (get_field product "stock")
                       [DaEdit id; DaDelete id])
  end.

(** The spinner (lines 50-56) or the page (58-142): the toggle's label,
    the error banner when [error] is truthy, whether the add form is
    open, and the rows. *)
Inductive dash_view :=
| DvSpinner
| DvPage (toggle_label : string) (banner : option jsval) (form_open : bool) (rows : list dash_row).

Definition dash_render (st : dashboard) : exn + dash_view :=
  if db_loading st then inr DvSpinner
  else
    let rows := match db_products st with
                | JArr ps => sum_map dash_row_of ps
                | v => inl (map_not_array v)
                end in
    match rows with
    | inl e => inl e
    | inr rs =>
        inr (DvPage (if db_showAdd st then "Hide Form" else "Add New Product")
                    (if truthy (db_error st) then Some (db_error st) else None)
                    (db_showAdd st) rs)
    end.

(** The [onSuccess] the page passes to [ProductForm] (lines 96-99): the
    form closes and the list is fetched again. *)
Definition dash_form_success (b : browser) (st : dashboard) (s : store) : dashboard * store :=
  dash_fetch b (mk_dashboard (db_products st) (db_loading st) (db_error st) false) s.

(** A click on one of the dashboard's buttons; a delete runs once the
    user confirmed. *)
Definition dash_click (a : dash_action) (b : browser) (st : dashboard) (s : store)
    : browser * dashboard * store :=
  match a with
  | DaViewProducts => (go_to "/products" b, st, s)
  | DaToggleForm => (b, dash_toggle st, s)
  | DaCloseForm => (b, mk_dashboard (db_products st) (db_loading st) (db_error st) false, s)
  | DaEdit id => (go_to ("/admin/products/" +:+ to_js_string id +:+ "/edit") b, st, s)
  | DaDelete id => let '(st', s') := dash_delete (to_js_string id) b st s in (b, st', s')
  end.

(** ** [components/admin/ProductManagement.jsx] *)

Record management := mk_management {
  pm_products : jsval; pm_loading : bool; pm_error : jsval; pm_sortBy : string;
  pm_editing : jsval; pm_form : jsval
}.

Definition management_init : management :=
  mk_management (JArr []) true JNull "newest" JNull
    (JObj [("name", JStr ""); ("description", JStr ""); ("price", JStr "");
           ("category", JStr ""); ("image", JStr ""); ("stock", JStr ""); ("rating", JStr "")]).

Definition pm_with_error (st : management) (e : jsval) : management :=
  mk_management (pm_products st) (pm_loading st) e (pm_sortBy st) (pm_editing st) (pm_form st).

(** [fetchProducts] (lines 25-35): no test of [success]. *)
Definition pm_fetch (b : browser) (st : management) (s : store) : management * store :=
  let '(r, s1) := fetch secret (api_request b GET ("/products?sort=" +:+ pm_sortBy st) NoBody) s in
  match r with
  | AxOk data =>
      (mk_management (get_field data "data") false (pm_error st) (pm_sortBy st)
                     (pm_editing st) (pm_form st), s1)
  | r => (mk_management (pm_products st) false (or_else (err_message r) "Failed to fetch products")
                       (pm_sortBy st) (pm_editing st) (pm_form st), s1)
  end.

(** [handleSortChange] (lines 37-39), and the effect on [[sortBy]]
    (lines 21-23), which React runs again only when the value changed. *)
Definition pm_set_sort (v : string) (b : browser) (st : management) (s : store)
    : management * store :=
  if String.eqb v (pm_sortBy st) then (st, s)
  else pm_fetch b (mk_management (pm_products st) (pm_loading st) (pm_error st) v
                                 (pm_editing st) (pm_form st)) s.

(** [handleEdit] (lines 41-52). *)
Definition pm_edit (product : jsval) (st : management) : management :=
  mk_management (pm_products st) (pm_loading st) (pm_error st) (pm_sortBy st)
    (get_field product "_id")
    (JObj (map (fun k => (k, get_field product k))
               ["name"; "description"; "price"; "category"; "image"; "stock"; "rating"])).

(** [handleChange] (lines 78-84). *)
Definition pm_change (name value : string) (st : management) : management :=
  mk_management (pm_products st) (pm_loading st) (pm_error st) (pm_sortBy st)
                (pm_editing st) (obj_with (pm_form st) name (JStr value)).

(** [handleUpdate] (lines 54-65): a truthy [response.data] closes the
    form and refetches. *)
Definition pm_update (b : browser) (st : management) (s : store) : management * store :=
  let '(r, s1) := fetch secret (api_request b PUT ("/products/" +:+ to_js_string (pm_editing st))
                                  (json_body (pm_form st))) s in
  match r with
  | AxOk data =>
      if truthy data
      then pm_fetch b (mk_management (pm_products st) (pm_loading st) (pm_error st)
                                     (pm_sortBy st) JNull (pm_form st)) s1
      else (st, s1)
  | r => (pm_with_error st (or_else (err_message r) "Failed to update product"), s1)
  end.

(** [handleDelete] (lines 67-76), after the user confirmed. *)
Definition pm_delete (id : string) (b : browser) (st : management) (s : store)
    : management * store :=
  let '(r, s1) := fetch secret (api_request b DELETE ("/products/" +:+ id) NoBody) s in
  match r with
  | AxOk _ => pm_fetch b st s1
  | r => (pm_with_error st (or_else (err_message r) "Failed to delete product"), s1)
  end.

(** The mount effect (lines 21-23). *)
Definition pm_mount (b : browser) (s : store) : management * store := pm_fetch b management_init s.

(** The buttons of a card: the edit and delete icons (lines 185-196). *)
Inductive pm_action :=
| PmEdit (product : jsval)
| PmDelete (id : jsval).

(** A card (lines 109-200): the edit form for the product being edited,
    its fields from [formData], or the product with its two buttons. *)
Inductive pm_card :=
| PmForm (key : jsval) (form : jsval)
| PmShow (key : jsval) (image name description price stock rating : jsval) (actions : list pm_action).

Definition pm_card_of (editing form : jsval) (product : jsval) : exn + pm_card :=
  match read_prop product "_id" with
  | inl e => inl e
  | inr id =>
      if js_strict_eq editing id then inr (PmForm id form)
      else inr (PmShow id (get_field product "image") (get_field product "name")
                       (get_field product "description") (get_field product "price")
                       (get_field product "stock") (get_field product "rating")
                       [PmEdit product; PmDelete id])
  end.

(** [Loading...] (line 86), the error (line 87) or the page (89-204):
    the sort select's value and the cards. *)
Inductive pm_view :=
| PmLoading
| PmFailed (e : jsval)
| PmPage (sortBy : string) (cards : list pm_card).

Definition pm_render (st : management) : exn + pm_view :=
  if pm_loading st then inr PmLoading
  else if truthy (pm_error st) then inr (PmFailed (pm_error st))
  else
    match pm_products st with
    | JArr ps =>
        match sum_map (pm_card_of (pm_editing st) (pm_form st)) ps with
        | inl e => inl e
        | inr cs => inr (PmPage (pm_sortBy st) cs)
        end
    | v => inl (map_not_array v)
    end.

(** The form's [Cancel] (line 159). *)
Definition pm_cancel (st : management) : management :=
  mk_management (pm_products st) (pm_loading st) (pm_error st) (pm_sortBy st) JNull (pm_form st).

Definition pm_click (a : pm_action) (b : browser) (st : management) (s : store)
    : management * store :=
  match a with
  | PmEdit product => (pm_edit product st, s)
  | PmDelete id => pm_delete (to_js_string id) b st s
  end.

End AdminPages.

(** [qs] reads back a single [key=value] pair that needs no decoding. *)
Lemma qs_decode_plain (l : list Ascii.ascii) :
  "%"%char ∉ l -> "+"%char ∉ l -> qs_decode l = String.string_of_list_ascii l.
Proof.
  intros Hp Hs. unfold qs_decode.
  assert (Hm : map plus_to_space l = l).
  { induction l as [|c l IH]; [done|]. cbn. rewrite IH by set_solver. unfold plus_to_space.
    destruct (Ascii.eqb_spec c "+"); [set_solver | done]. }
  rewrite Hm, pct_decode_plain by done. reflexivity.
Qed.

Lemma qs_parse_single (k v : string) :
  "&"%char ∉ String.list_ascii_of_string (k +:+ String "=" v) ->
  "="%char ∉ String.list_ascii_of_string k -> k <> "" ->
  qs_decode (String.list_ascii_of_string k) = k ->
  "%"%char ∉ String.list_ascii_of_string v -> "+"%char ∉ String.list_ascii_of_string v ->
  qs_parse (k +:+ String "=" v) = JObj [(k, JStr v)].
Proof.
  intros Ha He Hk Hdk Hp Hs. unfold qs_parse. rewrite split_chars_no_sep by done.
  cbn [fold_left]. unfold qs_part. rewrite list_ascii_of_string_app. cbn [String.list_ascii_of_string].
  rewrite break_at_app by done. rewrite Hdk, qs_decode_plain, String.string_of_list_ascii_of_string
    by done.
  rewrite string_eqb_neq by done. reflexivity.
Qed.

(** * What the administrator's pages do *)

Section AdminSpec.
Context `{PasswordHasher} `{QueryEngine} `{Signer}.

(** ** Server-side steps the pages rely on *)

Lemma categories_lower (c : string) : c ∈ categories -> to_lower c = c.
Proof.
  intros Hc. repeat (apply elem_of_cons in Hc as [->|Hc]; [reflexivity|]).
  by apply not_elem_of_nil in Hc.
Qed.

Definition casts_agreeing (p : product) (f : string * jsval) : Prop :=
  exists us, cast_update_field f = inr us /\ Forall (update_agrees p) us.

Lemma spread_if_forall (P : string * jsval -> Prop) (v : jsval) (l : list (string * jsval)) :
  Forall P l -> Forall P (spread_if v l).
Proof. intros Hl. unfold spread_if. by destruct (truthy v). Qed.

(** The price or the stock of the JSON of a product, sent back: absent
    when falsy ([0], or [null] for a non-finite number), else the same
    number. *)
Lemma number_field_agrees (p : product) (path : string) (n : number) (c : number -> field_update) :
  (forall q, cast_update_field (path, JNum (Fin q)) = inr [c (Fin q)]) ->
  update_agrees p (c n) ->
  Forall (casts_agreeing p)
    (spread_if (json_norm (JNum n)) [(path, JNum (to_number (json_norm (JNum n))))]).
Proof.
  intros Hc Ha. destruct n as [| | |q]; try constructor.
  apply spread_if_forall. constructor; [|constructor].
  exists [c (Fin q)]. split; [apply Hc | by constructor].
Qed.

Lemma number_guard_false (n : number) :
  num_le (Fin 0) n = true ->
  truthy (json_norm (JNum n)) && (js_isNaN (json_norm (JNum n)) || negative (json_norm (JNum n)))
    = false.
Proof.
  destruct n as [| | |q]; cbn; try done. intros Hq. unfold negative, js_lt. cbn.
  change (inject_Z 0) with 0%Q. rewrite Hq. by destruct (negb (Qeq_bool q 0)).
Qed.

Lemma update_fields_agree (p : product) :
  product_wf p ->
  Forall (casts_agreeing p)
    (update_data (JStr (p_name p)) (JStr (p_description p)) (json_norm (JNum (p_price p)))
                 (json_norm (JNum (p_stock p))) (JStr (p_image p)) (Some (p_category p))).
Proof.
  intros Hwf. destruct Hwf as (Hn & _ & Hd & _ & Hc & _ & _ & _ & Hi & _ & _ & Ht).
  unfold update_data. repeat apply Forall_app_2.
  - apply spread_if_forall. constructor; [|constructor].
    eexists. split; [reflexivity|]. constructor; [exact Ht | constructor].
  - apply spread_if_forall. repeat constructor. eexists. split; [reflexivity|]. by repeat constructor.
  - repeat constructor. eexists. split; [reflexivity|]. by repeat constructor.
  - by apply (number_field_agrees p "price" _ SetPrice).
  - by apply (number_field_agrees p "stock" _ SetStock).
  - apply spread_if_forall. repeat constructor. eexists. split; [reflexivity|]. by repeat constructor.
Qed.

Lemma run_op_product_update (s : store) (id : jsval) (upd : list (string * jsval)) :
  st_up s = true ->
  run_op (OpProductUpdate id upd) s =
    match cast_oid id with
    | IdCastError e => (inl e, s)
    | c =>
        match cast_update upd with
        | inl e => (inl e, s)
        | inr us =>
            match concat (map update_validators us) with
            | _ :: _ as errs => (inl (validation_error "Validation failed: " errs), s)
            | [] =>
                match c with
                | IdSome o =>
                    match st_products s !! o with
                    | Some p =>
                        (inr (Some (apply_update p us)),
                         mk_store (st_users s) (<[o := apply_update p us]> (st_products s))
                                  (st_next s) (st_clock s) (st_up s))
                    | None => (inr None, s)
                    end
                | _ => (inr None, s)
                end
            end
        end
    end.
Proof. intros Hup. unfold run_op. by rewrite Hup. Qed.

Lemma update_product_same (o : oid) (p : product) (req : request) (s : store) :
  oid_valid o -> product_wf p -> req_params_id req = JStr (oid_to_hex o) ->
  req_body req = json_norm (product_json p) -> st_up s = true -> st_products s !! o = Some p ->
  run (update_product req) s =
    (inr (ok_json 200 [("data", product_json p)]),
     mk_store (st_users s) (<[o := p]> (st_products s)) (st_next s) (st_clock s) (st_up s)).
Proof.
  intros Hv Hwf Hid Hb Hup Hp. pose proof Hwf as (Hn & _ & Hd & _ & Hc & Hpr & _ & _ & Hi & Hst & _).
  destruct (product_json_get p) as (En & Ed & Ec & Ep & Es & Ei).
  unfold update_product. cbv zeta. rewrite run_try_catch, Hb, En, Ed, Ec, Ep, Es, Ei.
  rewrite (truthy_str (p_category p)) by (by apply category_not_empty).
  rewrite run_bind. cbn [js_toLowerCase lift run bind]. rewrite categories_lower by done.
  rewrite bool_decide_true by done. cbn [negb]. rewrite !number_guard_false by done.
  destruct (cast_update_agrees p _ (update_fields_agree p Hwf)) as (us & Hcu & Hag).
  rewrite run_bind, run_call, Hid, run_op_product_update by done.
  unfold cast_oid. rewrite oid_hex_roundtrip, Hcu, (update_agrees_validators p us Hwf Hag), Hp
    by done.
  by rewrite apply_update_agrees.
Qed.

Lemma store_insert_same (s : store) (o : oid) (p : product) :
  st_products s !! o = Some p ->
  mk_store (st_users s) (<[o := p]> (st_products s)) (st_next s) (st_clock s) (st_up s) = s.
Proof. intros Hp. destruct s. cbn in *. by rewrite insert_id. Qed.

(** C12: EditProduct's round trip: an administrator who opens the edit page
    of a stored product and saves the form unchanged loads the product's
    JSON, is sent back to [/admin/products], and leaves the store exactly
    as it was: the update handler writes back each field as it is, the
    name already trimmed, the category already lower-case, a zero or
    non-finite price or stock omitted. *)
Theorem edit_roundtrip (k : string) (u : user) (t : Z) (tok : string) (b : browser)
    (st : edit_page) (o : oid) (p : product) (s : store) :
  reachable (Some k) s -> oid_valid o -> st_products s !! o = Some p -> st_up s = true ->
  st_users s !! u_id u = Some u -> u_role u = RoleAdmin -> oid_valid (u_id u) -> clock_ok t ->
  jwt_sign (u_id u) (Some k) t = inr tok -> (seconds (st_clock s) < seconds t + one_day_s)%Z ->
  b_token b = Some tok ->
  let st1 := mk_edit_page false (ed_error st) (json_norm (product_json p)) in
  edit_fetch (Some k) (oid_to_hex o) b st s = (st1, s) /\
  edit_submit (Some k) (oid_to_hex o) b st1 s = (go_to "/admin/products" b, st1, s).
Proof.
  intros Hr Hv Hp Hup Hu Hrole Huv Hc Hs Ht Hb st1.
  destruct (inv_products s (reachable_store_inv _ s Hr) o p Hp) as (_ & Hwf & _).
  split.
  - unfold edit_fetch, fetch, api_request.
    rewrite (serve_product_id _ _ GET _ NoBody (RGet (oid_to_hex o))) by
      (apply oid_hex_safe || done || reflexivity).
    cbn [route_handler]. rewrite (get_product_found o p) by done.
    lazy beta iota zeta. rewrite axios_ok_json.
    destruct (ok_json_data (product_json p)) as [-> ->]; [by rewrite product_json_norm; eexists|].
    reflexivity.
  - unfold edit_submit, fetch, api_request, json_body. cbn [ed_product st1].
    rewrite json_norm_product_idem.
    rewrite (serve_product_id _ _ PUT _ _ (RUpdate (oid_to_hex o))) by
      (apply oid_hex_safe || done || reflexivity).
    cbn [route_handler].
    rewrite (admin_only_run k u t tok) by
      (done || (apply api_auth_header; [done | by eapply jwt_sign_not_empty])).
    rewrite (update_product_same o p) by done. rewrite store_insert_same by done.
    lazy beta iota zeta. rewrite axios_ok_json.
    destruct (ok_json_data (product_json p)) as [-> _]; [by rewrite product_json_norm; eexists|].
    reflexivity.
Qed.

(** ** EditProduct.jsx *)

Lemma edit_form_no_banner (st : edit_page) (banner : option string) (fs : list (string * jsval))
    (label : string) (dis : bool) :
  edit_render st = inr (EvForm banner fs label dis) ->
  banner = None /\ label = "Update Product" /\ dis = false.
Proof.
  unfold edit_render. destruct (ed_loading st); [discriminate|].
  destruct (truthy (JStr (ed_error st))) eqn:He; [discriminate|].
  destruct (sum_map _ _); [discriminate|]. by intros [= <- _ <- <-].
Qed.

(** C23: On the edit page an update that fails, refused by the server or
    never answered, replaces the whole form by the bare error screen
    [Failed to update product], which has no button; a successful one
    goes back to [/admin/products].  The banner of line 98, meant to show
    an error above the form, and the [Updating...] label are never
    drawn: the page returns early while loading and on any error. *)
Theorem edit_failure_hides_form (secret : option string) (id : string) (b : browser)
    (st : edit_page) (s : store) :
  (forall st0 banner fs label dis, edit_render st0 = inr (EvForm banner fs label dis) ->
     banner = None /\ label = "Update Product" /\ dis = false) /\
  let '(b', st', s') := edit_submit secret id b st s in
  (b' = go_to "/admin/products" b /\ st' = mk_edit_page false (ed_error st) (ed_product st)) \/
  (b' = b /\ edit_render st' = inr (EvError "Failed to update product")).
Proof.
  split; [exact edit_form_no_banner|]. unfold edit_submit.
  destruct (fetch _ _ _) as [[data| |] s1]; [destruct (truthy (get_field data "success"))|..];
    [by left | by right..].
Qed.

(** ** The dashboard's table *)

(** The row of a stored product. *)
Definition product_row (q : product) : dash_row :=
  mk_dash_row (JStr (oid_to_hex (p_id q))) (JStr (p_name q)) (JStr (p_category q))
              (json_norm (JNum (p_price q))) (json_norm (JNum (p_stock q)))
              [DaEdit (JStr (oid_to_hex (p_id q))); DaDelete (JStr (oid_to_hex (p_id q)))].

Lemma dash_render_products (st : dashboard) (l : list product) :
  db_loading st = false -> db_products st = JArr (map (fun q => json_norm (product_json q)) l) ->
  dash_render st = inr (DvPage (if db_showAdd st then "Hide Form" else "Add New Product")
                               (if truthy (db_error st) then Some (db_error st) else None)
                               (db_showAdd st) (map product_row l)).
Proof.
  intros Hload Hl. unfold dash_render. rewrite Hload, Hl, sum_map_fmap, (sum_map_inr _ product_row); [done|].
  intros q _. unfold dash_row_of. rewrite product_json_norm. reflexivity.
Qed.

(** C21: When an administrator opens the dashboard, the store is left
    as it was and the page shows, with its add form open, either the
    banner [Failed to fetch products] over an empty table, or one row
    per product of the list route's first page, each a stored product,
    whose [Edit] button leads to that product's edit page. *)
Theorem dash_mount_rows (secret : option string) (b : browser) (s : store) (user : jsval) :
  js_eq_str (get_field user "role") "admin" = true ->
  let '(st, s') := dash_mount secret b s in
  s' = s /\
  (dash_render st = inr (DvPage "Hide Form" (Some (JStr "Failed to fetch products")) true []) \/
   exists l, (forall q, q ∈ l -> q ∈ store_products s) /\
     dash_render st = inr (DvPage "Hide Form" None true (map product_row l)) /\
     forall q, q ∈ l ->
       let b' := (dash_click secret (DaEdit (JStr (oid_to_hex (p_id q)))) b st s').1.1 in
       navigate 3 (b_location b') user = Some (b_location b', EditProductPage (oid_to_hex (p_id q)))).
Proof.
  intros Hadm. unfold dash_mount, dash_fetch.
  destruct (fetch_list_outcome secret b s) as [(r & -> & Hr) | (l & tot & Hrun & Hmem & ->)].
  { destruct r as [d| |]; [by destruct (Hr d) | |]; (split; [done | by left]). }
  destruct (list_response_fields (num 1) (num 10) l tot ltac:(discriminate)) as [-> ->].
  cbn [truthy]. split; [done|]. right. exists l. split_and!; [done | by apply dash_render_products |].
  intros q _. apply edit_path_lands; [apply oid_hex_safe | done].
Qed.

(** ** ProductManagement.jsx *)

Lemma split_url_products_path (q : string) :
  (split_url ("/api" +:+ "/products" +:+ String "?" q)).1 = "/api/products".
Proof. unfold split_url. rewrite list_ascii_of_string_app. reflexivity. Qed.

Lemma or_else_truthy (v : jsval) (d : string) : d <> "" -> truthy (or_else v d) = true.
Proof. intros Hd. unfold or_else. destruct (truthy v) eqn:Hv; [done | by apply truthy_str]. Qed.

(** [api.get(`/products?sort=${v}`)] reaches the list handler with the
    query [{ sort: v }]. *)
Lemma serve_sort_query (secret : option string) (b : browser) (v : string) (s : store) :
  "&"%char ∉ String.list_ascii_of_string v -> "%"%char ∉ String.list_ascii_of_string v ->
  "+"%char ∉ String.list_ascii_of_string v ->
  serve secret (api_request b GET ("/products?sort=" +:+ v) NoBody) s =
    match run (list_products (mk_req (api_headers b) (JObj [("sort", JStr v)]) (JObj []) JUndefined None)) s with
    | (inr res, s') => (Some (with_cors res), s')
    | (inl _, s') => (None, s')
    end.
Proof.
  intros Ha Hp Hs. unfold api_request.
  change ("/api" +:+ ("/products?sort=" +:+ v)) with
    ("/api" +:+ "/products" +:+ String "?" ("sort" +:+ String "=" v)).
  apply (serve_dispatch _ _ RList); [discriminate | reflexivity | |].
  - cbn [h_method h_url]. rewrite split_url_products_path. reflexivity.
  - unfold route_request. cbn [h_body h_url h_headers route_param]. rewrite split_url_products.
    rewrite qs_parse_single; [reflexivity | | by vm_compute; set_solver | done | reflexivity | done | done].
    rewrite list_ascii_of_string_app. cbn. set_solver.
Qed.

(** C15: [ProductManagement]'s [fetchProducts] sends the sort select's
    value as the query [{ sort: value }] the list handler reads (for a
    value without [&], [%] or [+]): the store is unchanged, loading
    ends, and either
    the page shows the [data] of the list handler's [2xx] answer to that
    query, or it keeps its products and shows an error. *)
Theorem pm_sort_respected (secret : option string) (b : browser) (st : management) (s : store) :
  "&"%char ∉ String.list_ascii_of_string (pm_sortBy st) ->
  "%"%char ∉ String.list_ascii_of_string (pm_sortBy st) ->
  "+"%char ∉ String.list_ascii_of_string (pm_sortBy st) ->
  let '(st', s') := pm_fetch secret b st s in
  s' = s /\ pm_loading st' = false /\
  ((pm_products st' = pm_products st /\ truthy (pm_error st') = true) \/
   exists res,
     run (list_products (mk_req (api_headers b) (JObj [("sort", JStr (pm_sortBy st))]) (JObj [])
                                JUndefined None)) s = (inr res, s) /\
     (200 <= res_status res < 300)%Z /\ pm_products st' = get_field (res_body res) "data").
Proof.
  intros Ha Hp Hs. unfold pm_fetch, fetch. rewrite serve_sort_query by done.
  pose proof (list_products_store
                (mk_req (api_headers b) (JObj [("sort", JStr (pm_sortBy st))]) (JObj []) JUndefined None)
                s) as Hro.
  destruct (run (list_products _) s) as [[e|res] s1] eqn:Hrun; cbn in Hro; subst s1.
  { split_and!; [done | done | left; split; [done | by apply or_else_truthy]]. }
  unfold axios_result. cbn [with_cors res_status res_body].
  destruct ((200 <=? res_status res)%Z && (res_status res <? 300)%Z) eqn:Hst;
    lazy beta iota zeta.
  - split_and!; [done | done | right]. exists res. apply andb_prop in Hst as [Hlo Hhi].
    split_and!; [done | lia | lia | done].
  - split_and!; [done | done | left; split; [done | by apply or_else_truthy]].
Qed.

(** ** AdminDashboard.jsx *)

(** A product of the store after the delete of [o] is not [o]'s. *)
Lemma store_products_delete (s : store) (o : oid) (q : product) :
  store_inv s ->
  q ∈ store_products (mk_store (st_users s) (delete o (st_products s)) (st_next s) (st_clock s) (st_up s)) ->
  q ∈ store_products s /\ p_id q <> o.
Proof.
  intros Hinv (key & Hk)%elem_of_store_products. cbn [st_products] in Hk.
  apply lookup_delete_Some in Hk as [Hne Hk].
  destruct (inv_products s Hinv key q Hk) as (-> & _).
  split; [apply elem_of_store_products; by exists key | done].
Qed.

(** C18: The dashboard's delete composed with the server: an administrator
    who deletes a stored product removes exactly that product from the
    store, and the table refetched afterwards either keeps its rows and
    shows [Failed to fetch products], or lists only stored products, none
    of them the deleted one. *)
Theorem dash_delete_removes (k : string) (u : user) (t : Z) (tok : string) (b : browser)
    (st : dashboard) (o : oid) (p : product) (s : store) :
  reachable (Some k) s -> oid_valid o -> st_products s !! o = Some p -> st_up s = true ->
  st_users s !! u_id u = Some u -> u_role u = RoleAdmin -> oid_valid (u_id u) -> clock_ok t ->
  jwt_sign (u_id u) (Some k) t = inr tok -> (seconds (st_clock s) < seconds t + one_day_s)%Z ->
  b_token b = Some tok ->
  let s1 := mk_store (st_users s) (delete o (st_products s)) (st_next s) (st_clock s) (st_up s) in
  let '(st', s') := dash_delete (Some k) (oid_to_hex o) b st s in
  s' = s1 /\ db_loading st' = false /\
  ((db_products st' = db_products st /\ db_error st' = JStr "Failed to fetch products") \/
   exists l, db_products st' = JArr (map (fun q => json_norm (product_json q)) l) /\
             forall q, q ∈ l -> q ∈ store_products s /\ p_id q <> o).
Proof.
  intros Hr Hv Hp Hup Hu Hrole Huv Hc Hs Ht Hb s1.
  unfold dash_delete. rewrite (admin_delete_fetch k u t tok b o p s) by done. fold s1.
  lazy beta iota zeta.
  destruct (ok_json_data (JObj [])) as [-> _]; [by eexists|]. cbn [truthy].
  unfold dash_fetch.
  destruct (fetch_list_outcome (Some k) b s1) as [(r & -> & Hr') | (l & tot & Hrun & Hmem & ->)].
  { destruct r as [d| |]; [by destruct (Hr' d) | |]; split_and!; try done; by left. }
  destruct (list_response_fields (num 1) (num 10) l tot ltac:(discriminate)) as [-> ->].
  split_and!; [reflexivity | reflexivity | right]. exists l. split; [reflexivity|].
  intros q Hq. apply (store_products_delete s o q (reachable_store_inv _ s Hr)), Hmem, Hq.
Qed.

(** ** ProductManagement.jsx *)

(** The form [handleEdit] fills from a product's JSON, and the card of a
    product that is not being edited. *)
Definition product_form (q : product) : jsval :=
  JObj [("name", JStr (p_name q)); ("description", JStr (p_description q));
        ("price", json_norm (JNum (p_price q))); ("category", JStr (p_category q));
        ("image", JStr (p_image q)); ("stock", json_norm (JNum (p_stock q)));
        ("rating", json_norm (JNum (p_rating q)))].

Definition product_card (q : product) : pm_card :=
  PmShow (JStr (oid_to_hex (p_id q))) (JStr (p_image q)) (JStr (p_name q))
         (JStr (p_description q)) (json_norm (JNum (p_price q))) (json_norm (JNum (p_stock q)))
         (json_norm (JNum (p_rating q)))
         [PmEdit (json_norm (product_json q)); PmDelete (JStr (oid_to_hex (p_id q)))].

Lemma pm_card_of_product (editing form : jsval) (q : product) :
  pm_card_of editing form (json_norm (product_json q)) =
    inr (if js_strict_eq editing (JStr (oid_to_hex (p_id q)))
         then PmForm (JStr (oid_to_hex (p_id q))) form else product_card q).
Proof.
  unfold pm_card_of, product_card.
  replace (read_prop (json_norm (product_json q)) "_id") with (@inr exn jsval (JStr (oid_to_hex (p_id q))))
    by (by rewrite product_json_norm).
  destruct (js_strict_eq _ _); [reflexivity|]. f_equal. f_equal; by rewrite product_json_norm.
Qed.

Lemma pm_edit_product_form (q : product) :
  JObj (map (fun k => (k, get_field (json_norm (product_json q)) k))
            ["name"; "description"; "price"; "category"; "image"; "stock"; "rating"]) =
    product_form q.
Proof. by rewrite product_json_norm. Qed.

(** C22: In [ProductManagement], the edit icon of a product's card, on a
    list of products the server sent, turns into the edit form exactly
    the cards of products with that id, the form filled with the
    product's name, description, price, category, image, stock and
    rating; every other card is still drawn with its product and its
    two buttons, and the store is untouched. *)
Theorem pm_edit_opens_form (secret : option string) (b : browser) (st : management) (s : store) (l : list product)
    (q : product) :
  (forall q', q' ∈ l -> oid_valid (p_id q')) -> oid_valid (p_id q) ->
  pm_loading st = false -> truthy (pm_error st) = false ->
  pm_products st = JArr (map (fun q' => json_norm (product_json q')) l) ->
  let '(st', s') := pm_click secret (PmEdit (json_norm (product_json q))) b st s in
  s' = s /\
  pm_render st' =
    inr (PmPage (pm_sortBy st)
                (map (fun q' => if bool_decide (p_id q' = p_id q)
                                then PmForm (JStr (oid_to_hex (p_id q))) (product_form q)
                                else product_card q') l)).
Proof.
  intros Hv Hq Hload Herr Hl. cbn [pm_click]. split; [done|].
  unfold pm_render, pm_edit. cbn [pm_loading pm_error pm_products pm_editing pm_form pm_sortBy].
  rewrite Hload, Herr, Hl, product_json_id, pm_edit_product_form.
  rewrite sum_map_fmap, (sum_map_inr _ (fun q' => if bool_decide (p_id q' = p_id q)
                                    then PmForm (JStr (oid_to_hex (p_id q))) (product_form q)
                                    else product_card q')); [done|].
  intros q' Hq'. rewrite pm_card_of_product. cbn [js_strict_eq].
  f_equal. case_bool_decide as Heq.
  - by rewrite Heq, string_eqb_refl.
  - rewrite string_eqb_neq; [done|]. intros Hh. apply Heq, oid_hex_inj; [by apply Hv | done | done].
Qed.

End AdminSpec.
