(* ===== verification/AuthPages.v ===== *)
(** * AuthPages: the sign-in forms and the navigation bar of the client.

    - [pages/AuthPage.jsx]: one form that logs in or signs up, switched
      by two tab buttons ([auth_page_toggle]); its [handleSubmit]
      ([auth_page_submit]) calls [login] or [register] of
      [context/AuthContext.jsx] ([Client.ctx_login], [Client.ctx_register])
      and shows [err.message || 'An error occurred'] when they throw;
    - [components/auth/Register.jsx]: the form of the [/register] route,
      with the same call and [err.message || 'Failed to create an
      account'] ([register_submit]);
    - [components/layout/Navbar.jsx]: the links and the sign-out button
      ([navbar]), shown by [App.jsx] outside [/login] and [/register]
      ([shows_navbar]).
    What each form draws from its state, its tabs, title, error banner,
    inputs and submit button, is [auth_page_render] and
    [register_render].

    The context throws the server's [message] itself, a string, not an
    [Error]: the forms read [.message] of a string, which is
    [undefined], so they always show their fallback.  That the thrown
    value is a string follows from the type of the server's answers
    (Responses.v).  The navigation bar's "Products" link points to [/],
    which [App.jsx] redirects to the login form. *)

From S2P Require Import Prelude JsRuntime Url ObjectId ProductModel UserModel.
From S2P Require Import Query Program Store Jwt Http AuthRoutes ProductRoutes Server.
From S2P Require Import Responses Client.

Open Scope shop_scope.
Local Set Warnings "-register-all".

(** ** [pages/AuthPage.jsx] *)

Record auth_page := mk_auth_page {
  ap_isLogin : bool; ap_email : string; ap_password : string; ap_username : string;
  ap_error : jsval; ap_loading : bool
}.

(** The [useState] calls of lines 6-11. *)
Definition auth_page_init : auth_page := mk_auth_page true "" "" "" (JStr "") false.

Definition ap_with_status (st : auth_page) (err : jsval) (loading : bool) : auth_page :=
  mk_auth_page (ap_isLogin st) (ap_email st) (ap_password st) (ap_username st) err loading.

(** The tab buttons (lines 39-60), [disabled={loading}]. *)
Definition auth_page_toggle (isLogin : bool) (st : auth_page) : auth_page :=
  if ap_loading st then st
  else mk_auth_page isLogin (ap_email st) (ap_password st) (ap_username st) (ap_error st) false.

Inductive auth_input := InUsername | InEmail | InPassword.

(** The inputs' [onChange] handlers: [setUsername], [setEmail],
    [setPassword] of [e.target.value]. *)
Definition auth_page_input (i : auth_input) (v : string) (st : auth_page) : auth_page :=
  match i with
  | InUsername => mk_auth_page (ap_isLogin st) (ap_email st) (ap_password st) v (ap_error st) (ap_loading st)
  | InEmail => mk_auth_page (ap_isLogin st) v (ap_password st) (ap_username st) (ap_error st) (ap_loading st)
  | InPassword => mk_auth_page (ap_isLogin st) (ap_email st) v (ap_username st) (ap_error st) (ap_loading st)
  end.

(** What [AuthPage] draws (lines 35-140): the two tabs with whether each
    is highlighted and disabled, the title, the error banner (69-73), the
    inputs with their values and [disabled] (the username only on the
    sign-up tab, 76-91), and the submit button's label and [disabled]
    (122-135). *)
Record auth_page_view := mk_auth_page_view {
  av_tabs : list (string * bool * bool); av_title : string; av_banner : option jsval;
  av_inputs : list (string * string * bool); av_submit_label : string; av_submit_disabled : bool
}.

Definition auth_page_render (st : auth_page) : auth_page_view :=
  mk_auth_page_view
    [("Login", ap_isLogin st, ap_loading st); ("Sign Up", negb (ap_isLogin st), ap_loading st)]
    (if ap_isLogin st then "Welcome Back" else "Create Account")
    (if truthy (ap_error st) then Some (ap_error st) else None)
    ((if ap_isLogin st then [] else [("username", ap_username st, ap_loading st)]) ++
     [("email", ap_email st, ap_loading st); ("password", ap_password st, ap_loading st)])
    (if ap_loading st then "Processing..." else if ap_isLogin st then "Login" else "Sign Up")
    (ap_loading st).

(** ** [components/auth/Register.jsx] *)

Record register_form := mk_register_form {
  rf_username : string; rf_email : string; rf_password : string; rf_error : jsval; rf_loading : bool
}.

Definition register_init : register_form := mk_register_form "" "" "" (JStr "") false.

(** [handleChange] (lines 18-23): [{...formData, [name]: value}]; the
    inputs are named [username], [email] and [password], and a key of
    another name would only add a field nothing reads. *)
Definition register_change (name value : string) (st : register_form) : register_form :=
  if String.eqb name "username" then
    mk_register_form value (rf_email st) (rf_password st) (rf_error st) (rf_loading st)
  else if String.eqb name "email" then
    mk_register_form (rf_username st) value (rf_password st) (rf_error st) (rf_loading st)
  else if String.eqb name "password" then
    mk_register_form (rf_username st) (rf_email st) value (rf_error st) (rf_loading st)
  else st.

Definition rf_with_status (st : register_form) (err : jsval) (loading : bool) : register_form :=
  mk_register_form (rf_username st) (rf_email st) (rf_password st) err loading.

(** What [Register] draws (lines 39-138) at [location]: the two tab
    links with whether each is highlighted ([isLoginPage], line 16), the
    error banner (74-78), the three inputs with their values, and the
    submit button's label and [disabled] (126-132). *)
Record register_view := mk_register_view {
  rv_tabs : list (string * string * bool); rv_banner : option jsval;
  rv_inputs : list (string * string); rv_submit_label : string; rv_submit_disabled : bool
}.

Definition register_render (location : string) (st : register_form) : register_view :=
  let isLoginPage := String.eqb location "/login" in
  mk_register_view
    [("Login", "/login", isLoginPage); ("Sign Up", "/register", negb isLoginPage)]
    (if truthy (rf_error st) then Some (rf_error st) else None)
    [("username", rf_username st); ("email", rf_email st); ("password", rf_password st)]
    (if rf_loading st then "Creating Account..." else "Sign Up") (rf_loading st).

(** ** [components/layout/Navbar.jsx] *)

Inductive nav_item := NavLink (label to : string) | NavSignOut.

(** What the bar shows for [user] (lines 13-57). *)
Definition navbar (user : jsval) : list nav_item :=
  [NavLink "E-Commerce" "/"; NavLink "Products" "/"] ++
  (if js_eq_str (get_field user "role") "admin" then [NavLink "Admin Dashboard" "/admin/products"]
   else []) ++
  (if truthy user then [NavSignOut] else [NavLink "Login" "/login"; NavLink "Register" "/register"]).

(** [isAuthPage] of [AppContent] (lines 26-30): the bar is not shown on
    the two forms. *)
Definition shows_navbar (path : string) : bool :=
  negb (String.eqb path "/login" || String.eqb path "/register").

Section AuthPages.
Context `{PasswordHasher} `{QueryEngine} `{Signer}.
Variable secret : option string.

(** [handleSubmit] of [AuthPage.jsx] (lines 15-33).  [register] is
    called with the email and the password only: the username field is
    never sent. *)
Definition auth_page_submit (b : browser) (a : auth_state) (st : auth_page) (s : store)
    : browser * auth_state * auth_page * store :=
  let call := if ap_isLogin st then ctx_login secret else ctx_register secret in
  let '(r, b1, a1, s1) := call (ap_email st) (ap_password st) b a s in
  match r with
  | inr _ => (go_to "/products" b1, a1, ap_with_status st (JStr "") false, s1)
  | inl err =>
      (b1, a1, ap_with_status st (or_else (get_field err "message") "An error occurred") false, s1)
  end.

(** [handleSubmit] of [Register.jsx] (lines 25-37). *)
Definition register_submit (b : browser) (a : auth_state) (st : register_form) (s : store)
    : browser * auth_state * register_form * store :=
  let '(r, b1, a1, s1) := ctx_register secret (rf_email st) (rf_password st) b a s in
  match r with
  | inr _ => (go_to "/products" b1, a1, rf_with_status st (JStr "") false, s1)
  | inl err =>
      (b1, a1, rf_with_status st (or_else (get_field err "message") "Failed to create an account") false, s1)
  end.

(** A click on an item of the bar: a link moves the router, the button
    calls [logout] of the context. *)
Definition navbar_click (i : nav_item) (b : browser) (a : auth_state) : browser * auth_state :=
  match i with
  | NavLink _ to => (go_to to b, a)
  | NavSignOut => ctx_logout b a
  end.

End AuthPages.

(** ** What the forms show *)

Section AuthPagesSpec.
Context `{PasswordHasher} `{QueryEngine} `{Signer}.

(** What [login] and [register] of the context throw is a string: the
    fallback, or the server's [message], a string by [serve_envelope];
    and a failed call leaves the browser and the context as they were. *)
Lemma ctx_credentials_outcome (secret : option string) (path fb e p : string) (b : browser)
    (a : auth_state) (s : store) :
  match ctx_credentials secret path fb e p b a s with
  | (inr _, _, _, _) => True
  | (inl err, b', a', _) => (exists m, err = JStr m) /\ b' = b /\ a' = a
  end.
Proof.
  unfold ctx_credentials, fetch. destruct (serve secret _ s) as [[res|] s1] eqn:Hs; [|cbn; by eauto].
  pose proof (serve_envelope _ _ _ _ _ Hs) as He. cbn [axios_result].
  destruct (_ && _); [repeat case_match; simplify_eq; by eauto|].
  cbn [err_message]. unfold or_else, envelope_ok in *.
  destruct (get_field (res_body res) "message"); try discriminate; cbn; repeat case_match; eauto.
Qed.

(** The step shared by both forms: call, then navigate or show the
    fallback. *)
Ltac form_outcome :=
  match goal with
  | |- context [ctx_credentials ?sec ?pa ?fb ?e ?p ?b ?a ?s] =>
      generalize (ctx_credentials_outcome sec pa fb e p b a s);
      destruct (ctx_credentials sec pa fb e p b a s) as [[[[err|u] b'] a'] s']
  end;
  cbn; [intros [[m ->] [-> ->]]; split; [done | by right] | intros _; split; [done | by left]].

(** C13: The sign-in forms never show what the server said: a failed
    [AuthPage] submission shows [An error occurred] and a failed
    [Register] submission [Failed to create an account], whatever the
    server's [message] (an unknown email, a wrong password, a taken
    email, a database failure); a successful one navigates to
    [/products].  Either way the form is no longer loading. *)
Theorem auth_forms_generic_errors (secret : option string) (b : browser) (a : auth_state)
    (st : auth_page) (rf : register_form) (s : store) :
  (let '(b', a', st', _) := auth_page_submit secret b a st s in
   ap_loading st' = false /\
   ((b_location b' = "/products" /\ ap_error st' = JStr "") \/
    ((b', a') = (b, a) /\ ap_error st' = JStr "An error occurred"))) /\
  (let '(b', a', rf', _) := register_submit secret b a rf s in
   rf_loading rf' = false /\
   ((b_location b' = "/products" /\ rf_error rf' = JStr "") \/
    ((b', a') = (b, a) /\ rf_error rf' = JStr "Failed to create an account"))).
Proof.
  split.
  - unfold auth_page_submit, ctx_login, ctx_register. destruct (ap_isLogin st); form_outcome.
  - unfold register_submit, ctx_register. form_outcome.
Qed.

(** C14: The bar's "E-Commerce" and "Products" links point to [/], which
    [App.jsx] redirects to the login form: a signed-in user who follows
    them lands on [/login].  Only an admin gets the admin link, which
    opens the product management page. *)
Theorem navbar_links_land (user : jsval) :
  truthy user = true ->
  map (fun i => match i with NavLink l to => Some (l, navigate 3 to user) | NavSignOut => None end)
      (navbar user) =
    [Some ("E-Commerce", Some ("/login", LoginPage)); Some ("Products", Some ("/login", LoginPage))] ++
    (if js_eq_str (get_field user "role") "admin"
     then [Some ("Admin Dashboard", Some ("/admin/products", AdminProductsPage))] else []) ++
    [None].
Proof.
  intros Hu. unfold navbar. rewrite Hu.
  destruct (js_eq_str (get_field user "role") "admin") eqn:Hr; cbn;
    unfold protected_route; rewrite ?Hu, ?Hr; reflexivity.
Qed.

End AuthPagesSpec.
