(* ===== verification/ApiHelpers.v ===== *)
(** * ApiHelpers: the request helpers exported by [api.js].

    Besides the [api] instance ([Client.api_request]), [api.js]
    (lines 20-78) exports one helper per endpoint, each
    [const response = await api.X(path, data); return response.data;].
    A helper resolves with the body of a 2xx answer and rejects with
    [axios]'s error otherwise ([api_call]).  No modelled page calls
    them; the five cart helpers name routes the server does not have,
    and the theorem shows that each of them rejects with Express's
    [404] and leaves the store as it was. *)

From S2P Require Import Prelude JsRuntime Url ObjectId ProductModel UserModel.
From S2P Require Import Query Program Store Jwt Http AuthRoutes ProductRoutes Server.
From S2P Require Import Client AdminPages.

Open Scope shop_scope.
Local Set Warnings "-register-all".

Section ApiHelpers.
Context `{PasswordHasher} `{QueryEngine} `{Signer}.
Variable secret : option string.

(** [const response = await api.X(...); return response.data;]: the
    value the promise resolves with ([inr]) or the error it rejects
    with ([inl]). *)
Definition api_call (b : browser) (m : method) (path : string) (d : body) (s : store)
    : (ax_result + jsval) * store :=
  let '(r, s1) := fetch secret (api_request b m path d) s in
  match r with
  | AxOk data => (inr data, s1)
  | r => (inl r, s1)
  end.

Definition api_login (b : browser) (credentials : jsval) := api_call b POST "/auth/login" (json_body credentials).
Definition api_register (b : browser) (userData : jsval) := api_call b POST "/auth/register" (json_body userData).
Definition api_get_products (b : browser) := api_call b GET "/products" NoBody.
Definition api_get_product (b : browser) (id : jsval) :=
  api_call b GET ("/products/" +:+ to_js_string id) NoBody.
Definition api_create_product (b : browser) (productData : jsval) :=
  api_call b POST "/products" (json_body productData).
Definition api_update_product (b : browser) (id productData : jsval) :=
  api_call b PUT ("/products/" +:+ to_js_string id) (json_body productData).
Definition api_delete_product (b : browser) (id : jsval) :=
  api_call b DELETE ("/products/" +:+ to_js_string id) NoBody.
Definition api_add_to_cart (b : browser) (productId quantity : jsval) :=
  api_call b POST "/cart" (json_body (JObj [("productId", productId); ("quantity", quantity)])).
Definition api_get_cart (b : browser) := api_call b GET "/cart" NoBody.
Definition api_update_cart_item (b : browser) (productId quantity : jsval) :=
  api_call b PUT ("/cart/" +:+ to_js_string productId) (json_body (JObj [("quantity", quantity)])).
Definition api_remove_from_cart (b : browser) (productId : jsval) :=
  api_call b DELETE ("/cart/" +:+ to_js_string productId) NoBody.
Definition api_clear_cart (b : browser) := api_call b DELETE "/cart" NoBody.

End ApiHelpers.

(** ** The cart helpers *)

Section ApiSpec.
Context `{PasswordHasher} `{QueryEngine} `{Signer}.

Lemma cart_id_url (id : string) :
  id_safe id ->
  split_url ("/api" +:+ "/cart/" +:+ id) = ("/api/cart/" +:+ id, "") /\
  path_segments ("/api/cart/" +:+ id) = ["api"; "cart"; id].
Proof.
  intros Hs. pose proof (id_safe_not id "?" Hs ltac:(vm_compute; set_solver)) as Hq.
  pose proof (id_safe_not id "/" Hs ltac:(vm_compute; set_solver)) as Hsl.
  destruct Hs as [Hne _]. unfold split_url. rewrite !list_ascii_of_string_app. simpl.
  rewrite break_at_none by exact Hq. cbn. rewrite String.string_of_list_ascii_of_string.
  split; [done|]. unfold path_segments, js_split. simpl.
  rewrite split_chars_no_sep by exact Hsl. cbn [map last].
  rewrite String.string_of_list_ascii_of_string. by destruct id.
Qed.

(** C39: The five cart helpers of [api.js] always reject: the server has
    no [/api/cart] route, so Express answers [404] with its HTML page
    [Cannot <method> <path>], which [axios] throws, and the store is
    untouched. *)
Theorem api_cart_helpers_reject (secret : option string) (b : browser) (pid q : jsval)
    (id : string) (s : store) :
  id_safe id ->
  api_add_to_cart secret b pid q s =
    (inl (AxHttpError 404 (JStr (error_page "Cannot POST /api/cart"))), s) /\
  api_get_cart secret b s = (inl (AxHttpError 404 (JStr (error_page "Cannot GET /api/cart"))), s) /\
  api_clear_cart secret b s =
    (inl (AxHttpError 404 (JStr (error_page "Cannot DELETE /api/cart"))), s) /\
  api_update_cart_item secret b (JStr id) q s =
    (inl (AxHttpError 404 (JStr (error_page ("Cannot PUT /api/cart/" +:+ id)))), s) /\
  api_remove_from_cart secret b (JStr id) s =
    (inl (AxHttpError 404 (JStr (error_page ("Cannot DELETE /api/cart/" +:+ id)))), s).
Proof.
  intros Hid. destruct (cart_id_url id Hid) as [Hsplit Hsegs].
  assert (Hp : Forall (fun c => plain_char c = true) (String.list_ascii_of_string ("/api/cart/" +:+ id))).
  { rewrite list_ascii_of_string_app, Forall_app. split; [vm_compute; repeat constructor|].
    by apply id_safe_plain. }
  split_and!; try reflexivity;
    unfold api_update_cart_item, api_remove_from_cart, api_call, fetch, api_request, serve;
    cbn [h_method h_body h_url to_js_string body_parses negb]; rewrite Hsplit; cbn [fst]; rewrite Hsegs;
    cbn [match_route]; rewrite not_found_plain by exact Hp; reflexivity.
Qed.

End ApiSpec.
