(* ===== verification/Session.v ===== *)
(** * Session: the browser's authentication state across a whole session.

    The provider of [context/AuthContext.jsx] keeps the token in two
    places: [localStorage] (read by the [api] instance's interceptor)
    and the global [axios] default header (sent by the provider's own
    requests).  A session is any sequence of the steps the client can
    take ([session_step]):
    - a page load, which drops the JavaScript memory (the provider state
      and the [axios] default header) and runs the mount effect
      ([ctx_verify]);
    - a login or a registration through the provider;
    - a logout, from the [Navbar]'s button or anywhere else;
    - a navigation, which only moves the router;
    - a request of another client, which changes the store only.
    The invariant [session_ok]: the [axios] header, when set, is
    [Bearer] followed by the token of [localStorage]; and a signed-in
    user always has a token there, so the pages' [api] requests are
    authenticated as the provider's are.  It holds from a fresh page
    and is kept by every step ([session_invariant]). *)

From S2P Require Import Prelude JsRuntime Url ObjectId ProductModel UserModel.
From S2P Require Import Query Program Store Jwt Http AuthRoutes ProductRoutes Server.
From S2P Require Import Client.

Open Scope shop_scope.
Local Set Warnings "-register-all".

Definition session : Type := browser * auth_state * store.

(** A page load keeps [localStorage] and the location and loses the
    [axios] defaults. *)
Definition page_load (b : browser) : browser := mk_browser (b_token b) None (b_location b).

Section Session.
Context `{PasswordHasher} `{QueryEngine} `{Signer}.
Variable secret : option string.

Definition after_credentials (r : (jsval + jsval) * browser * auth_state * store) : session :=
  let '(_, b', a', s') := r in (b', a', s').

Inductive session_step : session -> session -> Prop :=
| step_load b a s :
    session_step (b, a, s) (ctx_verify secret (page_load b) auth_init s)
| step_login e p b a s :
    session_step (b, a, s) (after_credentials (ctx_login secret e p b a s))
| step_register e p b a s :
    session_step (b, a, s) (after_credentials (ctx_register secret e p b a s))
| step_logout b a s :
    session_step (b, a, s) (let '(b', a') := ctx_logout b a in (b', a', s))
| step_navigate loc b a s :
    session_step (b, a, s) (go_to loc b, a, s)
| step_other h b a s :
    session_step (b, a, s) (b, a, (serve secret h s).2).

End Session.

(** The invariant of a session. *)
Definition session_ok (x : session) : Prop :=
  let '(b, a, _) := x in
  (forall h, b_axios_auth b = Some h -> exists t, b_token b = Some t /\ h = "Bearer " +:+ t) /\
  (truthy (a_user a) = true -> exists t, b_token b = Some t).

Section SessionSpec.
Context `{PasswordHasher} `{QueryEngine} `{Signer}.

Lemma session_ok_fresh (b : browser) (s : store) :
  b_axios_auth b = None -> session_ok (b, auth_init, s).
Proof. intros Hb. split; [by rewrite Hb | discriminate]. Qed.

Lemma session_ok_signed_in (t loc : string) (a : auth_state) (s : store) :
  session_ok (mk_browser (Some t) (Some ("Bearer " +:+ t)) loc, a, s).
Proof. split; [intros h [= <-] | intros _]; by exists t. Qed.

Lemma verify_ok (secret : option string) (b : browser) (s : store) :
  session_ok (ctx_verify secret (page_load b) auth_init s).
Proof.
  unfold ctx_verify, page_load. cbn [b_token b_axios_auth b_location].
  destruct (b_token b) as [t|]; [|by apply session_ok_fresh].
  destruct (truthy (JStr t)) eqn:Ht; [|by apply session_ok_fresh].
  destruct (fetch _ _ _) as [[data| |] s1]; [destruct (truthy (get_field data "success"))|..];
    first [by apply session_ok_fresh | apply session_ok_signed_in].
Qed.

Lemma credentials_ok (secret : option string) (path fb e p : string) (b : browser)
    (a : auth_state) (s : store) :
  session_ok (b, a, s) -> session_ok (after_credentials (ctx_credentials secret path fb e p b a s)).
Proof.
  intros Hok. unfold ctx_credentials, after_credentials.
  destruct (fetch _ _ _) as [[data| |] s1]; try exact Hok.
  destruct (truthy (get_field data "success")); [|exact Hok].
  destruct (get_field data "data"); first [exact Hok | apply session_ok_signed_in].
Qed.

Lemma session_step_ok (secret : option string) (x y : session) :
  session_step secret x y -> session_ok x -> session_ok y.
Proof.
  destruct 1 as [b a s|e p b a s|e p b a s|b a s|loc b a s|h b a s]; intros Hok.
  - apply verify_ok.
  - by apply credentials_ok.
  - by apply credentials_ok.
  - split; [done | discriminate].
  - exact Hok.
  - exact Hok.
Qed.

(** C17: Along any session that starts from a fresh page, the [axios]
    default header, when set, is [Bearer] followed by the token stored
    in [localStorage], and whenever the provider holds a signed-in user
    there is a token in [localStorage]: page loads, logins,
    registrations, logouts, navigation and other clients' requests all
    keep the two stores of the token in step. *)
Theorem session_invariant (secret : option string) (b0 : browser) (s0 : store) (x : session) :
  b_axios_auth b0 = None ->
  rtc (session_step secret) (b0, auth_init, s0) x ->
  session_ok x.
Proof.
  intros Hb Hrtc. pose proof (session_ok_fresh b0 s0 Hb) as Hok.
  remember (b0, auth_init, s0) as x0 eqn:Hx0. clear Hx0 Hb.
  induction Hrtc as [x|x y z Hxy _ IH]; [done|].
  apply IH. by apply (session_step_ok secret x y).
Qed.

End SessionSpec.
