(* ===== verification/Examples.v ===== *)
(** * Examples: the theorems applied to concrete requests and stores.

    Each lemma here instantiates a theorem of the development at a
    concrete input (the hasher [prefix_hasher], the engine
    [merge_sort_engine], the signer [checksum_signer], a small store
    and a request) and discharges its hypotheses by evaluation, which
    shows that the hypotheses can hold together.  The last part runs the
    whole system: an administrator registers through the server, adds a
    product from the list page's form, and the store reached is
    [reachable]; a search term with [&] in it turns into a server error.
    The same run then serves the admin pages: the answer that adds the
    product is typed, the product is edited and saved back unchanged,
    and the navigation bar of an administrator is followed. *)

From S2P Require Import Prelude JsRuntime ObjectId ProductModel UserModel Query.
From S2P Require Import Program Store Jwt Http AuthRoutes ProductRoutes Url Server.
From S2P Require Import Responses Invariant Client Catalog ListPages AdminPages AuthPages ApiHelpers Session.

Open Scope shop_scope.
Local Set Warnings "-register-all".
Local Open Scope Z_scope.

(** ** Fixtures *)

Definition ex_user : user := mk_user 7 "ann@example.com" (prefix_hash "pw") RoleUser 0.

Definition ex_token : string :=
  match jwt_sign 7 (Some "k") 1000 with inr t => t | inl _ => "" end.

Definition ex_req (headers : list (string * string)) (query body id : jsval) : request :=
  mk_req headers query body id None.

Definition ex_auth_req : request :=
  ex_req [("authorization", "Bearer " +:+ ex_token)] (JObj []) (JObj []) JUndefined.

Definition ex_prod (id : oid) (name cat : string) (price : Q) (created : Z) : product :=
  mk_product id name "A product" cat (Fin price) (Fin 4) "p.png" (Fin 10) (Fin 0) created None.

Definition ex_products : gmap oid product :=
  list_to_map (map (fun i => (Z.of_nat i, ex_prod (Z.of_nat i) "Item"
                       (if Nat.even i then "electronics" else "books")
                       (inject_Z (Z.of_nat i)) (Z.of_nat (1000 * i)%nat)))
                   (seq 20 12)).

Definition ex_store (users : gmap oid user) (clock : Z) (up : bool) : store :=
  mk_store users ex_products 100 clock up.

Definition ex_run_response (p : prog response) (s : store) : response :=
  match run p s with (inr r, _) => r | _ => mk_res 0 JNull [] end.

Ltac concrete :=
  first [ reflexivity | lia | by vm_compute
        | (intros ? ?; vm_compute; congruence) ].

(** ** Authentication *)

Lemma auth_accepts_issued_token_witness :
  run (auth (Some "k") ex_auth_req) (ex_store {[7%Z := ex_user]} 5000 true) =
    (inr (Next (with_user ex_auth_req ex_user)), ex_store {[7%Z := ex_user]} 5000 true).
Proof. apply (auth_accepts_issued_token "k" ex_user 1000 ex_token); concrete. Defined.

Lemma auth_rejects_expired_token_witness :
  run (auth (Some "k") ex_auth_req) (ex_store {[7%Z := ex_user]} 90000000 true) =
    (inr (Respond (fail_json 401 "Token expired")), ex_store {[7%Z := ex_user]} 90000000 true).
Proof. apply (auth_rejects_expired_token "k" 7 1000 ex_token); concrete. Defined.

Lemma auth_rejects_deleted_user_witness :
  run (auth (Some "k") ex_auth_req) (ex_store ∅ 5000 true) =
    (inr (Respond (fail_json 401 "User not found")), ex_store ∅ 5000 true).
Proof. apply (auth_rejects_deleted_user "k" 7 1000 ex_token); concrete. Defined.

Lemma auth_store_down_witness :
  run (auth (Some "k") ex_auth_req) (ex_store {[7%Z := ex_user]} 5000 false) =
    (inr (Respond (fail_json 500 "Server error")), ex_store {[7%Z := ex_user]} 5000 false).
Proof. apply (auth_store_down "k" 7 1000 ex_token); concrete. Defined.

Lemma auth_rejects_missing_bearer_witness :
  run (auth (Some "k") (ex_req [("Authorization", "Basic abc")] (JObj []) (JObj []) JUndefined))
      (ex_store ∅ 0 true) =
    (inr (Respond (fail_json 401 "No token, authorization denied")), ex_store ∅ 0 true).
Proof.
  apply auth_rejects_missing_bearer. intros h Hh. vm_compute in Hh.
  injection Hh as <-. reflexivity.
Defined.

(** ** Registration and login *)

Definition ex_credentials (e p : string) : request :=
  ex_req [] (JObj []) (JObj [("email", JStr e); ("password", JStr p)]) JUndefined.

Lemma register_creates_user_witness :
  let u := mk_user 100 "bob@example.com" (pw_hash "pw") (role_for "bob@example.com") 5000 in
  exists tok,
    jwt_sign 100 (Some "k") 5000 = inr tok /\
    run (register (Some "k") (ex_credentials "bob@example.com" "pw"))
        (ex_store {[7%Z := ex_user]} 5000 true) =
      (inr (ok_json 201 [("data", auth_payload tok u)]),
       mk_store (<[100%Z := u]> {[7%Z := ex_user]}) ex_products 101 5000 true).
Proof.
  refine (register_creates_user "k" "bob@example.com" "pw" _
            (ex_store {[7%Z := ex_user]} 5000 true) _ _ _ _ _ _); try concrete.
  intros id v Hl. cbn [st_users ex_store] in Hl. apply lookup_singleton_Some in Hl as [_ <-]. discriminate.
Defined.

Lemma register_rejects_duplicate_witness :
  run (register (Some "k") (ex_credentials "ann@example.com" "other"))
      (ex_store {[7%Z := ex_user]} 5000 true) =
    (inr (fail_json 400 "User already exists"), ex_store {[7%Z := ex_user]} 5000 true).
Proof.
  apply (register_rejects_duplicate _ "ann@example.com" "other" ex_user); try concrete.
  by exists 7.
Defined.

Lemma login_invalid_credentials_witness :
  run (login (Some "k") (ex_credentials "ann@example.com" "wrong"))
      (ex_store {[7%Z := ex_user]} 5000 true) =
    (inr (fail_json 400 "Invalid credentials"), ex_store {[7%Z := ex_user]} 5000 true).
Proof.
  apply (login_invalid_credentials _ "ann@example.com" "wrong"); try concrete.
  intros id v Hl _. cbn [st_users ex_store] in Hl. apply lookup_singleton_Some in Hl as [_ <-]. discriminate.
Defined.

(** ** Tokens, ids and users *)

Lemma jwt_verify_sign_witness :
  jwt_verify ex_token (Some "k") 5000 = inr (mk_claims 7 1 86401).
Proof. apply (jwt_verify_sign "k" 7 1000 5000 ex_token); concrete. Defined.

Lemma cast_oid_string_to_hex_witness :
  cast_oid_string (oid_to_hex 255) = Some 255.
Proof. apply cast_oid_string_to_hex. concrete. Defined.

Lemma save_user_strings_witness :
  save_user (JStr "ann@example.com") (JStr "pw") RoleUser 7 0 =
    inr (mk_user 7 "ann@example.com" (pw_hash "pw") RoleUser 0).
Proof. apply save_user_strings; concrete. Defined.

(** ** Product list *)

Definition ex_query (fields : list (string * jsval)) : request :=
  ex_req [] (JObj fields) (JObj []) JUndefined.

Definition ex_list_req : request :=
  ex_query [("category", JStr "books"); ("sort", JStr "price-desc"); ("page", JStr "2");
            ("limit", JStr "3")].

(** The second page of three books, dearest first. *)
Lemma list_products_sound_witness :
  let s := ex_store ∅ 0 true in
  s = s /\
  exists m,
    (forall p, p ∈ m <-> p ∈ store_products s /\
       product_matches (mk_query (Some "books") None None None) p = inr true) /\
    ex_run_response (list_products ex_list_req) s =
      list_response (default_param (get_field (req_query ex_list_req) "page") 1)
                    (default_param (get_field (req_query ex_list_req) "limit") 10)
                    (window (Z.to_nat ((2 - 1) * 3)) (Z.to_nat 3)
                            (engine_sort (sort_options (get_field (req_query ex_list_req) "sort")) m))
                    (length m) /\
    StronglySorted (sort_le (sort_options (get_field (req_query ex_list_req) "sort")))
                   (window (Z.to_nat ((2 - 1) * 3)) (Z.to_nat 3)
                           (engine_sort (sort_options (get_field (req_query ex_list_req) "sort")) m)).
Proof.
  pose proof (list_products_sound ex_list_req (ex_store ∅ 0 true) (ex_store ∅ 0 true)
                (ex_run_response (list_products ex_list_req) (ex_store ∅ 0 true))
                (mk_query (Some "books") None None None) 2 3) as W.
  simple apply W; vm_compute; first [reflexivity | discriminate | intro; discriminate].
Defined.

Definition ex_filter_req : request :=
  ex_query [("category", JStr "electronics"); ("minPrice", JStr "10"); ("maxPrice", JStr "50")].

Lemma list_category_price_filter_witness :
  exists l total,
    ex_run_response (list_products ex_filter_req) (ex_store ∅ 0 true) =
      list_response (default_param (get_field (req_query ex_filter_req) "page") 1)
                    (default_param (get_field (req_query ex_filter_req) "limit") 10) l total /\
    forall p, p ∈ l -> p_category p = "electronics" /\
      exists x, p_price p = Fin x /\ (10 <= x)%Q /\ (x <= 50)%Q.
Proof. apply (list_category_price_filter ex_filter_req (ex_store ∅ 0 true) (ex_store ∅ 0 true)); concrete. Defined.

Definition ex_asc_req : request := ex_query [("sort", JStr "price-asc")].

Lemma list_price_asc_sorted_witness :
  exists l total,
    ex_run_response (list_products ex_asc_req) (ex_store ∅ 0 true) =
      list_response (default_param (get_field (req_query ex_asc_req) "page") 1)
                    (default_param (get_field (req_query ex_asc_req) "limit") 10) l total /\
    StronglySorted (fun a b => num_cmp (p_price a) (p_price b) <> Gt) l.
Proof. apply (list_price_asc_sorted ex_asc_req (ex_store ∅ 0 true) (ex_store ∅ 0 true) _ empty_query); concrete. Defined.

Lemma sort_options_default_witness : sort_options (JStr "cheapest") = ("createdAt", (-1)%Z).
Proof.
  apply sort_options_default. intros k Hk. injection Hk as <-.
  apply (bool_decide_unpack _). vm_compute. exact I.
Defined.

Definition ex_page_req : request := ex_query [("page", JStr "2"); ("limit", JStr "5")].

Lemma list_second_page_witness :
  let s := ex_store ∅ 0 true in
  let page := take 5 (drop 5 (engine_sort ("createdAt", (-1)%Z) (store_products s))) in
  run (list_products ex_page_req) s = (inr (list_response (JStr "2") (JStr "5") page 12), s) /\
  length page = 5%nat /\
  math_ceil (num_div (Fin (inject_Z 12)) (to_number (JStr "5"))) = Fin (inject_Z 3).
Proof. apply list_second_page; concrete. Defined.

(** ** Product administration *)

Definition ex_body_req (fields : list (string * jsval)) : request :=
  ex_req [] (JObj []) (JObj fields) JUndefined.

Lemma create_rejects_numeric_zero_price_witness :
  run (create_product (ex_body_req [("name", JStr "Pen"); ("price", num 0)]))
      (ex_store ∅ 0 true) =
    (inr (fail_json 400 "Please provide all required fields"), ex_store ∅ 0 true).
Proof. apply create_rejects_numeric_zero_price with (secret := None). concrete. Defined.

Definition ex_pen : list (string * jsval) :=
  [("name", JStr "Pen"); ("description", JStr "Blue pen"); ("price", JStr "0");
   ("category", JStr "Books"); ("image", JStr "pen.png"); ("stock", JStr "3")].

Lemma create_accepts_string_zero_price_witness :
  let s := ex_store ∅ 5000 true in
  let p := mk_product 100 "Pen" "Blue pen" "books" (Fin 0) (Fin 0) "pen.png"
                      (Fin 3) (Fin 0) 5000 None in
  run (create_product (ex_body_req ex_pen)) s =
    (inr (ok_json 201 [("data", product_json p)]),
     mk_store ∅ (<[100%Z := p]> ex_products) 101 5000 true).
Proof. apply create_accepts_string_zero_price; concrete. Defined.

Definition ex_delete_req : request := ex_req [] (JObj []) (JObj []) (JStr (oid_to_hex 20)).

Lemma delete_product_twice_witness :
  let s := ex_store ∅ 0 true in
  let s1 := mk_store ∅ (delete 20%Z ex_products) 100 0 true in
  run (delete_product ex_delete_req) s = (inr (ok_json 200 [("data", JObj [])]), s1) /\
  run (delete_product ex_delete_req) s1 = (inr (fail_json 404 "Product not found"), s1).
Proof.
  apply (delete_product_twice 20 (ex_prod 20 "Item" "electronics" (inject_Z 20) 20000));
    concrete.
Defined.

(** ** Login, the server and the invariant *)

Lemma login_issues_token_witness :
  let s := ex_store {[7%Z := ex_user]} 5000 true in
  exists tok,
    jwt_sign (u_id ex_user) (Some "k") (st_clock s) = inr tok /\
    run (login (Some "k") (ex_credentials "ann@example.com" "pw")) s =
      (inr (mk_res 200 (res_body (ok_json 200 [("data", auth_payload tok ex_user)]))
                   [("Authorization", "Bearer " +:+ tok)]), s).
Proof.
  intros s. subst s. refine (login_issues_token "k" "ann@example.com" "pw" ex_user _ _ _ _ _ _ _ _ _ _ _);
    try concrete.
  intros id v Hl _. cbn [st_users ex_store] in Hl. by apply lookup_singleton_Some in Hl as [_ <-].
Defined.

Definition ex_delete_http : http_request :=
  api_request (mk_browser (Some ex_token) None "/products") DELETE "/products/abc" NoBody.

Definition ex_delete_route : route := RDelete "abc".

Definition ex_delete_request : request :=
  default (ex_req [] (JObj []) (JObj []) JUndefined) (route_request ex_delete_http ex_delete_route).

Lemma expired_token_rejected_witness :
  serve (Some "k") ex_delete_http (ex_store {[7%Z := ex_user]} 90000000 true) =
    (Some (with_cors (fail_json 401 "Token expired")), ex_store {[7%Z := ex_user]} 90000000 true).
Proof.
  apply (expired_token_rejected "k" 7 1000 ex_token _ ex_delete_route ex_delete_request); concrete.
Defined.

Lemma admin_routes_forbid_users_witness :
  exists res,
    serve (Some "k") ex_delete_http (ex_store {[7%Z := ex_user]} 5000 true) =
      (Some (with_cors res), ex_store {[7%Z := ex_user]} 5000 true) /\
    res_status res = 403 /\ get_field (res_body res) "success" = JBool false.
Proof.
  apply (admin_routes_forbid_users "k" ex_user 1000 ex_token _ ["abc"] ex_delete_route
           ex_delete_request);
    first [concrete | vm_compute; set_solver | intros Hb; vm_compute in Hb; discriminate].
Defined.

(** A system run: the administrator registers, then adds a lamp from the
    list page's form. *)
Definition ex_reg_http : http_request :=
  axios_request (mk_browser None None "/register") POST "/api/auth/register"
                (credentials ADMIN_EMAIL "pw").

Definition ex_sys1 : store := (serve (Some "k") ex_reg_http (empty_store 1000)).2.

Definition ex_admin_tok : string :=
  match jwt_sign 1 (Some "k") 1000 with inr t => t | inl _ => "" end.

Definition ex_admin_b : browser :=
  mk_browser (Some ex_admin_tok) (Some ("Bearer " +:+ ex_admin_tok)) "/products".

Definition ex_lamp_form : list (string * string) :=
  [("name", "Lamp"); ("description", "Desk lamp"); ("price", "25"); ("category", "Home");
   ("image", "lamp.png"); ("stock", "3")].

Definition ex_page0 : page_state :=
  mk_page_state (JArr []) false "" "" "" "createdAt" "desc" 1 (num 1) true ex_lamp_form.

Definition ex_add_http : http_request :=
  api_request ex_admin_b POST "/products" (JsonBody (form_body ex_lamp_form)).

Definition ex_sys2 : store := (serve (Some "k") ex_add_http ex_sys1).2.

Definition ex_lamp : product :=
  mk_product 2 "Lamp" "Desk lamp" "home" (Fin 25) (Fin 0) "lamp.png" (Fin 3) (Fin 0) 1000 None.

Lemma ex_sys2_reachable : reachable (Some "k") ex_sys2.
Proof. apply reach_serve, reach_serve, reach_init. Qed.

Lemma ex_admin_adds_lamp :
  (page_add (Some "k") ex_admin_b ex_page0 ex_sys1).2 = ex_sys2 /\
  st_products ex_sys2 !! 2 = Some ex_lamp /\
  pg_list (page_add (Some "k") ex_admin_b ex_page0 ex_sys1).1 = JArr [json_norm (product_json ex_lamp)].
Proof. split_and!; vm_compute; reflexivity. Qed.

Lemma reachable_inv_witness : store_inv ex_sys2.
Proof. apply (reachable_inv (Some "k")). unfold ex_sys2, ex_sys1. apply reach_serve, reach_serve, reach_init. Defined.

(** ** The client *)

Lemma login_then_reload_witness :
  let b := mk_browser None None "/login" in
  let s := ex_store {[7%Z := ex_user]} 5000 true in
  exists tok,
    let b1 := mk_browser (Some tok) (Some ("Bearer " +:+ tok)) (b_location b) in
    let s1 := mk_store (st_users s) (st_products s) (st_next s) 6000 (st_up s) in
    ctx_login (Some "k") "ann@example.com" "pw" b auth_init s =
      (inr (user_summary ex_user), b1, mk_auth (user_summary ex_user) (a_loading auth_init), s) /\
    ctx_verify (Some "k") b1 auth_init s1 = (b1, mk_auth (user_json ex_user) false, s1).
Proof.
  intros b s. subst b s.
  refine (login_then_reload "k" "ann@example.com" "pw" ex_user _ auth_init _ 6000
            _ _ _ _ _ _ _ _ _ _); try concrete.
  intros id v Hl _. cbn [st_users ex_store] in Hl. by apply lookup_singleton_Some in Hl as [_ <-].
Defined.

Lemma non_admin_lands_on_login_witness :
  navigate 3 "/admin/products" (JObj [("role", JStr "user")]) = Some ("/login", LoginPage).
Proof. apply non_admin_lands_on_login; [reflexivity | reflexivity | set_solver]. Defined.

Lemma cart_add_always_fails_witness :
  let st := mk_products_page [] false JNull [] "" "" "createdAt" "desc" in
  let pg := mk_product_page JNull false JNull [] (Fin 1) in
  let s := ex_store {[7%Z := ex_user]} 5000 true in
  let u := JObj [("role", JStr "user")] in
  products_add_to_cart (Some "k") u (JStr "abc") ex_admin_b st s =
    (ex_admin_b, pp_set_error st (JStr "Failed to add to cart"), s) /\
  product_add_to_cart (Some "k") u (JStr "abc") ex_admin_b pg s =
    (ex_admin_b, mk_product_page (pg_product pg) (pg_loading pg) (JStr "Failed to add to cart")
                                 (pg_cart pg) (pg_quantity pg), s).
Proof. intros st pg s u. exact (cart_add_always_fails (Some "k") u (JStr "abc") ex_admin_b st pg s eq_refl). Defined.

(** A rating of [3.5]: three full stars and a half one. *)
Lemma render_stars_five_witness :
  exists l, render_stars (Fin (7 # 2)) = Some l /\ length l = 5%nat /\
    length (filter (fun x => x = FullStar) l) = Z.to_nat (Qfloor (7 # 2)) /\
    (HalfStar ∈ l <-> has_fraction (Fin (7 # 2)) = true).
Proof. apply render_stars_five. split; vm_compute; intro; discriminate. Defined.

Lemma clamp_quantity_spec_witness :
  (parse_int "7" = Fin (inject_Z 7) ->
   clamp_quantity "7" (Fin (inject_Z 5)) = Fin (inject_Z (Z.min (Z.max 1 7) 5)) /\
   (1 <= Z.min (Z.max 1 7) 5 <= 5)%Z) /\
  clamp_quantity "" (Fin (inject_Z 5)) = NaN.
Proof. apply clamp_quantity_spec. lia. Defined.

(** ** Query strings and the list pages *)

Lemma qs_parse_url_search_params_witness :
  qs_parse (url_search_params [("search", "desk lamp"); ("category", "a&b")]) =
    JObj (map qs_entry [("search", "desk lamp"); ("category", "a&b")]).
Proof. apply qs_parse_url_search_params; [by repeat constructor; set_solver | set_solver]. Defined.

Definition ex_list_page : page_state :=
  mk_page_state (JArr []) false "" "lamp" "home" "price" "asc" 2 (num 1) false new_product_init.

Definition ex_list_http : http_request := api_request ex_admin_b GET (page_url ex_list_page) NoBody.

Lemma page_sort_ignored_witness :
  get_field (req_query (default (ex_req [] (JObj []) (JObj []) JUndefined)
                                (route_request ex_list_http RList))) "sort" = JUndefined /\
  sort_options (get_field (req_query (default (ex_req [] (JObj []) (JObj []) JUndefined)
                                (route_request ex_list_http RList))) "sort") = ("createdAt", (-1)%Z).
Proof.
  apply (page_sort_ignored ex_admin_b ex_list_page RList); first [concrete | cbn; set_solver].
Defined.

Lemma cards_throw_on_products_witness :
  render_cards (map (fun p => json_norm (product_json p)) [ex_lamp]) =
    inl (type_error "Cannot read properties of undefined (reading '0')").
Proof. apply (cards_throw_on_products [ex_lamp]). discriminate. Defined.

(** The search box is pasted into the query string unencoded: a search
    for [x&category=a&category=b] makes [category] an array, whose
    [toLowerCase] throws on the server, and the page shows its error. *)
Definition ex_injected_page : page_state :=
  mk_page_state (JArr []) false "" "x&category=a&category=b" "" "price" "asc" 1 (num 1) false
                new_product_init.

Lemma page_search_injection :
  res_status (default (mk_res 0 JNull [])
    (serve (Some "k") (api_request ex_admin_b GET (page_url ex_injected_page) NoBody) ex_sys2).1)
    = 500 /\
  pg_err (page_fetch (Some "k") ex_admin_b ex_injected_page ex_sys2).1 = "Failed to fetch products".
Proof. split; vm_compute; reflexivity. Qed.

(** ** The type of the answers *)

Definition ex_add_res : response :=
  default (mk_res 0 JNull []) (serve (Some "k") ex_add_http ex_sys1).1.

Lemma serve_typed_witness :
  (h_method ex_add_http = OPTIONS /\ ex_add_res = preflight_response) \/
  (h_method ex_add_http <> OPTIONS /\ response_ok ex_add_res).
Proof.
  refine (serve_typed (Some "k") ex_add_http ex_sys1 ex_sys2 ex_add_res _).
  vm_compute. reflexivity.
Defined.

(** ** The admin pages and the navigation bar *)

Definition ex_admin : user :=
  match st_users ex_sys1 !! 1 with Some u => u | None => ex_user end.

Definition ex_edit0 : edit_page := mk_edit_page true "" JNull.

Lemma edit_roundtrip_witness :
  let st1 := mk_edit_page false (ed_error ex_edit0) (json_norm (product_json ex_lamp)) in
  edit_fetch (Some "k") (oid_to_hex 2) ex_admin_b ex_edit0 ex_sys2 = (st1, ex_sys2) /\
  edit_submit (Some "k") (oid_to_hex 2) ex_admin_b st1 ex_sys2 =
    (go_to "/admin/products" ex_admin_b, st1, ex_sys2).
Proof.
  refine (edit_roundtrip "k" ex_admin 1000 ex_admin_tok ex_admin_b ex_edit0 2 ex_lamp ex_sys2
            _ _ _ _ _ _ _ _ _ _ _).
  1: unfold ex_sys2, ex_sys1; apply reach_serve, reach_serve, reach_init.
  all: concrete.
Defined.

Lemma pm_sort_respected_witness :
  let '(st', s') := pm_fetch (Some "k") ex_admin_b management_init ex_sys2 in
  s' = ex_sys2 /\ pm_loading st' = false /\
  ((pm_products st' = pm_products management_init /\ truthy (pm_error st') = true) \/
   exists res,
     run (list_products (mk_req (api_headers ex_admin_b)
                                (JObj [("sort", JStr (pm_sortBy management_init))]) (JObj [])
                                JUndefined None)) ex_sys2 = (inr res, ex_sys2) /\
     (200 <= res_status res < 300)%Z /\ pm_products st' = get_field (res_body res) "data").
Proof. apply pm_sort_respected; vm_compute; set_solver. Defined.

Definition ex_admin_json : jsval := JObj [("role", JStr "admin")].

Lemma navbar_links_land_witness :
  map (fun i => match i with NavLink l to => Some (l, navigate 3 to ex_admin_json) | NavSignOut => None end)
      (navbar ex_admin_json) =
    [Some ("E-Commerce", Some ("/login", LoginPage)); Some ("Products", Some ("/login", LoginPage))] ++
    (if js_eq_str (get_field ex_admin_json "role") "admin"
     then [Some ("Admin Dashboard", Some ("/admin/products", AdminProductsPage))] else []) ++
    [None].
Proof. exact (navbar_links_land ex_admin_json eq_refl). Defined.

(** ** The product pages *)

Lemma product_fetch_stored_witness :
  product_fetch (Some "k") (oid_to_hex 2) ex_admin_b product_init ex_sys2 =
    (mk_product_page
       (match st_products ex_sys2 !! 2 with Some p => json_norm (product_json p) | None => pg_product product_init end)
       false
       (match st_products ex_sys2 !! 2 with Some _ => pg_error product_init | None => JStr "Failed to fetch product" end)
       (pg_cart product_init) (pg_quantity product_init), ex_sys2).
Proof. refine (product_fetch_stored (Some "k") ex_admin_b product_init 2 ex_sys2 _ _); concrete. Defined.

(** ** The helpers of [api.js] *)

Lemma api_cart_helpers_reject_witness :
  api_add_to_cart (Some "k") ex_admin_b (JStr "x") (num 1) ex_sys2 =
    (inl (AxHttpError 404 (JStr (error_page "Cannot POST /api/cart"))), ex_sys2) /\
  api_get_cart (Some "k") ex_admin_b ex_sys2 =
    (inl (AxHttpError 404 (JStr (error_page "Cannot GET /api/cart"))), ex_sys2) /\
  api_clear_cart (Some "k") ex_admin_b ex_sys2 =
    (inl (AxHttpError 404 (JStr (error_page "Cannot DELETE /api/cart"))), ex_sys2) /\
  api_update_cart_item (Some "k") ex_admin_b (JStr (oid_to_hex 2)) (num 1) ex_sys2 =
    (inl (AxHttpError 404 (JStr (error_page ("Cannot PUT /api/cart/" +:+ oid_to_hex 2)))), ex_sys2) /\
  api_remove_from_cart (Some "k") ex_admin_b (JStr (oid_to_hex 2)) ex_sys2 =
    (inl (AxHttpError 404 (JStr (error_page ("Cannot DELETE /api/cart/" +:+ oid_to_hex 2)))),
     ex_sys2).
Proof.
  exact (api_cart_helpers_reject (Some "k") ex_admin_b (JStr "x") (num 1) (oid_to_hex 2) ex_sys2
           (oid_hex_safe 2)).
Defined.

(** ** The dashboard and the session *)

(** The administrator deletes the lamp from the dashboard: the store
    loses it and the list shown is refetched. *)
Lemma dash_delete_removes_witness :
  let s1 := mk_store (st_users ex_sys2) (delete 2 (st_products ex_sys2)) (st_next ex_sys2)
                     (st_clock ex_sys2) (st_up ex_sys2) in
  let '(st', s') := dash_delete (Some "k") (oid_to_hex 2) ex_admin_b dashboard_init ex_sys2 in
  s' = s1 /\ db_loading st' = false /\
  ((db_products st' = db_products dashboard_init /\ db_error st' = JStr "Failed to fetch products") \/
   exists l, db_products st' = JArr (map (fun q => json_norm (product_json q)) l) /\
             forall q, q ∈ l -> q ∈ store_products ex_sys2 /\ p_id q <> 2).
Proof.
  pose proof (dash_delete_removes "k" ex_admin 1000 ex_admin_tok ex_admin_b dashboard_init
                2 ex_lamp ex_sys2) as W.
  simple apply W.
  1: unfold ex_sys2, ex_sys1; apply reach_serve, reach_serve, reach_init.
  all: vm_compute; first [reflexivity | split; [intro; discriminate | reflexivity]].
Defined.

(** A session: sign in on the login page, then reload; the user is
    still signed in and the invariant holds at the end. *)
Lemma session_invariant_witness :
  let b0 := mk_browser None None "/login" in
  let s0 := ex_store {[7%Z := ex_user]} 5000 true in
  let x1 := after_credentials (ctx_login (Some "k") "ann@example.com" "pw" b0 auth_init s0) in
  let x2 := ctx_verify (Some "k") (page_load x1.1.1) auth_init x1.2 in
  rtc (session_step (Some "k")) (b0, auth_init, s0) x2 /\ session_ok x2 /\
  truthy (a_user x2.1.2) = true.
Proof.
  intros b0 s0 x1 x2.
  assert (Hr : rtc (session_step (Some "k")) (b0, auth_init, s0) x2).
  { apply (rtc_l _ _ x1); [apply step_login|].
    assert (E : x1 = (x1.1.1, x1.1.2, x1.2)) by (vm_compute; reflexivity).
    rewrite E. apply rtc_once, step_load. }
  split_and!; [exact Hr | | by vm_compute].
  apply (session_invariant (Some "k") b0 s0 x2); [reflexivity | exact Hr].
Defined.

(** The list page after the lamp was added, seen by the administrator:
    one card with its two buttons. *)
Definition ex_page1 : page_state :=
  mk_page_state (JArr [json_norm (product_json ex_lamp)]) false "" "" "" "createdAt" "desc" 1
                (num 1) false new_product_init.

Definition ex_card : page_card :=
  match page_card_of true (json_norm (product_json ex_lamp)) with
  | inr c => c
  | inl _ => mk_page_card JNull JNull JNull [] JNull JNull JNull JNull JNull JNull
  end.

Lemma ex_page1_render :
  page_render ex_admin_json ex_page1 = inr (PvPage "Manage Products" true None [ex_card] []).
Proof. vm_compute. reflexivity. Qed.

Ltac concrete_in := apply list_elem_of_In; vm_compute; auto.

Lemma page_card_delete_witness :
  exists q, q ∈ [ex_lamp] /\ pc_key ex_card = JStr (oid_to_hex (p_id q)) /\
    page_click (Some "k") (PaDelete (JStr (oid_to_hex 2))) ex_admin_b ex_page1 ex_sys2 =
      (ex_admin_b, page_with ex_page1 (JArr (map (fun q' => json_norm (product_json q'))
                                  (List.filter (fun q' => bool_decide (p_id q' <> p_id q)) [ex_lamp])))
                    (pg_busy ex_page1) (pg_err ex_page1) (pg_total ex_page1),
       mk_store (st_users ex_sys2) (delete (p_id q) (st_products ex_sys2)) (st_next ex_sys2)
                (st_clock ex_sys2) (st_up ex_sys2)).
Proof.
  pose proof (page_card_delete "k" ex_admin 1000 ex_admin_tok ex_admin_json ex_admin_b ex_page1
                ex_sys2 [ex_lamp] "Manage Products" true None [ex_card] [] ex_card
                (JStr (oid_to_hex 2))) as W.
  simple apply W.
  all: first [ exact ex_page1_render | concrete_in
             | (intros q ->%list_elem_of_singleton; split)
             | idtac ].
  all: vm_compute; first [reflexivity | split; [intro; discriminate | reflexivity]].
Defined.

Lemma page_card_edit_lands_witness :
  exists q, q ∈ [ex_lamp] /\ JStr (oid_to_hex 2) = JStr (oid_to_hex (p_id q)) /\
    let '(b', st', s') := page_click (Some "k") (PaEdit (JStr (oid_to_hex 2))) ex_admin_b ex_page1 ex_sys2 in
    st' = ex_page1 /\ s' = ex_sys2 /\
    b_location b' = "/admin/products/" +:+ oid_to_hex (p_id q) +:+ "/edit" /\
    navigate 3 (b_location b') ex_admin_json = Some (b_location b', EditProductPage (oid_to_hex (p_id q))).
Proof.
  pose proof (page_card_edit_lands (Some "k") ex_admin_json ex_admin_b ex_page1 ex_sys2 [ex_lamp]
                "Manage Products" true None [ex_card] [] ex_card (JStr (oid_to_hex 2))) as W.
  simple apply W.
  - reflexivity.
  - exact ex_page1_render.
  - concrete_in.
  - concrete_in.
Defined.

(** The administrator opens the dashboard on the store with the lamp. *)
Lemma dash_mount_rows_witness :
  let '(st, s') := dash_mount (Some "k") ex_admin_b ex_sys2 in
  s' = ex_sys2 /\
  (dash_render st = inr (DvPage "Hide Form" (Some (JStr "Failed to fetch products")) true []) \/
   exists l, (forall q, q ∈ l -> q ∈ store_products ex_sys2) /\
     dash_render st = inr (DvPage "Hide Form" None true (map product_row l)) /\
     forall q, q ∈ l ->
       let b' := (dash_click (Some "k") (DaEdit (JStr (oid_to_hex (p_id q)))) ex_admin_b st s').1.1 in
       navigate 3 (b_location b') ex_admin_json =
         Some (b_location b', EditProductPage (oid_to_hex (p_id q)))).
Proof.
  pose proof (dash_mount_rows (Some "k") ex_admin_b ex_sys2 ex_admin_json) as W.
  simple apply W. reflexivity.
Defined.

(** [ProductManagement] with the lamp listed: its edit icon opens the
    lamp's form. *)
Definition ex_pm : management :=
  mk_management (JArr [json_norm (product_json ex_lamp)]) false JNull "newest" JNull
                (pm_form management_init).

Lemma pm_edit_opens_form_witness :
  let '(st', s') := pm_click (Some "k") (PmEdit (json_norm (product_json ex_lamp))) ex_admin_b ex_pm ex_sys2 in
  s' = ex_sys2 /\
  pm_render st' =
    inr (PmPage (pm_sortBy ex_pm)
                (map (fun q' => if bool_decide (p_id q' = p_id ex_lamp)
                                then PmForm (JStr (oid_to_hex (p_id ex_lamp))) (product_form ex_lamp)
                                else product_card q') [ex_lamp])).
Proof.
  pose proof (pm_edit_opens_form (Some "k") ex_admin_b ex_pm ex_sys2 [ex_lamp] ex_lamp) as W.
  simple apply W.
  - intros q ->%list_elem_of_singleton. vm_compute. split; [intro; discriminate | reflexivity].
  - vm_compute. split; [intro; discriminate | reflexivity].
  - reflexivity.
  - reflexivity.
  - reflexivity.
Defined.

(** [Product.jsx] on the lamp's id: the page draws the lamp. *)
Lemma product_page_renders_stored_witness :
  let '(pg', s') := product_fetch (Some "k") (oid_to_hex 2) ex_admin_b product_init ex_sys2 in
  s' = ex_sys2 /\
  match st_products ex_sys2 !! 2 with
  | Some p =>
      let added := in_cart (pg_cart product_init) (JStr (oid_to_hex 2)) in
      exists stars, length stars = 5%nat /\
        product_render (oid_to_hex 2) pg' =
          Some (PrPage (JStr (p_image p)) (JStr (p_name p)) (JStr (p_name p)) stars
                       (or_else (JNum (p_rating p)) "No ratings yet") (json_norm (JNum (p_price p)))
                       (JStr (p_description p)) (pg_quantity product_init) (json_norm (JNum (p_stock p)))
                       (if added then "Added to Cart" else "Add to Cart") added)
  | None => product_render (oid_to_hex 2) pg' = Some (PrError (JStr "Failed to fetch product"))
  end.
Proof.
  pose proof (product_page_renders_stored (Some "k") ex_admin_b product_init 2 ex_sys2) as W.
  simple apply W.
  1: unfold ex_sys2, ex_sys1; apply reach_serve, reach_serve, reach_init.
  all: vm_compute; first [reflexivity | split; [intro; discriminate | reflexivity]].
Defined.

(** The lamp's edit page submits a negative price: the server refuses
    it and the page shows the bare error screen. *)
Definition ex_edit_bad : edit_page :=
  mk_edit_page false "" (obj_with (json_norm (product_json ex_lamp)) "price" (JStr "-1")).

Lemma edit_failure_hides_form_witness :
  (forall st0 banner fs label dis, edit_render st0 = inr (EvForm banner fs label dis) ->
     banner = None /\ label = "Update Product" /\ dis = false) /\
  let '(b', st', s') := edit_submit (Some "k") (oid_to_hex 2) ex_admin_b ex_edit_bad ex_sys2 in
  (b' = go_to "/admin/products" ex_admin_b /\ st' = mk_edit_page false (ed_error ex_edit_bad) (ed_product ex_edit_bad)) \/
  (b' = ex_admin_b /\ edit_render st' = inr (EvError "Failed to update product")).
Proof. exact (edit_failure_hides_form (Some "k") (oid_to_hex 2) ex_admin_b ex_edit_bad ex_sys2). Defined.

Lemma ex_edit_bad_refused :
  (edit_submit (Some "k") (oid_to_hex 2) ex_admin_b ex_edit_bad ex_sys2).1.1 = ex_admin_b /\
  edit_render (edit_submit (Some "k") (oid_to_hex 2) ex_admin_b ex_edit_bad ex_sys2).1.2 =
    inr (EvError "Failed to update product").
Proof. split; vm_compute; reflexivity. Qed.

Definition ex_filters : filters := mk_filters "books" "" "50" "" "lamp" "price-asc" 2 10.

Lemma component_query_roundtrip_witness :
  qs_parse (url_search_params (query_params ex_filters)) =
    JObj [("category", JStr "books"); ("maxPrice", JStr "50"); ("search", JStr "lamp");
          ("sort", JStr "price-asc"); ("page", JStr "2"); ("limit", JStr "10")].
Proof. apply (component_query_roundtrip ex_filters); reflexivity. Defined.
